(** * Jandroid: template matching and Basic trace engine

    A shallow embedding of the parts of Jandroid's Android plugin that
    evaluate bug templates against an application:

    - [analysis_utils.py]        (module [AnalysisUtils])
    - [code_analyser_search.py]  (module [CodeSearch])
    - [code_analyser_trace.py]   (module [CodeTrace], Basic mode)
    - [template_parser.py]       (module [TemplateParser])
    - [code_analyser.py]         (module [CodeAnalyser])
    - [app_analyser.py]          (module [AppAnalyser])
    - [common.py]                (module [Common])
    - [manifest_analyser.py]     (module [ManifestAnalyser], the
                                  functions that need no manifest)

    Python strings are [string]; a Python exception is a value of [exn]
    carried by the result type [res]; the attributes of a Python object
    that its methods assign are the fields of a record that is passed
    through the calls.  Androguard's [Analysis] object (the Bytecode
    Index) is a record of query functions. *)

From Stdlib Require Import Ascii ZArith Lia Permutation.
From stdpp Require Import base option list gmap strings.

(** ** Python strings *)

Module PyStr.

Definition concat (a b : string) : string := String.append a b.

(** [sub in s] *)
Fixpoint contains (sub s : string) : bool :=
  String.prefix sub s
  || match s with
     | EmptyString => false
     | String _ s' => contains sub s'
     end.

Definition startswith (s p : string) : bool := String.prefix p s.

Fixpoint rev_go (s acc : string) : string :=
  match s with
  | EmptyString => acc
  | String c s' => rev_go s' (String c acc)
  end.

Definition rev (s : string) : string := rev_go s EmptyString.

Definition endswith (s p : string) : bool := String.prefix (rev p) (rev s).

(** [s.split(sep)] for a non-empty separator: scan from the left, cut at
    every occurrence, never inside one.  [skip] counts the characters of
    a matched separator that are still to be passed over. *)
Fixpoint split_go (sep : string) (skip : nat) (cur s : string)
  : list string :=
  match s with
  | EmptyString => [cur]
  | String c s' =>
      match skip with
      | S k => split_go sep k cur s'
      | O =>
          if String.prefix sep s
          then cur :: split_go sep (String.length sep - 1) EmptyString s'
          else split_go sep 0 (String.append cur (String c EmptyString)) s'
      end
  end.

Definition split (sep s : string) : list string :=
  split_go sep 0 EmptyString s.

(** [s.replace(old, new)] for a non-empty [old]. *)
Fixpoint replace_go (old new : string) (skip : nat) (s : string) : string :=
  match s with
  | EmptyString => EmptyString
  | String c s' =>
      match skip with
      | S k => replace_go old new k s'
      | O =>
          if String.prefix old s
          then String.append new
                 (replace_go old new (String.length old - 1) s')
          else String c (replace_go old new 0 s')
      end
  end.

Definition replace (old new s : string) : string := replace_go old new 0 s.

(** The characters [str.strip()] removes, among those below 128. *)
Definition is_space (c : ascii) : bool :=
  match Ascii.nat_of_ascii c with
  | 9 | 10 | 11 | 12 | 13 | 28 | 29 | 30 | 31 | 32 => true
  | _ => false
  end.

Fixpoint lstrip (s : string) : string :=
  match s with
  | EmptyString => EmptyString
  | String c s' => if is_space c then lstrip s' else s
  end.

Definition strip (s : string) : string := rev (lstrip (rev (lstrip s))).

(** [s[n:]] *)
Fixpoint drop (n : nat) (s : string) : string :=
  match n, s with
  | O, _ => s
  | S k, EmptyString => EmptyString
  | S k, String _ s' => drop k s'
  end.

(** [sep.join(l)]-style chaining used for trace chains:
    [a + ',' + b]. *)
Definition comma (a b : string) : string :=
  String.append a (String.append "," b).

(** The characters [re.escape] protects with a backslash. *)
Definition re_special (c : ascii) : bool :=
  match Ascii.nat_of_ascii c with
  | 40 | 41 | 91 | 93 | 123 | 125 | 63 | 42 | 43 | 45 | 124 | 94 | 36
  | 92 | 46 | 38 | 126 | 35 | 32 | 9 | 10 | 13 | 11 | 12 => true
  | _ => false
  end.

Fixpoint re_escape (s : string) : string :=
  match s with
  | EmptyString => EmptyString
  | String c s' =>
      if re_special c
      then String "\" (String c (re_escape s'))
      else String c (re_escape s')
  end.

End PyStr.

(** ** Python exceptions and results *)

Inductive exn : Type :=
| NameError (name : string)
| TypeError
| IndexError
| KeyError (key : string)
| AttributeError
| JandroidException (type : string)
| ValueError.

(** The outcome of running a piece of Python: a value, a raised
    exception, or (for the recursive traversals, which are run with a
    bound on the recursion depth) exhaustion of that bound. *)
Inductive res (A : Type) : Type :=
| Ok (a : A)
| Raise (e : exn)
| OutOfFuel.

Arguments Ok {A} a.
Arguments Raise {A} e.
Arguments OutOfFuel {A}.

Definition res_bind {A B : Type} (m : res A) (k : A -> res B) : res B :=
  match m with
  | Ok a => k a
  | Raise e => Raise e
  | OutOfFuel => OutOfFuel
  end.

Notation "'let*' p ':=' m 'in' k" := (res_bind m (fun p => k))
  (at level 10, p pattern, m at level 100, k at level 200, only parsing).

(** The call returned a value. *)
Definition is_ok {A : Type} (r : res A) : bool :=
  match r with
  | Ok _ => true
  | _ => false
  end.

(** [for x in l: st = body(x, st)] *)
Fixpoint for_each {A S : Type} (l : list A) (body : A -> S -> res S)
  (st : S) : res S :=
  match l with
  | [] => Ok st
  | x :: l' => let* st' := body x st in for_each l' body st'
  end.

(** [l[i]] *)
Definition py_nth {A : Type} (l : list A) (i : nat) : res A :=
  match l !! i with
  | Some x => Ok x
  | None => Raise IndexError
  end.

(** [s[0]] *)
Definition py_first_char (s : string) : res ascii :=
  match s with
  | String c _ => Ok c
  | EmptyString => Raise IndexError
  end.

Definition is_at (c : ascii) : bool := Ascii.eqb c "@"%char.

(** ** analysis_utils.py *)

Module AnalysisUtils.

(** Androguard's [EncodedMethod]: one object per method of the
    application, so two of them are the same object exactly when class,
    name and descriptor agree. *)
Record EncodedMethod : Type := {
  get_class_name : string;
  get_name : string;
  get_descriptor : string
}.

#[global] Instance EncodedMethod_eq_dec : EqDecision EncodedMethod.
Proof. solve_decision. Defined.

(** A [MethodAnalysis]: [get_xref_from] lists element [1] of each
    cross-reference tuple; [get_xref_to] lists [is_external()] of
    element [0] together with element [1]. *)
Record MethodAnalysis : Type := {
  get_xref_from : list EncodedMethod;
  get_xref_to : list (bool * EncodedMethod)
}.

(** A [ClassAnalysis] with the fields of its [get_vm_class()]. *)
Record ClassAnalysis : Type := {
  class_get_name : string;
  get_superclassname : string;
  is_external : bool;
  class_get_xref_from : list EncodedMethod
}.

Record StringAnalysis : Type := {
  string_get_xref_from : list EncodedMethod
}.

(** Androguard's [Analysis] object, the Bytecode Index. *)
Record Analysis : Type := {
  get_internal_classes : list ClassAnalysis;
  find_classes : string -> list ClassAnalysis;
  find_methods : string -> string -> string -> list MethodAnalysis;
  find_strings : string -> list StringAnalysis
}.

(** The order in which [list(set(...))] yields the elements that were
    put into the set (given in insertion order): it depends on the hash
    values of the run, which Python does not fix. *)
Record Runtime : Type := {
  list_of_str_set : list string -> list string;
  list_of_method_set : list EncodedMethod -> list EncodedMethod
}.

(** What every run guarantees about that order. *)
Record runtime_ok (rt : Runtime) : Prop := {
  str_set_NoDup : forall l, NoDup (list_of_str_set rt l);
  str_set_elem : forall l x, x ∈ list_of_str_set rt l <-> x ∈ l;
  method_set_NoDup : forall l, NoDup (list_of_method_set rt l);
  method_set_elem : forall l x, x ∈ list_of_method_set rt l <-> x ∈ l
}.

(** The two options of [jandroid.conf] the engine reads; [None] when
    the section or the option is absent.  [configparser] hands every
    value over as a string. *)
Record Config : Type := {
  SEARCHPARAMS_KEEP_INTERACTIVE_ELEMENTS : option string;
  TRACEPARAMS_TRACE_LENGTH_MAX : option Z
}.

(** The values [self.keep_user_interaction] holds during [__init__]. *)
Inductive pyval : Type :=
| PyBool (b : bool)
| PyStr (s : string).

(** Python's [==] on these values: a [str] never equals a [bool]. *)
Definition py_eq (a b : pyval) : bool :=
  match a, b with
  | PyBool x, PyBool y => Bool.eqb x y
  | PyStr x, PyStr y => String.eqb x y
  | _, _ => false
  end.

(** [a in l] *)
Definition py_in (a : pyval) (l : list pyval) : bool :=
  existsb (py_eq a) l.

(** The attributes of an [AnalysisUtils] object. *)
Record t : Type := {
  androguard_dx : Analysis;
  superclasses : gmap string (list string);
  subclasses : gmap string (list string);
  keep_user_interaction : pyval
}.

Definition set_subclasses (self : t) (m : gmap string (list string)) : t :=
  {| androguard_dx := androguard_dx self;
     superclasses := superclasses self;
     subclasses := m;
     keep_user_interaction := keep_user_interaction self |}.

Definition set_superclasses (self : t) (m : gmap string (list string)) : t :=
  {| androguard_dx := androguard_dx self;
     superclasses := m;
     subclasses := subclasses self;
     keep_user_interaction := keep_user_interaction self |}.

(** [AnalysisUtils.__init__] *)
Definition init (config : Config) (dx : Analysis) : t :=
  let keep := PyBool false in
  let keep :=
    match SEARCHPARAMS_KEEP_INTERACTIVE_ELEMENTS config with
    | Some value => PyStr value
    | None => keep
    end in
  let keep :=
    if negb (py_in keep [PyBool true; PyBool false])
    then PyBool false
    else keep in
  {| androguard_dx := dx;
     superclasses := ∅;
     subclasses := ∅;
     keep_user_interaction := keep |}.

Section WithRuntime.
Variable rt : Runtime.

(** [fn_find_subclasses]; [fuel] bounds the recursion depth. *)
Fixpoint fn_find_subclasses (fuel : nat) (class_name : string)
  (recursion : bool) (self : t) : res (list string * t) :=
  match fuel with
  | O => OutOfFuel
  | S fuel' =>
      match subclasses self !! class_name with
      | Some l => Ok (l, self)
      | None =>
          let* (found, self) :=
            for_each (get_internal_classes (androguard_dx self))
              (fun internal_class '(found, self) =>
                 let superclass_name :=
                   get_superclassname internal_class in
                 if String.eqb superclass_name class_name then
                   let subclass_name := class_get_name internal_class in
                   let found := found ++ [subclass_name] in
                   if recursion then
                     let* (nextlevel_subclasses, self) :=
                       fn_find_subclasses fuel' subclass_name true self in
                     Ok (found ++ nextlevel_subclasses, self)
                   else Ok (found, self)
                 else Ok (found, self))
              ([], self) in
          let found := list_of_str_set rt found in
          Ok (found,
              set_subclasses self (<[class_name := found]> (subclasses self)))
      end
  end.

(** [fn_find_superclasses] *)
Fixpoint fn_find_superclasses (fuel : nat) (class_name : string)
  (recursion : bool) (self : t) : res (list string * t) :=
  match fuel with
  | O => OutOfFuel
  | S fuel' =>
      match superclasses self !! class_name with
      | Some l => Ok (l, self)
      | None =>
          let* (found, self) :=
            for_each (find_classes (androguard_dx self) class_name)
              (fun class_analysis_obj '(found, self) =>
                 if is_external class_analysis_obj then Ok (found, self)
                 else
                   let superclass_name :=
                     get_superclassname class_analysis_obj in
                   let found := found ++ [superclass_name] in
                   if recursion then
                     let* (nextlevel_superclasses, self) :=
                       fn_find_superclasses fuel' superclass_name true
                         self in
                     Ok (found ++ nextlevel_superclasses, self)
                   else Ok (found, self))
              ([], self) in
          let found := list_of_str_set rt found in
          Ok (found,
              set_superclasses self
                (<[class_name := found]> (superclasses self)))
      end
  end.

(** [fn_get_methods] *)
Definition fn_get_methods (self : t) (class_part method_part
  desc_part : string) : list MethodAnalysis :=
  let desc_part :=
    if negb (String.eqb desc_part ".")
    then PyStr.re_escape desc_part else desc_part in
  let class_part := PyStr.re_escape class_part in
  let method_part := PyStr.re_escape method_part in
  find_methods (androguard_dx self) class_part method_part desc_part.

(** [fn_check_for_user_interaction_element] *)
Definition user_interaction_events : list string :=
  [ "onBackPressed"; "onClick"; "onContextClick";
    "onContextItemSelected"; "onContextMenuClosed";
    "onCreateContextMenu"; "onDrag"; "onFocusChange"; "onHover";
    "onKey"; "onKeyDown"; "onKeyUp";
    "onLocalVoiceInteractionStarted";
    "onLocalVoiceInteractionStopped"; "onLongClick";
    "onMenuItemClick"; "onMenuItemSelected"; "onMenuOpened";
    "onNavigateUp"; "onOptionsItemSelected"; "onOptionsMenuClosed";
    "onProvideAssistContent"; "onProvideAssistData";
    "onSearchRequested"; "onTouch"; "onTouchEvent";
    "onTrackballEvent"; "onUserInteraction" ].

Definition fn_check_for_user_interaction_element (method_name : string)
  : bool :=
  fold_left
    (fun is_interactive_method user_interaction_event =>
       if String.eqb method_name user_interaction_event
       then true else is_interactive_method)
    user_interaction_events false.

(** The test both call-site collectors make on a cross-reference:
    [True] when the [continue] is taken. *)
Definition skipped_as_interactive (self : t) (method_name : string)
  : bool :=
  if py_eq (keep_user_interaction self) (PyBool false)
  then fn_check_for_user_interaction_element method_name
  else false.

(** [fn_get_calls_to_method] *)
Definition fn_get_calls_to_method (self : t) (class_part method_part
  desc_part : string) : list EncodedMethod :=
  let method_objs := fn_get_methods self class_part method_part desc_part in
  fold_left
    (fun calling_methods method_obj =>
       fold_left
         (fun calling_methods xref_from_elem =>
            let method_name := get_name xref_from_elem in
            if skipped_as_interactive self method_name
            then calling_methods
            else if bool_decide (xref_from_elem ∈ calling_methods)
                 then calling_methods
                 else calling_methods ++ [xref_from_elem])
         (get_xref_from method_obj) calling_methods)
    method_objs [].

(** [fn_get_calls_from_method]; [called_methods] lists what was added
    to the set, in order. *)
Definition fn_get_calls_from_method (self : t) (class_part method_part
  desc_part : string) (exclude_external : bool) : list EncodedMethod :=
  let desc_part := PyStr.replace "[" "\[" desc_part in
  let method_objs := fn_get_methods self class_part method_part desc_part in
  let called_methods :=
    fold_left
      (fun called_methods method_obj =>
         fold_left
           (fun called_methods xref_to_elem =>
              if exclude_external && fst xref_to_elem
              then called_methods
              else
                let method_name := get_name (snd xref_to_elem) in
                if skipped_as_interactive self method_name
                then called_methods
                else called_methods ++ [snd xref_to_elem])
           (get_xref_to method_obj) called_methods)
      method_objs [] in
  list_of_method_set rt called_methods.

(** [fn_get_strings]: the body reads [search_string], a name that is
    bound nowhere (the parameter is [string]). *)
Definition fn_get_strings (self : t) (string : string)
  : res (list StringAnalysis) :=
  let* search_string := Raise (NameError "search_string") in
  Ok (find_strings (androguard_dx self) search_string).

(** The loop shared by [fn_get_calls_to_string] and
    [fn_get_calls_to_class]. *)
Definition collect_callers (self : t) (xrefs : list (list EncodedMethod))
  : list EncodedMethod :=
  fold_left
    (fun calling_methods xref_from =>
       fold_left
         (fun calling_methods xref_from_elem =>
            let method_name := get_name xref_from_elem in
            if skipped_as_interactive self method_name
            then calling_methods
            else calling_methods ++ [xref_from_elem])
         xref_from calling_methods)
    xrefs [].

(** [fn_get_calls_to_string] *)
Definition fn_get_calls_to_string (self : t) (string : string)
  : res (list EncodedMethod) :=
  let* string_objs := fn_get_strings self string in
  Ok (list_of_method_set rt
        (collect_callers self (map string_get_xref_from string_objs))).

(** [fn_get_classes] *)
Definition fn_get_classes (self : t) (class_part : string)
  : list ClassAnalysis :=
  find_classes (androguard_dx self) class_part.

(** [fn_get_calls_to_class] *)
Definition fn_get_calls_to_class (self : t) (class_part : string)
  : list EncodedMethod :=
  let class_objs := fn_get_classes self class_part in
  list_of_method_set rt
    (collect_callers self (map class_get_xref_from class_objs)).

End WithRuntime.

(** [fn_get_class_method_desc_from_string] *)
Definition fn_get_class_method_desc_from_string (input_string : string)
  : res (string * string * string) :=
  let method_part := ".*" in
  let desc_part := ".*" in
  if PyStr.contains "->" input_string then
    let split_string := PyStr.split "->" input_string in
    if negb (length split_string =? 2)
       || match split_string !! 1 with
          | Some EmptyString => true
          | _ => false
          end
    then Raise (JandroidException "IncorrectMethodCall")
    else
      let* class_part := py_nth split_string 0 in
      let* method_desc_part := py_nth split_string 1 in
      if PyStr.contains "(" method_desc_part then
        let* method_part := py_nth (PyStr.split "(" method_desc_part) 0 in
        let* desc_tail := py_nth (PyStr.split "(" method_desc_part) 1 in
        Ok (class_part, method_part, String.append "(" desc_tail)
      else
        Ok (class_part, method_desc_part, ".")
  else
    Ok (input_string, method_part, desc_part).

(** [fn_get_class_method_desc_from_method] *)
Definition fn_get_class_method_desc_from_method
  (encoded_method : EncodedMethod) : res (string * string * string) :=
  let class_part := get_class_name encoded_method in
  let method_part := get_name encoded_method in
  let desc_part := get_descriptor encoded_method in
  let desc_part := PyStr.replace " " "" desc_part in
  let* desc_part := py_nth (PyStr.split "[access" desc_part) 0 in
  Ok (class_part, method_part, desc_part).

(** The body of the loops of [fn_convert_returns_to_links] for one item
    [object_key: return_value] of a return object.  The link table maps
    an identifier to its list of values. *)
Definition bind_link (object_key return_value : string)
  (current_links : gmap string (list string))
  : res (gmap string (list string)) :=
  let* c := py_first_char object_key in
  if negb (is_at c) then Ok current_links
  else
    match current_links !! object_key with
    | Some values =>
        if bool_decide (return_value ∈ values)
        then Ok current_links
        else Ok (<[object_key := values ++ [return_value]]> current_links)
    | None => Ok (<[object_key := [return_value]]> current_links)
    end.

(** [fn_convert_returns_to_links].  A return object is a dictionary
    [{identifier: value}], here the list of its items in iteration
    order. *)
Definition fn_convert_returns_to_links
  (current_returns : list (list (string * string)))
  (current_links : gmap string (list string))
  : res (gmap string (list string)) :=
  for_each current_returns
    (fun return_object current_links =>
       for_each return_object
         (fun '(object_key, return_value) current_links =>
            bind_link object_key return_value current_links)
         current_links)
    current_links.

(** [fn_get_linked_items] *)
Definition fn_get_linked_items (current_links : gmap string (list string))
  (link_key : string) : list string :=
  match current_links !! link_key with
  | None => []
  | Some link_items => link_items
  end.

End AnalysisUtils.

(** ** Template objects

    A bug template is the value [json.load] returns. *)

#[local] Set Warnings "-register-all".
Inductive json : Type :=
| JStr (s : string)
| JInt (z : Z)
| JBool (b : bool)
| JList (l : list json)
| JDict (d : list (string * json)).

Module Py.

Fixpoint lookup (k : string) (d : list (string * json)) : option json :=
  match d with
  | [] => None
  | (k', v) :: d' => if String.eqb k k' then Some v else lookup k d'
  end.

(** [k in o] for a string [k] *)
Definition contains (k : string) (o : json) : res bool :=
  match o with
  | JDict d => Ok (bool_decide (is_Some (lookup k d)))
  | JStr s => Ok (PyStr.contains k s)
  | JList l =>
      Ok (existsb (fun x => match x with
                            | JStr s => String.eqb s k
                            | _ => false
                            end) l)
  | JInt _ | JBool _ => Raise TypeError
  end.

Fixpoint chars (s : string) : list json :=
  match s with
  | EmptyString => []
  | String c s' => JStr (String c EmptyString) :: chars s'
  end.

(** [for x in o] *)
Definition iter (o : json) : res (list json) :=
  match o with
  | JDict d => Ok (map (fun kv => JStr (fst kv)) d)
  | JList l => Ok l
  | JStr s => Ok (chars s)
  | JInt _ | JBool _ => Raise TypeError
  end.

(** [l[i]] for an integer [i], negative indices counting from the end *)
Definition index {A : Type} (l : list A) (i : Z) : res A :=
  let i := if (i <? 0)%Z then (i + Z.of_nat (length l))%Z else i in
  if (i <? 0)%Z then Raise IndexError
  else py_nth l (Z.to_nat i).

(** [o[key]] *)
Definition getitem (o key : json) : res json :=
  match o, key with
  | JDict d, JStr k =>
      match lookup k d with
      | Some v => Ok v
      | None => Raise (KeyError k)
      end
  | JDict d, (JInt _ | JBool _) => Raise (KeyError "")
  | JDict d, (JList _ | JDict _) => Raise TypeError
  | JList l, JInt i => index l i
  | JList l, JBool b => index l (if b then 1 else 0)%Z
  | JList l, _ => Raise TypeError
  | JStr s, JInt i => index (chars s) i
  | JStr s, JBool b => index (chars s) (if b then 1 else 0)%Z
  | JStr s, _ => Raise TypeError
  | (JInt _ | JBool _), _ => Raise TypeError
  end.

(** [o == s] for a string literal [s] *)
Definition eq_str (o : json) (s : string) : bool :=
  match o with
  | JStr s' => String.eqb s' s
  | _ => false
  end.

(** A value that the code goes on to use as a string. *)
Definition as_str (o : json) : res string :=
  match o with
  | JStr s => Ok s
  | _ => Raise TypeError
  end.

Definition digit (c : ascii) : option Z :=
  let n := Ascii.nat_of_ascii c in
  if (48 <=? n) && (n <=? 57) then Some (Z.of_nat (n - 48)) else None.

(** The value of a run of decimal digits, in which single underscores
    may stand between two digits. *)
Fixpoint digits (s : string) (acc : Z) (after_digit : bool) : option Z :=
  match s with
  | EmptyString => if after_digit then Some acc else None
  | String c s' =>
      match digit c with
      | Some d => digits s' (10 * acc + d)%Z true
      | None =>
          if Ascii.eqb c "_" && after_digit
          then match s' with
               | EmptyString => None
               | _ => digits s' acc false
               end
          else None
      end
  end.

(** [int(o)]: of an integer, of a boolean, and of a string that holds a
    decimal integer (blanks around it are dropped, a sign may come
    first). *)
Definition int (o : json) : res Z :=
  match o with
  | JInt z => Ok z
  | JBool b => Ok (if b then 1 else 0)%Z
  | JStr s =>
      let number :=
        match PyStr.strip s with
        | String "+" s' => digits s' 0 false
        | String "-" s' => option_map Z.opp (digits s' 0 false)
        | s' => digits s' 0 false
        end in
      match number with
      | Some z => Ok z
      | None => Raise ValueError
      end
  | JList _ | JDict _ => Raise TypeError
  end.

End Py.

(** ** code_analyser_search.py *)

Module CodeSearch.
Import AnalysisUtils.

(** The attributes of a [CodeSearch] object. *)
Record t : Type := {
  inst_analysis_utils : AnalysisUtils.t;
  search_template : json;
  current_links : gmap string (list string);
  current_returns : list (list (string * string))
}.

Definition set_utils (self : t) (u : AnalysisUtils.t) : t :=
  {| inst_analysis_utils := u;
     search_template := search_template self;
     current_links := current_links self;
     current_returns := current_returns self |}.

Definition set_returns (self : t) (r : list (list (string * string))) : t :=
  {| inst_analysis_utils := inst_analysis_utils self;
     search_template := search_template self;
     current_links := current_links self;
     current_returns := r |}.

Definition set_links (self : t) (l : gmap string (list string)) : t :=
  {| inst_analysis_utils := inst_analysis_utils self;
     search_template := search_template self;
     current_links := l;
     current_returns := current_returns self |}.

(** Reading a local name that may not have been bound. *)
Definition load {A : Type} (name : string) (v : option A) : res A :=
  match v with
  | Some x => Ok x
  | None => Raise (NameError name)
  end.

Section WithRuntime.
Variable rt : Runtime.
(** Bound on the recursion depth of [fn_find_subclasses]. *)
Variable depth : nat.

(** [self.inst_analysis_utils.fn_find_subclasses(class_name)] *)
Definition find_subclasses (class_name : string) (self : t)
  : res (list string * t) :=
  let* (l, u) := fn_find_subclasses rt depth class_name true
              (inst_analysis_utils self) in
  Ok (l, set_utils self u).

(** [fn_get_linked_items] *)
Definition fn_get_linked_items (self : t) (str
  search_class_or_method : string) : res (list string) :=
  let* (link_name, link_subpart, remaining_string) :=
    (if negb (PyStr.contains "]" str) then Ok (str, "", "")
     else
       let split_for_link := PyStr.split "]" str in
       let* remaining_string := py_nth split_for_link 1 in
       let* head := py_nth split_for_link 0 in
       let second_split := PyStr.split "[" head in
       let* link_name := py_nth second_split 0 in
       let* link_subpart := py_nth second_split 1 in
       Ok (link_name, PyStr.replace " " "" link_subpart,
           remaining_string)) in
  let linked_items :=
    AnalysisUtils.fn_get_linked_items (current_links self) link_name in
  let narrow (return_string : string) : res string :=
    if String.eqb search_class_or_method "<class>"
    then py_nth (PyStr.split "->" return_string) 0
    else Ok return_string in
  let* output_items :=
    (if String.eqb link_subpart "" then
       for_each linked_items
         (fun linked_item output_items =>
            let* return_string :=
              narrow (String.append linked_item remaining_string) in
            Ok (output_items ++ [return_string]))
         []
     else if String.eqb link_subpart "<class>" then
       for_each linked_items
         (fun linked_item output_items =>
            let* class_part_only := py_nth (PyStr.split "->" linked_item) 0 in
            let* return_string :=
              narrow (String.append class_part_only remaining_string) in
            Ok (output_items ++ [return_string]))
         []
     else if String.eqb link_subpart "<method>" then
       for_each linked_items
         (fun linked_item output_items =>
            if negb (PyStr.contains "->" linked_item)
            then Ok output_items
            else
              let* return_string :=
                narrow (String.append linked_item remaining_string) in
              Ok (output_items ++ [return_string]))
         []
     else Ok []) in
  Ok (list_of_str_set rt output_items).

(** [input.split(' OR ')] when [' OR '] occurs, else [[input]] *)
Definition split_or (input : string) : list string :=
  if PyStr.contains " OR " input
  then PyStr.split " OR " input
  else [input].

(** [fn_identify_search_items]; [type] is ['STRING'], ['CLASS'] or
    ['METHOD']. *)
Definition fn_identify_search_items (self : t) (type input : string)
  : res (list string) :=
  let* (search_class_or_method, input) :=
    (if PyStr.contains ":" input then
       let* search_class_or_method := py_nth (PyStr.split ":" input) 0 in
       Ok (search_class_or_method,
           PyStr.drop (String.length search_class_or_method + 1) input)
     else if PyStr.contains "->" input then Ok ("<method>", input)
     else Ok ("<class>", input)) in
  if String.eqb type "STRING" then Ok (split_or input)
  else if String.eqb type "CLASS" || String.eqb type "METHOD" then
    for_each (split_or input)
      (fun one all =>
         let* c := py_first_char one in
         if is_at c then
           let* linked := fn_get_linked_items self one search_class_or_method in
           for_each linked
             (fun linked_one all =>
                if bool_decide (linked_one ∈ all) then Ok all
                else Ok (all ++ [linked_one]))
             all
         else Ok (all ++ [one]))
      []
  else Raise TypeError.

(** [fn_search_for_presence_of_string] *)
Definition fn_search_for_presence_of_string (self : t)
  (string_search_object : json) (search_strings : list string)
  : res (bool * t) :=
  let* all_strings :=
    for_each search_strings
      (fun search_string all_strings =>
         let* found := fn_get_strings (inst_analysis_utils self)
                   (PyStr.strip search_string) in
         Ok (all_strings ++ found))
      [] in
  if length all_strings =? 0 then Ok (false, self) else Ok (true, self).

(** [fn_search_for_presence_of_method]: the function never binds
    [all_methods], the name it extends and measures. *)
Definition fn_search_for_presence_of_method (self : t)
  (method_search_object : json) (methods_to_search : list string)
  : res (bool * t) :=
  let all_methods : option (list MethodAnalysis) := None in
  let* (all_methods, self) :=
    for_each methods_to_search
      (fun method_to_search '(all_methods, self) =>
         let* (class_part, method_part, desc_part) :=
           fn_get_class_method_desc_from_string method_to_search in
         let* (subs, self) := find_subclasses class_part self in
         let classes_inc_sub := class_part :: subs in
         let* all_methods :=
           for_each classes_inc_sub
             (fun one_class all_methods =>
                let* l := load "all_methods" all_methods in
                Ok (Some (l ++ fn_get_methods (inst_analysis_utils self)
                                 one_class method_part desc_part)))
             all_methods in
         Ok (all_methods, self))
      (all_methods, self) in
  let* l := load "all_methods" all_methods in
  if length l =? 0 then Ok (false, self) else Ok (true, self).

(** [fn_search_for_presence_of_class]: likewise for [all_classes]. *)
Definition fn_search_for_presence_of_class (self : t)
  (class_search_object : json) (classes_to_search : list string)
  : res (bool * t) :=
  let all_classes : option (list ClassAnalysis) := None in
  let* (all_classes, self) :=
    for_each classes_to_search
      (fun class_to_search '(all_classes, self) =>
         let* (subs, self) := find_subclasses class_to_search self in
         let classes_inc_sub := class_to_search :: subs in
         let* all_classes :=
           for_each classes_inc_sub
             (fun one_class all_classes =>
                let* l := load "all_classes" all_classes in
                Ok (Some (l ++ fn_get_classes (inst_analysis_utils self)
                                 one_class)))
             all_classes in
         Ok (all_classes, self))
      (all_classes, self) in
  let* l := load "all_classes" all_classes in
  if length l =? 0 then Ok (false, self) else Ok (true, self).

(** [fn_check_callers_against_expectation] *)
Definition fn_check_callers_against_expectation (method : EncodedMethod)
  (location_value location_type : string) (exclude_match : bool)
  : res bool :=
  let* (class_part, method_part, desc_part) :=
    fn_get_class_method_desc_from_method method in
  let* (exp_class_part, exp_method_part, exp_desc_part) :=
    fn_get_class_method_desc_from_string location_value in
  let is_satisfied :=
    if String.eqb location_type "<class>" then
      if PyStr.endswith exp_class_part "*"
      then PyStr.startswith class_part
             (PyStr.replace "*" "" exp_class_part)
      else String.eqb class_part exp_class_part
    else if String.eqb location_type "<method>" then
      String.eqb class_part exp_class_part
      && String.eqb method_part exp_method_part
      && String.eqb desc_part exp_desc_part
    else false in
  Ok (if exclude_match then negb is_satisfied else is_satisfied).

(** [fn_get_methods_satisfying_location_reqs] *)
Definition fn_get_methods_satisfying_location_reqs (self : t)
  (methods : list EncodedMethod) (location : string)
  : res (list EncodedMethod) :=
  let location_type := "<class>" in
  let location_exclusion := PyStr.contains "NOT " location in
  let location :=
    if location_exclusion then PyStr.replace "NOT " "" location
    else location in
  let* (location_type, location_value) :=
    (if PyStr.contains ":" location then
       let location_split := PyStr.split ":" location in
       let* location_type := py_nth location_split 0 in
       let* location_value := py_nth location_split 1 in
       Ok (location_type, location_value)
     else Ok (location_type, location)) in
  let* c := py_first_char location_value in
  let location_values :=
    if is_at c
    then AnalysisUtils.fn_get_linked_items (current_links self)
           location_value
    else [location_value] in
  for_each methods
    (fun input_method output_methods =>
       for_each location_values
         (fun location_value output_methods =>
            let* is_satisfied :=
              fn_check_callers_against_expectation input_method
                location_value location_type location_exclusion in
            if is_satisfied then Ok (output_methods ++ [input_method])
            else Ok output_methods)
         output_methods)
    [].

(** [fn_process_returnable_item] *)
Definition fn_process_returnable_item (self : t)
  (return_candidate : EncodedMethod) (return_type element_name : string)
  : res t :=
  let* (class_name, method_name, desc_name) :=
    fn_get_class_method_desc_from_method return_candidate in
  let output_obj :=
    if String.eqb return_type "<class>" then [(element_name, class_name)]
    else if String.eqb return_type "<method>" then
      [(element_name,
        String.append class_name
          (String.append "->" (String.append method_name desc_name)))]
    else [] in
  Ok (set_returns self (current_returns self ++ [output_obj])).

(** [fn_analyse_returns] *)
Definition fn_analyse_returns (self : t) (return_object : json)
  (return_candidates : list EncodedMethod) : res t :=
  let* returnables := Py.getitem return_object (JStr "RETURN") in
  let* returnable_elements :=
    match returnables with
    | JList l => Ok l
    | JStr s =>
        if PyStr.contains "," s
        then Ok (map JStr (PyStr.split "," s))
        else Ok [returnables]
    | JDict d =>
        (* [returnables.split] of a dictionary with the key [','] *)
        if bool_decide (is_Some (Py.lookup "," d))
        then Raise AttributeError
        else Ok [returnables]
    | JInt _ | JBool _ => Raise TypeError
    end in
  for_each returnable_elements
    (fun return_element self =>
       let* return_element :=
         match return_element with
         | JStr s => Ok s
         | _ => Raise AttributeError
         end in
       let* returnable_element_name :=
         py_nth (PyStr.split " AS " return_element) 1 in
       let* return_type := py_nth (PyStr.split " AS " return_element) 0 in
       for_each return_candidates
         (fun return_candidate self =>
            fn_process_returnable_item self return_candidate
              return_type returnable_element_name)
         self)
    self.

(** [fn_process_search_location_and_returns] *)
Definition fn_process_search_location_and_returns (self : t)
  (search_object : json) (calling_methods : list EncodedMethod)
  : res (bool * t) :=
  let bool_search_satisfied := false in
  let* has_location := Py.contains "SEARCHLOCATION" search_object in
  let bool_search_satisfied :=
    if negb has_location then true else bool_search_satisfied in
  let* (bool_search_satisfied, calling_methods) :=
    (if has_location then
       let* location := Py.getitem search_object (JStr "SEARCHLOCATION") in
       let* location := Py.as_str location in
       let* methods_satisfying_location_requirements :=
         fn_get_methods_satisfying_location_reqs self calling_methods
           location in
       if 0 <? length methods_satisfying_location_requirements
       then Ok (true, methods_satisfying_location_requirements)
       else Ok (bool_search_satisfied, calling_methods)
     else Ok (bool_search_satisfied, calling_methods)) in
  let* has_return := Py.contains "RETURN" search_object in
  if negb has_return then Ok (bool_search_satisfied, self)
  else
    let* self := fn_analyse_returns self search_object calling_methods in
    Ok (bool_search_satisfied, self).

(** [fn_search_for_calls_to_string] *)
Definition fn_search_for_calls_to_string (self : t)
  (string_search_object : json) (search_strings : list string)
  : res (bool * t) :=
  for_each search_strings
    (fun search_string '(bool_search_satisfied, self) =>
       let* calling_methods :=
         fn_get_calls_to_string rt (inst_analysis_utils self)
           search_string in
       if length calling_methods =? 0
       then Ok (bool_search_satisfied, self)
       else
         let* (bool_one_search_satisfied, self) :=
           fn_process_search_location_and_returns self
             string_search_object calling_methods in
         Ok (if bool_one_search_satisfied then true
             else bool_search_satisfied, self))
    (false, self).

(** [fn_search_for_calls_to_method] *)
Definition fn_search_for_calls_to_method (self : t)
  (method_search_object : json) (methods_to_search : list string)
  : res (bool * t) :=
  for_each methods_to_search
    (fun method_to_search '(bool_search_satisfied, self) =>
       let* (class_part, method_part, desc_part) :=
         fn_get_class_method_desc_from_string method_to_search in
       let* (subs, self) := find_subclasses class_part self in
       let all_classes := class_part :: subs in
       let calling_methods :=
         flat_map
           (fun one_class =>
              fn_get_calls_to_method (inst_analysis_utils self)
                one_class method_part desc_part)
           all_classes in
       if length calling_methods <=? 0
       then Ok (bool_search_satisfied, self)
       else
         let* (bool_one_search_satisfied, self) :=
           fn_process_search_location_and_returns self
             method_search_object calling_methods in
         Ok (if bool_one_search_satisfied then true
             else bool_search_satisfied, self))
    (false, self).

(** [fn_search_for_calls_to_class] *)
Definition fn_search_for_calls_to_class (self : t)
  (class_search_object : json) (classes_to_search : list string)
  : res (bool * t) :=
  for_each classes_to_search
    (fun class_to_search '(bool_search_satisfied, self) =>
       let* (subs, self) := find_subclasses class_to_search self in
       let classes_inc_sub := class_to_search :: subs in
       let calling_methods :=
         flat_map
           (fun one_class =>
              fn_get_calls_to_class rt (inst_analysis_utils self)
                one_class)
           classes_inc_sub in
       if length calling_methods =? 0
       then Ok (bool_search_satisfied, self)
       else
         let* (bool_one_search_satisfied, self) :=
           fn_process_search_location_and_returns self
             class_search_object calling_methods in
         Ok (if bool_one_search_satisfied then true
             else bool_search_satisfied, self))
    (false, self).

(** [fn_determine_search_type] *)
Definition fn_determine_search_type (self : t) (search_type
  search_object : json) : res (bool * t) :=
  let search_type_is (name : string) : bool :=
    match search_type with
    | JStr s => String.eqb s name
    | _ => false
    end in
  let items (type key : string) : res (list string) :=
    let* input := Py.getitem search_object (JStr key) in
    let* input := Py.as_str input in
    fn_identify_search_items self type input in
  if search_type_is "SEARCHFORSTRING" then
    let* items_to_search := items "STRING" "STRING" in
    fn_search_for_presence_of_string self search_object items_to_search
  else if search_type_is "SEARCHFORCALLTOSTRING" then
    let* items_to_search := items "STRING" "STRING" in
    fn_search_for_calls_to_string self search_object items_to_search
  else if search_type_is "SEARCHFORMETHOD" then
    let* items_to_search := items "METHOD" "METHOD" in
    fn_search_for_presence_of_method self search_object items_to_search
  else if search_type_is "SEARCHFORCALLTOMETHOD" then
    let* items_to_search := items "METHOD" "METHOD" in
    fn_search_for_calls_to_method self search_object items_to_search
  else if search_type_is "SEARCHFORCLASS" then
    let* items_to_search := items "CLASS" "CLASS" in
    fn_search_for_presence_of_class self search_object items_to_search
  else if search_type_is "SEARCHFORCALLTOCLASS" then
    let* items_to_search := items "CLASS" "CLASS" in
    fn_search_for_calls_to_class self search_object items_to_search
  else
    (* fn_to_execute is still None when it is called *)
    Raise TypeError.

(** [fn_process_individual_search_item]: the loop runs over
    [self.search_template], not over [search_dictionary]. *)
Definition fn_process_individual_search_item (self : t)
  (search_dictionary : json) : res (bool * t) :=
  let total_searches_to_perform := 0 in
  let satisfied_searches := 0 in
  let* search_items := Py.iter (search_template self) in
  let* (total_searches_to_perform, satisfied_searches, self) :=
    for_each search_items
      (fun search_item '(total_searches_to_perform, satisfied_searches,
                         self) =>
         let total_searches_to_perform := total_searches_to_perform + 1 in
         let* search_object :=
           Py.getitem (search_template self) search_item in
         let* (bool_search_satisfied, self) :=
           fn_determine_search_type self search_item search_object in
         Ok (total_searches_to_perform,
             if bool_search_satisfied
             then satisfied_searches + 1 else satisfied_searches,
             self))
      (total_searches_to_perform, satisfied_searches, self) in
  Ok (total_searches_to_perform =? satisfied_searches, self).

(** [fn_perform_code_search]; [config] is the configuration file the
    [AnalysisUtils] constructor reads. *)
Definition fn_perform_code_search (config : Config) (dx : Analysis)
  (code_search_template : json) (links : gmap string (list string))
  : res (bool * gmap string (list string)) :=
  let self :=
    {| inst_analysis_utils := AnalysisUtils.init config dx;
       search_template := code_search_template;
       current_links := links;
       current_returns := [] |} in
  let* (bool_satisfied, self) :=
    match search_template self with
    | JDict _ =>
        fn_process_individual_search_item self (search_template self)
    | JList search_items =>
        let* (total_searches_to_perform, satisfied_searches, self) :=
          for_each search_items
            (fun search_item '(total_searches_to_perform,
                               satisfied_searches, self) =>
               let total_searches_to_perform :=
                 total_searches_to_perform + 1 in
               let* (bool_one_satisfied, self) :=
                 fn_process_individual_search_item self search_item in
               Ok (total_searches_to_perform,
                   if bool_one_satisfied
                   then satisfied_searches + 1 else satisfied_searches,
                   self))
            (0, 0, self) in
        Ok (satisfied_searches =? total_searches_to_perform, self)
    | _ => Ok (false, self)
    end in
  if bool_satisfied then
    let* current_links :=
      fn_convert_returns_to_links (current_returns self)
        (current_links self) in
    Ok (bool_satisfied, current_links)
  else Ok (bool_satisfied, current_links self).

End WithRuntime.
End CodeSearch.

(** ** code_analyser_trace.py (Basic mode) *)

Module CodeTrace.
Import AnalysisUtils.

Inductive Direction : Type := TRACE_FORWARD | TRACE_REVERSE.

Inductive StopCondition : Type :=
| STOP_CONDITION_TRUE
| STOP_CONDITION_FALSE
| STOP_CONDITION_MAYBE.

(** The attributes of a [CodeTrace] object. *)
Record t : Type := {
  inst_analysis_utils : AnalysisUtils.t;
  default_trace_length_max : Z;
  trace_length_max : Z;
  trace_direction : Direction;
  trace_type : json;
  current_links : gmap string (list string);
  current_returns : list (list (string * string));
  output_chains : list string;
  hardcoded_traceto : bool;
  from_class_method : string;
  to_class_method : string;
  trace_to_list : list string;
  checked_methods : gset string;
  stop_condition : StopCondition
}.

Definition set_inst_analysis_utils (v : AnalysisUtils.t) (self : t) : t :=
  {| inst_analysis_utils := v;
     default_trace_length_max := default_trace_length_max self;
     trace_length_max := trace_length_max self;
     trace_direction := trace_direction self;
     trace_type := trace_type self; current_links := current_links self;
     current_returns := current_returns self;
     output_chains := output_chains self;
     hardcoded_traceto := hardcoded_traceto self;
     from_class_method := from_class_method self;
     to_class_method := to_class_method self;
     trace_to_list := trace_to_list self;
     checked_methods := checked_methods self;
     stop_condition := stop_condition self |}.

Definition set_default_trace_length_max (v : Z) (self : t) : t :=
  {| inst_analysis_utils := inst_analysis_utils self;
     default_trace_length_max := v;
     trace_length_max := trace_length_max self;
     trace_direction := trace_direction self;
     trace_type := trace_type self; current_links := current_links self;
     current_returns := current_returns self;
     output_chains := output_chains self;
     hardcoded_traceto := hardcoded_traceto self;
     from_class_method := from_class_method self;
     to_class_method := to_class_method self;
     trace_to_list := trace_to_list self;
     checked_methods := checked_methods self;
     stop_condition := stop_condition self |}.

Definition set_trace_length_max (v : Z) (self : t) : t :=
  {| inst_analysis_utils := inst_analysis_utils self;
     default_trace_length_max := default_trace_length_max self;
     trace_length_max := v; trace_direction := trace_direction self;
     trace_type := trace_type self; current_links := current_links self;
     current_returns := current_returns self;
     output_chains := output_chains self;
     hardcoded_traceto := hardcoded_traceto self;
     from_class_method := from_class_method self;
     to_class_method := to_class_method self;
     trace_to_list := trace_to_list self;
     checked_methods := checked_methods self;
     stop_condition := stop_condition self |}.

Definition set_trace_direction (v : Direction) (self : t) : t :=
  {| inst_analysis_utils := inst_analysis_utils self;
     default_trace_length_max := default_trace_length_max self;
     trace_length_max := trace_length_max self; trace_direction := v;
     trace_type := trace_type self; current_links := current_links self;
     current_returns := current_returns self;
     output_chains := output_chains self;
     hardcoded_traceto := hardcoded_traceto self;
     from_class_method := from_class_method self;
     to_class_method := to_class_method self;
     trace_to_list := trace_to_list self;
     checked_methods := checked_methods self;
     stop_condition := stop_condition self |}.

Definition set_trace_type (v : json) (self : t) : t :=
  {| inst_analysis_utils := inst_analysis_utils self;
     default_trace_length_max := default_trace_length_max self;
     trace_length_max := trace_length_max self;
     trace_direction := trace_direction self; trace_type := v;
     current_links := current_links self;
     current_returns := current_returns self;
     output_chains := output_chains self;
     hardcoded_traceto := hardcoded_traceto self;
     from_class_method := from_class_method self;
     to_class_method := to_class_method self;
     trace_to_list := trace_to_list self;
     checked_methods := checked_methods self;
     stop_condition := stop_condition self |}.

Definition set_current_links (v : gmap string (list string)) (self : t) : t :=
  {| inst_analysis_utils := inst_analysis_utils self;
     default_trace_length_max := default_trace_length_max self;
     trace_length_max := trace_length_max self;
     trace_direction := trace_direction self;
     trace_type := trace_type self; current_links := v;
     current_returns := current_returns self;
     output_chains := output_chains self;
     hardcoded_traceto := hardcoded_traceto self;
     from_class_method := from_class_method self;
     to_class_method := to_class_method self;
     trace_to_list := trace_to_list self;
     checked_methods := checked_methods self;
     stop_condition := stop_condition self |}.

Definition set_current_returns (v : list (list (string * string))) (self : t) : t :=
  {| inst_analysis_utils := inst_analysis_utils self;
     default_trace_length_max := default_trace_length_max self;
     trace_length_max := trace_length_max self;
     trace_direction := trace_direction self;
     trace_type := trace_type self; current_links := current_links self;
     current_returns := v; output_chains := output_chains self;
     hardcoded_traceto := hardcoded_traceto self;
     from_class_method := from_class_method self;
     to_class_method := to_class_method self;
     trace_to_list := trace_to_list self;
     checked_methods := checked_methods self;
     stop_condition := stop_condition self |}.

Definition set_output_chains (v : list string) (self : t) : t :=
  {| inst_analysis_utils := inst_analysis_utils self;
     default_trace_length_max := default_trace_length_max self;
     trace_length_max := trace_length_max self;
     trace_direction := trace_direction self;
     trace_type := trace_type self; current_links := current_links self;
     current_returns := current_returns self; output_chains := v;
     hardcoded_traceto := hardcoded_traceto self;
     from_class_method := from_class_method self;
     to_class_method := to_class_method self;
     trace_to_list := trace_to_list self;
     checked_methods := checked_methods self;
     stop_condition := stop_condition self |}.

Definition set_hardcoded_traceto (v : bool) (self : t) : t :=
  {| inst_analysis_utils := inst_analysis_utils self;
     default_trace_length_max := default_trace_length_max self;
     trace_length_max := trace_length_max self;
     trace_direction := trace_direction self;
     trace_type := trace_type self; current_links := current_links self;
     current_returns := current_returns self;
     output_chains := output_chains self; hardcoded_traceto := v;
     from_class_method := from_class_method self;
     to_class_method := to_class_method self;
     trace_to_list := trace_to_list self;
     checked_methods := checked_methods self;
     stop_condition := stop_condition self |}.

Definition set_from_class_method (v : string) (self : t) : t :=
  {| inst_analysis_utils := inst_analysis_utils self;
     default_trace_length_max := default_trace_length_max self;
     trace_length_max := trace_length_max self;
     trace_direction := trace_direction self;
     trace_type := trace_type self; current_links := current_links self;
     current_returns := current_returns self;
     output_chains := output_chains self;
     hardcoded_traceto := hardcoded_traceto self; from_class_method := v;
     to_class_method := to_class_method self;
     trace_to_list := trace_to_list self;
     checked_methods := checked_methods self;
     stop_condition := stop_condition self |}.

Definition set_to_class_method (v : string) (self : t) : t :=
  {| inst_analysis_utils := inst_analysis_utils self;
     default_trace_length_max := default_trace_length_max self;
     trace_length_max := trace_length_max self;
     trace_direction := trace_direction self;
     trace_type := trace_type self; current_links := current_links self;
     current_returns := current_returns self;
     output_chains := output_chains self;
     hardcoded_traceto := hardcoded_traceto self;
     from_class_method := from_class_method self; to_class_method := v;
     trace_to_list := trace_to_list self;
     checked_methods := checked_methods self;
     stop_condition := stop_condition self |}.

Definition set_trace_to_list (v : list string) (self : t) : t :=
  {| inst_analysis_utils := inst_analysis_utils self;
     default_trace_length_max := default_trace_length_max self;
     trace_length_max := trace_length_max self;
     trace_direction := trace_direction self;
     trace_type := trace_type self; current_links := current_links self;
     current_returns := current_returns self;
     output_chains := output_chains self;
     hardcoded_traceto := hardcoded_traceto self;
     from_class_method := from_class_method self;
     to_class_method := to_class_method self; trace_to_list := v;
     checked_methods := checked_methods self;
     stop_condition := stop_condition self |}.

Definition set_checked_methods (v : gset string) (self : t) : t :=
  {| inst_analysis_utils := inst_analysis_utils self;
     default_trace_length_max := default_trace_length_max self;
     trace_length_max := trace_length_max self;
     trace_direction := trace_direction self;
     trace_type := trace_type self; current_links := current_links self;
     current_returns := current_returns self;
     output_chains := output_chains self;
     hardcoded_traceto := hardcoded_traceto self;
     from_class_method := from_class_method self;
     to_class_method := to_class_method self;
     trace_to_list := trace_to_list self; checked_methods := v;
     stop_condition := stop_condition self |}.

Definition set_stop_condition (v : StopCondition) (self : t) : t :=
  {| inst_analysis_utils := inst_analysis_utils self;
     default_trace_length_max := default_trace_length_max self;
     trace_length_max := trace_length_max self;
     trace_direction := trace_direction self;
     trace_type := trace_type self; current_links := current_links self;
     current_returns := current_returns self;
     output_chains := output_chains self;
     hardcoded_traceto := hardcoded_traceto self;
     from_class_method := from_class_method self;
     to_class_method := to_class_method self;
     trace_to_list := trace_to_list self;
     checked_methods := checked_methods self; stop_condition := v |}.

(** [__init__] *)
Definition init (config : Config) (dx : Analysis)
  (links : gmap string (list string)) : t :=
  let default_trace_length_max :=
    match TRACEPARAMS_TRACE_LENGTH_MAX config with
    | Some n => n
    | None => 25%Z
    end in
  {| inst_analysis_utils := AnalysisUtils.init config dx;
     default_trace_length_max := default_trace_length_max;
     trace_length_max := default_trace_length_max;
     trace_direction := TRACE_REVERSE;
     trace_type := JStr "BASIC";
     current_links := links;
     current_returns := [];
     output_chains := [];
     hardcoded_traceto := false;
     from_class_method := "";
     to_class_method := "";
     trace_to_list := [];
     checked_methods := ∅;
     stop_condition := STOP_CONDITION_FALSE |}.

Definition special_case_object_list_reverse
  : list (string * list (string * list string)) :=
  [ ("doInBackground",
     [ ("Landroid/os/AsyncTask;",
        [ "execute([Ljava/lang/Object;)Landroid/os/AsyncTask;";
          "execute(Ljava/lang/Runnable;)" ]) ]) ].

Definition special_case_object_list_forward : list (string * string) :=
  [ ("execute([Ljava/lang/Object;)Landroid/os/AsyncTask;",
     "doInBackground");
    ("execute(Ljava/lang/Runnable;)V", "doInBackground") ].

Fixpoint assoc {A : Type} (k : string) (d : list (string * A)) : option A :=
  match d with
  | [] => None
  | (k', v) :: d' => if String.eqb k k' then Some v else assoc k d'
  end.

(** [class_part + '->' + method_part + desc_part] *)
Definition compound (class_part method_part desc_part : string) : string :=
  String.append class_part
    (String.append "->" (String.append method_part desc_part)).

(** [trace_chain + ',' + compound_name], or [compound_name] alone when
    the chain is empty *)
Definition extend_chain (trace_chain compound_name : string) : string :=
  if String.eqb trace_chain "" then compound_name
  else String.append trace_chain (String.append "," compound_name).

(** [fn_get_trace_type] *)
Definition fn_get_trace_type (str : string) : res (string * string) :=
  if PyStr.contains ":" str then
    let* trace_type := py_nth (PyStr.split ":" str) 0 in
    Ok (trace_type, PyStr.drop (String.length trace_type + 1) str)
  else if PyStr.contains "->" str then Ok ("<method>", str)
  else Ok ("<class>", str).

(** [fn_check_stop_condition] *)
Definition fn_check_stop_condition (check_value : string) (self : t)
  : res t :=
  let* check_value :=
    (if String.eqb (to_class_method self) "<class>"
     then py_nth (PyStr.split "->" check_value) 0
     else Ok check_value) in
  if bool_decide (check_value ∈ trace_to_list self)
  then Ok (set_stop_condition STOP_CONDITION_TRUE self)
  else if negb (hardcoded_traceto self) then Ok self
  else if 1 <? length (trace_to_list self) then Ok self
  else
    let* trace_to_item := py_nth (trace_to_list self) 0 in
    if String.eqb (to_class_method self) "<class>"
       && PyStr.contains "*" trace_to_item
    then
      let trace_to_item := PyStr.replace "*" "" trace_to_item in
      if PyStr.contains trace_to_item check_value
      then Ok (set_stop_condition STOP_CONDITION_TRUE self)
      else Ok (set_stop_condition STOP_CONDITION_FALSE self)
    else if negb (PyStr.contains "->" trace_to_item) then Ok self
    else if negb (PyStr.contains "->" check_value) then Ok self
    else if negb (PyStr.contains "(" trace_to_item) then Ok self
    else if negb (PyStr.contains "(" check_value) then Ok self
    else
      let* to_tail := py_nth (PyStr.split "->" trace_to_item) 1 in
      let* check_tail := py_nth (PyStr.split "->" check_value) 1 in
      if String.eqb to_tail check_tail
      then Ok (set_stop_condition STOP_CONDITION_MAYBE self)
      else Ok self.

(** [fn_determine_class_method_desc] *)
Definition fn_determine_class_method_desc (trace_from
  trace_from_type : string) : res (string * string * string) :=
  let* (class_part, method_part, desc_part) :=
    fn_get_class_method_desc_from_string trace_from in
  if String.eqb trace_from_type "<class>"
  then Ok (class_part, ".", ".")
  else Ok (class_part, method_part, desc_part).

Section WithRuntime.
Variable rt : Runtime.
(** Bound on the recursion depth of [fn_find_subclasses] and
    [fn_find_superclasses]. *)
Variable depth : nat.

(** [self.inst_analysis_utils.fn_find_subclasses(class_name)] *)
Definition find_subclasses (class_name : string) (self : t)
  : res (list string * t) :=
  let* (l, u) := fn_find_subclasses rt depth class_name true
                   (inst_analysis_utils self) in
  Ok (l, set_inst_analysis_utils u self).

(** [self.inst_analysis_utils.fn_find_superclasses(class_name)] *)
Definition find_superclasses (class_name : string) (self : t)
  : res (list string * t) :=
  let* (l, u) := fn_find_superclasses rt depth class_name true
                   (inst_analysis_utils self) in
  Ok (l, set_inst_analysis_utils u self).

(** [fn_handle_special_case_reverse]; [None] is the value of a call
    that falls off the end of the function. *)
Definition fn_handle_special_case_reverse (class_part method_part
  desc_part : string) (self : t) : res (option (list string) * t) :=
  let* relevant_object :=
    match assoc method_part special_case_object_list_reverse with
    | Some o => Ok o
    | None => Raise (KeyError method_part)
    end in
  let* (all_superclasses, self) := find_superclasses class_part self in
  let found :=
    fold_left
      (fun found superclass =>
         match found with
         | Some _ => found
         | None => assoc (PyStr.strip superclass) relevant_object
         end)
      all_superclasses None in
  Ok (found, self).

(** The body of [fn_trace_reverse], with the call it makes to
    [fn_analyse_trace_point] as [analyse]. *)
Definition fn_trace_reverse_body
  (analyse : string -> string -> string -> string -> t -> res t)
  (class_part method_part desc_part trace_chain : string) (self : t)
  : res t :=
  let starting_points :=
    fn_get_calls_to_method (inst_analysis_utils self)
      class_part method_part desc_part in
  let* (all_subclasses, self) := find_subclasses class_part self in
  let starting_points :=
    fold_left
      (fun starting_points subclass =>
         starting_points
         ++ fn_get_calls_to_method (inst_analysis_utils self)
              subclass method_part desc_part)
      all_subclasses starting_points in
  for_each starting_points
    (fun starting_point self =>
       let* (class_part, method_part, desc_part) :=
         fn_get_class_method_desc_from_method starting_point in
       let* (subs, self) := find_subclasses class_part self in
       let class_parts := class_part :: subs in
       let* (method_descriptors, self) :=
         match assoc method_part special_case_object_list_reverse with
         | Some _ =>
             fn_handle_special_case_reverse class_part method_part
               desc_part self
         | None => Ok (Some [String.append method_part desc_part], self)
         end in
       for_each class_parts
         (fun class_part self =>
            match method_descriptors with
            | None => Raise TypeError
            | Some method_descriptors =>
                for_each method_descriptors
                  (fun method_descriptor self =>
                     let* method_part :=
                       py_nth (PyStr.split "(" method_descriptor) 0 in
                     let* desc_tail :=
                       py_nth (PyStr.split "(" method_descriptor) 1 in
                     let desc_part := String.append "(" desc_tail in
                     analyse class_part method_part desc_part
                       trace_chain self)
                  self
            end)
         self)
    self.

(** The body of [fn_trace_forward], likewise. *)
Definition fn_trace_forward_body
  (analyse : string -> string -> string -> string -> t -> res t)
  (class_part method_part desc_part trace_chain : string) (self : t)
  : res t :=
  let starting_points :=
    fn_get_calls_from_method rt (inst_analysis_utils self)
      class_part method_part desc_part false in
  for_each starting_points
    (fun starting_point self =>
       let* (class_part, method_part, desc_part) :=
         fn_get_class_method_desc_from_method starting_point in
       let class_parts := [class_part] in
       let method_descriptor := String.append method_part desc_part in
       let '(method_part, desc_part) :=
         match assoc method_descriptor special_case_object_list_forward
         with
         | Some m => (m, ".")
         | None => (method_part, desc_part)
         end in
       for_each class_parts
         (fun class_part self =>
            analyse class_part method_part desc_part trace_chain self)
         self)
    self.

(** [fn_analyse_trace_point]; [fuel] bounds the depth of the
    recursion through [fn_trace_forward] and [fn_trace_reverse]. *)
Fixpoint fn_analyse_trace_point (fuel : nat) (class_part method_part
  desc_part trace_chain : string) (self : t) : res t :=
  match fuel with
  | O => OutOfFuel
  | S fuel' =>
      let compound_name := compound class_part method_part desc_part in
      if bool_decide (compound_name ∈ checked_methods self) then Ok self
      else
        let self :=
          set_checked_methods
            (checked_methods self ∪ {[compound_name]}) self in
        let* self := fn_check_stop_condition compound_name self in
        let continue (trace_chain : string) (self : t) : res t :=
          let trace_chain_as_list := PyStr.split "," trace_chain in
          if (trace_length_max self
              <? Z.of_nat (length trace_chain_as_list))%Z
          then Ok self
          else
            match trace_direction self with
            | TRACE_FORWARD =>
                fn_trace_forward_body (fn_analyse_trace_point fuel')
                  class_part method_part desc_part trace_chain self
            | TRACE_REVERSE =>
                fn_trace_reverse_body (fn_analyse_trace_point fuel')
                  class_part method_part desc_part trace_chain self
            end in
        match stop_condition self with
        | STOP_CONDITION_TRUE =>
            let self := set_stop_condition STOP_CONDITION_FALSE self in
            let trace_chain := extend_chain trace_chain compound_name in
            if bool_decide (trace_chain ∈ output_chains self)
            then Ok self
            else Ok (set_output_chains
                       (output_chains self ++ [trace_chain]) self)
        | STOP_CONDITION_MAYBE =>
            let self := set_stop_condition STOP_CONDITION_FALSE self in
            let compound_name := String.append "|MAYBE|" compound_name in
            let trace_chain := extend_chain trace_chain compound_name in
            if bool_decide (trace_chain ∈ output_chains self)
            then Ok self
            else
              continue trace_chain
                (set_output_chains
                   (output_chains self ++ [trace_chain]) self)
        | STOP_CONDITION_FALSE => continue trace_chain self
        end
  end.

(** [fn_trace_reverse] *)
Definition fn_trace_reverse (fuel : nat) :=
  fn_trace_reverse_body (fn_analyse_trace_point fuel).

(** [fn_trace_forward] *)
Definition fn_trace_forward (fuel : nat) :=
  fn_trace_forward_body (fn_analyse_trace_point fuel).

(** [fn_trace_handler] *)
Definition fn_trace_handler (fuel : nat) (trace_from_list : list string)
  (self : t) : res (bool * t) :=
  let* self :=
    for_each trace_from_list
      (fun trace_from self =>
         let self := set_checked_methods ∅ self in
         let self := set_stop_condition STOP_CONDITION_FALSE self in
         let* (class_part, method_part, desc_part) :=
           fn_determine_class_method_desc trace_from
             (from_class_method self) in
         match trace_direction self with
         | TRACE_REVERSE =>
             fn_trace_reverse fuel class_part method_part desc_part
               trace_from self
         | TRACE_FORWARD =>
             fn_trace_forward fuel class_part method_part desc_part
               trace_from self
         end)
      self in
  Ok (negb (bool_decide (output_chains self = [])), self).

(** [fn_get_trace_items] *)
Definition fn_get_trace_items (str trace_type : string) (self : t)
  : res (list string * t) :=
  let* c := py_first_char str in
  let narrow (return_string : string) : res string :=
    if String.eqb trace_type "<class>"
    then py_nth (PyStr.split "->" return_string) 0
    else Ok return_string in
  if is_at c then
    let self := set_hardcoded_traceto false self in
    let* (link_name, link_subpart, remaining_string) :=
      (if negb (PyStr.contains "]" str) then Ok (str, "", "")
       else
         let split_for_link := PyStr.split "]" str in
         let* remaining_string := py_nth split_for_link 1 in
         let* head := py_nth split_for_link 0 in
         let second_split := PyStr.split "[" head in
         let* link_name := py_nth second_split 0 in
         let* link_subpart := py_nth second_split 1 in
         Ok (link_name, PyStr.replace " " "" link_subpart,
             remaining_string)) in
    let linked_items :=
      AnalysisUtils.fn_get_linked_items (current_links self) link_name in
    let* output_items :=
      (if String.eqb link_subpart "" then
         for_each linked_items
           (fun linked_item output_items =>
              let* return_string :=
                narrow (String.append linked_item remaining_string) in
              Ok (output_items ++ [return_string]))
           []
       else if String.eqb link_subpart "<class>" then
         for_each linked_items
           (fun linked_item output_items =>
              let* class_part_only :=
                py_nth (PyStr.split "->" linked_item) 0 in
              let* return_string :=
                narrow (String.append class_part_only remaining_string) in
              Ok (output_items ++ [return_string]))
           []
       else if String.eqb link_subpart "<method>" then
         for_each linked_items
           (fun linked_item output_items =>
              if negb (PyStr.contains "->" linked_item)
              then Ok output_items
              else
                let* return_string :=
                  narrow (String.append linked_item remaining_string) in
                Ok (output_items ++ [return_string]))
           []
       else Ok []) in
    Ok (output_items, self)
  else
    let self := set_hardcoded_traceto true self in
    let* str := narrow str in
    Ok ([str], self).

(** [fn_trace_through_code] *)
Definition fn_trace_through_code (fuel : nat) (trace_from_string
  trace_to_string : string) (self : t) : res (bool * t) :=
  let* (from_type, trace_from_string) :=
    fn_get_trace_type trace_from_string in
  let self := set_from_class_method from_type self in
  let* (to_type, trace_to_string) := fn_get_trace_type trace_to_string in
  let self := set_to_class_method to_type self in
  let* (trace_from_list, self) :=
    fn_get_trace_items trace_from_string (from_class_method self) self in
  let* (trace_to_list, self) :=
    fn_get_trace_items trace_to_string (to_class_method self) self in
  if bool_decide (trace_from_list = []) || bool_decide (trace_to_list = [])
  then Ok (false, self)
  else
    let self := set_trace_to_list trace_to_list self in
    fn_trace_handler fuel trace_from_list self.

(** [fn_get_trace_parameters] *)
Definition fn_get_trace_parameters (trace_template : json) (self : t)
  : res t :=
  let* has_max := Py.contains "TRACELENGTHMAX" trace_template in
  let* self :=
    (if has_max then
       let* v := Py.getitem trace_template (JStr "TRACELENGTHMAX") in
       let* n := Py.int v in
       Ok (set_trace_length_max n self)
     else
       Ok (set_trace_length_max (default_trace_length_max self) self)) in
  let* has_direction := Py.contains "TRACEDIRECTION" trace_template in
  let* self :=
    (if has_direction then
       let* trace_direction :=
         Py.getitem trace_template (JStr "TRACEDIRECTION") in
       if Py.eq_str trace_direction "FORWARD"
       then Ok (set_trace_direction TRACE_FORWARD self)
       else Ok (set_trace_direction TRACE_REVERSE self)
     else Ok (set_trace_direction TRACE_REVERSE self)) in
  let* has_type := Py.contains "TRACETYPE" trace_template in
  if has_type then
    let* v := Py.getitem trace_template (JStr "TRACETYPE") in
    Ok (set_trace_type v self)
  else Ok (set_trace_type (JStr "BASIC") self).

(** [fn_enumerate_trace_source_sinks] *)
Definition fn_enumerate_trace_source_sinks (trace_template : json)
  : res (list string * list string) :=
  let* trace_from_string := Py.getitem trace_template (JStr "TRACEFROM") in
  let* trace_from_string := Py.as_str trace_from_string in
  let trace_from_string_list :=
    if PyStr.contains " OR " trace_from_string
    then PyStr.split " OR " trace_from_string
    else [trace_from_string] in
  let* trace_to_string := Py.getitem trace_template (JStr "TRACETO") in
  let* trace_to_string := Py.as_str trace_to_string in
  let trace_to_string_list :=
    if PyStr.contains " OR " trace_to_string
    then PyStr.split " OR " trace_to_string
    else [trace_to_string] in
  Ok (trace_from_string_list, trace_to_string_list).

(** [fn_analyse_returns] *)
Definition fn_analyse_returns (trace_template : json) (self : t)
  : res t :=
  let* returnables := Py.getitem trace_template (JStr "RETURN") in
  let* returnables := Py.as_str returnables in
  let* returnable_elements_name :=
    py_nth (PyStr.split " AS " returnables) 1 in
  let* return_type := py_nth (PyStr.split " AS " returnables) 0 in
  for_each (output_chains self)
    (fun chain_string self =>
       let chain := PyStr.split "," chain_string in
       let chain :=
         match trace_direction self with
         | TRACE_REVERSE => reverse chain
         | TRACE_FORWARD => chain
         end in
       let output_str :=
         fold_left
           (fun output_str chain_node =>
              let chain_node := PyStr.strip chain_node in
              if String.eqb output_str "" then chain_node
              else String.append output_str
                     (String.append "," chain_node))
           chain "" in
       Ok (set_current_returns
             (current_returns self
              ++ [[(returnable_elements_name, output_str)]]) self))
    self.

(** The Advanced engine ([code_analyser_trace_adv.py]), to which a
    rule with [TRACETYPE] [ADVANCED] is handed over: its answer, its
    chains, and the link table as it leaves it (it binds its RETURNs in
    the table it is given, which is the table of this object). *)
Variable fn_start_adv_trace :
  Analysis -> json -> gmap string (list string) -> Direction -> Z ->
  res (bool * list string * gmap string (list string)).

(** [fn_process_individual_trace_list_item] *)
Definition fn_process_individual_trace_list_item (fuel : nat)
  (trace_dictionary : json) (self : t) : res (bool * t) :=
  let* self := fn_get_trace_parameters trace_dictionary self in
  if Py.eq_str (trace_type self) "ADVANCED" then
      let* (bool_adv_trace_output, _, links) :=
        fn_start_adv_trace (androguard_dx (inst_analysis_utils self))
          trace_dictionary (current_links self) (trace_direction self)
          (trace_length_max self) in
    Ok (bool_adv_trace_output, set_current_links links self)
  else
      let* (trace_from_string_list, trace_to_string_list) :=
        fn_enumerate_trace_source_sinks trace_dictionary in
      let* (bool_satisfied, self) :=
        for_each trace_from_string_list
          (fun trace_from_string_element '(bool_satisfied, self) =>
             for_each trace_to_string_list
               (fun trace_to_string_element '(bool_satisfied, self) =>
                  let* (bool_single_trace_satisfied, self) :=
                    fn_trace_through_code fuel trace_from_string_element
                      trace_to_string_element self in
                  Ok (if bool_single_trace_satisfied then true
                      else bool_satisfied, self))
               (bool_satisfied, self))
          (false, self) in
      if bool_satisfied then
        let* has_return := Py.contains "RETURN" trace_dictionary in
        if has_return then
          let* self := fn_analyse_returns trace_dictionary self in
          Ok (bool_satisfied, self)
        else Ok (bool_satisfied, self)
      else Ok (bool_satisfied, self).

(** [fn_perform_code_trace] *)
Definition fn_perform_code_trace (fuel : nat) (config : Config)
  (dx : Analysis) (code_trace_template : json)
  (links : gmap string (list string))
  : res (bool * gmap string (list string)) :=
  let self := init config dx links in
  let* (bool_satisfied, self) :=
    match code_trace_template with
    | JDict _ =>
        fn_process_individual_trace_list_item fuel code_trace_template
          self
    | JList trace_items =>
        let* (total_traces, satisfied_traces, self) :=
          for_each trace_items
            (fun trace_item '(total_traces, satisfied_traces, self) =>
               let total_traces := total_traces + 1 in
               let* (bool_one_satisfied, self) :=
                 fn_process_individual_trace_list_item fuel trace_item
                   self in
               Ok (total_traces,
                   if bool_one_satisfied
                   then satisfied_traces + 1 else satisfied_traces,
                   self))
            (0, 0, self) in
        Ok (satisfied_traces =? total_traces, self)
    | _ => Ok (false, self)
    end in
  if bool_satisfied then
    let* current_links :=
      fn_convert_returns_to_links (current_returns self)
        (current_links self) in
    Ok (bool_satisfied, current_links)
  else Ok (bool_satisfied, current_links self).

End WithRuntime.
End CodeTrace.

(** ** template_parser.py *)

Module TemplateParser.

(** The Python types a template value can have. *)
Inductive pytype : Type := T_str | T_int | T_bool | T_list | T_dict.

#[global] Instance pytype_eq_dec : EqDecision pytype.
Proof. solve_decision. Defined.

(** [type(o)] *)
Definition type (o : json) : pytype :=
  match o with
  | JStr _ => T_str
  | JInt _ => T_int
  | JBool _ => T_bool
  | JList _ => T_list
  | JDict _ => T_dict
  end.

Definition error {A : Type} (type : string) : res A :=
  Raise (JandroidException type).

(** A method of [str] called on [o] *)
Definition str_method (o : json) : res string :=
  match o with
  | JStr s => Ok s
  | _ => Raise AttributeError
  end.

(** [' OR ' in str(o)] *)
Fixpoint str_contains_or (o : json) : bool :=
  match o with
  | JStr s => PyStr.contains " OR " s
  | JInt _ | JBool _ => false
  | JList l => existsb str_contains_or l
  | JDict d =>
      existsb (fun kv => PyStr.contains " OR " (fst kv)
                         || str_contains_or (snd kv)) d
  end.

(** [if key in o: check(o[key])] *)
Definition when_present (key : string) (o : json)
  (check : json -> res unit) : res unit :=
  let* present := Py.contains key o in
  if present then
    let* v := Py.getitem o (JStr key) in
    check v
  else Ok tt.

(** The checks [__fn_check_return] makes on one RETURN string. *)
Definition check_return_string (return_object : string) : res unit :=
  if negb (PyStr.contains " AS " return_object)
  then error "MissingIdentifier"
  else
    let return_id := PyStr.split " AS " return_object in
    if negb (length return_id =? 2) then error "MissingIdentifier"
    else
      let* id := py_nth return_id 1 in
      if negb (PyStr.startswith id "@") then error "MissingIdentifier"
      else Ok tt.

(** [__fn_check_return] *)
Definition fn_check_return (return_object : json) : res unit :=
  match return_object with
  | JStr s => check_return_string s
  | JList l =>
      for_each l
        (fun return_element _ =>
           let* has_as := Py.contains " AS " return_element in
           if negb has_as then error "MissingIdentifier"
           else
             let* return_element := str_method return_element in
             check_return_string return_element)
        tt
  | _ => error "BadElementType"
  end.

Definition lookfor_options : list string :=
  [ "TAGEXISTS"; "TAGNOTEXISTS"; "TAGVALUEMATCH"; "TAGVALUENOMATCH" ].

(** The test on [TAGVALUEMATCH] and [TAGVALUENOMATCH] *)
Definition check_exported (value : json) : res unit :=
  let* s := str_method value in
  let* head := py_nth (PyStr.split "=" s) 0 in
  let lookfor_tag := PyStr.strip head in
  let* attribute := py_nth (PyStr.split ":" lookfor_tag) 1 in
  if String.eqb attribute "exported" && PyStr.contains " OR " s
  then error "BadTagSpecifier"
  else Ok tt.

(** [__fn_check_lookfor] *)
Definition fn_check_lookfor (lookfor_object : json) : res unit :=
  match lookfor_object with
  | JDict d =>
      let* _ :=
        for_each d
          (fun '(lookfor_tag, _) _ =>
             if bool_decide (lookfor_tag ∈ lookfor_options) then Ok tt
             else error "IncorrectKey")
          tt in
      let* lookfor_option_present :=
        for_each lookfor_options
          (fun lookfor_option lookfor_option_present =>
             match Py.lookup lookfor_option d with
             | Some v =>
                 match type v with
                 | T_str | T_list => Ok true
                 | _ => error "BadElementType"
                 end
             | None => Ok lookfor_option_present
             end)
          false in
      let* _ :=
        when_present "TAGEXISTS" lookfor_object
          (fun v =>
             let* has_space := Py.contains " " v in
             if has_space then error "BadTagSpecifier" else Ok tt) in
      let* _ := when_present "TAGVALUEMATCH" lookfor_object check_exported in
      let* _ :=
        when_present "TAGVALUENOMATCH" lookfor_object check_exported in
      let* _ :=
        for_each [ "TAGNOTEXISTS"; "TAGVALUENOMATCH" ]
          (fun or_disallowed_lookfor_option _ =>
             when_present or_disallowed_lookfor_option lookfor_object
               (fun v =>
                  if str_contains_or v then error "BadOperator"
                  else Ok tt))
          tt in
      if negb lookfor_option_present then error "AbsentKey"
      else
        let* has_return := Py.contains "RETURN" lookfor_object in
        if has_return then error "IncorrectKey" else Ok tt
  | _ => error "BadElementType"
  end.

(** [fn_recursive_manifest_checks], the function nested in
    [__fn_check_manifestparams].  The keys of a dictionary are distinct,
    so [json_object[element]] is the value stored with [element]. *)
Fixpoint fn_recursive_manifest_checks (json_object : json) : res unit :=
  let* _ := when_present "LOOKFOR" json_object fn_check_lookfor in
  let* _ := when_present "RETURN" json_object fn_check_return in
  match json_object with
  | JDict d =>
      (fix loop (d : list (string * json)) : res unit :=
         match d with
         | [] => Ok tt
         | (element, value) :: d' =>
             let* _ :=
               (if String.eqb element "LOOKFOR"
                   || String.eqb element "RETURN"
                then Ok tt
                else
                  match value with
                  | JDict _ => fn_recursive_manifest_checks value
                  | _ => Ok tt
                  end) in
             loop d'
         end) d
  | JList l =>
      (* [json_object[element]] for an element that is an index *)
      let at_index (i : Z) : res unit :=
        let i := if (i <? 0)%Z then (i + Z.of_nat (length l))%Z else i in
        if (i <? 0)%Z then Raise IndexError
        else
          (fix nth (l : list json) (i : nat) : res unit :=
             match l, i with
             | [], _ => Raise IndexError
             | value :: _, O =>
                 match value with
                 | JDict _ => fn_recursive_manifest_checks value
                 | _ => Ok tt
                 end
             | _ :: l', S i' => nth l' i'
             end) l (Z.to_nat i) in
      for_each l
        (fun element _ =>
           match element with
           | JStr "LOOKFOR" | JStr "RETURN" => Ok tt
           | JInt i => at_index i
           | JBool b => at_index (if b then 1 else 0)%Z
           | _ => Raise TypeError
           end)
        tt
  | JStr s =>
      match s with
      | EmptyString => Ok tt
      | _ => Raise TypeError
      end
  | JInt _ | JBool _ => Raise TypeError
  end.

(** [__fn_check_manifestparams] *)
Definition fn_check_manifestparams (manifest_json_object : json)
  : res unit :=
  let* _ :=
    when_present "BASEPATH" manifest_json_object
      (fun v =>
         match v with
         | JStr s =>
             if PyStr.contains " AND " s then error "BadOperator"
             else Ok tt
         | _ => error "BadElementType"
         end) in
  let* _ :=
    when_present "SEARCHPATH" manifest_json_object
      (fun v =>
         match v with
         | JDict _ =>
             let* has_and := Py.contains " AND " v in
             if has_and then error "BadOperator" else Ok tt
         | _ => error "BadElementType"
         end) in
  fn_recursive_manifest_checks manifest_json_object.

(** The expected-structure tables. *)
Inductive Expected : Type :=
  Expect (Required : bool) (Type_ : pytype)
    (Subkeys : option (list (string * Expected))).

Definition call_site_subkeys (target : string)
  : list (string * Expected) :=
  [ (target, Expect true T_str None);
    ("SEARCHLOCATION", Expect false T_str None);
    ("RETURN", Expect false T_str None) ].

Definition search_keywords_expected_structure
  : list (string * Expected) :=
  [ ("SEARCHFORMETHOD", Expect false T_str None);
    ("SEARCHFORCALLTOMETHOD",
     Expect false T_dict (Some (call_site_subkeys "METHOD")));
    ("SEARCHFORCLASS", Expect false T_str None);
    ("SEARCHFORCALLTOCLASS",
     Expect false T_dict (Some (call_site_subkeys "CLASS")));
    ("SEARCHFORSTRING", Expect false T_str None);
    ("SEARCHFORCALLTOSTRING",
     Expect false T_dict (Some (call_site_subkeys "STRING"))) ].

Definition trace_keywords_expected_structure
  : list (string * Expected) :=
  [ ("TRACEFROM", Expect true T_str None);
    ("TRACETO", Expect true T_str None);
    ("TRACEDIRECTION", Expect false T_str None);
    ("TRACELENGTHMAX", Expect false T_int None);
    ("RETURN", Expect false T_str None) ].

(** The body of the loop of
    [__fn_check_object_against_expected_structure] for one expected
    keyword, with the recursive call for its [Subkeys].  On a type
    mismatch the message of the exception is built by adding the type
    object to a string, which raises [TypeError]. *)
Fixpoint check_expected_keyword (template_obj : json)
  (expected_structure_keyword : string) (expected : Expected) : res unit :=
  match expected with
  | Expect required expected_type subkeys =>
      let* present := Py.contains expected_structure_keyword template_obj in
      if required && negb present then error "MissingKey"
      else if negb present then Ok tt
      else
        let* value :=
          Py.getitem template_obj (JStr expected_structure_keyword) in
        if negb (bool_decide (type value = expected_type))
        then Raise TypeError
        else
          match subkeys with
          | Some subkeys =>
              (fix loop (subkeys : list (string * Expected)) : res unit :=
                 match subkeys with
                 | [] => Ok tt
                 | (keyword, expected) :: rest =>
                     let* _ :=
                       check_expected_keyword value keyword expected in
                     loop rest
                 end) subkeys
          | None => Ok tt
          end
  end.

(** [__fn_check_object_against_expected_structure] *)
Definition fn_check_object_against_expected_structure (template_obj : json)
  (expected_structure : list (string * Expected)) : res bool :=
  let* _ :=
    for_each expected_structure
      (fun '(expected_structure_keyword, expected) _ =>
         check_expected_keyword template_obj expected_structure_keyword
           expected)
      tt in
  Ok true.

(** [returnables] generalised to a list, as [__fn_check_code_search]
    and the search engine do it *)
Definition returnable_elements (returnables : json) : res (list json) :=
  match returnables with
  | JList l => Ok l
  | _ =>
      let* has_comma := Py.contains "," returnables in
      if has_comma then
        let* s := str_method returnables in
        Ok (map JStr (PyStr.split "," s))
      else Ok [returnables]
  end.

(** The checks [__fn_check_code_search] makes on one element of a
    SEARCH RETURN. *)
Definition check_search_return_element (return_element : json)
  : res unit :=
  let* return_element := str_method return_element in
  let split_return := PyStr.split " AS " return_element in
  if negb (length split_return =? 2) then error "IncorrectReturnType"
  else
    let* return_type := py_nth split_return 0 in
    if negb (bool_decide (return_type ∈ ["<class>"; "<method>"]))
    then error "IncorrectReturnType"
    else
      let* return_id := py_nth split_return 1 in
      if negb (PyStr.startswith return_id "@")
      then error "IncorrectReturnType"
      else Ok tt.

Definition existence_search (primary_search_type : string) : bool :=
  String.eqb primary_search_type "SEARCHFORMETHOD"
  || String.eqb primary_search_type "SEARCHFORCLASS"
  || String.eqb primary_search_type "SEARCHFORSTRING".

(** The body of the loop over the search types of one search object *)
Definition check_search_type (primary_search_type : string)
  (individual_search_obj : json) : res unit :=
  let* has_location := Py.contains "SEARCHLOCATION" individual_search_obj in
  let* _ :=
    (if has_location then
       if existence_search primary_search_type then error "IncorrectKey"
       else
         let* location :=
           Py.getitem individual_search_obj (JStr "SEARCHLOCATION") in
         let* has_colon := Py.contains ":" location in
         if has_colon then
           let* location := str_method location in
           let* location_type := py_nth (PyStr.split ":" location) 0 in
           if bool_decide (location_type ∈ ["<class>"; "<method>"])
           then Ok tt
           else error "IncorrectLocationType"
         else Ok tt
     else Ok tt) in
  let* has_return := Py.contains "RETURN" individual_search_obj in
  if has_return then
    if existence_search primary_search_type then error "IncorrectKey"
    else
      let* returnables :=
        Py.getitem individual_search_obj (JStr "RETURN") in
      let* elements := returnable_elements returnables in
      for_each elements
        (fun return_element _ => check_search_return_element return_element)
        tt
  else Ok tt.

(** [__fn_check_code_search] *)
Definition fn_check_code_search (code_search_obj : json) : res unit :=
  let* code_search_obj :=
    match code_search_obj with
    | JList l => Ok l
    | JDict _ => Ok [code_search_obj]
    | _ => error "BadElementType"
    end in
  let* bool_search_structure_satisfied :=
    for_each code_search_obj
      (fun individual_code_search_obj _ =>
         match individual_code_search_obj with
         | JDict d =>
             let* _ :=
               for_each d
                 (fun '(primary_search_type, individual_search_obj) _ =>
                    check_search_type primary_search_type
                      individual_search_obj)
                 tt in
             fn_check_object_against_expected_structure
               individual_code_search_obj
               search_keywords_expected_structure
         | _ => error "BadElementType"
         end)
      false in
  if bool_search_structure_satisfied then Ok tt
  else error "InvalidStructure".

(** [o in l] for a list [l] of string literals *)
Definition in_strings (o : json) (l : list string) : bool :=
  match o with
  | JStr s => bool_decide (s ∈ l)
  | _ => false
  end.

(** The checks on the end points of one trace object that has a
    [TRACETYPE] *)
Definition check_trace_type (individual_code_trace_obj : json)
  (trace_direction : json) : res unit :=
  let* trace_type :=
    Py.getitem individual_code_trace_obj (JStr "TRACETYPE") in
  if negb (in_strings trace_type ["BASIC"; "ADVANCED"])
  then error "BadTraceType"
  else
    let* trace_from_string :=
      Py.getitem individual_code_trace_obj (JStr "TRACEFROM") in
    let* trace_to_string :=
      Py.getitem individual_code_trace_obj (JStr "TRACETO") in
    let* from_resultof := Py.contains "RESULTOF" trace_from_string in
    if in_strings trace_type ["BASIC"] then
      let* to_resultof :=
        (if from_resultof then Ok true
         else Py.contains "RESULTOF" trace_to_string) in
      if to_resultof then error "BadTraceParams"
      else
        let* from_argto := Py.contains "ARGTO" trace_from_string in
        let* any_argto :=
          (if from_argto then Ok true
           else Py.contains "ARGTO" trace_to_string) in
        if any_argto then error "BadTraceParams"
        else
          let* from_argindex := Py.contains "ARGINDEX" trace_from_string in
          let* any_argindex :=
            (if from_argindex then Ok true
             else Py.contains "ARGINDEX" trace_to_string) in
          if any_argindex then error "BadTraceParams" else Ok tt
    else
      let forward := in_strings trace_direction ["FORWARD"] in
      let reverse := in_strings trace_direction ["REVERSE"] in
      let* from_argindex := Py.contains "ARGINDEX" trace_from_string in
      let* bad1 :=
        (if from_argindex then
           let* from_argto := Py.contains "ARGTO" trace_from_string in
           Ok (negb from_argto)
         else Ok false) in
      if bad1 then error "BadTraceParams"
      else
        let* to_argindex := Py.contains "ARGINDEX" trace_to_string in
        let* bad2 :=
          (if to_argindex then
             let* to_argto := Py.contains "ARGTO" trace_to_string in
             Ok (negb to_argto)
           else Ok false) in
        if bad2 then error "BadTraceParams"
        else
          let* from_resultof := Py.contains "RESULTOF" trace_from_string in
          if from_resultof && reverse then error "BadTraceParams"
          else
            let* from_argto := Py.contains "ARGTO" trace_from_string in
            if from_argto && forward then error "BadTraceParams"
            else
              let* from_resultof :=
                Py.contains "RESULTOF" trace_from_string in
              if negb from_resultof && forward then error "BadTraceParams"
              else
                let* to_resultof :=
                  Py.contains "RESULTOF" trace_to_string in
                if to_resultof && forward then error "BadTraceParams"
                else
                  let* to_argto := Py.contains "ARGTO" trace_to_string in
                  if to_argto && reverse then error "BadTraceParams"
                  else Ok tt.

(** The checks [__fn_check_code_trace] makes on a trace RETURN. *)
Definition check_trace_return (returnables : json) : res unit :=
  let* returnables := str_method returnables in
  let* return_type := py_nth (PyStr.split " AS " returnables) 0 in
  if negb (bool_decide (return_type ∈ ["<tracepath>"]))
  then error "BadReturnType"
  else
    let* return_id := py_nth (PyStr.split " AS " returnables) 1 in
    if negb (PyStr.startswith return_id "@tracepath_")
    then error "BadReturnType"
    else Ok tt.

(** [__fn_check_code_trace] *)
Definition fn_check_code_trace (code_trace_obj : json) : res unit :=
  let* code_trace_obj :=
    match code_trace_obj with
    | JList l => Ok l
    | JDict _ => Ok [code_trace_obj]
    | _ => error "BadElementType"
    end in
  let* bool_trace_structure_satisfied :=
    for_each code_trace_obj
      (fun individual_code_trace_obj _ =>
         match individual_code_trace_obj with
         | JDict d =>
             if negb (bool_decide (is_Some (Py.lookup "TRACEFROM" d)))
             then error "BadElementType"
             else if negb (bool_decide (is_Some (Py.lookup "TRACETO" d)))
             then error "BadElementType"
             else
               let* _ :=
                 when_present "RETURN" individual_code_trace_obj
                   check_trace_return in
               let* trace_direction :=
                 match Py.lookup "TRACEDIRECTION" d with
                 | Some trace_direction =>
                     if in_strings trace_direction ["FORWARD"; "REVERSE"]
                     then Ok trace_direction
                     else error "BadTraceDirection"
                 | None => Ok (JStr "REVERSE")
                 end in
               let* _ :=
                 match Py.lookup "TRACETYPE" d with
                 | Some _ =>
                     check_trace_type individual_code_trace_obj
                       trace_direction
                 | None => Ok tt
                 end in
               fn_check_object_against_expected_structure
                 individual_code_trace_obj
                 trace_keywords_expected_structure
         | _ => error "BadElementType"
         end)
      false in
  if bool_trace_structure_satisfied then Ok tt
  else error "InvalidStructure".

(** [__fn_check_codeparams] *)
Definition fn_check_codeparams (code_json_object : json) : res unit :=
  let* _ := when_present "SEARCH" code_json_object fn_check_code_search in
  when_present "TRACE" code_json_object fn_check_code_trace.

(** [__fn_check_graph] *)
Definition fn_check_graph (graphable_element : json) : res unit :=
  match graphable_element with
  | JStr graphable_element =>
      if negb (PyStr.startswith graphable_element "@")
      then error "BadElementType"
      else if negb (PyStr.contains " WITH " graphable_element)
      then error "BadElementType"
      else
        let* tail := py_nth (PyStr.split " WITH " graphable_element) 1 in
        for_each (PyStr.split "," tail)
          (fun attribute_label _ =>
             if negb (PyStr.contains " AS " attribute_label)
             then error "BadElementType"
             else if negb (PyStr.contains "attribute" attribute_label)
                     && negb (PyStr.contains "label" attribute_label)
             then error "BadElementType"
             else Ok tt)
          tt
  | _ => error "BadElementType"
  end.

(** [__fn_check_metadata_section]; [output_template_object] is the
    master template object built so far. *)
Definition fn_check_metadata_section
  (output_template_object : list (string * json)) (metadata_object : json)
  : res unit :=
  match metadata_object with
  | JDict d =>
      match Py.lookup "NAME" d with
      | None => error "MissingRequiredKeys"
      | Some (JStr template_name) =>
          if bool_decide (is_Some (Py.lookup template_name
                                     output_template_object))
          then error "DuplicateTemplate"
          else Ok tt
      | Some _ => error "BadElementType"
      end
  | _ => Raise AttributeError
  end.

(** [d[k] = v] *)
Fixpoint dict_set (k : string) (v : json) (d : list (string * json))
  : list (string * json) :=
  match d with
  | [] => [(k, v)]
  | (k', v') :: d' =>
      if String.eqb k k' then (k, v) :: d' else (k', v') :: dict_set k v d'
  end.

(** [del d[k]] *)
Definition dict_del (k : string) (d : list (string * json))
  : list (string * json) :=
  filter (fun kv => fst kv <> k) d.

Definition lookfor_sums : list (string * json) :=
  [ ("_EXPECTED_LOOKFOR", JInt 1);
    ("_IDENTIFIED_LOOKFOR", JInt 0);
    ("_SATISFIED_LOOKFOR", JBool false) ].

(** [__fn_recursively_create_lookfor_sums] changes its argument in
    place, so the changes made before an exception stay: the result is
    the object as the call leaves it, with the outcome of the call.  In
    a dictionary the three keys are set before the loop, so the loop
    meets them with values that are not dictionaries. *)
Fixpoint fn_recursively_create_lookfor_sums (json_object : json)
  : json * res unit :=
  match json_object with
  | JDict d =>
      let has_lookfor := bool_decide (is_Some (Py.lookup "LOOKFOR" d)) in
      let '(d', outcome) :=
        (fix loop (d : list (string * json))
           : list (string * json) * res unit :=
           match d with
           | [] => ([], Ok tt)
           | (obj_key, value) :: rest =>
               let '(value, outcome) :=
                 if has_lookfor
                    && bool_decide (is_Some (Py.lookup obj_key
                                               lookfor_sums))
                 then (value, Ok tt)
                 else
                   match value with
                   | JDict _ => fn_recursively_create_lookfor_sums value
                   | _ => (value, Ok tt)
                   end in
               match outcome with
               | Ok _ =>
                   let '(rest, outcome) := loop rest in
                   ((obj_key, value) :: rest, outcome)
               | _ => ((obj_key, value) :: rest, outcome)
               end
           end) d in
      (JDict (if has_lookfor
              then fold_left (fun d kv => dict_set (fst kv) (snd kv) d)
                     lookfor_sums d'
              else d'),
       outcome)
  | JList l =>
      if existsb (fun x => match x with
                           | JStr "LOOKFOR" => true
                           | _ => false
                           end) l
      then (json_object, Raise TypeError)
      else
        (* [json_object[obj_key]] for a key that is an index, and the
           recursive call when it is a dictionary: what the call leaves
           at that index.  A dictionary that is visited a second time
           has the three keys already, and the second visit leaves it
           as the first one did. *)
        let at_index (i : Z) (l' : list json) : list json * res unit :=
          let i := if (i <? 0)%Z then (i + Z.of_nat (length l))%Z else i in
          if (i <? 0)%Z then (l', Raise IndexError)
          else
            let '(changed, outcome) :=
              (fix nth (l : list json) (i : nat) : option json * res unit :=
                 match l, i with
                 | [], _ => (None, Raise IndexError)
                 | value :: _, O =>
                     match value with
                     | JDict _ =>
                         let '(value, outcome) :=
                           fn_recursively_create_lookfor_sums value in
                         (Some value, outcome)
                     | _ => (None, Ok tt)
                     end
                 | _ :: l', S i' => nth l' i'
                 end) l (Z.to_nat i) in
            match changed with
            | Some value => (<[Z.to_nat i := value]> l', outcome)
            | None => (l', outcome)
            end in
        let '(l', outcome) :=
          fold_left
            (fun '(l', outcome) obj_key =>
               match outcome with
               | Ok _ =>
                   match obj_key with
                   | JInt i => at_index i l'
                   | JBool b => at_index (if b then 1 else 0)%Z l'
                   | _ => (l', Raise TypeError)
                   end
               | _ => (l', outcome)
               end)
            l (l, Ok tt) in
        (JList l', outcome)
  | JStr s =>
      if PyStr.contains "LOOKFOR" s then (json_object, Raise TypeError)
      else
        match s with
        | EmptyString => (json_object, Ok tt)
        | _ => (json_object, Raise TypeError)
        end
  | JInt _ | JBool _ => (json_object, Raise TypeError)
  end.

(** [__fn_parse_template_file] on the object [json.load] returned
    ([None] when loading failed): the master template object as the
    call leaves it, with the outcome of the call.  The template is
    added once all checks have passed, before the LOOKFOR sums are
    created. *)
Definition fn_parse_template_file
  (output_template_object : list (string * json))
  (loaded : option json) : list (string * json) * res unit :=
  match loaded with
  | None => (output_template_object, error "JSONError")
  | Some template_file_object =>
      match template_file_object with
      | JDict [] => (output_template_object, error "EmptyTemplate")
      | JDict d =>
          let checks : res (string * json) :=
            match Py.lookup "METADATA" d with
            | None => error "MissingRequiredSection"
            | Some metadata =>
                let* _ :=
                  fn_check_metadata_section output_template_object
                    metadata in
                let section_present (key : string) : bool :=
                  match Py.lookup key d with
                  | None => false
                  | Some (JDict []) => false
                  | Some _ => true
                  end in
                if negb (section_present "MANIFESTPARAMS")
                   && negb (section_present "CODEPARAMS")
                then error "MissingRequiredSection"
                else
                  let* _ :=
                    when_present "MANIFESTPARAMS" template_file_object
                      fn_check_manifestparams in
                  let* _ :=
                    when_present "CODEPARAMS" template_file_object
                      fn_check_codeparams in
                  let* _ :=
                    when_present "GRAPH" template_file_object
                      fn_check_graph in
                  let* template_name :=
                    (let* name := Py.getitem metadata (JStr "NAME") in
                     Py.as_str name) in
                  Ok (template_name, metadata)
            end in
          match checks with
          | Ok (template_name, metadata) =>
              let metadata :=
                match metadata with
                | JDict m => JDict (dict_del "NAME" m)
                | _ => metadata
                end in
              let d := dict_set "METADATA" metadata d in
              let '(d, outcome) :=
                match Py.lookup "MANIFESTPARAMS" d with
                | Some manifest =>
                    let '(manifest, outcome) :=
                      fn_recursively_create_lookfor_sums manifest in
                    (dict_set "MANIFESTPARAMS" manifest d, outcome)
                | None => (d, Ok tt)
                end in
              (output_template_object ++ [(template_name, JDict d)],
               outcome)
          | Raise e => (output_template_object, Raise e)
          | OutOfFuel => (output_template_object, OutOfFuel)
          end
      | _ => (output_template_object, Raise AttributeError)
      end
  end.

(** [fn_parse_templates]: a template whose parsing raises is logged
    and the loop goes on with the next one. *)
Definition fn_parse_templates (template_file_list : list (option json))
  : list (string * json) :=
  fold_left
    (fun output_template_object template_file =>
       fst (fn_parse_template_file output_template_object template_file))
    template_file_list [].

End TemplateParser.

(** ** code_analyser.py *)

Module CodeAnalyser.
Import AnalysisUtils.

Section WithRuntime.
Variable rt : Runtime.
Variable depth : nat.
Variable fuel : nat.
Variable config : Config.
Variable fn_start_adv_trace :
  Analysis -> json -> gmap string (list string) -> CodeTrace.Direction ->
  Z -> res (bool * list string * gmap string (list string)).

(** [fn_determine_action] *)
Definition fn_determine_action (bug_template : json) (dx : Analysis)
  (object_key : json) (current_links : gmap string (list string))
  : res (bool * gmap string (list string)) :=
  let* codeparams := Py.getitem bug_template (JStr "CODEPARAMS") in
  let* object_template := Py.getitem codeparams object_key in
  if Py.eq_str object_key "SEARCH" then
    CodeSearch.fn_perform_code_search rt depth config dx
      object_template current_links
  else if Py.eq_str object_key "TRACE" then
    CodeTrace.fn_perform_code_trace rt depth fn_start_adv_trace fuel
      config dx object_template current_links
  else Ok (false, current_links).

(** [fn_perform_code_analysis]; [None] is the value of the bare
    [return] taken when [CODEPARAMS] has no element. *)
Definition fn_perform_code_analysis (apk_pkg : string)
  (bug_template : json) (dx : Analysis)
  (links : gmap string (list string))
  : res (option (bool * gmap string (list string))) :=
  let* codeparams := Py.getitem bug_template (JStr "CODEPARAMS") in
  let* elements := Py.iter codeparams in
  let total_elements_to_check := length elements in
  if total_elements_to_check =? 0 then Ok None
  else
    let* (total_elements_satisfied, current_links) :=
      for_each elements
        (fun element '(total_elements_satisfied, current_links) =>
           let* (bool_satisfied, current_links) :=
             fn_determine_action bug_template dx element current_links in
           Ok (if bool_satisfied then total_elements_satisfied + 1
               else total_elements_satisfied, current_links))
        (0, links) in
    Ok (Some (total_elements_satisfied =? total_elements_to_check,
              current_links)).

End WithRuntime.
End CodeAnalyser.

(** ** app_analyser.py *)

Module AppAnalyser.
Import AnalysisUtils.

(** Androguard's [APK] object; there is none when a [.dex] file is
    analysed. *)
Record APK : Type := {
  get_package : string;
  get_android_manifest_xml : string
}.

Section WithCollaborators.
Variable rt : Runtime.
Variable depth : nat.
Variable fuel : nat.
Variable config : Config.
Variable fn_start_adv_trace :
  Analysis -> json -> gmap string (list string) -> CodeTrace.Direction ->
  Z -> res (bool * list string * gmap string (list string)).

(** [ManifestAnalyser.fn_perform_manifest_analysis] *)
Variable fn_perform_manifest_analysis :
  string -> json -> string -> gmap string (list string) ->
  res (bool * gmap string (list string)).

(** [GraphHelperWorker.fn_analyse_graph_elements] *)
Variable Graphables : Type.
Variable fn_analyse_graph_elements :
  json -> gmap string (list string) -> string -> string ->
  res Graphables.

(** The attributes of a worker the analysis of one application uses. *)
Record t : Type := {
  master_bug_object : list (string * json);
  androguard_apk_obj : option APK;
  androguard_dx : Analysis;
  current_app_package_name : string;
  current_app_bug_obj : gmap string bool;
  current_graph_elements : list Graphables;
  current_bug_search_types : nat;
  current_bug_search_outcomes : nat;
  current_links : gmap string (list string)
}.

Definition set_current_app_bug_obj (v : gmap string bool) (self : t) : t :=
  {| master_bug_object := master_bug_object self;
     androguard_apk_obj := androguard_apk_obj self;
     androguard_dx := androguard_dx self;
     current_app_package_name := current_app_package_name self;
     current_app_bug_obj := v;
     current_graph_elements := current_graph_elements self;
     current_bug_search_types := current_bug_search_types self;
     current_bug_search_outcomes := current_bug_search_outcomes self;
     current_links := current_links self |}.

Definition set_current_graph_elements (v : list Graphables) (self : t) : t :=
  {| master_bug_object := master_bug_object self;
     androguard_apk_obj := androguard_apk_obj self;
     androguard_dx := androguard_dx self;
     current_app_package_name := current_app_package_name self;
     current_app_bug_obj := current_app_bug_obj self;
     current_graph_elements := v;
     current_bug_search_types := current_bug_search_types self;
     current_bug_search_outcomes := current_bug_search_outcomes self;
     current_links := current_links self |}.

Definition set_current_bug_search_types (v : nat) (self : t) : t :=
  {| master_bug_object := master_bug_object self;
     androguard_apk_obj := androguard_apk_obj self;
     androguard_dx := androguard_dx self;
     current_app_package_name := current_app_package_name self;
     current_app_bug_obj := current_app_bug_obj self;
     current_graph_elements := current_graph_elements self;
     current_bug_search_types := v;
     current_bug_search_outcomes := current_bug_search_outcomes self;
     current_links := current_links self |}.

Definition set_current_bug_search_outcomes (v : nat) (self : t) : t :=
  {| master_bug_object := master_bug_object self;
     androguard_apk_obj := androguard_apk_obj self;
     androguard_dx := androguard_dx self;
     current_app_package_name := current_app_package_name self;
     current_app_bug_obj := current_app_bug_obj self;
     current_graph_elements := current_graph_elements self;
     current_bug_search_types := current_bug_search_types self;
     current_bug_search_outcomes := v;
     current_links := current_links self |}.

Definition set_current_links (v : gmap string (list string)) (self : t) : t :=
  {| master_bug_object := master_bug_object self;
     androguard_apk_obj := androguard_apk_obj self;
     androguard_dx := androguard_dx self;
     current_app_package_name := current_app_package_name self;
     current_app_bug_obj := current_app_bug_obj self;
     current_graph_elements := current_graph_elements self;
     current_bug_search_types := current_bug_search_types self;
     current_bug_search_outcomes := current_bug_search_outcomes self;
     current_links := v |}.

(** [self.master_bug_object[bug]] *)
Definition bug_template (self : t) (bug : string) : res json :=
  match Py.lookup bug (master_bug_object self) with
  | Some template => Ok template
  | None => Raise (KeyError bug)
  end.

(** [fn_initialise_bug_obj] *)
Definition fn_initialise_bug_obj (self : t) : t :=
  set_current_app_bug_obj
    (fold_left (fun obj bug => <[fst bug := false]> obj)
       (master_bug_object self) ∅)
    self.

(** [fn_handle_manifest_analysis] *)
Definition fn_handle_manifest_analysis (bug : string) (self : t)
  : res t :=
  let* template := bug_template self bug in
  let* manifest_obj := Py.getitem template (JStr "MANIFESTPARAMS") in
  match manifest_obj with
  | JDict [] => Ok self
  | _ =>
      let self :=
        set_current_bug_search_types
          (current_bug_search_types self + 1) self in
      match androguard_apk_obj self with
      | None => Ok self
      | Some apk =>
          let manifest_string := get_android_manifest_xml apk in
          let* (manifest_output, links) :=
            fn_perform_manifest_analysis (current_app_package_name self)
              template manifest_string (current_links self) in
          let self := set_current_links links self in
          if manifest_output
          then Ok (set_current_bug_search_outcomes
                     (current_bug_search_outcomes self + 1) self)
          else Ok self
      end
  end.

(** [fn_handle_code_analysis] *)
Definition fn_handle_code_analysis (bug : string) (self : t) : res t :=
  let* template := bug_template self bug in
  let* code_obj := Py.getitem template (JStr "CODEPARAMS") in
  match code_obj with
  | JDict [] => Ok self
  | _ =>
      let self :=
        set_current_bug_search_types
          (current_bug_search_types self + 1) self in
      let* result :=
        CodeAnalyser.fn_perform_code_analysis rt depth fuel config
          fn_start_adv_trace (current_app_package_name self) template
          (androguard_dx self) (current_links self) in
      match result with
      | None => Raise TypeError
      | Some (code_output, links) =>
          let self := set_current_links links self in
          if code_output
          then Ok (set_current_bug_search_outcomes
                     (current_bug_search_outcomes self + 1) self)
          else Ok self
      end
  end.

(** [fn_process_graphables] *)
Definition fn_process_graphables (bug : string) (self : t) : res t :=
  let* template := bug_template self bug in
  let* graph_obj := Py.getitem template (JStr "GRAPH") in
  match graph_obj with
  | JList [] => Ok self
  | _ =>
      let* graphables :=
        fn_analyse_graph_elements graph_obj (current_links self)
          (current_app_package_name self) bug in
      Ok (set_current_graph_elements
            (current_graph_elements self ++ [graphables]) self)
  end.

(** [fn_per_bug_analysis] *)
Definition fn_per_bug_analysis (self : t) : res t :=
  for_each (master_bug_object self)
    (fun '(bug, template) self =>
       let self := set_current_bug_search_types 0 self in
       let self := set_current_bug_search_outcomes 0 self in
       let self := set_current_links ∅ self in
       let* searchparams_keys := Py.iter template in
       let* self :=
         for_each searchparams_keys
           (fun searchparams_key self =>
              let* self :=
                (if Py.eq_str searchparams_key "MANIFESTPARAMS"
                 then fn_handle_manifest_analysis bug self
                 else Ok self) in
              if Py.eq_str searchparams_key "CODEPARAMS"
              then fn_handle_code_analysis bug self
              else Ok self)
           self in
       if current_bug_search_types self
          =? current_bug_search_outcomes self
       then
         let self :=
           set_current_app_bug_obj
             (<[bug := true]> (current_app_bug_obj self)) self in
         let* has_graph := Py.contains "GRAPH" template in
         if has_graph then fn_process_graphables bug self else Ok self
       else Ok self)
    self.

(** What the worker does for one application once Androguard has
    loaded it: [fn_initialise_bug_obj], then [fn_per_bug_analysis]. *)
Definition analyse_app (self : t) : res t :=
  fn_per_bug_analysis (fn_initialise_bug_obj self).

End WithCollaborators.

Arguments master_bug_object {Graphables} _.
Arguments androguard_apk_obj {Graphables} _.
Arguments androguard_dx {Graphables} _.
Arguments current_app_package_name {Graphables} _.
Arguments current_app_bug_obj {Graphables} _.
Arguments current_graph_elements {Graphables} _.
Arguments current_bug_search_types {Graphables} _.
Arguments current_bug_search_outcomes {Graphables} _.
Arguments current_links {Graphables} _.
Arguments set_current_app_bug_obj {Graphables} _ _.
Arguments set_current_graph_elements {Graphables} _ _.
Arguments set_current_bug_search_types {Graphables} _ _.
Arguments set_current_bug_search_outcomes {Graphables} _ _.
Arguments set_current_links {Graphables} _ _.
Arguments bug_template {Graphables} _ _.
Arguments fn_initialise_bug_obj {Graphables} _.
End AppAnalyser.

(** ** common.py *)

Module Common.

(** [Conversions.fn_smali_to_dotted] *)
Definition fn_smali_to_dotted (classpath : string) : string :=
  let modified_classpath := PyStr.drop 1 classpath in
  let modified_classpath := PyStr.replace ";" "" modified_classpath in
  let modified_classpath := PyStr.replace "/" "." modified_classpath in
  modified_classpath.

(** [Conversions.fn_dotted_to_smali] *)
Definition fn_dotted_to_smali (classpath : string) : string :=
  let modified_classpath := PyStr.replace "." "/" classpath in
  let modified_classpath :=
    String.append (String.append "L" modified_classpath) ";" in
  modified_classpath.

End Common.

(** ** manifest_analyser.py *)

Module ManifestAnalyser.

(** [fn_generate_namespace_variants]; [namespaces] lists the items of
    [self.namespaces], a prefix with its URI, in iteration order.  The
    loop assigns [tag], so each pass works on the result of the pass
    before. *)
Definition fn_generate_namespace_variants
  (namespaces : list (string * string)) (tag : string) : list string :=
  if PyStr.contains "<NAMESPACE>" tag then
    snd (fold_left
           (fun '(tag, tags) namespace =>
              let tag :=
                PyStr.replace "<NAMESPACE>:"
                  (String.append "{" (String.append (snd namespace) "}"))
                  tag in
              (tag, tags ++ [tag]))
           namespaces (tag, []))
  else [tag].

(** [v == True] *)
Definition eq_true (v : json) : bool :=
  match v with
  | JBool b => b
  | JInt z => (z =? 1)%Z
  | _ => false
  end.

(** [fn_recursively_check_lookfor]; the pair holds
    [self.expected_lookfor] and [self.satisfied_lookfor].  The keys of a
    dictionary are distinct, so [json_obj[key]] is the value stored with
    [key]. *)
Fixpoint fn_recursively_check_lookfor (json_obj : json)
  (counts : nat * nat) : res (nat * nat) :=
  match json_obj with
  | JDict d =>
      (fix loop (items : list (string * json)) (counts : nat * nat)
         : res (nat * nat) :=
         match items with
         | [] => Ok counts
         | (key, value) :: rest =>
             let descend (counts : nat * nat) : res (nat * nat) :=
               let* counts :=
                 match value with
                 | JDict _ => fn_recursively_check_lookfor value counts
                 | _ => Ok counts
                 end in
               loop rest counts in
             if String.eqb key "LOOKFOR" then
               let '(expected_lookfor, satisfied_lookfor) := counts in
               let expected_lookfor := expected_lookfor + 1 in
               let* satisfied :=
                 Py.getitem json_obj (JStr "_SATISFIED_LOOKFOR") in
               if eq_true satisfied
               then descend (expected_lookfor, satisfied_lookfor + 1)
               else Ok (expected_lookfor, satisfied_lookfor)
             else descend counts
         end) d counts
  | JList l =>
      (* [json_obj[key]] for a key that is an index, and the recursive
         call when it is a dictionary *)
      let at_index (i : Z) (counts : nat * nat) : res (nat * nat) :=
        let i := if (i <? 0)%Z then (i + Z.of_nat (length l))%Z else i in
        if (i <? 0)%Z then Raise IndexError
        else
          (fix nth (l : list json) (i : nat) : res (nat * nat) :=
             match l, i with
             | [], _ => Raise IndexError
             | value :: _, O =>
                 match value with
                 | JDict _ => fn_recursively_check_lookfor value counts
                 | _ => Ok counts
                 end
             | _ :: l', S i' => nth l' i'
             end) l (Z.to_nat i) in
      for_each l
        (fun key counts =>
           match key with
           | JStr "LOOKFOR" => Raise TypeError
           | JInt i => at_index i counts
           | JBool b => at_index (if b then 1 else 0)%Z counts
           | _ => Raise TypeError
           end)
        counts
  | JStr s =>
      match s with
      | EmptyString => Ok counts
      | _ => Raise TypeError
      end
  | JInt _ | JBool _ => Raise TypeError
  end.

(** [fn_check_whether_all_reqs_are_satisfied] *)
Definition fn_check_whether_all_reqs_are_satisfied (bug_template : json)
  : res bool :=
  let* manifestparams := Py.getitem bug_template (JStr "MANIFESTPARAMS") in
  let* (expected_lookfor, satisfied_lookfor) :=
    fn_recursively_check_lookfor manifestparams (0, 0) in
  Ok (expected_lookfor =? satisfied_lookfor).

(** [fn_standardise] *)
Definition fn_standardise (element : string) : string :=
  if PyStr.contains "." element
  then Common.fn_dotted_to_smali element
  else element.

End ManifestAnalyser.

(** ** Example applications

    A small Bytecode Index built from a table of methods and classes,
    answering the queries the way Androguard does: [re.match] of each
    pattern against class name, method name and descriptor. *)

Module Fixtures.
Import AnalysisUtils.

(** [re.match pattern s] for the patterns the engine builds: escaped
    literals, [.], [.*] and [$] (the end of the string, or the place
    before a newline that ends it). *)
Fixpoint re_match (pattern : string) : string -> bool :=
  match pattern with
  | EmptyString => fun _ => true
  | String "\" (String c p') =>
      fun s =>
        match s with
        | String c' s' => Ascii.eqb c c' && re_match p' s'
        | EmptyString => false
        end
  | String "." (String "*" p') =>
      fix star (s : string) : bool :=
        re_match p' s
        || match s with
           | EmptyString => false
           | String _ s' => star s'
           end
  | String "." p' =>
      fun s =>
        match s with
        | String _ s' => re_match p' s'
        | EmptyString => false
        end
  | String c p' =>
      fun s =>
        if Ascii.eqb c "$" then
          match s with
          | EmptyString => re_match p' s
          | String c' EmptyString =>
              Ascii.eqb c' "010" && re_match p' s
          | _ => false
          end
        else
          match s with
          | String c' s' => Ascii.eqb c c' && re_match p' s'
          | EmptyString => false
          end
  end.

Definition method (class_name name descriptor : string) : EncodedMethod :=
  {| get_class_name := class_name;
     get_name := name;
     get_descriptor := descriptor |}.

(** One row per method: the method, its callers, its callees. *)
Definition MethodTable : Type :=
  list (EncodedMethod * list EncodedMethod * list EncodedMethod).

Definition make_dx (classes : list ClassAnalysis) (methods : MethodTable)
  : Analysis :=
  {| get_internal_classes := filter (fun c => is_external c = false) classes;
     find_classes := fun pattern =>
       filter (fun c => re_match pattern (class_get_name c) = true) classes;
     find_methods := fun class_pattern method_pattern desc_pattern =>
       map (fun row =>
              {| get_xref_from := snd (fst row);
                 get_xref_to := map (fun m => (false, m)) (snd row) |})
         (filter
            (fun row =>
               let m := fst (fst row) in
               re_match class_pattern (get_class_name m)
               && re_match method_pattern (get_name m)
               && re_match desc_pattern (get_descriptor m) = true)
            methods);
     find_strings := fun _ => [] |}.

(** Sets that iterate in insertion order, and in the opposite order. *)
Definition insertion_order : Runtime :=
  {| list_of_str_set := remove_dups;
     list_of_method_set := remove_dups |}.

Definition opposite_order : Runtime :=
  {| list_of_str_set := fun l => reverse (remove_dups l);
     list_of_method_set := fun l => reverse (remove_dups l) |}.

Definition no_config : Config :=
  {| SEARCHPARAMS_KEEP_INTERACTIVE_ELEMENTS := None;
     TRACEPARAMS_TRACE_LENGTH_MAX := None |}.

Definition no_adv_trace (dx : Analysis) (trace : json)
  (links : gmap string (list string)) (d : CodeTrace.Direction) (n : Z)
  : res (bool * list string * gmap string (list string)) :=
  Ok (false, [], links).

(** [C calls B], [B calls A]. *)
Definition mA := method "LA;" "a" "()V".
Definition mB := method "LB;" "b" "()V".
Definition mC := method "LC;" "c" "()V".

Definition chain_app : Analysis :=
  make_dx [] [ (mA, [mB], []); (mB, [mC], [mA]); (mC, [], [mB]) ].

(** [C calls B], [B calls A], [A calls C]. *)
Definition cycle_app : Analysis :=
  make_dx [] [ (mA, [mB], [mC]); (mB, [mC], [mA]); (mC, [mA], [mB]) ].

Definition reverse_trace_A_to_C : json :=
  JDict [ ("TRACEFROM", JStr "LA;->a()V");
          ("TRACETO", JStr "LC;->c()V");
          ("RETURN", JStr "<tracepath> AS @tracepath_ac") ].

(** [LBad;->f] calls [LT;->a], [LGood;->g] calls [LT;->b]. *)
Definition mGood := method "LGood;" "g" "()V".
Definition mBad := method "LBad;" "f" "()V".
Definition mTa := method "LT;" "a" "()V".
Definition mTb := method "LT;" "b" "()V".

Definition filter_app : Analysis :=
  make_dx []
    [ (mTa, [mBad], []); (mTb, [mGood], []);
      (mBad, [], [mTa]); (mGood, [], [mTb]) ].

Definition calls_in_good : json :=
  JDict [ ("METHOD", JStr "LT;->a()V OR LT;->b()V");
          ("SEARCHLOCATION", JStr "<class>:LGood;");
          ("RETURN", JStr "<method> AS @caller") ].

Definition search_calls_in_good : json :=
  JDict [ ("SEARCHFORCALLTOMETHOD", calls_in_good) ].

Definition search_method_exists : json :=
  JDict [ ("SEARCHFORMETHOD", JDict [ ("METHOD", JStr "LT;->a()V") ]) ].

(** The only caller of [LT;->a] is an [onClick] method. *)
Definition mClick := method "LUi;" "onClick" "(Landroid/view/View;)V".

Definition click_app : Analysis := make_dx [] [ (mTa, [mClick], []) ].

Definition keep_config : Config :=
  {| SEARCHPARAMS_KEEP_INTERACTIVE_ELEMENTS := Some "True";
     TRACEPARAMS_TRACE_LENGTH_MAX := None |}.

(** A worker analysing a [.dex] file: no APK object.  The template has a
    manifest rule and a code rule that the application satisfies. *)
Definition dex_bug_template : list (string * json) :=
  [ ("METADATA", JDict []);
    ("MANIFESTPARAMS", JDict [ ("BASEPATH", JStr "manifest->application") ]);
    ("CODEPARAMS",
     JDict [ ("SEARCH",
              JDict [ ("SEARCHFORCALLTOMETHOD",
                       JDict [ ("METHOD", JStr "LT;->a()V") ]) ]) ]) ].

Definition manifest_always_satisfied (pkg : string) (template : json)
  (manifest : string) (links : gmap string (list string))
  : res (bool * gmap string (list string)) := Ok (true, links).

Definition no_graph (graph : json) (links : gmap string (list string))
  (pkg bug : string) : res unit := Ok tt.

Definition dex_worker : AppAnalyser.t unit :=
  {| AppAnalyser.master_bug_object := [ ("bug", JDict dex_bug_template) ];
     AppAnalyser.androguard_apk_obj := None;
     AppAnalyser.androguard_dx := filter_app;
     AppAnalyser.current_app_package_name := "classes.dex";
     AppAnalyser.current_app_bug_obj := ∅;
     AppAnalyser.current_graph_elements := [];
     AppAnalyser.current_bug_search_types := 0;
     AppAnalyser.current_bug_search_outcomes := 0;
     AppAnalyser.current_links := ∅ |}.

(** [LS1;] and [LS2;] extend [LBase;]; [LX;->x] calls [LS1;->m],
    [LY;->y] calls [LS2;->m]. *)
Definition class (name superclass : string) : ClassAnalysis :=
  {| class_get_name := name;
     get_superclassname := superclass;
     is_external := false;
     class_get_xref_from := [] |}.

Definition mS1 := method "LS1;" "m" "()V".
Definition mS2 := method "LS2;" "m" "()V".
Definition mX := method "LX;" "x" "()V".
Definition mY := method "LY;" "y" "()V".

Definition hierarchy_app : Analysis :=
  make_dx
    [ class "LBase;" "Ljava/lang/Object;"; class "LS1;" "LBase;";
      class "LS2;" "LBase;" ]
    [ (mS1, [mX], []); (mS2, [mY], []); (mX, [], [mS1]); (mY, [], [mS2]) ].

Definition search_calls_to_base : json :=
  JDict [ ("SEARCHFORCALLTOMETHOD",
           JDict [ ("METHOD", JStr "LBase;->m()V");
                   ("RETURN", JStr "<method> AS @caller") ]) ].

(** [LMain;->run] calls [LT;->one] and [LT;->two]. *)
Definition mMain := method "LMain;" "run" "()V".
Definition mT1 := method "LT;" "one" "()V".
Definition mT2 := method "LT;" "two" "()V".

Definition fan_app : Analysis :=
  make_dx []
    [ (mMain, [], [mT1; mT2]); (mT1, [mMain], []); (mT2, [mMain], []) ].

Definition forward_trace_to_T : json :=
  JDict [ ("TRACEFROM", JStr "LMain;->run()V");
          ("TRACETO", JStr "<class>:LT;");
          ("TRACEDIRECTION", JStr "FORWARD");
          ("RETURN", JStr "<tracepath> AS @tracepath_t") ].

(** A template whose SEARCH rule binds the identifier [@x] twice. *)
Definition duplicate_id_template : list (string * json) :=
  [ ("METADATA", JDict [ ("NAME", JStr "dup") ]);
    ("CODEPARAMS",
     JDict [ ("SEARCH",
              JDict [ ("SEARCHFORCALLTOMETHOD",
                       JDict [ ("METHOD", JStr "LT;->a()V");
                               ("RETURN",
                                JStr "<class> AS @x,<method> AS @x") ]) ]) ]) ].

(** The state in which [fn_trace_through_code] hands a Reverse trace to
    [LC;->c()V] with chain length limit 5 over to [fn_trace_handler]. *)
Definition cycle_trace_state : CodeTrace.t :=
  CodeTrace.set_trace_to_list ["LC;->c()V"]
    (CodeTrace.set_hardcoded_traceto true
       (CodeTrace.set_trace_length_max 5
          (CodeTrace.init no_config cycle_app ∅))).

(** [LX1;->m] calls [LS;->s], and [LX(i+1);->m] calls [LXi;->m]: five
    callers in a row that share the name and descriptor [m()V]. *)
Definition mS := method "LS;" "s" "()V".
Definition mX1 := method "LX1;" "m" "()V".
Definition mX2 := method "LX2;" "m" "()V".
Definition mX3 := method "LX3;" "m" "()V".
Definition mX4 := method "LX4;" "m" "()V".
Definition mX5 := method "LX5;" "m" "()V".

Definition dispatch_app : Analysis :=
  make_dx []
    [ (mS, [mX1], []); (mX1, [mX2], [mS]); (mX2, [mX3], [mX1]);
      (mX3, [mX4], [mX2]); (mX4, [mX5], [mX3]); (mX5, [], [mX4]) ].

Definition reverse_trace_S_to_T : json :=
  JDict [ ("TRACEFROM", JStr "LS;->s()V");
          ("TRACETO", JStr "LT;->m()V");
          ("TRACELENGTHMAX", JInt 5);
          ("RETURN", JStr "<tracepath> AS @tracepath_st") ].

(** The state in which [fn_trace_through_code] starts the second rule of
    a TRACE list on [chain_app], a trace to a method that does not
    exist, after the first rule has reported a chain. *)
Definition stale_trace_state : CodeTrace.t :=
  CodeTrace.set_output_chains ["LA;->a()V,LC;->c()V"]
    (CodeTrace.set_trace_to_list ["LNone;->n()V"]
       (CodeTrace.set_hardcoded_traceto true
          (CodeTrace.init no_config chain_app ∅))).

(** The state in which a trace on [chain_app] starts whose end point
    [LC;->c()V] comes from a link. *)
Definition linked_trace_state : CodeTrace.t :=
  CodeTrace.set_trace_to_list ["LC;->c()V"]
    (CodeTrace.init no_config chain_app ∅).

(** Two rules; [chain_app] has a path for the first, and no method the
    second could end at. *)
Definition trace_to_nowhere : json :=
  JDict [ ("TRACEFROM", JStr "LA;->a()V");
          ("TRACETO", JStr "LNone;->n()V");
          ("RETURN", JStr "<tracepath> AS @tracepath_2") ].

Definition two_trace_rules : json :=
  JList [ JDict [ ("TRACEFROM", JStr "LA;->a()V");
                  ("TRACETO", JStr "LC;->c()V");
                  ("RETURN", JStr "<tracepath> AS @tracepath_1") ];
          trace_to_nowhere ].

(** A code section with a search that [filter_app] satisfies and a key
    that is neither [SEARCH] nor [TRACE]. *)
Definition commented_bug_template : json :=
  JDict [ ("CODEPARAMS",
           JDict [ ("SEARCH",
                    JDict [ ("SEARCHFORCALLTOMETHOD",
                             JDict [ ("METHOD", JStr "LT;->a()V") ]) ]);
                   ("NOTE", JStr "reviewed") ]) ].

(** A template as the manifest analysis leaves it: the level
    [application] has a [LOOKFOR] and is flagged. *)
Definition flagged_bug_template : json :=
  JDict [ ("MANIFESTPARAMS",
           JDict [ ("BASEPATH", JStr "manifest->application");
                   ("application",
                    JDict [ ("LOOKFOR",
                             JDict [ ("TAGEXISTS",
                                      JStr "android:debuggable") ]);
                            ("_EXPECTED_LOOKFOR", JInt 1);
                            ("_IDENTIFIED_LOOKFOR", JInt 1);
                            ("_SATISFIED_LOOKFOR", JBool true) ]) ]) ].

(** A worker on [filter_app] with one template, which has a code rule
    that the application satisfies and no manifest rule. *)
Definition found_template : list (string * json) :=
  [ ("METADATA", JDict []);
    ("CODEPARAMS",
     JDict [ ("SEARCH",
              JDict [ ("SEARCHFORCALLTOMETHOD",
                       JDict [ ("METHOD", JStr "LT;->a()V") ]) ]) ]) ].

Definition found_worker : AppAnalyser.t unit :=
  {| AppAnalyser.master_bug_object := [ ("bug", JDict found_template) ];
     AppAnalyser.androguard_apk_obj := None;
     AppAnalyser.androguard_dx := filter_app;
     AppAnalyser.current_app_package_name := "classes.dex";
     AppAnalyser.current_app_bug_obj := ∅;
     AppAnalyser.current_graph_elements := [];
     AppAnalyser.current_bug_search_types := 0;
     AppAnalyser.current_bug_search_outcomes := 0;
     AppAnalyser.current_links := ∅ |}.

End Fixtures.

(** * Vocabulary of the properties *)

Import AnalysisUtils.

(** ** Link table *)

(** [new] holds, under every identifier, the values of [old] in their
    order, followed by values that are new and distinct. *)
Definition extends (old new : gmap string (list string)) : Prop :=
  forall id,
    (exists added,
        fn_get_linked_items new id = fn_get_linked_items old id ++ added
        /\ NoDup added
        /\ forall v, v ∈ added -> v ∉ fn_get_linked_items old id)
    /\ (is_Some (old !! id) -> is_Some (new !! id)).

(** ** Bug evaluator *)

Definition is_empty_dict (o : json) : bool :=
  match o with
  | JDict [] => true
  | _ => false
  end.

(** ** Template validation *)

(** The rule objects of a SEARCH or TRACE section. *)
Definition rule_objects (section : json) : list json :=
  match section with
  | JList l => l
  | _ => [section]
  end.

(** The value stored under [key] in a dictionary. *)
Definition field (key : string) (o : json) : option json :=
  match o with
  | JDict d => Py.lookup key d
  | _ => None
  end.

(** The elements of the RETURN of every search type of every rule object
    of the SEARCH section of a template. *)
Definition search_return_elements (template : list (string * json))
  : list json :=
  match Py.lookup "CODEPARAMS" template ≫= field "SEARCH" with
  | Some search =>
      flat_map
        (fun rule =>
           match rule with
           | JDict types =>
               flat_map
                 (fun '(_, search_object) =>
                    match field "RETURN" search_object with
                    | Some returnables =>
                        match TemplateParser.returnable_elements returnables
                        with
                        | Ok elements => elements
                        | _ => []
                        end
                    | None => []
                    end)
                 types
           | _ => []
           end)
        (rule_objects search)
  | None => []
  end.

(** The RETURN of every rule object of the TRACE section of a template. *)
Definition trace_returns (template : list (string * json)) : list json :=
  match Py.lookup "CODEPARAMS" template ≫= field "TRACE" with
  | Some trace => omap (field "RETURN") (rule_objects trace)
  | None => []
  end.

(** The identifier a RETURN element binds. *)
Definition return_id (element : json) : option string :=
  match element with
  | JStr s => PyStr.split " AS " s !! 1
  | _ => None
  end.

(** What validation asks of a SEARCH RETURN element. *)
Definition well_formed_search_return (element : json) : Prop :=
  exists s return_type id,
    element = JStr s
    /\ PyStr.split " AS " s = [return_type; id]
    /\ (return_type = "<class>" \/ return_type = "<method>")
    /\ PyStr.startswith id "@" = true.

(** What validation asks of a TRACE RETURN. *)
Definition well_formed_trace_return (returnables : json) : Prop :=
  exists s id,
    returnables = JStr s
    /\ PyStr.split " AS " s !! 0 = Some "<tracepath>"
    /\ PyStr.split " AS " s !! 1 = Some id
    /\ PyStr.startswith id "@tracepath_" = true.

(** What validation asks of a RETURN string of the manifest section. *)
Definition well_formed_manifest_return (s : string) : Prop :=
  exists value id,
    PyStr.split " AS " s = [value; id]
    /\ PyStr.startswith id "@" = true.

(** The template is in the master template object after
    [__fn_parse_template_file] although it was not there before. *)
Definition admitted (output_template_object : list (string * json))
  (template : json) : bool :=
  negb (length (fst (TemplateParser.fn_parse_template_file
                       output_template_object (Some template)))
        =? length output_template_object).

(** ** Set iteration order *)

(** Two outcomes agree: both are values related by [R], or both raise, or
    both exhaust the recursion bound. *)
Definition res_lift {A B : Type} (R : A -> B -> Prop) (r1 : res A)
  (r2 : res B) : Prop :=
  match r1, r2 with
  | Ok a, Ok b => R a b
  | Raise _, Raise _ => True
  | OutOfFuel, OutOfFuel => True
  | _, _ => False
  end.

(** Two memo tables hold the same classes under every key, up to the
    order in each list. *)
Definition memo_rel (m1 m2 : gmap string (list string)) : Prop :=
  forall k, option_Forall2 Permutation (m1 !! k) (m2 !! k).

(** Two [AnalysisUtils] objects of the same application whose subclass
    memos agree up to order. *)
Definition utils_rel (u1 u2 : AnalysisUtils.t) : Prop :=
  androguard_dx u1 = androguard_dx u2
  /\ memo_rel (subclasses u1) (subclasses u2).

(** The identifier is one [fn_convert_returns_to_links] turns into a
    link: it begins with [@]. *)
Definition is_link_key (id : string) : bool :=
  match id with
  | String c _ => is_at c
  | EmptyString => false
  end.

(** ** Trace engine *)

(** The call returns or raises: it does not exhaust the recursion bound;
    and a value it returns satisfies [Q]. *)
Definition terminates {A : Type} (r : res A) (Q : A -> Prop) : Prop :=
  match r with
  | Ok a => Q a
  | Raise _ => True
  | OutOfFuel => False
  end.

(** The number of entries of a chain, as [fn_analyse_trace_point] counts
    them. *)
Definition entries (trace_chain : string) : nat :=
  length (PyStr.split "," trace_chain).

Fixpoint commas (s : string) : nat :=
  match s with
  | EmptyString => 0
  | String c s' => (if Ascii.eqb c "," then 1 else 0) + commas s'
  end.

(** The names of the internal classes of an application. *)
Definition class_names (dx : Analysis) : list string :=
  map class_get_name (get_internal_classes dx).

(** The method-and-descriptor strings a reverse step can substitute for
    a caller named [method_part]. *)
Definition special_descriptors (method_part : string) : list string :=
  match CodeTrace.assoc method_part CodeTrace.special_case_object_list_reverse
  with
  | Some by_class => flat_map snd by_class
  | None => []
  end.

(** The signature a reverse step visits for a class and a
    method-and-descriptor string. *)
Definition reverse_name (class_part method_descriptor : string)
  : option string :=
  match PyStr.split "(" method_descriptor !! 0,
        PyStr.split "(" method_descriptor !! 1 with
  | Some method_part, Some desc_tail =>
      Some (CodeTrace.compound class_part method_part
              (String.append "(" desc_tail))
  | _, _ => None
  end.

(** The signature a forward step visits for a callee. *)
Definition forward_name (class_part method_part desc_part : string)
  : string :=
  match CodeTrace.assoc (String.append method_part desc_part)
          CodeTrace.special_case_object_list_forward with
  | Some m => CodeTrace.compound class_part m "."
  | None => CodeTrace.compound class_part method_part desc_part
  end.

(** Every signature a traversal of the application can visit, when
    [methods] lists the methods that occur in its cross-references. *)
Definition universe (dx : Analysis) (methods : list EncodedMethod)
  : list string :=
  flat_map
    (fun e =>
       match fn_get_class_method_desc_from_method e with
       | Ok (class_part, method_part, desc_part) =>
           forward_name class_part method_part desc_part
           :: flat_map
                (fun c =>
                   omap (reverse_name c)
                     (String.append method_part desc_part
                      :: special_descriptors method_part))
                (class_part :: class_names dx)
       | _ => []
       end)
    methods.

(** The application is finite: [methods] holds every method its
    cross-references name, and its class hierarchy has no cycle, so that
    the walks down ([fn_find_subclasses]) and up
    ([fn_find_superclasses]) stay within [depth] levels. *)
Record finite_app (dx : Analysis) (methods : list EncodedMethod)
  (depth : nat) : Prop := {
  depth_positive : 0 < depth;
  xref_from_closed :
    forall c m d ma e,
      ma ∈ find_methods dx c m d -> e ∈ get_xref_from ma -> e ∈ methods;
  xref_to_closed :
    forall c m d ma p,
      ma ∈ find_methods dx c m d -> p ∈ get_xref_to ma -> snd p ∈ methods;
  subclass_rank :
    exists rank : string -> nat,
      forall ic,
        ic ∈ get_internal_classes dx ->
        rank (class_get_name ic) < rank (get_superclassname ic)
        /\ rank (get_superclassname ic) < depth;
  superclass_rank :
    exists rank : string -> nat,
      forall c ca,
        ca ∈ find_classes dx c -> is_external ca = false ->
        rank (get_superclassname ca) < rank c /\ rank c < depth
}.

(** The memoised subclass lists hold names of internal classes only. *)
Definition memo_ok (dx : Analysis) (memo : gmap string (list string))
  : Prop :=
  forall k l, memo !! k = Some l -> forall c, c ∈ l -> c ∈ class_names dx.

(** The [AnalysisUtils] object is one of the application [dx], and its
    subclass memo names internal classes only. *)
Definition utils_inv (dx : Analysis) (u : AnalysisUtils.t) : Prop :=
  androguard_dx u = dx /\ memo_ok dx (subclasses u).

(** The chain was reported before the traversal started, or it has at
    most [L + 1] entries. *)
Definition reported (L : Z) (before : list string) (chain : string) : Prop :=
  chain ∈ before \/ (Z.of_nat (entries chain) <= L + 1)%Z.

(** What a traversal with chain length limit [L] keeps true of the
    [CodeTrace] object, [ok] being what it keeps true of the chains in
    [output_chains]. *)
Definition good (dx : Analysis) (L : Z) (ok : string -> Prop)
  (self : CodeTrace.t) : Prop :=
  utils_inv dx (CodeTrace.inst_analysis_utils self)
  /\ CodeTrace.trace_length_max self = L
  /\ forall chain, chain ∈ CodeTrace.output_chains self -> ok chain.

(** [self'] is a later state of the traversal that was in [self]. *)
Definition advances (dx : Analysis) (L : Z) (ok : string -> Prop)
  (self self' : CodeTrace.t) : Prop :=
  good dx L ok self'
  /\ CodeTrace.checked_methods self ⊆ CodeTrace.checked_methods self'.

(** The methods the rows of a method table name as callers or callees
    are all in [methods]. *)
Definition table_closed (table : Fixtures.MethodTable) (methods : list EncodedMethod)
  : bool :=
  forallb
    (fun row =>
       forallb (fun e => bool_decide (e ∈ methods))
         (snd (fst row) ++ snd row))
    table.

(** ** Outcomes *)

(** A value the call returns satisfies [Q]. *)
Definition ensures {A : Type} (r : res A) (Q : A -> Prop) : Prop :=
  match r with
  | Ok a => Q a
  | _ => True
  end.

(** ** Class hierarchy *)

(** [x] is an internal class below [c]: its superclass is [c], or the
    superclass of an internal class is [c] and [x] is below that one. *)
Inductive descendant (dx : Analysis) : string -> string -> Prop :=
| descendant_direct (ic : ClassAnalysis) :
    ic ∈ get_internal_classes dx ->
    descendant dx (get_superclassname ic) (class_get_name ic)
| descendant_step (ic : ClassAnalysis) (x : string) :
    ic ∈ get_internal_classes dx ->
    descendant dx (class_get_name ic) x ->
    descendant dx (get_superclassname ic) x.

(** Every list of the subclass memo holds the classes below its key,
    each once. *)
Definition memo_exact (dx : Analysis) (memo : gmap string (list string))
  : Prop :=
  forall k l,
    memo !! k = Some l -> NoDup l /\ forall x, x ∈ l <-> descendant dx k x.

(** ** Strings *)

(** No separator begins in [a] when [a] is followed by [rest]. *)
Definition clean (sep a rest : string) : Prop :=
  forall a1 c a2,
    a = String.append a1 (String c a2) ->
    String.prefix sep (String c (String.append a2 rest)) = false.

(** ** Trace engine: what a traversal changes *)

(** The attributes of a [CodeTrace] object that describe the rule being
    evaluated and its results so far are the same in [self] and
    [self']. *)
Definition same_rule (self self' : CodeTrace.t) : Prop :=
  CodeTrace.default_trace_length_max self'
  = CodeTrace.default_trace_length_max self
  /\ CodeTrace.trace_length_max self' = CodeTrace.trace_length_max self
  /\ CodeTrace.trace_direction self' = CodeTrace.trace_direction self
  /\ CodeTrace.trace_type self' = CodeTrace.trace_type self
  /\ CodeTrace.current_links self' = CodeTrace.current_links self
  /\ CodeTrace.current_returns self' = CodeTrace.current_returns self
  /\ CodeTrace.hardcoded_traceto self' = CodeTrace.hardcoded_traceto self
  /\ CodeTrace.from_class_method self' = CodeTrace.from_class_method self
  /\ CodeTrace.to_class_method self' = CodeTrace.to_class_method self
  /\ CodeTrace.trace_to_list self' = CodeTrace.trace_to_list self.

(** The signature [name] is one of the end points of the rule: it, or
    its class when the end points are classes, is in [trace_to_list]. *)
Definition exact_end_point (self : CodeTrace.t) (name : string) : Prop :=
  exists check_value,
    (if String.eqb (CodeTrace.to_class_method self) "<class>"
     then PyStr.split "->" name !! 0
     else Some name) = Some check_value
    /\ check_value ∈ CodeTrace.trace_to_list self.

(** What a traversal that is given the chain [chain] does to the
    object. *)
Record trace_step (chain : string) (self self' : CodeTrace.t) : Prop := {
  step_rule : same_rule self self';
  step_prefix :
    CodeTrace.output_chains self `prefix_of` CodeTrace.output_chains self';
  step_nodup :
    NoDup (CodeTrace.output_chains self) ->
    NoDup (CodeTrace.output_chains self');
  step_checked :
    CodeTrace.checked_methods self ⊆ CodeTrace.checked_methods self';
  step_stop : CodeTrace.stop_condition self' = CodeTrace.STOP_CONDITION_FALSE;
  step_new :
    CodeTrace.hardcoded_traceto self = false ->
    forall reported,
      reported ∈ CodeTrace.output_chains self' ->
      reported ∈ CodeTrace.output_chains self
      \/ exists name,
           exact_end_point self name
           /\ reported = CodeTrace.extend_chain chain name
}.

(** What [fn_trace_handler], started on the candidates [froms], does to
    the object. *)
Record handler_step (froms : list string) (self self' : CodeTrace.t)
  : Prop := {
  handler_rule : same_rule self self';
  handler_prefix :
    CodeTrace.output_chains self `prefix_of` CodeTrace.output_chains self';
  handler_nodup :
    NoDup (CodeTrace.output_chains self) ->
    NoDup (CodeTrace.output_chains self');
  handler_new :
    CodeTrace.hardcoded_traceto self = false ->
    forall reported,
      reported ∈ CodeTrace.output_chains self' ->
      reported ∈ CodeTrace.output_chains self
      \/ exists trace_from name,
           trace_from ∈ froms
           /\ exact_end_point self name
           /\ reported = CodeTrace.extend_chain trace_from name
}.

(** ** Trace engine: mode *)

(** The rule object does not ask for the Advanced engine. *)
Definition basic_rule (rule : json) : bool :=
  match rule with
  | JDict d =>
      match Py.lookup "TRACETYPE" d with
      | Some trace_type => negb (Py.eq_str trace_type "ADVANCED")
      | None => true
      end
  | _ => true
  end.

(** ** Search engine: what a search changes *)

(** The search engine reads [current_links] and [search_template] and
    never assigns them. *)
Definition keeps_links (s s' : CodeSearch.t) : Prop :=
  CodeSearch.current_links s' = CodeSearch.current_links s
  /\ CodeSearch.search_template s' = CodeSearch.search_template s.

(** [x] is above the classes [find_classes] returns for [c]: it is the
    superclass of one of them that is not external, or it is above that
    superclass. *)
Inductive ancestor (dx : Analysis) : string -> string -> Prop :=
| ancestor_direct (c : string) (co : ClassAnalysis) :
    co ∈ find_classes dx c -> is_external co = false ->
    ancestor dx c (get_superclassname co)
| ancestor_step (c : string) (co : ClassAnalysis) (x : string) :
    co ∈ find_classes dx c -> is_external co = false ->
    ancestor dx (get_superclassname co) x ->
    ancestor dx c x.

(** Every list of the superclass memo holds the classes above its key,
    each once. *)
Definition super_memo_exact (dx : Analysis)
  (memo : gmap string (list string)) : Prop :=
  forall k l,
    memo !! k = Some l -> NoDup l /\ forall x, x ∈ l <-> ancestor dx k x.

(** ** Manifest rules *)

(** The levels of a section of a template: the dictionary itself and
    the levels of the dictionaries stored in it. *)
Inductive level : json -> list (string * json) -> Prop :=
| level_here (d : list (string * json)) : level (JDict d) d
| level_below (d : list (string * json)) (key : string)
    (below lvl : list (string * json)) :
    (key, JDict below) ∈ d -> level (JDict below) lvl ->
    level (JDict d) lvl.

(** The level is flagged: [_SATISFIED_LOOKFOR] is there and equals
    [True]. *)
Definition flagged (lvl : list (string * json)) : Prop :=
  exists v,
    Py.lookup "_SATISFIED_LOOKFOR" lvl = Some v
    /\ ManifestAnalyser.eq_true v = true.

(** A level that has a [LOOKFOR] is flagged. *)
Definition level_satisfied (lvl : list (string * json)) : Prop :=
  "LOOKFOR" ∈ lvl.*1 -> flagged lvl.

(** ** Templates of the master object *)

(** The section [key] of a template is there and is not the empty
    dictionary. *)
Definition section_present (key : string) (template : list (string * json))
  : bool :=
  match Py.lookup key template with
  | None => false
  | Some (JDict []) => false
  | Some _ => true
  end.

(** The template has a rule section, and its [METADATA] holds no
    [NAME]. *)
Definition template_shape (template : json) : Prop :=
  exists d metadata,
    template = JDict d
    /\ section_present "MANIFESTPARAMS" d || section_present "CODEPARAMS" d
       = true
    /\ Py.lookup "METADATA" d = Some (JDict metadata)
    /\ Py.lookup "NAME" metadata = None.

(** * Properties *)

Import Fixtures.

(** ** The result monad *)

Lemma for_each_raise_first {A S : Type} (x : A) (l : list A)
  (body : A -> S -> res S) (st : S) (e : exn) :
  body x st = Raise e -> for_each (x :: l) body st = Raise e.
Proof. intros H. simpl. rewrite H. reflexivity. Qed.

Lemma res_bind_ok {A B : Type} (m : res A) (k : A -> res B) (b : B) :
  res_bind m k = Ok b -> exists a, m = Ok a /\ k a = Ok b.
Proof. destruct m; simpl; intros H; try discriminate. eauto. Qed.

(** ** Search engine *)

(** C2 (the code at a failing input): a SEARCH rule given as a list whose
    first element is a rule object is never evaluated to a verdict:
    [fn_process_individual_search_item] iterates the list itself and
    indexes it with the rule object, which raises [TypeError]. *)
Theorem search_rule_list_raises :
  forall rt depth config dx rule rest links,
    CodeSearch.fn_perform_code_search rt depth config dx
      (JList (JDict rule :: rest)) links
    = Raise TypeError.
Proof. intros. reflexivity. Qed.

(** C3 (the code at every input): the three existence searches never
    return a boolean.  [fn_search_for_presence_of_method] and
    [fn_search_for_presence_of_class] read a list they never created, and
    [fn_search_for_presence_of_string] calls [fn_get_strings], which reads
    an unbound name. *)
Theorem existence_search_never_returns :
  forall rt depth self search_object,
    (forall candidates,
        is_ok (CodeSearch.fn_search_for_presence_of_method rt depth self
                 search_object candidates) = false)
    /\ (forall candidates,
          is_ok (CodeSearch.fn_search_for_presence_of_class rt depth self
                   search_object candidates) = false)
    /\ (forall candidate candidates,
          CodeSearch.fn_search_for_presence_of_string self search_object
            (candidate :: candidates)
          = Raise (NameError "search_string"))
    /\ CodeSearch.fn_perform_code_search insertion_order 5 no_config
         filter_app search_method_exists ∅
       = Raise (NameError "all_methods").
Proof.
  intros rt depth self search_object.
  split; [|split; [|split; [reflexivity|reflexivity]]].
  - intros [|c l]; [reflexivity|].
    unfold CodeSearch.fn_search_for_presence_of_method. simpl.
    destruct (fn_get_class_method_desc_from_string c) as [[[cp mp] dp]| |];
      simpl; try reflexivity.
    destruct (CodeSearch.find_subclasses rt depth cp self) as [[subs self']| |];
      reflexivity.
  - intros [|c l]; [reflexivity|].
    unfold CodeSearch.fn_search_for_presence_of_class. simpl.
    destruct (CodeSearch.find_subclasses rt depth c self) as [[subs self']| |];
      reflexivity.
Qed.

(** C5 (the code at a failing input): the search asks for calls to
    [LT;->a] or [LT;->b] located in class [LGood;].  The only caller of
    [LT;->a] is in [LBad;]: the filter leaves nothing of it, and the
    unfiltered caller is recorded all the same.  The caller of [LT;->b]
    satisfies the search, and [LBad;->f()V] is bound with it. *)
Theorem filtered_out_call_site_is_bound :
  CodeSearch.fn_get_methods_satisfying_location_reqs
    {| CodeSearch.inst_analysis_utils := AnalysisUtils.init no_config filter_app;
       CodeSearch.search_template := search_calls_in_good;
       CodeSearch.current_links := ∅;
       CodeSearch.current_returns := [] |}
    [mBad] "<class>:LGood;" = Ok []
  /\ CodeSearch.fn_perform_code_search insertion_order 5 no_config filter_app
       search_calls_in_good ∅
     = Ok (true, {[ "@caller" := ["LBad;->f()V"; "LGood;->g()V"] ]}).
Proof. split; vm_compute; reflexivity. Qed.

(** C6 (the code at every configuration): [configparser] returns the
    option as a string, a string is neither [True] nor [False], and the
    constructor falls back to [False]: with the flag set, a call site in
    [onClick] is still dropped. *)
Theorem keep_interactive_flag_never_set :
  (forall config dx,
      keep_user_interaction (AnalysisUtils.init config dx) = PyBool false)
  /\ fn_get_calls_to_method (AnalysisUtils.init keep_config click_app)
       "LT;" "a" "()V" = [].
Proof.
  split; [|reflexivity].
  intros [[value|] n] dx; reflexivity.
Qed.

(** ** Trace engine *)

(** C1 (the code at the input of the claim): with [C calls B] and
    [B calls A], the Reverse trace from [A] to [C] binds the chain
    [C,A]: the hop [B], which does not meet the stop condition, is
    never added to the chain. *)
Theorem reverse_trace_drops_intermediate_hop :
  CodeTrace.fn_perform_code_trace insertion_order 5 no_adv_trace 10
    no_config chain_app reverse_trace_A_to_C ∅
  = Ok (true, {[ "@tracepath_ac" := ["LC;->c()V,LA;->a()V"] ]}).
Proof. vm_compute. reflexivity. Qed.

(** ** Link table *)

Lemma for_each_inv {A S : Type} (P : S -> Prop) (l : list A)
  (body : A -> S -> res S) :
  (forall x s s', x ∈ l -> P s -> body x s = Ok s' -> P s') ->
  forall st st', P st -> for_each l body st = Ok st' -> P st'.
Proof.
  induction l as [|x l IH]; intros Hbody st st' HP Hrun; simpl in Hrun.
  - congruence.
  - apply res_bind_ok in Hrun as (s1 & Hx & Hrest).
    eapply IH; [| |exact Hrest].
    + intros y s s' Hy. apply Hbody. by right.
    + eapply Hbody; [by left|exact HP|exact Hx].
Qed.

Lemma extends_refl (links : gmap string (list string)) : extends links links.
Proof.
  intros id. split; [|done].
  exists []. rewrite app_nil_r. split; [done|]. split; [constructor|].
  intros v Hv. by apply elem_of_nil in Hv.
Qed.

Lemma extends_trans (a b c : gmap string (list string)) :
  extends a b -> extends b c -> extends a c.
Proof.
  intros Hab Hbc id.
  destruct (Hab id) as [(add1 & E1 & N1 & D1) S1].
  destruct (Hbc id) as [(add2 & E2 & N2 & D2) S2].
  split; [|auto].
  exists (add1 ++ add2). rewrite E2, E1, app_assoc. split; [done|].
  split.
  - apply NoDup_app. split; [done|]. split; [|done].
    intros v Hv1 Hv2. apply (D2 v Hv2). rewrite E1.
    apply elem_of_app. by right.
  - intros v Hv. apply elem_of_app in Hv as [Hv|Hv]; [by apply D1|].
    intros Hold. apply (D2 v Hv). rewrite E1. apply elem_of_app. by left.
Qed.

Lemma linked_items_insert (links : gmap string (list string))
  (key id : string) (values : list string) :
  fn_get_linked_items (<[key := values]> links) id
  = if decide (key = id) then values else fn_get_linked_items links id.
Proof.
  unfold fn_get_linked_items. rewrite lookup_insert.
  destruct (decide (key = id)); reflexivity.
Qed.

Lemma bind_link_extends (key value : string)
  (links links' : gmap string (list string)) :
  bind_link key value links = Ok links' -> extends links links'.
Proof.
  unfold bind_link. destruct (py_first_char key) as [c| |]; simpl; try done.
  destruct (is_at c); simpl; [|intros [= <-]; apply extends_refl].
  destruct (links !! key) as [values|] eqn:Hkey.
  - case_bool_decide as Hin; intros [= <-]; [apply extends_refl|].
    intros id. rewrite linked_items_insert. split.
    + destruct (decide (key = id)) as [<-|Hne].
      * exists [value]. unfold fn_get_linked_items. rewrite Hkey.
        split; [done|]. split; [apply NoDup_singleton|].
        intros v Hv. apply list_elem_of_singleton in Hv as ->. done.
      * exists []. rewrite app_nil_r. split; [done|].
        split; [constructor|]. intros v Hv. by apply elem_of_nil in Hv.
    + intros Hsome. rewrite lookup_insert. by destruct (decide (key = id)).
  - intros [= <-]. intros id. rewrite linked_items_insert. split.
    + destruct (decide (key = id)) as [<-|Hne].
      * exists [value]. unfold fn_get_linked_items. rewrite Hkey.
        split; [done|]. split; [apply NoDup_singleton|].
        intros v Hv HF. by apply elem_of_nil in HF.
      * exists []. rewrite app_nil_r. split; [done|].
        split; [constructor|]. intros v Hv. by apply elem_of_nil in Hv.
    + intros Hsome. rewrite lookup_insert. by destruct (decide (key = id)).
Qed.

Lemma convert_returns_extends (returns : list (list (string * string)))
  (links links' : gmap string (list string)) :
  fn_convert_returns_to_links returns links = Ok links' ->
  extends links links'.
Proof.
  unfold fn_convert_returns_to_links.
  apply (for_each_inv (extends links)); [|apply extends_refl].
  intros return_object s s' _ Hs.
  apply (for_each_inv (extends links)); [|exact Hs].
  intros [key value] s1 s2 _ Hs1 Hbind.
  eapply extends_trans; [exact Hs1|]. by eapply bind_link_extends.
Qed.

(** C4: the link table is append-only.  Binding a value under an
    identifier appends it to the identifier's list when it is absent and
    changes nothing when it is present, and leaves every other identifier
    alone; after any conversion of returns to links every identifier
    still has its old values, in their order, followed by the new ones,
    none of them a repetition; resolving an identifier the table does
    not have gives the empty list. *)
Theorem link_table_append_only :
  (forall id value links,
      PyStr.startswith id "@" = true ->
      exists links',
        fn_convert_returns_to_links [[(id, value)]] links = Ok links'
        /\ fn_get_linked_items links' id
           = (if decide (value ∈ fn_get_linked_items links id)
              then fn_get_linked_items links id
              else fn_get_linked_items links id ++ [value])
        /\ forall id', id' <> id -> links' !! id' = links !! id')
  /\ (forall returns links links',
        fn_convert_returns_to_links returns links = Ok links' ->
        extends links links')
  /\ (forall links id,
        links !! id = None -> fn_get_linked_items links id = []).
Proof.
  split; [|split].
  - intros id value links Hat.
    destruct id as [|c id]; [discriminate|].
    unfold PyStr.startswith in Hat. cbn [String.prefix] in Hat.
    destruct (Ascii.ascii_dec "@" c) as [Hc|]; [clear Hat|discriminate].
    subst c. set (key := String "@" id).
    assert (Hrun : forall links',
               bind_link key value links = Ok links' ->
               fn_convert_returns_to_links [[(key, value)]] links = Ok links').
    { intros links' H. unfold fn_convert_returns_to_links. simpl.
      by rewrite H. }
    assert (Hbind : bind_link key value links
                    = match links !! key with
                      | Some values =>
                          if bool_decide (value ∈ values) then Ok links
                          else Ok (<[key := values ++ [value]]> links)
                      | None => Ok (<[key := [value]]> links)
                      end) by reflexivity.
    destruct (links !! key) as [values|] eqn:Hkey.
    + assert (Hold : fn_get_linked_items links key = values)
        by (unfold fn_get_linked_items; by rewrite Hkey).
      rewrite Hold. case_bool_decide as Hin.
      * exists links. split; [by apply Hrun|]. split; [|done].
        rewrite Hold. by destruct (decide (value ∈ values)).
      * eexists. split; [by apply Hrun|]. split.
        -- rewrite linked_items_insert.
           destruct (decide (key = key)); [|done].
           by destruct (decide (value ∈ values)).
        -- intros id' Hne. by rewrite lookup_insert_ne.
    + assert (Hold : fn_get_linked_items links key = [])
        by (unfold fn_get_linked_items; by rewrite Hkey).
      rewrite Hold. eexists. split; [by apply Hrun|]. split.
      * rewrite linked_items_insert.
        destruct (decide (key = key)); [|done].
        destruct (decide (value ∈ [])) as [Hin|]; [|done].
        by apply elem_of_nil in Hin.
      * intros id' Hne. by rewrite lookup_insert_ne.
  - apply convert_returns_extends.
  - intros links id Hnone. unfold fn_get_linked_items. by rewrite Hnone.
Qed.

Lemma link_table_append_only_witness :
  extends ∅ {[ "@x" := ["a"; "b"] ]}
  /\ fn_get_linked_items {[ "@x" := ["a"; "b"] ]} "@y" = [].
Proof.
  destruct link_table_append_only as (_ & Hext & Hget). split.
  - apply (Hext [[("@x", "a")]; [("@x", "b"); ("plain", "c")];
                 [("@x", "a")]] ∅).
    vm_compute. reflexivity.
  - apply Hget. vm_compute. reflexivity.
Defined.

(** ** Bug evaluator *)

Lemma lookup_unique (k : string) (v : json) (d : list (string * json)) :
  NoDup d.*1 -> (k, v) ∈ d -> Py.lookup k d = Some v.
Proof.
  induction d as [|[k' v'] d IH]; intros Hnd Hin.
  - by apply elem_of_nil in Hin.
  - simpl in *. apply NoDup_cons in Hnd as [Hk' Hnd].
    apply elem_of_cons in Hin as [[= <- <-]|Hin].
    + by rewrite String.eqb_refl.
    + destruct (String.eqb_spec k k') as [->|_]; [|by apply IH].
      exfalso. apply Hk'. apply list_elem_of_fmap. by exists (k', v).
Qed.

Lemma lookup_key_in_iter (k : string) (v : json) (d : list (string * json)) :
  Py.lookup k d = Some v -> JStr k ∈ map (fun kv => JStr (fst kv)) d.
Proof.
  induction d as [|[k' v'] d IH]; simpl; [done|].
  destruct (String.eqb_spec k k') as [->|_]; intros H.
  - by left.
  - right. by apply IH.
Qed.

Section BugEvaluator.
Variable rt : Runtime.
Variable depth : nat.
Variable fuel : nat.
Variable config : Config.
Variable fn_start_adv_trace :
  Analysis -> json -> gmap string (list string) -> CodeTrace.Direction ->
  Z -> res (bool * list string * gmap string (list string)).
Variable fn_perform_manifest_analysis :
  string -> json -> string -> gmap string (list string) ->
  res (bool * gmap string (list string)).
Variable Graphables : Type.
Variable fn_analyse_graph_elements :
  json -> gmap string (list string) -> string -> string -> res Graphables.

Abbreviation state := (AppAnalyser.t Graphables).
Abbreviation handle_manifest :=
  (AppAnalyser.fn_handle_manifest_analysis fn_perform_manifest_analysis
     Graphables).
Abbreviation handle_code :=
  (AppAnalyser.fn_handle_code_analysis rt depth fuel config
     fn_start_adv_trace Graphables).
Abbreviation process_graphables :=
  (AppAnalyser.fn_process_graphables Graphables fn_analyse_graph_elements).
Abbreviation per_bug :=
  (AppAnalyser.fn_per_bug_analysis rt depth fuel config fn_start_adv_trace
     fn_perform_manifest_analysis Graphables fn_analyse_graph_elements).

(** What the handlers of one bug never touch. *)
Definition same_app (s s' : state) : Prop :=
  AppAnalyser.master_bug_object s' = AppAnalyser.master_bug_object s
  /\ AppAnalyser.androguard_apk_obj s' = AppAnalyser.androguard_apk_obj s
  /\ AppAnalyser.current_app_bug_obj s' = AppAnalyser.current_app_bug_obj s.

(** At least [k] of the categories counted so far are unsatisfied. *)
Definition gap (s : state) (k : nat) : Prop :=
  AppAnalyser.current_bug_search_outcomes s + k
  <= AppAnalyser.current_bug_search_types s.

Lemma handle_manifest_dex (bug : string) (s s' : state) (k : nat) :
  AppAnalyser.androguard_apk_obj s = None ->
  handle_manifest bug s = Ok s' ->
  gap s k ->
  same_app s s' /\ gap s' k.
Proof.
  intros Hapk Hrun Hgap. unfold AppAnalyser.fn_handle_manifest_analysis in Hrun.
  apply res_bind_ok in Hrun as (template & _ & Hrun).
  apply res_bind_ok in Hrun as (manifest & _ & Hrun).
  unfold same_app, gap in *.
  destruct manifest as [| | | |[|]]; cbn in Hrun; try rewrite Hapk in Hrun;
    injection Hrun as <-; simpl; split; auto with lia.
Qed.

Lemma handle_manifest_dex_counts (bug : string) (s s' : state) (k : nat)
  (template : list (string * json)) (manifest : json) :
  AppAnalyser.androguard_apk_obj s = None ->
  AppAnalyser.bug_template s bug = Ok (JDict template) ->
  Py.lookup "MANIFESTPARAMS" template = Some manifest ->
  is_empty_dict manifest = false ->
  handle_manifest bug s = Ok s' ->
  gap s k ->
  gap s' (S k).
Proof.
  intros Hapk Htemplate Hlookup Hne Hrun Hgap.
  unfold AppAnalyser.fn_handle_manifest_analysis in Hrun.
  rewrite Htemplate in Hrun. cbn [res_bind Py.getitem] in Hrun.
  rewrite Hlookup in Hrun. unfold gap in *.
  destruct manifest as [| | | |[|]]; try discriminate; cbn in Hrun;
    rewrite Hapk in Hrun; injection Hrun as <-; simpl; lia.
Qed.

Lemma handle_code_counts (bug : string) (s s' : state) (k : nat) :
  handle_code bug s = Ok s' ->
  gap s k ->
  same_app s s' /\ gap s' k.
Proof.
  intros Hrun Hgap. unfold AppAnalyser.fn_handle_code_analysis in Hrun.
  apply res_bind_ok in Hrun as (template & _ & Hrun).
  apply res_bind_ok in Hrun as (code_obj & _ & Hrun).
  unfold same_app, gap in *.
  assert (Hcall : forall s0 : state,
             s0 = AppAnalyser.set_current_bug_search_types
                    (AppAnalyser.current_bug_search_types s + 1) s ->
             (let* result :=
                CodeAnalyser.fn_perform_code_analysis rt depth fuel config
                  fn_start_adv_trace
                  (AppAnalyser.current_app_package_name s0) template
                  (AppAnalyser.androguard_dx s0)
                  (AppAnalyser.current_links s0) in
              match result with
              | None => Raise TypeError
              | Some (code_output, links) =>
                  let self :=
                    AppAnalyser.set_current_links links s0 in
                  if code_output
                  then Ok (AppAnalyser.set_current_bug_search_outcomes
                             (AppAnalyser.current_bug_search_outcomes self
                              + 1) self)
                  else Ok self
              end) = Ok s' ->
             (AppAnalyser.master_bug_object s'
              = AppAnalyser.master_bug_object s
              /\ AppAnalyser.androguard_apk_obj s'
                 = AppAnalyser.androguard_apk_obj s
              /\ AppAnalyser.current_app_bug_obj s'
                 = AppAnalyser.current_app_bug_obj s)
             /\ AppAnalyser.current_bug_search_outcomes s' + k
                <= AppAnalyser.current_bug_search_types s').
  { intros s0 -> H. apply res_bind_ok in H as ([[[] links]|] & _ & H);
      try discriminate; injection H as <-; simpl; split; auto with lia. }
  destruct code_obj as [| | | |[|]];
    try (by eapply Hcall; [reflexivity|exact Hrun]).
  injection Hrun as <-. auto.
Qed.

(** The loop of [fn_per_bug_analysis] over the keys of one template. *)
Definition handle_keys (bug : string) (keys : list json) (s : state)
  : res state :=
  for_each keys
    (fun searchparams_key self =>
       let* self :=
         (if Py.eq_str searchparams_key "MANIFESTPARAMS"
          then handle_manifest bug self
          else Ok self) in
       if Py.eq_str searchparams_key "CODEPARAMS"
       then handle_code bug self
       else Ok self)
    s.

Lemma handle_keys_counts (bug : string) (keys : list json) :
  forall (s s' : state) (k : nat),
    AppAnalyser.androguard_apk_obj s = None ->
    handle_keys bug keys s = Ok s' ->
    gap s k ->
    same_app s s' /\ gap s' k.
Proof.
  unfold handle_keys.
  induction keys as [|key keys IH]; intros s s' k Hapk Hrun Hgap.
  - injection Hrun as <-. unfold same_app. auto.
  - simpl in Hrun. apply res_bind_ok in Hrun as (s2 & Hkey & Hrest).
    apply res_bind_ok in Hkey as (s1 & Hman & Hcode).
    assert (H1 : same_app s s1 /\ gap s1 k).
    { destruct (Py.eq_str key "MANIFESTPARAMS").
      - by eapply handle_manifest_dex.
      - injection Hman as <-. unfold same_app. auto. }
    destruct H1 as [(M1 & A1 & B1) G1].
    assert (H2 : same_app s1 s2 /\ gap s2 k).
    { destruct (Py.eq_str key "CODEPARAMS").
      - by eapply handle_code_counts.
      - injection Hcode as <-. unfold same_app. auto. }
    destruct H2 as [(M2 & A2 & B2) G2].
    destruct (IH s2 s' k) as [(M3 & A3 & B3) G3]; [congruence|done|done|].
    unfold same_app. repeat split; congruence.
Qed.

Lemma handle_keys_manifest (bug : string) (template : list (string * json))
  (manifest : json) (keys : list json) :
  Py.lookup "MANIFESTPARAMS" template = Some manifest ->
  is_empty_dict manifest = false ->
  JStr "MANIFESTPARAMS" ∈ keys ->
  forall s s' : state,
    AppAnalyser.androguard_apk_obj s = None ->
    AppAnalyser.bug_template s bug = Ok (JDict template) ->
    handle_keys bug keys s = Ok s' ->
    gap s 0 ->
    gap s' 1.
Proof.
  intros Hlookup Hne. unfold handle_keys.
  induction keys as [|key keys IH]; intros Hin s s' Hapk Htemplate Hrun Hgap.
  - by apply elem_of_nil in Hin.
  - simpl in Hrun. apply res_bind_ok in Hrun as (s2 & Hkey & Hrest).
    apply res_bind_ok in Hkey as (s1 & Hman & Hcode).
    destruct (Py.eq_str key "MANIFESTPARAMS") eqn:Hismanifest.
    + (* the manifest category is counted here and never satisfied *)
      destruct (handle_manifest_dex _ _ _ 0 Hapk Hman Hgap)
        as [(M1 & A1 & B1) _].
      pose proof (handle_manifest_dex_counts _ _ _ 0 _ _ Hapk Htemplate
                    Hlookup Hne Hman Hgap) as G1.
      assert (H2 : same_app s1 s2 /\ gap s2 1).
      { destruct (Py.eq_str key "CODEPARAMS").
        - by eapply handle_code_counts.
        - injection Hcode as <-. unfold same_app. auto. }
      destruct H2 as [(M2 & A2 & B2) G2].
      eapply (handle_keys_counts bug keys s2 s' 1); [congruence|done|done].
    + injection Hman as <-.
      assert (H2 : same_app s s2 /\ gap s2 0).
      { destruct (Py.eq_str key "CODEPARAMS").
        - by eapply handle_code_counts.
        - injection Hcode as <-. unfold same_app. auto. }
      destruct H2 as [(M2 & A2 & B2) G2].
      apply (IH) with (s := s2); [|congruence| |done|done].
      * apply elem_of_cons in Hin as [Hkey|Hin]; [|done].
        subst key. vm_compute in Hismanifest. discriminate.
      * unfold AppAnalyser.bug_template in *. by rewrite M2.
Qed.

Lemma process_graphables_same_app (bug : string) (s s' : state) :
  process_graphables bug s = Ok s' -> same_app s s'.
Proof.
  unfold AppAnalyser.fn_process_graphables. intros Hrun.
  apply res_bind_ok in Hrun as (template & _ & Hrun).
  apply res_bind_ok in Hrun as (graph_obj & _ & Hrun).
  assert (Hcall :
            (let* graphables :=
               fn_analyse_graph_elements graph_obj
                 (AppAnalyser.current_links s)
                 (AppAnalyser.current_app_package_name s) bug in
             Ok (AppAnalyser.set_current_graph_elements
                   (AppAnalyser.current_graph_elements s ++ [graphables]) s))
            = Ok s' -> same_app s s').
  { intros H. apply res_bind_ok in H as (g & _ & H). injection H as <-.
    unfold same_app. auto. }
  destruct graph_obj as [| | |[|]|]; try (by apply Hcall).
  injection Hrun as <-. unfold same_app. auto.
Qed.

Lemma initialised_false (bugs : list (string * json)) (bug : string) :
  forall obj : gmap string bool,
    bug ∈ bugs.*1 \/ obj !! bug = Some false ->
    fold_left (fun obj b => <[fst b := false]> obj) bugs obj !! bug
    = Some false.
Proof.
  induction bugs as [|[b t] bugs IH]; intros obj H; simpl.
  - destruct H as [H|H]; [by apply elem_of_nil in H|done].
  - apply IH. simpl in H. destruct H as [H|H].
    + apply elem_of_cons in H as [->|H]; [right|by left].
      by rewrite lookup_insert_eq.
    + right. destruct (decide (b = bug)) as [->|Hne].
      * by rewrite lookup_insert_eq.
      * by rewrite lookup_insert_ne.
Qed.

(** C10: when a [.dex] file is analysed there is no APK object, and every
    bug whose template has a non-empty MANIFESTPARAMS section is reported
    unsatisfied, whatever the code analysis finds: the manifest category
    is counted and its evaluation is skipped, so the count of satisfied
    categories stays below the count of categories. *)
Theorem manifest_bug_unsatisfied_on_dex :
  forall (s s' : state) (bug : string) (template : list (string * json))
         (manifest : json),
    AppAnalyser.androguard_apk_obj s = None ->
    NoDup (AppAnalyser.master_bug_object s).*1 ->
    (bug, JDict template) ∈ AppAnalyser.master_bug_object s ->
    Py.lookup "MANIFESTPARAMS" template = Some manifest ->
    is_empty_dict manifest = false ->
    AppAnalyser.analyse_app rt depth fuel config fn_start_adv_trace
      fn_perform_manifest_analysis Graphables fn_analyse_graph_elements s
    = Ok s' ->
    AppAnalyser.current_app_bug_obj s' !! bug = Some false.
Proof.
  intros s s' bug template manifest Hapk Hnd Hin Hlookup Hne Hrun.
  unfold AppAnalyser.analyse_app, AppAnalyser.fn_per_bug_analysis in Hrun.
  set (M := AppAnalyser.master_bug_object s) in *.
  set (Inv := fun x : state =>
                AppAnalyser.master_bug_object x = M
                /\ AppAnalyser.androguard_apk_obj x = None
                /\ AppAnalyser.current_app_bug_obj x !! bug = Some false).
  cut (Inv s'); [by intros (_ & _ & H)|].
  revert Hrun. simpl AppAnalyser.master_bug_object.
  apply (for_each_inv Inv).
  2:{ repeat split; [done..|]. simpl. apply initialised_false. left.
      apply list_elem_of_fmap. exists (bug, JDict template).
      split; [done|exact Hin]. }
  intros [b t] x x' Hb (HM & HA & HB) Hstep.
  apply res_bind_ok in Hstep as (keys & Hkeys & Hstep).
  apply res_bind_ok in Hstep as (x1 & Hloop & Hverdict).
  set (x0 := AppAnalyser.set_current_links ∅
               (AppAnalyser.set_current_bug_search_outcomes 0
                  (AppAnalyser.set_current_bug_search_types 0 x))) in *.
  change (handle_keys b keys x0 = Ok x1) in Hloop.
  assert (Hgap0 : gap x0 0) by (unfold gap; simpl; lia).
  destruct (handle_keys_counts b keys x0 x1 0 HA Hloop Hgap0)
    as [(M1 & A1 & B1) _].
  simpl in M1, A1, B1.
  destruct (decide (b = bug)) as [->|Hbug].
  - (* the bug of the claim: its verdict stays unsatisfied *)
    assert (t = JDict template) as ->.
    { pose proof (lookup_unique _ _ _ Hnd Hb) as E1.
      pose proof (lookup_unique _ _ _ Hnd Hin) as E2. congruence. }
    injection Hkeys as <-.
    assert (Hgap1 : gap x1 1).
    { apply (handle_keys_manifest bug template manifest
               (map (fun kv => JStr (fst kv)) template) Hlookup Hne)
        with (s := x0); [|exact HA| |exact Hloop|exact Hgap0].
      - by eapply lookup_key_in_iter.
      - unfold AppAnalyser.bug_template. simpl. rewrite HM.
        by rewrite (lookup_unique _ _ _ Hnd Hin). }
    unfold gap in Hgap1.
    destruct (Nat.eqb_spec (AppAnalyser.current_bug_search_types x1)
                (AppAnalyser.current_bug_search_outcomes x1)) as [E|_];
      [lia|].
    injection Hverdict as <-. unfold Inv. repeat split; congruence.
  - destruct (AppAnalyser.current_bug_search_types x1
              =? AppAnalyser.current_bug_search_outcomes x1).
    + apply res_bind_ok in Hverdict as (has_graph & _ & Hverdict).
      assert (Hset : Inv (AppAnalyser.set_current_app_bug_obj
                            (<[b := true]>
                               (AppAnalyser.current_app_bug_obj x1)) x1)).
      { unfold Inv. simpl. repeat split; [congruence..|].
        rewrite lookup_insert_ne; [congruence|done]. }
      destruct has_graph.
      * apply process_graphables_same_app in Hverdict as (M2 & A2 & B2).
        destruct Hset as (? & ? & ?). unfold Inv.
        repeat split; congruence.
      * by injection Hverdict as <-.
    + injection Hverdict as <-. unfold Inv. repeat split; congruence.
Qed.

End BugEvaluator.

Lemma manifest_bug_unsatisfied_on_dex_witness :
  exists s',
    AppAnalyser.analyse_app insertion_order 5 10 no_config no_adv_trace
      manifest_always_satisfied unit no_graph dex_worker = Ok s'
    /\ AppAnalyser.current_bug_search_types s' = 2
    /\ AppAnalyser.current_bug_search_outcomes s' = 1
    /\ AppAnalyser.current_app_bug_obj s' !! "bug" = Some false.
Proof.
  eexists. split; [vm_compute; reflexivity|].
  split; [reflexivity|]. split; [reflexivity|].
  eapply (manifest_bug_unsatisfied_on_dex insertion_order 5 10 no_config
            no_adv_trace manifest_always_satisfied unit no_graph dex_worker
            _ "bug" dex_bug_template).
  - reflexivity.
  - apply NoDup_singleton.
  - apply list_elem_of_singleton. reflexivity.
  - reflexivity.
  - reflexivity.
  - vm_compute. reflexivity.
Defined.

(** ** Template validation *)

Lemma for_each_ok_all {A S : Type} (l : list A) (body : A -> S -> res S) :
  forall st st',
    for_each l body st = Ok st' ->
    forall x, x ∈ l -> exists s s', body x s = Ok s'.
Proof.
  induction l as [|y l IH]; intros st st' Hrun x Hx.
  - by apply elem_of_nil in Hx.
  - simpl in Hrun. apply res_bind_ok in Hrun as (s1 & Hy & Hrest).
    apply elem_of_cons in Hx as [->|Hx]; [eauto|].
    by eapply IH.
Qed.

Lemma when_present_field (key : string) (o value : json)
  (check : json -> res unit) :
  field key o = Some value ->
  TemplateParser.when_present key o check = Ok tt ->
  check value = Ok tt.
Proof.
  destruct o as [| | | |d]; try discriminate. simpl. intros Hfield.
  unfold TemplateParser.when_present. simpl. rewrite Hfield.
  rewrite bool_decide_eq_true_2 by eauto. simpl.
  intros H. by destruct (check value) as [[]| |].
Qed.

Lemma length_two {A : Type} (l : list A) :
  (length l =? 2) = true -> exists a b, l = [a; b].
Proof. destruct l as [|a [|b [|c l]]]; try discriminate. eauto. Qed.

Lemma check_search_return_element_ok (element : json) :
  TemplateParser.check_search_return_element element = Ok tt ->
  well_formed_search_return element.
Proof.
  unfold TemplateParser.check_search_return_element.
  destruct element as [s| | | |]; try discriminate. simpl.
  destruct (length (PyStr.split " AS " s) =? 2) eqn:Hlen; [|discriminate].
  apply length_two in Hlen as (return_type & id & Hsplit).
  rewrite Hsplit. simpl.
  case_bool_decide as Htype; [|discriminate]. simpl.
  destruct (PyStr.startswith id "@") eqn:Hat; [|discriminate].
  intros _. exists s, return_type, id. repeat split; try done.
  apply elem_of_cons in Htype as [->|Htype]; [by left|].
  apply list_elem_of_singleton in Htype as ->. by right.
Qed.

Lemma check_trace_return_ok (returnables : json) :
  TemplateParser.check_trace_return returnables = Ok tt ->
  well_formed_trace_return returnables.
Proof.
  unfold TemplateParser.check_trace_return.
  destruct returnables as [s| | | |]; try discriminate. simpl.
  unfold py_nth.
  destruct (PyStr.split " AS " s !! 0) as [return_type|] eqn:H0;
    [|discriminate]. simpl.
  case_bool_decide as Htype; [|discriminate]. simpl.
  destruct (PyStr.split " AS " s !! 1) as [id|] eqn:H1; [|discriminate].
  simpl.
  destruct (PyStr.startswith id "@tracepath_") eqn:Hat; [|discriminate].
  intros _. exists s, id. repeat split; try done.
  apply list_elem_of_singleton in Htype as ->. done.
Qed.

Lemma check_return_string_ok (s : string) :
  TemplateParser.check_return_string s = Ok tt ->
  well_formed_manifest_return s.
Proof.
  unfold TemplateParser.check_return_string.
  destruct (PyStr.contains " AS " s); [|discriminate]. simpl.
  destruct (length (PyStr.split " AS " s) =? 2) eqn:Hlen; [|discriminate].
  apply length_two in Hlen as (value & id & Hsplit). rewrite Hsplit. simpl.
  destruct (PyStr.startswith id "@") eqn:Hat; [|discriminate].
  intros _. by exists value, id.
Qed.

Lemma check_search_type_ok (primary_search_type : string)
  (search_object returnables : json) (elements : list json) :
  TemplateParser.check_search_type primary_search_type search_object = Ok tt ->
  field "RETURN" search_object = Some returnables ->
  TemplateParser.returnable_elements returnables = Ok elements ->
  Forall well_formed_search_return elements.
Proof.
  intros Hcheck Hfield Helements.
  destruct search_object as [| | | |d]; try discriminate. simpl in Hfield.
  unfold TemplateParser.check_search_type in Hcheck.
  apply res_bind_ok in Hcheck as (has_location & _ & Hcheck).
  apply res_bind_ok in Hcheck as ([] & _ & Hcheck).
  simpl in Hcheck. rewrite Hfield in Hcheck.
  rewrite bool_decide_eq_true_2 in Hcheck by eauto. simpl in Hcheck.
  destruct (TemplateParser.existence_search primary_search_type);
    [discriminate|].
  rewrite Helements in Hcheck. simpl in Hcheck.
  apply Forall_forall. intros element Helement.
  destruct (for_each_ok_all _ _ _ _ Hcheck element Helement)
    as ([] & [] & Hok).
  by apply check_search_return_element_ok.
Qed.

Lemma check_code_search_ok (search : json) :
  TemplateParser.fn_check_code_search search = Ok tt ->
  forall rule types primary_search_type search_object returnables elements,
    rule ∈ rule_objects search ->
    rule = JDict types ->
    (primary_search_type, search_object) ∈ types ->
    field "RETURN" search_object = Some returnables ->
    TemplateParser.returnable_elements returnables = Ok elements ->
    Forall well_formed_search_return elements.
Proof.
  intros Hcheck rule types ty so returnables elements Hrule -> Hty Hfield
    Helements.
  unfold TemplateParser.fn_check_code_search in Hcheck.
  apply res_bind_ok in Hcheck as (rules & Hrules & Hcheck).
  apply res_bind_ok in Hcheck as (b & Hloop & _).
  assert (rules = rule_objects search) as ->.
  { destruct search; try discriminate; by injection Hrules as <-. }
  destruct (for_each_ok_all _ _ _ _ Hloop _ Hrule) as (b1 & b2 & Hbody).
  simpl in Hbody. apply res_bind_ok in Hbody as ([] & Htypes & _).
  destruct (for_each_ok_all _ _ _ _ Htypes _ Hty) as ([] & [] & Hone).
  by eapply check_search_type_ok.
Qed.

Lemma check_code_trace_ok (trace : json) :
  TemplateParser.fn_check_code_trace trace = Ok tt ->
  forall rule returnables,
    rule ∈ rule_objects trace ->
    field "RETURN" rule = Some returnables ->
    well_formed_trace_return returnables.
Proof.
  intros Hcheck rule returnables Hrule Hfield.
  unfold TemplateParser.fn_check_code_trace in Hcheck.
  apply res_bind_ok in Hcheck as (rules & Hrules & Hcheck).
  apply res_bind_ok in Hcheck as (b & Hloop & _).
  assert (rules = rule_objects trace) as ->.
  { destruct trace; try discriminate; by injection Hrules as <-. }
  destruct (for_each_ok_all _ _ _ _ Hloop _ Hrule) as (b1 & b2 & Hbody).
  destruct rule as [| | | |d]; try discriminate.
  destruct (bool_decide (is_Some (Py.lookup "TRACEFROM" d)));
    [|discriminate].
  destruct (bool_decide (is_Some (Py.lookup "TRACETO" d))); [|discriminate].
  cbn [negb] in Hbody.
  apply res_bind_ok in Hbody as ([] & Hreturn & _).
  apply check_trace_return_ok.
  by eapply (when_present_field "RETURN" (JDict d)).
Qed.

Lemma check_return_ok (return_object : json) :
  TemplateParser.fn_check_return return_object = Ok tt ->
  match return_object with
  | JStr s => well_formed_manifest_return s
  | JList l =>
      Forall (fun element =>
                exists s, element = JStr s /\ well_formed_manifest_return s) l
  | _ => False
  end.
Proof.
  destruct return_object as [s| | |l|]; try discriminate; simpl.
  - apply check_return_string_ok.
  - intros Hloop. apply Forall_forall. intros element Helement.
    destruct (for_each_ok_all _ _ _ _ Hloop _ Helement) as ([] & [] & Hbody).
    apply res_bind_ok in Hbody as (has_as & _ & Hbody).
    destruct has_as; [|discriminate]. simpl in Hbody.
    destruct element as [s| | | |]; try discriminate.
    exists s. split; [done|]. by apply check_return_string_ok.
Qed.

Lemma admitted_codeparams_checked (output_template_object : list (string * json))
  (template : list (string * json)) (codeparams : json) :
  admitted output_template_object (JDict template) = true ->
  Py.lookup "CODEPARAMS" template = Some codeparams ->
  TemplateParser.fn_check_codeparams codeparams = Ok tt.
Proof.
  unfold admitted, TemplateParser.fn_parse_template_file.
  intros Hadmitted Hcode.
  destruct template as [|kv template'] eqn:Htemplate.
  { simpl in Hadmitted. by rewrite Nat.eqb_refl in Hadmitted. }
  rewrite <- Htemplate in *. clear Htemplate kv template'.
  destruct (Py.lookup "METADATA" template) as [metadata|];
    [|simpl in Hadmitted; by rewrite Nat.eqb_refl in Hadmitted].
  match type of Hadmitted with
  | context [match ?c with Ok _ => _ | Raise _ => _ | OutOfFuel => _ end] =>
      destruct c as [[name metadata']| |] eqn:Hchecks
  end; try (simpl in Hadmitted; by rewrite Nat.eqb_refl in Hadmitted).
  clear Hadmitted.
  apply res_bind_ok in Hchecks as ([] & _ & Hchecks).
  match type of Hchecks with
  | (if ?c then _ else _) = _ => destruct c; [discriminate|]
  end.
  apply res_bind_ok in Hchecks as ([] & _ & Hchecks).
  apply res_bind_ok in Hchecks as ([] & Hcodeparams & _).
  by eapply (when_present_field "CODEPARAMS" (JDict template)).
Qed.

Lemma admitted_manifest_checked (output_template_object : list (string * json))
  (template : list (string * json)) (manifest : json) :
  admitted output_template_object (JDict template) = true ->
  Py.lookup "MANIFESTPARAMS" template = Some manifest ->
  TemplateParser.fn_check_manifestparams manifest = Ok tt.
Proof.
  unfold admitted, TemplateParser.fn_parse_template_file.
  intros Hadmitted Hmanifest.
  destruct template as [|kv template'] eqn:Htemplate.
  { simpl in Hadmitted. by rewrite Nat.eqb_refl in Hadmitted. }
  rewrite <- Htemplate in *. clear Htemplate kv template'.
  destruct (Py.lookup "METADATA" template) as [metadata|];
    [|simpl in Hadmitted; by rewrite Nat.eqb_refl in Hadmitted].
  match type of Hadmitted with
  | context [match ?c with Ok _ => _ | Raise _ => _ | OutOfFuel => _ end] =>
      destruct c as [[name metadata']| |] eqn:Hchecks
  end; try (simpl in Hadmitted; by rewrite Nat.eqb_refl in Hadmitted).
  clear Hadmitted.
  apply res_bind_ok in Hchecks as ([] & _ & Hchecks).
  match type of Hchecks with
  | (if ?c then _ else _) = _ => destruct c; [discriminate|]
  end.
  apply res_bind_ok in Hchecks as ([] & Hmanifestparams & _).
  by eapply (when_present_field "MANIFESTPARAMS" (JDict template)).
Qed.

Lemma manifest_return_checked (manifest return_object : json) :
  TemplateParser.fn_check_manifestparams manifest = Ok tt ->
  field "RETURN" manifest = Some return_object ->
  TemplateParser.fn_check_return return_object = Ok tt.
Proof.
  unfold TemplateParser.fn_check_manifestparams. intros Hcheck Hfield.
  apply res_bind_ok in Hcheck as ([] & _ & Hcheck).
  apply res_bind_ok in Hcheck as ([] & _ & Hcheck).
  destruct manifest as [| | | |d]; try discriminate.
  cbn [TemplateParser.fn_recursive_manifest_checks] in Hcheck.
  apply res_bind_ok in Hcheck as ([] & _ & Hcheck).
  apply res_bind_ok in Hcheck as ([] & Hreturn & _).
  by eapply (when_present_field "RETURN" (JDict d)).
Qed.




(** ** Set iteration order *)

Lemma insertion_order_ok : runtime_ok insertion_order.
Proof.
  split; simpl; intros.
  - apply NoDup_remove_dups.
  - apply elem_of_remove_dups.
  - apply NoDup_remove_dups.
  - apply elem_of_remove_dups.
Qed.

Lemma opposite_order_ok : runtime_ok opposite_order.
Proof.
  split; simpl; intros.
  - rewrite reverse_Permutation. apply NoDup_remove_dups.
  - rewrite elem_of_reverse. apply elem_of_remove_dups.
  - rewrite reverse_Permutation. apply NoDup_remove_dups.
  - rewrite elem_of_reverse. apply elem_of_remove_dups.
Qed.

Lemma res_lift_bind {A1 A2 B1 B2 : Type} (R : A1 -> A2 -> Prop)
  (Q : B1 -> B2 -> Prop) (m1 : res A1) (m2 : res A2)
  (k1 : A1 -> res B1) (k2 : A2 -> res B2) :
  res_lift R m1 m2 ->
  (forall a1 a2, R a1 a2 -> res_lift Q (k1 a1) (k2 a2)) ->
  res_lift Q (res_bind m1 k1) (res_bind m2 k2).
Proof. destruct m1, m2; simpl; try done. auto. Qed.

Lemma for_each_rel {A S1 S2 : Type} (R : S1 -> S2 -> Prop) (l : list A)
  (body1 : A -> S1 -> res S1) (body2 : A -> S2 -> res S2) :
  (forall x s1 s2, R s1 s2 -> res_lift R (body1 x s1) (body2 x s2)) ->
  forall s1 s2, R s1 s2 ->
    res_lift R (for_each l body1 s1) (for_each l body2 s2).
Proof.
  intros Hbody. induction l as [|x l IH]; intros s1 s2 HR; simpl; [done|].
  eapply res_lift_bind; [by apply Hbody|]. apply IH.
Qed.

Lemma str_set_perm (rt1 rt2 : Runtime) (l1 l2 : list string) :
  runtime_ok rt1 -> runtime_ok rt2 -> l1 ≡ₚ l2 ->
  list_of_str_set rt1 l1 ≡ₚ list_of_str_set rt2 l2.
Proof.
  intros H1 H2 Hperm. apply NoDup_Permutation.
  - apply (str_set_NoDup _ H1).
  - apply (str_set_NoDup _ H2).
  - intros x. rewrite (str_set_elem _ H1), (str_set_elem _ H2).
    by rewrite Hperm.
Qed.

Lemma method_set_perm (rt1 rt2 : Runtime) (l : list EncodedMethod) :
  runtime_ok rt1 -> runtime_ok rt2 ->
  list_of_method_set rt1 l ≡ₚ list_of_method_set rt2 l.
Proof.
  intros H1 H2. apply NoDup_Permutation.
  - apply (method_set_NoDup _ H1).
  - apply (method_set_NoDup _ H2).
  - intros x. by rewrite (method_set_elem _ H1), (method_set_elem _ H2).
Qed.

Lemma memo_rel_insert (m1 m2 : gmap string (list string)) (k : string)
  (l1 l2 : list string) :
  memo_rel m1 m2 -> l1 ≡ₚ l2 -> memo_rel (<[k := l1]> m1) (<[k := l2]> m2).
Proof.
  intros Hm Hl k'. rewrite !lookup_insert.
  destruct (decide (k = k')); [by constructor|apply Hm].
Qed.

(** Two runs of [fn_find_subclasses] that differ in the iteration order
    of their sets find the same classes. *)
Lemma find_subclasses_rel (rt1 rt2 : Runtime) :
  runtime_ok rt1 -> runtime_ok rt2 ->
  forall fuel class_name recursion u1 u2,
    utils_rel u1 u2 ->
    res_lift (fun r1 r2 => fst r1 ≡ₚ fst r2 /\ utils_rel (snd r1) (snd r2))
      (fn_find_subclasses rt1 fuel class_name recursion u1)
      (fn_find_subclasses rt2 fuel class_name recursion u2).
Proof.
  intros Hrt1 Hrt2. induction fuel as [|fuel IH];
    intros class_name recursion u1 u2 [Hdx Hmemo]; simpl; [done|].
  pose proof (Hmemo class_name) as Hk.
  destruct Hk as [l1 l2 Hl|]; simpl; [by split|].
  rewrite <- Hdx.
  eapply res_lift_bind
    with (R := fun r1 r2 => fst r1 ≡ₚ fst r2 /\ utils_rel (snd r1) (snd r2)).
  - apply for_each_rel; [|by split].
    intros internal_class [f1 s1] [f2 s2] [Hf Hs]. simpl in Hf, Hs.
    destruct (String.eqb (get_superclassname internal_class) class_name);
      [|by split].
    destruct recursion.
    + eapply res_lift_bind; [by apply IH|].
      intros [n1 t1] [n2 t2] [Hn Ht]. simpl in *. split; [|done].
      by rewrite Hf, Hn.
    + simpl. split; [|done]. by rewrite Hf.
  - intros [f1 s1] [f2 s2] [Hf [Hsdx Hsmemo]]. simpl in *.
    assert (Hperm : list_of_str_set rt1 f1 ≡ₚ list_of_str_set rt2 f2)
      by by apply str_set_perm.
    split; [done|]. split; [done|]. simpl. by apply memo_rel_insert.
Qed.

Lemma for_each_app {A S : Type} (l1 l2 : list A) (body : A -> S -> res S)
  (st : S) :
  for_each (l1 ++ l2) body st
  = res_bind (for_each l1 body st) (for_each l2 body).
Proof.
  revert st. induction l1 as [|x l1 IH]; intros st; simpl; [done|].
  destruct (body x st); simpl; auto.
Qed.

(** Converting returns to links binds the items of the return objects one
    after the other. *)
Lemma convert_returns_flat (returns : list (list (string * string)))
  (links : gmap string (list string)) :
  fn_convert_returns_to_links returns links
  = for_each (concat returns) (fun '(k, v) => bind_link k v) links.
Proof.
  unfold fn_convert_returns_to_links. revert links.
  induction returns as [|r returns IH]; intros links; simpl; [done|].
  rewrite for_each_app.
  destruct (for_each r _ links); simpl; auto.
Qed.

Lemma bind_link_step (key value : string)
  (links links' : gmap string (list string)) (id : string) :
  bind_link key value links = Ok links' ->
  fn_get_linked_items links' id
  = fn_get_linked_items links id
    ++ (if bool_decide (key = id /\ is_link_key key = true
                        /\ value ∉ fn_get_linked_items links id)
        then [value] else []).
Proof.
  unfold bind_link. destruct key as [|c key]; [discriminate|]. simpl.
  destruct (is_at c) eqn:Hat; simpl.
  2:{ intros [= <-]. rewrite bool_decide_eq_false_2; [by rewrite app_nil_r|].
      intros (_ & ? & _). done. }
  set (k := String c key).
  destruct (links !! k) as [values|] eqn:Hkey.
  - case_bool_decide as Hin; intros [= <-].
    + rewrite bool_decide_eq_false_2; [by rewrite app_nil_r|].
      intros (<- & _ & Hnot). apply Hnot. unfold fn_get_linked_items.
      by rewrite Hkey.
    + rewrite linked_items_insert. destruct (decide (k = id)) as [<-|Hne].
      * rewrite bool_decide_eq_true_2; unfold fn_get_linked_items;
          rewrite Hkey; done.
      * rewrite bool_decide_eq_false_2; [by rewrite app_nil_r|].
        by intros (? & _).
  - intros [= <-]. rewrite linked_items_insert.
    destruct (decide (k = id)) as [<-|Hne].
    + rewrite bool_decide_eq_true_2; unfold fn_get_linked_items;
        rewrite Hkey; [done|]. repeat split. apply not_elem_of_nil.
    + rewrite bool_decide_eq_false_2; [by rewrite app_nil_r|].
      by intros (? & _).
Qed.

(** What a run of bindings adds under an identifier: the values bound to
    it that the table did not have, each once. *)
Lemma bindings_added (bindings : list (string * string)) :
  forall (links links' : gmap string (list string)) (id : string),
    for_each bindings (fun '(k, v) => bind_link k v) links = Ok links' ->
    exists added,
      fn_get_linked_items links' id = fn_get_linked_items links id ++ added
      /\ NoDup added
      /\ forall v,
           v ∈ added <->
           ((v ∉ fn_get_linked_items links id)
            /\ is_link_key id = true /\ (id, v) ∈ bindings).
Proof.
  induction bindings as [|[key value] bindings IH]; intros links links' id Hrun.
  - injection Hrun as <-. exists []. rewrite app_nil_r.
    split; [done|]. split; [constructor|].
    intros v. split.
    + intros H. by apply elem_of_nil in H.
    + intros (_ & _ & H). by apply elem_of_nil in H.
  - simpl in Hrun. apply res_bind_ok in Hrun as (links1 & Hbind & Hrest).
    destruct (IH links1 links' id Hrest) as (added' & E' & N' & C').
    pose proof (bind_link_step _ _ _ _ id Hbind) as E1.
    set (first := if bool_decide (key = id /\ is_link_key key = true
                                  /\ value ∉ fn_get_linked_items links id)
                  then [value] else []) in *.
    exists (first ++ added'). rewrite E', E1, app_assoc.
    split; [done|].
    assert (Hfirst : forall v, v ∈ first <->
                               (v = value /\ key = id
                                /\ is_link_key key = true
                                /\ value ∉ fn_get_linked_items links id)).
    { intros v. unfold first. case_bool_decide as Hc.
      - rewrite list_elem_of_singleton. split; [by intros ->|by intros []].
      - split; [|by intros [_ H]]. intros H. by apply elem_of_nil in H. }
    split.
    + apply NoDup_app. split; [|split; [|done]].
      * unfold first. case_bool_decide; [apply NoDup_singleton|constructor].
      * intros v Hv1 Hv2. apply C' in Hv2 as (Hnot & _).
        apply Hnot. rewrite E1. apply elem_of_app. by right.
    + intros v. split.
      * intros Hv. apply elem_of_app in Hv as [Hv|Hv].
        -- apply Hfirst in Hv as (-> & <- & Hk & Hnot).
           repeat split; [done|done|by left].
        -- apply C' in Hv as (Hnot & Hk & Hin). rewrite E1 in Hnot.
           split; [|split; [done|by right]].
           intros H. apply Hnot. apply elem_of_app. by left.
      * intros (Hnot & Hk & Hin). apply elem_of_app.
        apply elem_of_cons in Hin as [Heq|Hin].
        -- injection Heq as <- <-. left. by apply Hfirst.
        -- destruct (decide (v ∈ first)) as [Hv|Hv]; [by left|].
           right. apply C'. split; [|done]. rewrite E1.
           intros H. apply elem_of_app in H as [H|H]; done.
Qed.

(** Returns that hold the same items in another order give link tables
    that hold the same values under every identifier. *)
Lemma convert_returns_perm (returns1 returns2 : list (list (string * string)))
  (links links1 links2 : gmap string (list string)) (id : string) :
  concat returns1 ≡ₚ concat returns2 ->
  fn_convert_returns_to_links returns1 links = Ok links1 ->
  fn_convert_returns_to_links returns2 links = Ok links2 ->
  fn_get_linked_items links1 id ≡ₚ fn_get_linked_items links2 id.
Proof.
  rewrite !convert_returns_flat. intros Hperm H1 H2.
  destruct (bindings_added _ _ _ id H1) as (a1 & -> & N1 & C1).
  destruct (bindings_added _ _ _ id H2) as (a2 & -> & N2 & C2).
  apply Permutation_app_head. apply NoDup_Permutation; [done..|].
  intros v. rewrite C1, C2. by rewrite Hperm.
Qed.




(** ** Trace engine: chains *)

Lemma split_go_comma_length (s cur : string) :
  length (PyStr.split_go "," 0 cur s) = S (commas s).
Proof.
  revert cur. induction s as [|c s IH]; intros cur; [done|].
  cbn [PyStr.split_go commas String.prefix].
  destruct (Ascii.ascii_dec "," c) as [<-|Hne].
  - assert (Hprefix : String.prefix "" s = true) by by destruct s.
    rewrite Hprefix. change (String.length "," - 1) with 0.
    cbn [length]. rewrite IH. reflexivity.
  - rewrite IH. destruct (Ascii.eqb_spec c ","); [congruence|done].
Qed.

Lemma entries_commas (s : string) : entries s = S (commas s).
Proof. apply split_go_comma_length. Qed.

Lemma commas_append (a b : string) :
  commas (String.append a b) = commas a + commas b.
Proof. induction a as [|c a IH]; simpl; [done|]. rewrite IH. lia. Qed.

Lemma entries_extend_chain (trace_chain name : string) :
  commas name = 0 ->
  entries (CodeTrace.extend_chain trace_chain name) <= entries trace_chain + 1.
Proof.
  intros Hname. unfold CodeTrace.extend_chain.
  destruct (String.eqb trace_chain ""); rewrite !entries_commas.
  - lia.
  - rewrite !commas_append, Hname. simpl. lia.
Qed.

Lemma commas_maybe (name : string) :
  commas (String.append "|MAYBE|" name) = commas name.
Proof. by rewrite commas_append. Qed.

(** ** Trace engine: termination *)

Lemma terminates_bind {A B : Type} (m : res A) (k : A -> res B)
  (P : A -> Prop) (Q : B -> Prop) :
  terminates m P ->
  (forall a, P a -> terminates (k a) Q) ->
  terminates (res_bind m k) Q.
Proof. destruct m; simpl; auto. Qed.

Lemma terminates_weaken {A : Type} (r : res A) (P Q : A -> Prop) :
  terminates r P -> (forall a, P a -> Q a) -> terminates r Q.
Proof. destruct r; simpl; auto. Qed.

Lemma terminates_for_each {A S : Type} (Inv : S -> Prop) (l : list A)
  (body : A -> S -> res S) :
  (forall x s, x ∈ l -> Inv s -> terminates (body x s) Inv) ->
  forall st, Inv st -> terminates (for_each l body st) Inv.
Proof.
  induction l as [|x l IH]; intros Hbody st Hst; simpl; [done|].
  eapply terminates_bind.
  - apply Hbody; [by left|done].
  - intros s Hs. apply IH; [|done]. intros y s' Hy. apply Hbody. by right.
Qed.

Lemma terminates_ok {A : Type} (a : A) (Q : A -> Prop) :
  Q a -> terminates (Ok a) Q.
Proof. done. Qed.

Lemma terminates_py_nth {A : Type} (l : list A) (i : nat) (Q : A -> Prop) :
  (forall x, l !! i = Some x -> Q x) -> terminates (py_nth l i) Q.
Proof. unfold py_nth. destruct (l !! i); simpl; auto. Qed.

Lemma fold_left_inv {A B : Type} (P : B -> Prop) (f : B -> A -> B)
  (l : list A) (b : B) :
  P b -> (forall b x, x ∈ l -> P b -> P (f b x)) -> P (fold_left f l b).
Proof.
  revert b. induction l as [|x l IH]; intros b Hb Hf; simpl; [done|].
  apply IH.
  - apply Hf; [by left|done].
  - intros b' y Hy. apply Hf. by right.
Qed.

Lemma assoc_elem {A : Type} (k : string) (d : list (string * A)) (v : A) :
  CodeTrace.assoc k d = Some v -> exists k', (k', v) ∈ d.
Proof.
  induction d as [|[k' v'] d IH]; simpl; [done|].
  destruct (String.eqb k k').
  - intros [= ->]. exists k'. by left.
  - intros H. destruct (IH H) as [k'' Hk]. exists k''. by right.
Qed.

Lemma elem_of_flat_map {A B : Type} (f : A -> list B) (l : list A) (y : B) :
  y ∈ flat_map f l <-> exists x, x ∈ l /\ y ∈ f x.
Proof.
  rewrite list_elem_of_In, in_flat_map.
  split; intros [x [Hx Hy]]; exists x; by rewrite ?list_elem_of_In in *.
Qed.

Lemma fn_get_class_method_desc_from_method_terminates (e : EncodedMethod) :
  terminates (fn_get_class_method_desc_from_method e)
    (fun parts => fn_get_class_method_desc_from_method e = Ok parts).
Proof.
  unfold fn_get_class_method_desc_from_method, py_nth.
  by destruct (_ !! 0).
Qed.

Ltac frame_step :=
  match goal with
  | |- terminates (res_bind (py_nth _ _) _) _ =>
      eapply terminates_bind;
      [apply terminates_py_nth; intros ? _; exact I | intros ? _]; cbn beta
  | |- terminates (res_bind (if ?b then _ else _) _) _ => destruct b
  | |- terminates (if ?b then _ else _) _ => destruct b
  | |- terminates (Ok (CodeTrace.set_stop_condition ?s _)) _ => by exists s
  | |- terminates (Ok ?self) _ =>
      exists (CodeTrace.stop_condition self); by destruct self
  | |- terminates (res_bind (Ok _) _) _ => cbn [res_bind]
  end.

Lemma fn_check_stop_condition_frame (check_value : string)
  (self : CodeTrace.t) :
  terminates (CodeTrace.fn_check_stop_condition check_value self)
    (fun self' => exists s, self' = CodeTrace.set_stop_condition s self).
Proof.
  unfold CodeTrace.fn_check_stop_condition. repeat frame_step.
Qed.

Ltac returns_step :=
  match goal with
  | |- terminates (res_bind (py_nth _ _) _) _ =>
      eapply terminates_bind;
      [apply terminates_py_nth; intros ? _; exact I | intros ? _]; cbn beta
  | |- terminates (if ?b then _ else _) _ => destruct b
  | |- terminates (Ok _) _ => exact I
  | |- terminates (Raise _) _ => exact I
  end.

Lemma fn_determine_class_method_desc_terminates (trace_from
  trace_from_type : string) :
  terminates (CodeTrace.fn_determine_class_method_desc trace_from
                trace_from_type)
    (fun _ => True).
Proof.
  unfold CodeTrace.fn_determine_class_method_desc.
  eapply (terminates_bind _ _ (fun _ => True)).
  - unfold fn_get_class_method_desc_from_string. repeat returns_step.
  - intros [[c m] d] _. repeat returns_step.
Qed.

Lemma size_list_to_set_le (l : list string) :
  size (list_to_set l : gset string) <= length l.
Proof.
  induction l as [|x l IH]; simpl; [done|].
  rewrite size_union_alt, size_singleton.
  pose proof (subseteq_size (list_to_set l ∖ {[x]}) (list_to_set l : gset string))
    as Hle.
  assert (Hsub : (list_to_set l ∖ {[x]} : gset string) ⊆ list_to_set l).
  { intros y. rewrite elem_of_difference. tauto. }
  specialize (Hle Hsub). lia.
Qed.

Section TraceTermination.
Variable rt : Runtime.
Hypothesis rt_ok : runtime_ok rt.
Variable dx : Analysis.
Variable methods : list EncodedMethod.
Variable depth : nat.
Hypothesis app_finite : finite_app dx methods depth.

Lemma fn_find_subclasses_terminates (rank : string -> nat) :
  (forall ic, ic ∈ get_internal_classes dx ->
              rank (class_get_name ic) < rank (get_superclassname ic)) ->
  forall fuel class_name u,
    utils_inv dx u -> 0 < fuel ->
    (forall ic, ic ∈ get_internal_classes dx ->
                get_superclassname ic = class_name -> rank class_name < fuel) ->
    terminates (fn_find_subclasses rt fuel class_name true u)
      (fun '(l, u') =>
         utils_inv dx u' /\ forall c, c ∈ l -> c ∈ class_names dx).
Proof.
  intros Hrank. induction fuel as [|fuel IH]; intros class_name u Hu Hfuel Hsub;
    [lia|].
  cbn [fn_find_subclasses].
  destruct Hu as [Hdx Hmemo_ok].
  destruct (subclasses u !! class_name) as [l|] eqn:Hmemo.
  { simpl. split; [done|]. eauto. }
  rewrite Hdx.
  eapply terminates_bind.
  - apply (terminates_for_each
             (fun '(found, u') =>
                utils_inv dx u' /\ forall c, c ∈ found -> c ∈ class_names dx)).
    + intros ic [found u'] Hic [Hu' Hfound].
      destruct (String.eqb_spec (get_superclassname ic) class_name)
        as [Heq|Hne]; [|by split].
      assert (Hname : class_get_name ic ∈ class_names dx).
      { apply list_elem_of_fmap. exists ic. by split. }
      specialize (Hsub ic Hic Heq). specialize (Hrank ic Hic) as Hlt.
      rewrite Heq in Hlt.
      eapply terminates_bind.
      * apply IH; [done|lia|].
        intros ic' Hic' Hsuper. lia.
      * intros [next u''] [Hu'' Hnext]. simpl. split; [done|].
        intros c. rewrite !elem_of_app, list_elem_of_singleton.
        intros [[Hc| ->]|Hc]; auto.
    + split; [done|]. intros c Hc. by apply elem_of_nil in Hc.
  - intros [found u'] [[Hdx' Hmemo'] Hfound]. simpl. split.
    + split; [done|]. simpl. intros k l.
      rewrite lookup_insert. case_decide as Hk.
      * intros [= <-] c Hc. apply Hfound.
        by apply (str_set_elem rt rt_ok).
      * apply Hmemo'.
    + intros c Hc. apply Hfound. by apply (str_set_elem rt rt_ok).
Qed.

Lemma fn_find_superclasses_terminates (rank : string -> nat) :
  (forall c ca, ca ∈ find_classes dx c -> is_external ca = false ->
                rank (get_superclassname ca) < rank c) ->
  forall fuel class_name u,
    utils_inv dx u -> 0 < fuel ->
    (forall ca, ca ∈ find_classes dx class_name -> is_external ca = false ->
                rank class_name < fuel) ->
    terminates (fn_find_superclasses rt fuel class_name true u)
      (fun '(_, u') => utils_inv dx u').
Proof.
  intros Hrank. induction fuel as [|fuel IH]; intros class_name u Hu Hfuel Hsuper;
    [lia|].
  cbn [fn_find_superclasses].
  destruct (superclasses u !! class_name) as [l|] eqn:Hmemo; [done|].
  destruct Hu as [Hdx Hmemo_ok]. rewrite Hdx.
  eapply terminates_bind.
  - apply (terminates_for_each (fun '(_, u') => utils_inv dx u')); [|done].
    intros ca [found u'] Hca Hu'.
    destruct (is_external ca) eqn:Hext; [done|].
    specialize (Hsuper ca Hca Hext). specialize (Hrank _ ca Hca Hext) as Hlt.
    eapply terminates_bind.
    + apply IH; [done|lia|]. intros ca' Hca' Hext'. lia.
    + by intros [next u''] Hu''.
  - by intros [found u'] [Hdx' Hmemo'].
Qed.

Lemma fn_get_calls_to_method_closed (u : AnalysisUtils.t)
  (c m d : string) (e : EncodedMethod) :
  androguard_dx u = dx -> e ∈ fn_get_calls_to_method u c m d -> e ∈ methods.
Proof.
  intros Hdx. unfold fn_get_calls_to_method, fn_get_methods. rewrite Hdx.
  revert e.
  apply (fold_left_inv (fun acc => forall e, e ∈ acc -> e ∈ methods)).
  { intros e He. by apply elem_of_nil in He. }
  intros acc ma Hma Hacc.
  apply (fold_left_inv (fun acc => forall e, e ∈ acc -> e ∈ methods));
    [done|].
  intros acc' x Hx Hacc'.
  destruct (skipped_as_interactive u (get_name x)); [done|].
  case_bool_decide; [done|].
  intros e. rewrite elem_of_app, list_elem_of_singleton.
  intros [He| ->]; [auto|].
  eapply (xref_from_closed _ _ _ app_finite); eauto.
Qed.

Lemma fn_get_calls_from_method_closed (u : AnalysisUtils.t)
  (c m d : string) (exclude_external : bool) (e : EncodedMethod) :
  androguard_dx u = dx ->
  e ∈ fn_get_calls_from_method rt u c m d exclude_external -> e ∈ methods.
Proof.
  intros Hdx. unfold fn_get_calls_from_method, fn_get_methods. rewrite Hdx.
  rewrite (method_set_elem rt rt_ok). revert e.
  apply (fold_left_inv (fun acc => forall e, e ∈ acc -> e ∈ methods)).
  { intros e He. by apply elem_of_nil in He. }
  intros acc ma Hma Hacc.
  apply (fold_left_inv (fun acc => forall e, e ∈ acc -> e ∈ methods));
    [done|].
  intros acc' x Hx Hacc'.
  destruct (exclude_external && x.1); [done|].
  destruct (skipped_as_interactive u (get_name x.2)); [done|].
  intros e. rewrite elem_of_app, list_elem_of_singleton.
  intros [He| ->]; [auto|].
  eapply (xref_to_closed _ _ _ app_finite); eauto.
Qed.

Lemma reverse_name_in_universe (e : EncodedMethod)
  (c1 m1 d1 cp md mp tail : string) :
  e ∈ methods ->
  fn_get_class_method_desc_from_method e = Ok (c1, m1, d1) ->
  cp ∈ c1 :: class_names dx ->
  md ∈ String.append m1 d1 :: special_descriptors m1 ->
  PyStr.split "(" md !! 0 = Some mp ->
  PyStr.split "(" md !! 1 = Some tail ->
  CodeTrace.compound cp mp (String.append "(" tail) ∈ universe dx methods.
Proof.
  intros He Hparts Hcp Hmd Hmp Htail. unfold universe.
  apply elem_of_flat_map. exists e. split; [done|]. rewrite Hparts.
  right. apply elem_of_flat_map. exists cp. split; [done|].
  apply list_elem_of_omap. exists md. split; [done|].
  unfold reverse_name. by rewrite Hmp, Htail.
Qed.

Lemma forward_name_in_universe (e : EncodedMethod) (c1 m1 d1 : string) :
  e ∈ methods ->
  fn_get_class_method_desc_from_method e = Ok (c1, m1, d1) ->
  forward_name c1 m1 d1 ∈ universe dx methods.
Proof.
  intros He Hparts. unfold universe.
  apply elem_of_flat_map. exists e. split; [done|]. rewrite Hparts.
  by left.
Qed.

Section Traversal.
(** The chain length limit of the rule; what the traversal keeps true of
    the chains it reports ([ok]) and of the chain it extends at a node
    ([fits]). *)
Variable L : Z.
Variable ok : string -> Prop.
Variable fits : string -> Prop.
Hypothesis ok_extended :
  forall chain name,
    name ∈ universe dx methods -> fits chain ->
    ok (CodeTrace.extend_chain chain name)
    /\ ok (CodeTrace.extend_chain chain (String.append "|MAYBE|" name)).
Hypothesis fits_short :
  forall chain, ok chain -> (Z.of_nat (entries chain) <= L)%Z -> fits chain.

Lemma advances_refl (self : CodeTrace.t) : good dx L ok self -> advances dx L ok self self.
Proof. by split. Qed.

Lemma advances_trans (a b c : CodeTrace.t) :
  advances dx L ok a b -> advances dx L ok b c -> advances dx L ok a c.
Proof. intros [_ Hab] [Hc Hbc]. split; [done|by etrans]. Qed.

Lemma find_subclasses_advances (class_name : string) (self : CodeTrace.t) :
  good dx L ok self ->
  terminates (CodeTrace.find_subclasses rt depth class_name self)
    (fun '(l, self') =>
       advances dx L ok self self' /\ forall c, c ∈ l -> c ∈ class_names dx).
Proof.
  intros (Hu & Hmax & Hchains). unfold CodeTrace.find_subclasses.
  destruct (subclass_rank _ _ _ app_finite) as [rank Hrank].
  eapply terminates_bind.
  - apply (fn_find_subclasses_terminates rank); [|done| |].
    + intros ic Hic. by destruct (Hrank ic Hic).
    + apply (depth_positive _ _ _ app_finite).
    + intros ic Hic <-. by destruct (Hrank ic Hic).
  - intros [l u'] [Hu' Hl]. simpl. split; [|done].
    split; [|done]. split; [exact Hu'|]. split; [exact Hmax|exact Hchains].
Qed.

Lemma find_superclasses_advances (class_name : string) (self : CodeTrace.t) :
  good dx L ok self ->
  terminates (CodeTrace.find_superclasses rt depth class_name self)
    (fun '(_, self') => advances dx L ok self self').
Proof.
  intros (Hu & Hmax & Hchains). unfold CodeTrace.find_superclasses.
  destruct (superclass_rank _ _ _ app_finite) as [rank Hrank].
  eapply terminates_bind.
  - apply (fn_find_superclasses_terminates rank); [|done| |].
    + intros c ca Hca Hext. by destruct (Hrank c ca Hca Hext).
    + apply (depth_positive _ _ _ app_finite).
    + intros ca Hca Hext. by destruct (Hrank _ ca Hca Hext).
  - intros [l u'] Hu'. simpl.
    split; [|done]. split; [exact Hu'|]. split; [exact Hmax|exact Hchains].
Qed.

Lemma fn_handle_special_case_reverse_advances (c m d : string)
  (self : CodeTrace.t) :
  good dx L ok self ->
  terminates (CodeTrace.fn_handle_special_case_reverse rt depth c m d self)
    (fun '(found, self') =>
       advances dx L ok self self'
       /\ forall l md, found = Some l -> md ∈ l ->
                       md ∈ special_descriptors m).
Proof.
  intros Hgood. unfold CodeTrace.fn_handle_special_case_reverse.
  unfold special_descriptors.
  destruct (CodeTrace.assoc m CodeTrace.special_case_object_list_reverse)
    as [by_class|]; [|done].
  cbn [res_bind].
  eapply terminates_bind; [by apply find_superclasses_advances|].
  intros [supers self'] Hadv. simpl. split; [done|].
  intros l md Hfound Hmd.
  assert (Hin : exists k, (k, l) ∈ by_class).
  { clear Hmd. revert l Hfound.
    apply (fold_left_inv
             (fun found => forall l, found = Some l ->
                                     exists k, (k, l) ∈ by_class)); [done|].
    intros found superclass _ IH l. destruct found as [l'|].
    - apply IH.
    - apply assoc_elem. }
  destruct Hin as [k Hk]. apply elem_of_flat_map. by exists (k, l).
Qed.

Lemma fn_trace_reverse_body_terminates
  (analyse : string -> string -> string -> string -> CodeTrace.t ->
             res CodeTrace.t)
  (c m d chain : string) (self : CodeTrace.t) :
  good dx L ok self ->
  (forall c' m' d' self',
      advances dx L ok self self' ->
      CodeTrace.compound c' m' d' ∈ universe dx methods ->
      terminates (analyse c' m' d' chain self') (advances dx L ok self')) ->
  terminates (CodeTrace.fn_trace_reverse_body rt depth analyse c m d chain self)
    (advances dx L ok self).
Proof.
  intros Hgood Hanalyse. unfold CodeTrace.fn_trace_reverse_body.
  assert (Hdx : androguard_dx (CodeTrace.inst_analysis_utils self) = dx)
    by apply Hgood.
  eapply terminates_bind; [by apply find_subclasses_advances|].
  intros [subs self1] [Hadv1 Hsubs].
  assert (Hdx1 : androguard_dx (CodeTrace.inst_analysis_utils self1) = dx)
    by apply Hadv1.
  match goal with
  | |- terminates (for_each ?l _ _) _ =>
      assert (Hpoints : forall e, e ∈ l -> e ∈ methods)
  end.
  { apply (fold_left_inv (fun acc => forall e, e ∈ acc -> e ∈ methods)).
    - intros e. by apply fn_get_calls_to_method_closed.
    - intros acc sub _ Hacc e. rewrite elem_of_app. intros [He|He]; [auto|].
      by eapply fn_get_calls_to_method_closed. }
  apply (terminates_for_each (advances dx L ok self)); [|done].
  intros e s He Hs. specialize (Hpoints e He).
  eapply terminates_bind;
    [apply fn_get_class_method_desc_from_method_terminates|].
  intros [[c1 m1] d1] Hparts.
  eapply terminates_bind; [apply find_subclasses_advances, Hs|].
  intros [subs1 s1] [Hs1 Hsubs1].
  eapply (terminates_bind _ _
            (fun '(mds, s2) =>
               advances dx L ok s1 s2
               /\ forall l md, mds = Some l -> md ∈ l ->
                    md ∈ String.append m1 d1 :: special_descriptors m1)).
  { destruct (CodeTrace.assoc m1 CodeTrace.special_case_object_list_reverse)
      as [by_class|] eqn:Hspecial.
    - eapply terminates_weaken;
        [apply fn_handle_special_case_reverse_advances, Hs1|].
      intros [found s2] [Hs2 Hfound]. split; [done|].
      intros l md Hl Hmd. right. eauto.
    - simpl. split; [apply advances_refl, Hs1|].
      intros l md [= <-]. rewrite list_elem_of_singleton. intros ->.
      by left. }
  intros [mds s2] [Hs2 Hmds].
  assert (Hadv2 : advances dx L ok self s2).
  { eapply advances_trans; [exact Hs|].
    eapply advances_trans; [exact Hs1|exact Hs2]. }
  apply (terminates_for_each (advances dx L ok self)); [|done].
  intros cp s3 Hcp Hs3. destruct mds as [mds|]; [|done].
  apply (terminates_for_each (advances dx L ok self)); [|done].
  intros md s4 Hmd Hs4.
  eapply terminates_bind; [apply terminates_py_nth; intros mp Hmp; exact Hmp|].
  intros mp Hmp. cbn beta.
  eapply terminates_bind;
    [apply terminates_py_nth; intros tail Htail; exact Htail|].
  intros tail Htail. cbn beta.
  eapply terminates_weaken.
  - apply Hanalyse; [done|].
    eapply (reverse_name_in_universe e c1 m1 d1 cp md); eauto.
    apply elem_of_cons in Hcp. destruct Hcp as [->|Hcp]; [by left|].
    right. auto.
  - intros s5 Hs5. by eapply advances_trans.
Qed.

Lemma fn_trace_forward_body_terminates
  (analyse : string -> string -> string -> string -> CodeTrace.t ->
             res CodeTrace.t)
  (c m d chain : string) (self : CodeTrace.t) :
  good dx L ok self ->
  (forall c' m' d' self',
      advances dx L ok self self' ->
      CodeTrace.compound c' m' d' ∈ universe dx methods ->
      terminates (analyse c' m' d' chain self') (advances dx L ok self')) ->
  terminates (CodeTrace.fn_trace_forward_body rt analyse c m d chain self)
    (advances dx L ok self).
Proof.
  intros Hgood Hanalyse. unfold CodeTrace.fn_trace_forward_body.
  assert (Hdx : androguard_dx (CodeTrace.inst_analysis_utils self) = dx)
    by apply Hgood.
  apply (terminates_for_each (advances dx L ok self)); [|by apply advances_refl].
  intros e s He Hs. apply fn_get_calls_from_method_closed in He; [|done].
  eapply terminates_bind;
    [apply fn_get_class_method_desc_from_method_terminates|].
  intros [[c1 m1] d1] Hparts.
  pose proof (forward_name_in_universe e c1 m1 d1 He Hparts) as Hname.
  unfold forward_name in Hname.
  destruct (CodeTrace.assoc (String.append m1 d1)
              CodeTrace.special_case_object_list_forward) as [m'|];
    (apply (terminates_for_each (advances dx L ok self)); [|done]);
    intros cp s1 Hcp Hs1; apply list_elem_of_singleton in Hcp; subst cp;
    (eapply terminates_weaken; [by apply Hanalyse|]);
    intros s2 Hs2; by eapply advances_trans.
Qed.

Lemma unchecked_shrinks (name : string) (checked : gset string) :
  name ∈ universe dx methods -> name ∉ checked ->
  size (list_to_set (universe dx methods) ∖ (checked ∪ {[name]}) : gset string)
  < size (list_to_set (universe dx methods) ∖ checked : gset string).
Proof.
  intros Hin Hnot. apply subset_size. split.
  - intros x. rewrite !elem_of_difference, elem_of_union. tauto.
  - intros Hsub. specialize (Hsub name).
    rewrite !elem_of_difference, elem_of_union, elem_of_singleton,
      elem_of_list_to_set in Hsub.
    tauto.
Qed.

Lemma unchecked_mono (checked checked' : gset string) :
  checked ⊆ checked' ->
  size (list_to_set (universe dx methods) ∖ checked' : gset string)
  <= size (list_to_set (universe dx methods) ∖ checked : gset string).
Proof.
  intros Hsub. apply subseteq_size. intros x.
  rewrite !elem_of_difference. intros [Hx Hnot]. split; [done|].
  intros Hin. apply Hnot, Hsub, Hin.
Qed.

Lemma good_record (chain : string) (self : CodeTrace.t) :
  good dx L ok self -> ok chain ->
  good dx L ok (CodeTrace.set_output_chains
          (CodeTrace.output_chains self ++ [chain]) self).
Proof.
  intros (Hu & Hmax & Hchains) Hchain. split; [exact Hu|].
  split; [exact Hmax|]. simpl. intros chain'.
  rewrite elem_of_app, list_elem_of_singleton. intros [H| ->]; auto.
Qed.

Lemma fn_analyse_trace_point_terminates (fuel : nat) :
  forall c m d chain self,
    good dx L ok self ->
    CodeTrace.compound c m d ∈ universe dx methods ->
    fits chain ->
    size (list_to_set (universe dx methods)
          ∖ CodeTrace.checked_methods self : gset string) < fuel ->
    terminates (CodeTrace.fn_analyse_trace_point rt depth fuel c m d chain self)
      (advances dx L ok self).
Proof.
  induction fuel as [|fuel IH]; intros c m d chain self Hgood Hname Hchain Hfuel;
    [lia|].
  cbn [CodeTrace.fn_analyse_trace_point]. cbv zeta.
  case_bool_decide as Hchecked; [by apply advances_refl|].
  pose proof (unchecked_shrinks _ _ Hname Hchecked) as Hshrink.
  set (self1 := CodeTrace.set_checked_methods _ self).
  assert (Hgood1 : good dx L ok self1) by exact Hgood.
  eapply terminates_bind; [apply fn_check_stop_condition_frame|].
  intros self2 [s ->]. cbn beta.
  assert (Hcontinue : forall chain' self',
    advances dx L ok self1 self' ->
    ((Z.of_nat (entries chain') <= L)%Z -> fits chain') ->
    terminates
      (if (CodeTrace.trace_length_max self'
           <? Z.of_nat (length (PyStr.split "," chain')))%Z
       then Ok self'
       else
         match CodeTrace.trace_direction self' with
         | CodeTrace.TRACE_FORWARD =>
             CodeTrace.fn_trace_forward_body rt
               (CodeTrace.fn_analyse_trace_point rt depth fuel) c m d chain'
               self'
         | CodeTrace.TRACE_REVERSE =>
             CodeTrace.fn_trace_reverse_body rt depth
               (CodeTrace.fn_analyse_trace_point rt depth fuel) c m d chain'
               self'
         end)
      (advances dx L ok self)).
  { intros chain' self' Hadv Hfits.
    assert (Hself : advances dx L ok self self').
    { destruct Hadv as [Hg Hsub]. split; [done|].
      etrans; [|exact Hsub]. apply union_subseteq_l. }
    destruct Hadv as [Hgood' Hsub].
    destruct (Z.ltb_spec (CodeTrace.trace_length_max self')
                (Z.of_nat (length (PyStr.split "," chain')))) as [Hlong|Hshort];
      [done|].
    assert (Hmax : CodeTrace.trace_length_max self' = L) by apply Hgood'.
    assert (Hchain' : fits chain').
    { apply Hfits. unfold entries. lia. }
    assert (Hcall : forall c' m' d' self'',
      advances dx L ok self' self'' ->
      CodeTrace.compound c' m' d' ∈ universe dx methods ->
      terminates
        (CodeTrace.fn_analyse_trace_point rt depth fuel c' m' d' chain' self'')
        (advances dx L ok self'')).
    { intros c' m' d' self'' [Hgood'' Hsub''] Hname'.
      apply IH; [done|done|done|].
      pose proof (unchecked_mono (CodeTrace.checked_methods self1)
                    (CodeTrace.checked_methods self'')) as Hmono.
      assert (Hle : CodeTrace.checked_methods self1
                    ⊆ CodeTrace.checked_methods self'') by by etrans.
      specialize (Hmono Hle). subst self1. simpl in Hmono. lia. }
    destruct (CodeTrace.trace_direction self').
    - eapply terminates_weaken;
        [by apply fn_trace_forward_body_terminates|].
      intros s' Hs'. by eapply advances_trans.
    - eapply terminates_weaken;
        [by apply fn_trace_reverse_body_terminates|].
      intros s' Hs'. by eapply advances_trans. }
  destruct (ok_extended chain _ Hname Hchain) as [Htrue Hmaybe].
  assert (Hstop : forall s', advances dx L ok self1 (CodeTrace.set_stop_condition s' self1)).
  { intros s'. split; [exact Hgood1|done]. }
  assert (Hself1 : advances dx L ok self self1).
  { split; [done|]. apply union_subseteq_l. }
  destruct s; simpl CodeTrace.stop_condition; cbv iota.
  - case_bool_decide.
    + eapply advances_trans; [exact Hself1|apply Hstop].
    + simpl. eapply advances_trans; [exact Hself1|].
      split; [|done]. by apply (good_record _ (CodeTrace.set_stop_condition _ self1)).
  - apply Hcontinue; [apply Hstop|by intros _].
  - case_bool_decide; [simpl; eapply advances_trans; [exact Hself1|apply Hstop]|].
    apply Hcontinue.
    + split; [|done].
      by apply (good_record _ (CodeTrace.set_stop_condition _ self1)).
    + intros Hshort. by apply fits_short.
Qed.

Lemma fn_trace_handler_good (fuel : nat) (froms : list string)
  (self : CodeTrace.t) :
  length (universe dx methods) < fuel ->
  good dx L ok self ->
  Forall fits froms ->
  terminates (CodeTrace.fn_trace_handler rt depth fuel froms self)
    (fun '(_, self') => good dx L ok self').
Proof.
  intros Hfuel Hgood Hfroms. unfold CodeTrace.fn_trace_handler.
  eapply (terminates_bind _ _ (good dx L ok)); [|by intros self' Hgood'].
  apply (terminates_for_each (good dx L ok)); [|done].
  intros trace_from s Hin Hs.
  rewrite Forall_forall in Hfroms. specialize (Hfroms _ Hin).
  set (s0 := CodeTrace.set_stop_condition _ _).
  assert (Hs0 : good dx L ok s0) by exact Hs.
  eapply terminates_bind;
    [apply fn_determine_class_method_desc_terminates|].
  intros [[c m] d] _.
  assert (Hcall : forall c' m' d' self',
    advances dx L ok s0 self' ->
    CodeTrace.compound c' m' d' ∈ universe dx methods ->
    terminates
      (CodeTrace.fn_analyse_trace_point rt depth fuel c' m' d' trace_from
         self')
      (advances dx L ok self')).
  { intros c' m' d' self' [Hgood' _] Hname.
    apply fn_analyse_trace_point_terminates; [done|done|done|].
    pose proof (size_list_to_set_le (universe dx methods)) as Hsize.
    pose proof (subseteq_size
                  (list_to_set (universe dx methods)
                   ∖ CodeTrace.checked_methods self')
                  (list_to_set (universe dx methods) : gset string))
      as Hle.
    assert (Hsub : (list_to_set (universe dx methods)
                    ∖ CodeTrace.checked_methods self' : gset string)
                   ⊆ list_to_set (universe dx methods)).
    { intros y. rewrite elem_of_difference. tauto. }
    specialize (Hle Hsub). lia. }
  destruct (CodeTrace.trace_direction s0).
  - eapply terminates_weaken;
      [by apply fn_trace_forward_body_terminates|].
    by intros s' [Hs' _].
  - eapply terminates_weaken;
      [by apply fn_trace_reverse_body_terminates|].
    by intros s' [Hs' _].
Qed.

End Traversal.

Lemma entries_recorded (L : Z) (before : list string) (chain name : string) :
  commas name = 0 ->
  (Z.of_nat (entries chain) <= L)%Z ->
  reported L before (CodeTrace.extend_chain chain name)
  /\ reported L before
       (CodeTrace.extend_chain chain (String.append "|MAYBE|" name)).
Proof.
  intros Hname Hchain. split; right.
  - pose proof (entries_extend_chain chain name Hname). lia.
  - pose proof (entries_extend_chain chain (String.append "|MAYBE|" name)) as H.
    rewrite commas_maybe in H. specialize (H Hname). lia.
Qed.


End TraceTermination.

Lemma make_dx_finite (table : MethodTable) (methods : list EncodedMethod) :
  table_closed table methods = true ->
  finite_app (make_dx [] table) methods 1.
Proof.
  intros Hclosed.
  assert (Hrow : forall row e,
    row ∈ table -> e ∈ snd (fst row) ++ snd row -> e ∈ methods).
  { intros row e Hrow He. unfold table_closed in Hclosed.
    rewrite forallb_forall in Hclosed.
    apply list_elem_of_In, Hclosed in Hrow.
    rewrite forallb_forall in Hrow.
    apply list_elem_of_In, Hrow in He. by apply bool_decide_eq_true in He. }
  split.
  - lia.
  - intros c m d ma e Hma He. simpl in Hma.
    apply list_elem_of_fmap in Hma as [row [-> Hin]].
    apply list_elem_of_filter in Hin as [_ Hin].
    apply (Hrow row e Hin). apply elem_of_app. by left.
  - intros c m d ma p Hma Hp. simpl in Hma.
    apply list_elem_of_fmap in Hma as [row [-> Hin]].
    apply list_elem_of_filter in Hin as [_ Hin]. simpl in Hp.
    apply list_elem_of_fmap in Hp as [e [-> He]].
    apply (Hrow row e Hin). apply elem_of_app. by right.
  - exists (fun _ => 0). intros ic Hic. by apply elem_of_nil in Hic.
  - exists (fun _ => 0). intros c ca Hca. by apply elem_of_nil in Hca.
Qed.



(** ** Partial correctness *)

Lemma ensures_bind {A B : Type} (m : res A) (k : A -> res B)
  (P : A -> Prop) (Q : B -> Prop) :
  ensures m P -> (forall a, P a -> ensures (k a) Q) ->
  ensures (res_bind m k) Q.
Proof. destruct m; simpl; auto. Qed.

Lemma ensures_weaken {A : Type} (r : res A) (P Q : A -> Prop) :
  ensures r P -> (forall a, P a -> Q a) -> ensures r Q.
Proof. destruct r; simpl; auto. Qed.

Lemma ensures_elim {A : Type} (r : res A) (Q : A -> Prop) (a : A) :
  ensures r Q -> r = Ok a -> Q a.
Proof. by intros H ->. Qed.

Lemma ensures_intro {A : Type} (r : res A) (Q : A -> Prop) :
  (forall a, r = Ok a -> Q a) -> ensures r Q.
Proof. destruct r; simpl; auto. Qed.

Lemma ensures_eq {A : Type} (r : res A) : ensures r (fun a => r = Ok a).
Proof. by destruct r. Qed.

Lemma ensures_py_nth {A : Type} (l : list A) (i : nat) :
  ensures (py_nth l i) (fun x => l !! i = Some x).
Proof. unfold py_nth. by destruct (l !! i). Qed.

Lemma ensures_for_each {A S : Type} (Inv : S -> Prop) (l : list A)
  (body : A -> S -> res S) :
  (forall x s, x ∈ l -> Inv s -> ensures (body x s) Inv) ->
  forall st, Inv st -> ensures (for_each l body st) Inv.
Proof.
  induction l as [|x l IH]; intros Hbody st Hst; simpl; [done|].
  eapply ensures_bind.
  - apply Hbody; [by left|done].
  - intros s Hs. apply IH; [|done]. intros y s' Hy. apply Hbody. by right.
Qed.

(** The invariant of a loop may speak of the elements passed so far. *)
Lemma ensures_for_each_passed {A S : Type} (Inv : list A -> S -> Prop)
  (body : A -> S -> res S) (l : list A) :
  forall passed st,
    (forall pre x s,
        (exists post, passed ++ l = pre ++ x :: post) ->
        Inv pre s -> ensures (body x s) (Inv (pre ++ [x]))) ->
    Inv passed st ->
    ensures (for_each l body st) (Inv (passed ++ l)).
Proof.
  induction l as [|x l IH]; intros passed st Hbody Hst; simpl.
  - by rewrite app_nil_r.
  - eapply ensures_bind.
    + apply Hbody; [by exists l|done].
    + intros s Hs. replace (passed ++ x :: l) with ((passed ++ [x]) ++ l)
        by by rewrite <- app_assoc.
      apply IH; [|done].
      intros pre y s' [post Hpost]. apply Hbody. exists post.
      by rewrite <- Hpost, <- app_assoc.
Qed.

(** ** analysis_utils.py: subclasses *)

Lemma descendant_inv (dx : Analysis) (c x : string) :
  descendant dx c x <->
  exists ic,
    ic ∈ get_internal_classes dx /\ get_superclassname ic = c
    /\ (x = class_get_name ic \/ descendant dx (class_get_name ic) x).
Proof.
  split.
  - intros H. destruct H as [ic Hic|ic x Hic Hx]; exists ic; auto.
  - intros (ic & Hic & <- & [->|Hx]).
    + by apply descendant_direct.
    + by eapply descendant_step.
Qed.

Section Subclasses.
Variable rt : Runtime.
Hypothesis rt_ok : runtime_ok rt.
Variable dx : Analysis.

Lemma fn_find_subclasses_exact (fuel : nat) :
  forall class_name u,
    androguard_dx u = dx -> memo_exact dx (subclasses u) ->
    ensures (fn_find_subclasses rt fuel class_name true u)
      (fun '(l, u') =>
         (NoDup l /\ forall x, x ∈ l <-> descendant dx class_name x)
         /\ androguard_dx u' = dx
         /\ memo_exact dx (subclasses u')
         /\ superclasses u' = superclasses u).
Proof.
  induction fuel as [|fuel IH]; intros class_name u Hdx Hmemo; [done|].
  cbn [fn_find_subclasses].
  destruct (subclasses u !! class_name) as [l|] eqn:Hlookup.
  { simpl. split; [by apply Hmemo|done]. }
  rewrite Hdx.
  eapply ensures_bind.
  - apply (ensures_for_each_passed
             (fun passed '(found, u') =>
                (forall x,
                    x ∈ found <->
                    exists ic,
                      ic ∈ passed /\ get_superclassname ic = class_name
                      /\ (x = class_get_name ic
                          \/ descendant dx (class_get_name ic) x))
                /\ androguard_dx u' = dx
                /\ memo_exact dx (subclasses u')
                /\ superclasses u' = superclasses u)
             _ _ []).
    + intros pre ic [found u1] _ (Hfound & Hdx1 & Hmemo1 & Hsuper1).
      destruct (String.eqb_spec (get_superclassname ic) class_name)
        as [Heq|Hne].
      * eapply ensures_bind; [by apply IH|].
        intros [next u2] ([_ Hnext] & Hdx2 & Hmemo2 & Hsuper2). simpl.
        split; [|by rewrite Hsuper2].
        intros x. rewrite !elem_of_app, list_elem_of_singleton, Hfound, Hnext.
        split.
        -- intros [[(ic' & Hic' & Hs & Hx)| ->]|Hx].
           ++ exists ic'. rewrite elem_of_app. auto.
           ++ exists ic. rewrite elem_of_app, list_elem_of_singleton. auto.
           ++ exists ic. rewrite elem_of_app, list_elem_of_singleton. auto.
        -- intros (ic' & Hic' & Hs & Hx).
           apply elem_of_app in Hic' as [Hic'|Hic'].
           ++ left. left. by exists ic'.
           ++ apply list_elem_of_singleton in Hic'. subst ic'.
              destruct Hx as [->|Hx]; auto.
      * simpl. split; [|done].
        intros x. rewrite Hfound. split.
        -- intros (ic' & Hic' & Hs & Hx). exists ic'.
           rewrite elem_of_app. auto.
        -- intros (ic' & Hic' & Hs & Hx).
           apply elem_of_app in Hic' as [Hic'|Hic']; [by exists ic'|].
           apply list_elem_of_singleton in Hic'. by subst ic'.
    + split; [|done]. intros x. split.
      * intros Hx. by apply elem_of_nil in Hx.
      * intros (ic & Hic & _). by apply elem_of_nil in Hic.
  - intros [found u1] (Hfound & Hdx1 & Hmemo1 & Hsuper1). simpl.
    rewrite app_nil_l in Hfound.
    assert (Hexact :
      NoDup (list_of_str_set rt found)
      /\ forall x, x ∈ list_of_str_set rt found <-> descendant dx class_name x).
    { split; [apply (str_set_NoDup rt rt_ok)|].
      intros x. rewrite (str_set_elem rt rt_ok), Hfound.
      symmetry. apply descendant_inv. }
    split; [done|]. split; [done|]. split; [|done].
    intros k l. rewrite lookup_insert. case_decide as Hk.
    + intros [= <-]. by subst k.
    + apply Hmemo1.
Qed.

End Subclasses.

(** X1: [fn_find_subclasses] returns the classes below the class it is
    asked about, each once: the internal classes that reach it through
    their chain of superclasses. *)
Theorem subclasses_are_descendants (rt : Runtime) (fuel : nat)
  (class_name : string) (u u' : AnalysisUtils.t) (l : list string) :
  runtime_ok rt ->
  memo_exact (androguard_dx u) (subclasses u) ->
  fn_find_subclasses rt fuel class_name true u = Ok (l, u') ->
  NoDup l
  /\ (forall x, x ∈ l <-> descendant (androguard_dx u) class_name x)
  /\ memo_exact (androguard_dx u) (subclasses u').
Proof.
  intros Hrt Hmemo Hrun.
  pose proof (fn_find_subclasses_exact rt Hrt (androguard_dx u) fuel
                class_name u eq_refl Hmemo) as H.
  rewrite Hrun in H. simpl in H. destruct H as ([Hnodup Hl] & _ & Hmemo' & _).
  done.
Qed.

Lemma subclasses_are_descendants_witness :
  NoDup ["LS1;"; "LS2;"]
  /\ (forall x,
         x ∈ ["LS1;"; "LS2;"] <-> descendant hierarchy_app "LBase;" x).
Proof.
  assert (Hrun : exists u',
    fn_find_subclasses insertion_order 5 "LBase;" true
      (AnalysisUtils.init no_config hierarchy_app)
    = Ok (["LS1;"; "LS2;"], u')).
  { eexists. vm_compute. reflexivity. }
  destruct Hrun as [u' Hrun].
  destruct (subclasses_are_descendants insertion_order 5 "LBase;"
              (AnalysisUtils.init no_config hierarchy_app) u'
              ["LS1;"; "LS2;"] insertion_order_ok) as (Hnodup & Hl & _).
  - intros k l Hk. simpl in Hk. by rewrite lookup_empty in Hk.
  - exact Hrun.
  - by split.
Defined.

(** X2: [fn_find_subclasses] memoises.  Once a call for a class has
    returned, every later call for that class returns the same list and
    leaves the object as it is, whatever its [recursion] argument. *)
Theorem subclasses_memoised (rt : Runtime) (fuel fuel' : nat)
  (class_name : string) (recursion recursion' : bool)
  (u u' : AnalysisUtils.t) (l : list string) :
  fn_find_subclasses rt fuel class_name recursion u = Ok (l, u') ->
  0 < fuel' ->
  fn_find_subclasses rt fuel' class_name recursion' u' = Ok (l, u').
Proof.
  intros Hrun Hfuel. destruct fuel' as [|fuel']; [lia|].
  destruct fuel as [|fuel]; [done|].
  cbn [fn_find_subclasses] in *.
  destruct (subclasses u !! class_name) as [l0|] eqn:Hlookup.
  - injection Hrun as <- <-. by rewrite Hlookup.
  - apply res_bind_ok in Hrun as ([found u1] & _ & Hrun).
    injection Hrun as <- <-. simpl. by rewrite lookup_insert_eq.
Qed.

Lemma subclasses_memoised_witness :
  exists u',
    fn_find_subclasses insertion_order 1 "LBase;" false u'
    = Ok (["LS1;"; "LS2;"], u').
Proof.
  eexists.
  apply (subclasses_memoised insertion_order 5 1 "LBase;" true false
           (AnalysisUtils.init no_config hierarchy_app)).
  - vm_compute. reflexivity.
  - lia.
Defined.

(** ** analysis_utils.py: call sites *)

Lemma fold_left_passed {A B : Type} (Inv : list A -> B -> Prop)
  (f : B -> A -> B) (l : list A) :
  forall passed b,
    (forall pre x b, Inv pre b -> Inv (pre ++ [x]) (f b x)) ->
    Inv passed b -> Inv (passed ++ l) (fold_left f l b).
Proof.
  induction l as [|x l IH]; intros passed b Hf Hb; simpl.
  - by rewrite app_nil_r.
  - replace (passed ++ x :: l) with ((passed ++ [x]) ++ l)
      by by rewrite <- app_assoc.
    apply IH; [done|]. by apply Hf.
Qed.

(** X3: the call sites [fn_get_calls_to_method] returns are the
    cross-references to the methods that match, without those in a
    method it skips as interactive, each once. *)
Theorem calls_to_method_characterised (u : AnalysisUtils.t)
  (class_part method_part desc_part : string) :
  NoDup (fn_get_calls_to_method u class_part method_part desc_part)
  /\ forall e,
       e ∈ fn_get_calls_to_method u class_part method_part desc_part
       <-> exists method_obj,
             method_obj ∈ fn_get_methods u class_part method_part desc_part
             /\ e ∈ get_xref_from method_obj
             /\ skipped_as_interactive u (get_name e) = false.
Proof.
  unfold fn_get_calls_to_method.
  set (method_objs := fn_get_methods u class_part method_part desc_part).
  change method_objs with ([] ++ method_objs) at 3.
  apply (fold_left_passed
           (fun passed calling_methods =>
              NoDup calling_methods
              /\ forall e,
                   e ∈ calling_methods
                   <-> exists method_obj,
                         method_obj ∈ passed
                         /\ e ∈ get_xref_from method_obj
                         /\ skipped_as_interactive u (get_name e) = false)).
  - intros passed method_obj calling_methods [Hnodup Hin].
    assert (Hinner :
      NoDup (fold_left
               (fun calling_methods xref_from_elem =>
                  if skipped_as_interactive u (get_name xref_from_elem)
                  then calling_methods
                  else if bool_decide (xref_from_elem ∈ calling_methods)
                       then calling_methods
                       else calling_methods ++ [xref_from_elem])
               (get_xref_from method_obj) calling_methods)
      /\ forall e,
           e ∈ fold_left
                 (fun calling_methods xref_from_elem =>
                    if skipped_as_interactive u (get_name xref_from_elem)
                    then calling_methods
                    else if bool_decide (xref_from_elem ∈ calling_methods)
                         then calling_methods
                         else calling_methods ++ [xref_from_elem])
                 (get_xref_from method_obj) calling_methods
           <-> e ∈ calling_methods
               \/ (e ∈ [] ++ get_xref_from method_obj
                   /\ skipped_as_interactive u (get_name e) = false)).
    { apply (fold_left_passed
               (fun seen acc =>
                  NoDup acc
                  /\ forall e,
                       e ∈ acc
                       <-> e ∈ calling_methods
                           \/ (e ∈ seen
                               /\ skipped_as_interactive u (get_name e)
                                  = false))).
      - intros seen x acc [Hacc Hseen].
        destruct (skipped_as_interactive u (get_name x)) eqn:Hskip.
        + split; [done|]. intros e. rewrite Hseen, elem_of_app,
            list_elem_of_singleton.
          split; [tauto|]. intros [He|[[He| ->] Hk]]; [tauto|tauto|].
          congruence.
        + case_bool_decide as Hx.
          * split; [done|]. intros e. rewrite Hseen, elem_of_app,
              list_elem_of_singleton.
            split; [tauto|]. intros [He|[[He| ->] Hk]]; [tauto|tauto|].
            by apply Hseen.
          * split.
            -- apply NoDup_app. split; [done|]. split; [|apply NoDup_singleton].
               intros y Hy Hy'. apply list_elem_of_singleton in Hy'.
               by subst y.
            -- intros e. rewrite !elem_of_app, list_elem_of_singleton, Hseen.
               split; [|tauto]. intros [[He|He]| ->]; tauto.
      - split; [done|]. intros e. split; [tauto|].
        intros [He|[He _]]; [done|]. by apply elem_of_nil in He. }
    destruct Hinner as [Hnodup' Hin']. split; [done|].
    intros e. rewrite Hin', Hin. simpl. split.
    + intros [(mo & Hmo & He)|[He Hk]].
      * exists mo. rewrite elem_of_app. tauto.
      * exists method_obj. rewrite elem_of_app, list_elem_of_singleton. tauto.
    + intros (mo & Hmo & He & Hk). apply elem_of_app in Hmo as [Hmo|Hmo].
      * left. by exists mo.
      * apply list_elem_of_singleton in Hmo. subst mo. tauto.
  - split; [apply NoDup_nil_2|]. intros e. split.
    + intros He. by apply elem_of_nil in He.
    + intros (mo & Hmo & _). by apply elem_of_nil in Hmo.
Qed.

Lemma keep_user_interaction_init (config : Config) (dx : Analysis) :
  keep_user_interaction (AnalysisUtils.init config dx) = PyBool false.
Proof.
  unfold AnalysisUtils.init.
  by destruct (SEARCHPARAMS_KEEP_INTERACTIVE_ELEMENTS config).
Qed.

Lemma interactive_fold (method_name : string) (events : list string)
  (b : bool) :
  fold_left
    (fun is_interactive_method user_interaction_event =>
       if String.eqb method_name user_interaction_event
       then true else is_interactive_method)
    events b = true
  <-> b = true \/ method_name ∈ events.
Proof.
  revert b. induction events as [|ev events IH]; intros b; simpl.
  - split; [tauto|]. intros [H|H]; [done|]. by apply elem_of_nil in H.
  - rewrite IH, elem_of_cons.
    destruct (String.eqb_spec method_name ev) as [->|Hne]; [tauto|].
    split; [tauto|]. intros [H|[H|H]]; tauto.
Qed.

Lemma fn_check_for_user_interaction_element_spec (method_name : string) :
  fn_check_for_user_interaction_element method_name = true
  <-> method_name ∈ user_interaction_events.
Proof.
  unfold fn_check_for_user_interaction_element. rewrite interactive_fold.
  split; [|tauto]. by intros [H|H].
Qed.

Lemma skipped_init (config : Config) (dx : Analysis) (method_name : string) :
  skipped_as_interactive (AnalysisUtils.init config dx) method_name = false ->
  method_name ∉ user_interaction_events.
Proof.
  unfold skipped_as_interactive. rewrite keep_user_interaction_init. simpl.
  intros Hskip Hin. apply fn_check_for_user_interaction_element_spec in Hin.
  congruence.
Qed.

Lemma collect_callers_kept (u : AnalysisUtils.t)
  (xrefs : list (list EncodedMethod)) (e : EncodedMethod) :
  e ∈ collect_callers u xrefs ->
  skipped_as_interactive u (get_name e) = false.
Proof.
  unfold collect_callers. revert e.
  apply (fold_left_inv
           (fun acc => forall e, e ∈ acc ->
                                 skipped_as_interactive u (get_name e) = false)).
  { intros e He. by apply elem_of_nil in He. }
  intros acc xref_from _ Hacc.
  apply (fold_left_inv
           (fun acc => forall e, e ∈ acc ->
                                 skipped_as_interactive u (get_name e) = false));
    [done|].
  intros acc' x _ Hacc'.
  destruct (skipped_as_interactive u (get_name x)) eqn:Hskip; [done|].
  intros e. rewrite elem_of_app, list_elem_of_singleton.
  intros [He| ->]; auto.
Qed.

Lemma fn_get_calls_to_method_kept (u : AnalysisUtils.t) (c m d : string)
  (e : EncodedMethod) :
  e ∈ fn_get_calls_to_method u c m d ->
  skipped_as_interactive u (get_name e) = false.
Proof.
  unfold fn_get_calls_to_method. revert e.
  apply (fold_left_inv
           (fun acc => forall e, e ∈ acc ->
                                 skipped_as_interactive u (get_name e) = false)).
  { intros e He. by apply elem_of_nil in He. }
  intros acc method_obj _ Hacc.
  apply (fold_left_inv
           (fun acc => forall e, e ∈ acc ->
                                 skipped_as_interactive u (get_name e) = false));
    [done|].
  intros acc' x _ Hacc'.
  destruct (skipped_as_interactive u (get_name x)) eqn:Hskip; [done|].
  case_bool_decide; [done|].
  intros e. rewrite elem_of_app, list_elem_of_singleton.
  intros [He| ->]; auto.
Qed.

Lemma fn_get_calls_from_method_kept (rt : Runtime) (u : AnalysisUtils.t)
  (c m d : string) (exclude_external : bool) (e : EncodedMethod) :
  runtime_ok rt ->
  e ∈ fn_get_calls_from_method rt u c m d exclude_external ->
  skipped_as_interactive u (get_name e) = false.
Proof.
  intros Hrt. unfold fn_get_calls_from_method.
  rewrite (method_set_elem rt Hrt). revert e.
  apply (fold_left_inv
           (fun acc => forall e, e ∈ acc ->
                                 skipped_as_interactive u (get_name e) = false)).
  { intros e He. by apply elem_of_nil in He. }
  intros acc method_obj _ Hacc.
  apply (fold_left_inv
           (fun acc => forall e, e ∈ acc ->
                                 skipped_as_interactive u (get_name e) = false));
    [done|].
  intros acc' x _ Hacc'.
  destruct (exclude_external && x.1); [done|].
  destruct (skipped_as_interactive u (get_name x.2)) eqn:Hskip; [done|].
  intros e. rewrite elem_of_app, list_elem_of_singleton.
  intros [He| ->]; auto.
Qed.

(** X4: whatever the configuration file says, no call-site query of an
    [AnalysisUtils] object returns a call site in a method that is named
    like a user interaction handler ([onClick], [onTouch], ...). *)
Theorem interactive_call_sites_excluded (rt : Runtime) (config : Config)
  (dx : Analysis) (c m d : string) (exclude_external : bool)
  (e : EncodedMethod) :
  runtime_ok rt ->
  e ∈ fn_get_calls_to_method (AnalysisUtils.init config dx) c m d
  \/ e ∈ fn_get_calls_from_method rt (AnalysisUtils.init config dx) c m d
         exclude_external
  \/ e ∈ fn_get_calls_to_class rt (AnalysisUtils.init config dx) c ->
  get_name e ∉ user_interaction_events.
Proof.
  intros Hrt [He|[He|He]]; apply (skipped_init config dx).
  - by eapply fn_get_calls_to_method_kept.
  - by eapply fn_get_calls_from_method_kept.
  - unfold fn_get_calls_to_class in He.
    rewrite (method_set_elem rt Hrt) in He.
    exact (collect_callers_kept _ _ _ He).
Qed.

Lemma interactive_call_sites_excluded_witness :
  get_name mMain ∉ user_interaction_events.
Proof.
  apply (interactive_call_sites_excluded insertion_order keep_config fan_app
           "LT;" "one" "()V" false mMain insertion_order_ok).
  left. vm_compute. apply list_elem_of_singleton. reflexivity.
Defined.

(** ** Python strings *)

Lemma append_cons (c : ascii) (a b : string) :
  String.append (String c a) b = String c (String.append a b).
Proof. reflexivity. Qed.

Lemma append_nil_r (s : string) : String.append s "" = s.
Proof.
  induction s as [|c s IH]; [done|]. by rewrite append_cons, IH.
Qed.

Lemma append_assoc (a b c : string) :
  String.append (String.append a b) c = String.append a (String.append b c).
Proof.
  induction a as [|x a IH]; [done|]. by rewrite !append_cons, IH.
Qed.

Lemma prefix_nil (s : string) : String.prefix "" s = true.
Proof. by destruct s. Qed.

Lemma prefix_append (sep b : string) :
  String.prefix sep (String.append sep b) = true.
Proof.
  induction sep as [|c sep IH]; [apply prefix_nil|].
  rewrite append_cons. cbn [String.prefix].
  by destruct (Ascii.ascii_dec c c).
Qed.

Lemma contains_cons (sep : string) (c : ascii) (s : string) :
  PyStr.contains sep (String c s)
  = String.prefix sep (String c s) || PyStr.contains sep s.
Proof. reflexivity. Qed.

Lemma contains_append_r (sep a b : string) :
  PyStr.contains sep b = true -> PyStr.contains sep (String.append a b) = true.
Proof.
  intros Hb. induction a as [|c a IH]; [done|].
  rewrite append_cons, contains_cons, IH. apply orb_true_r.
Qed.

Lemma contains_here (sep a b : string) :
  PyStr.contains sep (String.append a (String.append sep b)) = true.
Proof.
  apply contains_append_r. destruct (String.append sep b) eqn:Hs.
  - destruct sep; [done|discriminate].
  - rewrite contains_cons, <- Hs, prefix_append. done.
Qed.

(** Passing over the rest of a matched separator. *)
Lemma split_go_skip (sep x cur b : string) :
  PyStr.split_go sep (String.length x) cur (String.append x b)
  = PyStr.split_go sep 0 cur b.
Proof.
  induction x as [|c x IH]; [by destruct b|].
  rewrite append_cons. cbn [String.length PyStr.split_go]. done.
Qed.

Lemma clean_tail (sep : string) (c : ascii) (a rest : string) :
  clean sep (String c a) rest -> clean sep a rest.
Proof.
  intros H a1 x a2 ->. apply (H (String c a1) x a2). reflexivity.
Qed.

Lemma split_go_clean (sep a rest : string) :
  forall cur,
    clean sep a rest ->
    PyStr.split_go sep 0 cur (String.append a rest)
    = PyStr.split_go sep 0 (String.append cur a) rest.
Proof.
  induction a as [|c a IH]; intros cur Hclean.
  - by rewrite append_nil_r.
  - rewrite append_cons. cbn [PyStr.split_go].
    rewrite (Hclean "" c a eq_refl).
    rewrite IH by by eapply clean_tail.
    by rewrite append_assoc.
Qed.

Lemma split_go_at (c : ascii) (sep cur b : string) :
  PyStr.split_go (String c sep) 0 cur (String.append (String c sep) b)
  = cur :: PyStr.split_go (String c sep) 0 "" b.
Proof.
  pose proof (prefix_append (String c sep) b) as Hp.
  rewrite append_cons in *. cbn [PyStr.split_go]. rewrite Hp.
  replace (String.length (String c sep) - 1) with (String.length sep)
    by (cbn [String.length]; lia).
  by rewrite split_go_skip.
Qed.

Lemma split_none (sep s cur : string) :
  PyStr.contains sep s = false ->
  PyStr.split_go sep 0 cur s = [String.append cur s].
Proof.
  revert cur. induction s as [|c s IH]; intros cur Hs.
  - by rewrite append_nil_r.
  - rewrite contains_cons in Hs. apply orb_false_elim in Hs as [Hp Hs].
    cbn [PyStr.split_go]. rewrite Hp, IH by done.
    by rewrite append_assoc.
Qed.

(** A string cut at a separator that occurs once. *)
Lemma split_once (c : ascii) (sep a b : string) :
  clean (String c sep) a (String.append (String c sep) b) ->
  PyStr.contains (String c sep) b = false ->
  PyStr.split (String c sep) (String.append a (String.append (String c sep) b))
  = [a; b].
Proof.
  intros Hclean Hb. unfold PyStr.split.
  rewrite split_go_clean by done.
  rewrite split_go_at. by rewrite split_none.
Qed.

Lemma clean_char (c : ascii) (a rest : string) :
  PyStr.contains (String c "") a = false -> clean (String c "") a rest.
Proof.
  intros Ha a1 x a2 ->.
  assert (Hx : PyStr.contains (String c "") (String x a2) = false).
  { destruct (PyStr.contains (String c "") (String x a2)) eqn:H; [|done].
    by rewrite (contains_append_r _ a1 _ H) in Ha. }
  rewrite contains_cons in Hx. apply orb_false_elim in Hx as [Hp _].
  cbn [String.prefix] in *. destruct (Ascii.ascii_dec c x); [|done].
  by rewrite prefix_nil in Hp.
Qed.

Lemma clean_arrow (a b : string) :
  PyStr.contains "->" a = false ->
  clean "->" a (String.append "->" b).
Proof.
  intros Ha a1 x a2 ->.
  assert (Hx : PyStr.contains "->" (String x a2) = false).
  { destruct (PyStr.contains "->" (String x a2)) eqn:H; [|done].
    by rewrite (contains_append_r _ a1 _ H) in Ha. }
  rewrite contains_cons in Hx. apply orb_false_elim in Hx as [Hp _].
  cbn [String.prefix] in *. destruct (Ascii.ascii_dec "-" x); [|done].
  destruct a2 as [|y a2]; [done|].
  rewrite append_cons. cbn [String.prefix] in *.
  destruct (Ascii.ascii_dec ">" y); [|done].
  by rewrite prefix_nil in Hp.
Qed.

(** ** analysis_utils.py: signatures *)

(** X5: a signature the trace engine writes, [class->method(descriptor],
    is read back by [fn_get_class_method_desc_from_string] as the three
    parts it was made of. *)
Theorem signature_round_trip (class_part method_part desc_tail : string) :
  PyStr.contains "->" class_part = false ->
  PyStr.contains "->" (String.append method_part (String.append "(" desc_tail))
  = false ->
  PyStr.contains "(" method_part = false ->
  PyStr.contains "(" desc_tail = false ->
  fn_get_class_method_desc_from_string
    (CodeTrace.compound class_part method_part (String.append "(" desc_tail))
  = Ok (class_part, method_part, String.append "(" desc_tail).
Proof.
  intros Hclass Hrest Hmethod Hdesc.
  unfold fn_get_class_method_desc_from_string, CodeTrace.compound.
  rewrite (contains_here "->").
  rewrite (split_once "-" ">") by (by apply clean_arrow || done).
  cbn [length Nat.eqb negb orb lookup list_lookup py_nth res_bind].
  destruct (String.append method_part (String.append "(" desc_tail)) eqn:Hmd.
  { destruct method_part; discriminate. }
  rewrite <- Hmd.
  rewrite (contains_here "(").
  rewrite (split_once "(" "") by (by apply clean_char || done).
  reflexivity.
Qed.

Lemma signature_round_trip_witness :
  fn_get_class_method_desc_from_string
    (CodeTrace.compound "Landroid/util/ArrayMap;" "get"
       (String.append "(" "Ljava/lang/Object;)Ljava/lang/Object;"))
  = Ok ("Landroid/util/ArrayMap;", "get",
        String.append "(" "Ljava/lang/Object;)Ljava/lang/Object;").
Proof.
  apply signature_round_trip; vm_compute; reflexivity.
Defined.

(** X6: [fn_get_class_method_desc_from_string] rejects a string in which
    nothing follows [->], and a string with two [->], with
    [IncorrectMethodCall]. *)
Theorem signature_rejected (a b r : string) :
  PyStr.contains "->" a = false ->
  PyStr.contains "->" b = false ->
  PyStr.contains "->" r = false ->
  fn_get_class_method_desc_from_string (String.append a "->")
  = Raise (JandroidException "IncorrectMethodCall")
  /\ fn_get_class_method_desc_from_string
       (String.append a (String.append "->"
          (String.append b (String.append "->" r))))
     = Raise (JandroidException "IncorrectMethodCall").
Proof.
  intros Ha Hb Hr. unfold fn_get_class_method_desc_from_string. split.
  - pose proof (contains_here "->" a "") as Hin.
    pose proof (split_once "-" ">" a "" (clean_arrow a "" Ha) eq_refl)
      as Hsplit.
    rewrite append_nil_r in Hin, Hsplit.
    change (String.append "->" "") with "->" in *.
    by rewrite Hin, Hsplit.
  - rewrite (contains_here "->"). unfold PyStr.split.
    rewrite split_go_clean by by apply clean_arrow.
    rewrite (split_go_at "-" ">").
    rewrite split_go_clean by by apply clean_arrow.
    rewrite (split_go_at "-" ">").
    by rewrite split_none.
Qed.

Lemma signature_rejected_witness :
  fn_get_class_method_desc_from_string (String.append "LA;" "->")
  = Raise (JandroidException "IncorrectMethodCall")
  /\ fn_get_class_method_desc_from_string
       (String.append "LA;" (String.append "->"
          (String.append "a" (String.append "->" "b()V"))))
     = Raise (JandroidException "IncorrectMethodCall").
Proof. apply signature_rejected; vm_compute; reflexivity. Defined.

(** ** common.py: conversions *)

Lemma contains_char_cons (c x : ascii) (s : string) :
  PyStr.contains (String c "") (String x s)
  = if Ascii.ascii_dec c x then true else PyStr.contains (String c "") s.
Proof.
  rewrite contains_cons. cbn [String.prefix].
  destruct (Ascii.ascii_dec c x); [by rewrite prefix_nil|done].
Qed.

Lemma replace_char_cons (c x : ascii) (new s : string) :
  PyStr.replace (String c "") new (String x s)
  = if Ascii.ascii_dec c x
    then String.append new (PyStr.replace (String c "") new s)
    else String x (PyStr.replace (String c "") new s).
Proof.
  unfold PyStr.replace. cbn [PyStr.replace_go String.prefix].
  destruct (Ascii.ascii_dec c x); [by rewrite prefix_nil|done].
Qed.

Lemma contains_char_append (c : ascii) (a b : string) :
  PyStr.contains (String c "") (String.append a b)
  = PyStr.contains (String c "") a || PyStr.contains (String c "") b.
Proof.
  induction a as [|x a IH]; [done|].
  rewrite append_cons, !contains_char_cons, IH.
  by destruct (Ascii.ascii_dec c x).
Qed.

Lemma replace_absent (c : ascii) (new s : string) :
  PyStr.contains (String c "") s = false ->
  PyStr.replace (String c "") new s = s.
Proof.
  induction s as [|x s IH]; [done|].
  rewrite contains_char_cons, replace_char_cons.
  destruct (Ascii.ascii_dec c x); [done|]. intros H. by rewrite IH.
Qed.

Lemma replace_append (c : ascii) (new a b : string) :
  PyStr.replace (String c "") new (String.append a b)
  = String.append (PyStr.replace (String c "") new a)
      (PyStr.replace (String c "") new b).
Proof.
  induction a as [|x a IH]; [done|].
  rewrite append_cons, !replace_char_cons, IH.
  destruct (Ascii.ascii_dec c x); [by rewrite append_assoc|done].
Qed.

Lemma replace_back (c d : ascii) (s : string) :
  PyStr.contains (String d "") s = false ->
  PyStr.replace (String d "") (String c "")
    (PyStr.replace (String c "") (String d "") s) = s.
Proof.
  induction s as [|x s IH]; [done|].
  rewrite contains_char_cons. destruct (Ascii.ascii_dec d x) as [|Hdx]; [done|].
  intros Hs. rewrite replace_char_cons.
  destruct (Ascii.ascii_dec c x) as [->|Hcx].
  - change (String.append (String d "") ?t) with (String d t).
    rewrite replace_char_cons. destruct (Ascii.ascii_dec d d); [|done].
    by rewrite IH.
  - rewrite replace_char_cons. destruct (Ascii.ascii_dec d x); [done|].
    by rewrite IH.
Qed.

Lemma replace_removes (c d : ascii) (s : string) :
  c <> d ->
  PyStr.contains (String c "") (PyStr.replace (String c "") (String d "") s)
  = false.
Proof.
  intros Hcd. induction s as [|x s IH]; [done|].
  rewrite replace_char_cons. destruct (Ascii.ascii_dec c x) as [->|Hcx].
  - change (String.append (String d "") ?t) with (String d t).
    rewrite contains_char_cons. by destruct (Ascii.ascii_dec x d).
  - rewrite contains_char_cons. by destruct (Ascii.ascii_dec c x).
Qed.

Lemma replace_keeps_absent (x c d : ascii) (s : string) :
  x <> d ->
  PyStr.contains (String x "") s = false ->
  PyStr.contains (String x "") (PyStr.replace (String c "") (String d "") s)
  = false.
Proof.
  intros Hxd. induction s as [|y s IH]; [done|].
  rewrite contains_char_cons. destruct (Ascii.ascii_dec x y) as [|Hxy]; [done|].
  intros Hs. rewrite replace_char_cons.
  destruct (Ascii.ascii_dec c y) as [->|Hcy].
  - change (String.append (String d "") ?t) with (String d t).
    rewrite contains_char_cons. destruct (Ascii.ascii_dec x d); [done|].
    by apply IH.
  - rewrite contains_char_cons. destruct (Ascii.ascii_dec x y); [done|].
    by apply IH.
Qed.

(** X7: a dotted class name without [;] and [/] that is converted to
    smali and back is the name it was. *)
Theorem dotted_smali_dotted (classpath : string) :
  PyStr.contains ";" classpath = false ->
  PyStr.contains "/" classpath = false ->
  Common.fn_smali_to_dotted (Common.fn_dotted_to_smali classpath) = classpath.
Proof.
  intros Hsemi Hslash.
  unfold Common.fn_smali_to_dotted, Common.fn_dotted_to_smali.
  rewrite append_assoc, (append_cons "L"). cbn [PyStr.drop].
  change (String.append "" ?t) with t.
  rewrite replace_append.
  rewrite (replace_absent ";" "" (PyStr.replace "." "/" classpath))
    by by apply replace_keeps_absent.
  change (PyStr.replace ";" "" ";") with "". rewrite append_nil_r.
  by apply replace_back.
Qed.

Lemma dotted_smali_dotted_witness :
  Common.fn_smali_to_dotted (Common.fn_dotted_to_smali "com.example.Main")
  = "com.example.Main".
Proof. apply dotted_smali_dotted; vm_compute; reflexivity. Defined.

(** X8: a smali class name [L...;] without [.] and without a further
    [;] that is converted to dotted form and back is the name it was. *)
Theorem smali_dotted_smali (body : string) :
  PyStr.contains "." body = false ->
  PyStr.contains ";" body = false ->
  Common.fn_dotted_to_smali
    (Common.fn_smali_to_dotted
       (String.append (String.append "L" body) ";"))
  = String.append (String.append "L" body) ";".
Proof.
  intros Hdot Hsemi.
  unfold Common.fn_smali_to_dotted, Common.fn_dotted_to_smali.
  change (PyStr.drop 1 (String.append (String.append "L" body) ";"))
    with (String.append body ";").
  rewrite replace_append, (replace_absent ";" "" body) by done.
  change (PyStr.replace ";" "" ";") with "". rewrite append_nil_r.
  by rewrite replace_back.
Qed.

Lemma smali_dotted_smali_witness :
  Common.fn_dotted_to_smali
    (Common.fn_smali_to_dotted
       (String.append (String.append "L" "com/example/Main") ";"))
  = String.append (String.append "L" "com/example/Main") ";".
Proof. apply smali_dotted_smali; vm_compute; reflexivity. Defined.

(** ** manifest_analyser.py: standardisation *)

(** X9: [fn_standardise] leaves no [.] in its result, and applying it a
    second time changes nothing. *)
Theorem standardise_idempotent (element : string) :
  PyStr.contains "." (ManifestAnalyser.fn_standardise element) = false
  /\ ManifestAnalyser.fn_standardise (ManifestAnalyser.fn_standardise element)
     = ManifestAnalyser.fn_standardise element.
Proof.
  assert (Hdot :
    PyStr.contains "." (ManifestAnalyser.fn_standardise element) = false).
  { unfold ManifestAnalyser.fn_standardise.
    destruct (PyStr.contains "." element) eqn:Hin; [|done].
    unfold Common.fn_dotted_to_smali.
    rewrite !contains_char_append, replace_removes by done. done. }
  split; [done|].
  unfold ManifestAnalyser.fn_standardise at 1. by rewrite Hdot.
Qed.

(** ** analysis_utils.py: returns and links *)

Lemma bind_link_returns (key value : string)
  (links : gmap string (list string)) :
  key <> "" -> exists links', bind_link key value links = Ok links'.
Proof.
  intros Hkey. unfold bind_link. destruct key as [|c key]; [done|]. simpl.
  destruct (is_at c); simpl; [|eauto].
  destruct (links !! String c key); [case_bool_decide|]; eauto.
Qed.

Lemma bindings_return (bindings : list (string * string)) :
  forall links,
    forallb (fun kv => negb (String.eqb kv.1 "")) bindings = true ->
    exists links',
      for_each bindings (fun '(k, v) => bind_link k v) links = Ok links'.
Proof.
  induction bindings as [|[key value] bindings IH]; intros links Hall; simpl.
  - eauto.
  - simpl in Hall. apply andb_prop in Hall as [Hkey Hall].
    destruct (bind_link_returns key value links) as [links1 Hbind].
    { intros ->. done. }
    rewrite Hbind. simpl. by apply IH.
Qed.

(** X10: when no identifier is empty, converting returns to links
    returns, and the table then holds under every identifier the values
    it held and the values the returns give that identifier, if it begins
    with [@]: no return is lost and nothing else is bound. *)
Theorem returns_become_links (returns : list (list (string * string)))
  (links : gmap string (list string)) :
  forallb (fun kv => negb (String.eqb kv.1 "")) (concat returns) = true ->
  exists links',
    fn_convert_returns_to_links returns links = Ok links'
    /\ forall id v,
         v ∈ fn_get_linked_items links' id
         <-> v ∈ fn_get_linked_items links id
             \/ (is_link_key id = true /\ (id, v) ∈ concat returns).
Proof.
  intros Hall. rewrite convert_returns_flat.
  destruct (bindings_return (concat returns) links Hall) as [links' Hrun].
  exists links'. split; [done|]. intros id v.
  destruct (bindings_added _ _ _ id Hrun) as (added & -> & _ & Hadded).
  rewrite elem_of_app, Hadded.
  destruct (decide (v ∈ fn_get_linked_items links id)); tauto.
Qed.

Lemma returns_become_links_witness :
  exists links',
    fn_convert_returns_to_links
      [[("@x", "a")]; [("@x", "b"); ("plain", "c")]] {[ "@x" := ["b"] ]}
    = Ok links'
    /\ forall id v,
         v ∈ fn_get_linked_items links' id
         <-> v ∈ fn_get_linked_items {[ "@x" := ["b"] ]} id
             \/ (is_link_key id = true
                 /\ (id, v) ∈ concat [[("@x", "a")];
                                      [("@x", "b"); ("plain", "c")]]).
Proof. apply returns_become_links. vm_compute. reflexivity. Defined.

(** ** Trace engine: what a traversal changes *)

Lemma same_rule_refl (self : CodeTrace.t) : same_rule self self.
Proof. by repeat split. Qed.

Ltac same_rule_setters := unfold same_rule; simpl; by repeat split.

Lemma same_rule_trans (a b c : CodeTrace.t) :
  same_rule a b -> same_rule b c -> same_rule a c.
Proof.
  unfold same_rule. intros Hab Hbc.
  destruct Hab as (?&?&?&?&?&?&?&?&?&?).
  destruct Hbc as (?&?&?&?&?&?&?&?&?&?).
  repeat split; congruence.
Qed.

Lemma exact_end_point_same (a b : CodeTrace.t) (name : string) :
  same_rule a b -> exact_end_point b name -> exact_end_point a name.
Proof.
  intros (_&_&_&_&_&_&_&_&Hto&Hlist) (check & Hcheck & Hin).
  exists check. by rewrite <- Hto, <- Hlist.
Qed.

Lemma trace_step_refl (chain : string) (self : CodeTrace.t) :
  CodeTrace.stop_condition self = CodeTrace.STOP_CONDITION_FALSE ->
  trace_step chain self self.
Proof.
  intros Hstop. split; [apply same_rule_refl|done|done|done|done|].
  intros _ reported Hin. by left.
Qed.

Lemma trace_step_trans (chain : string) (a b c : CodeTrace.t) :
  trace_step chain a b -> trace_step chain b c -> trace_step chain a c.
Proof.
  intros [Rab Pab Nab Cab Sab Wab] [Rbc Pbc Nbc Cbc Sbc Wbc]. split.
  - by eapply same_rule_trans.
  - by etrans.
  - auto.
  - by etrans.
  - done.
  - intros Hhard reported Hin.
    assert (Hhard' : CodeTrace.hardcoded_traceto b = false).
    { destruct Rab as (_&_&_&_&_&_&H&_). by rewrite H. }
    destruct (Wbc Hhard' reported Hin) as [Hb|(name & Hexact & ->)].
    + by apply Wab.
    + right. exists name. split; [|done]. by eapply exact_end_point_same.
Qed.

(** A change of the utility object, of the visited set or of the chain
    given is no change that matters. *)
Lemma trace_step_utils (chain : string) (self : CodeTrace.t)
  (u : AnalysisUtils.t) :
  CodeTrace.stop_condition self = CodeTrace.STOP_CONDITION_FALSE ->
  trace_step chain self (CodeTrace.set_inst_analysis_utils u self).
Proof.
  intros Hstop. split; [same_rule_setters|done|done|done|done|].
  intros _ reported Hin. by left.
Qed.

Lemma trace_step_rechain (chain chain' : string) (self self' : CodeTrace.t) :
  CodeTrace.hardcoded_traceto self = true ->
  trace_step chain' self self' -> trace_step chain self self'.
Proof.
  intros Hhard [R P N C S W]. split; [done..|].
  intros Hfalse. congruence.
Qed.

Lemma fn_check_stop_condition_spec (name : string) (self : CodeTrace.t) :
  CodeTrace.stop_condition self = CodeTrace.STOP_CONDITION_FALSE ->
  ensures (CodeTrace.fn_check_stop_condition name self)
    (fun self' =>
       exists s,
         self' = CodeTrace.set_stop_condition s self
         /\ (s = CodeTrace.STOP_CONDITION_TRUE ->
             CodeTrace.hardcoded_traceto self = false ->
             exact_end_point self name)
         /\ (s = CodeTrace.STOP_CONDITION_MAYBE ->
             CodeTrace.hardcoded_traceto self = true)).
Proof.
  intros Hstop.
  assert (Hsame : self
                  = CodeTrace.set_stop_condition
                      CodeTrace.STOP_CONDITION_FALSE self).
  { destruct self. simpl in Hstop. by subst. }
  assert (Hkeep :
    ensures (Ok self)
      (fun self' =>
         exists s,
           self' = CodeTrace.set_stop_condition s self
           /\ (s = CodeTrace.STOP_CONDITION_TRUE ->
               CodeTrace.hardcoded_traceto self = false ->
               exact_end_point self name)
           /\ (s = CodeTrace.STOP_CONDITION_MAYBE ->
               CodeTrace.hardcoded_traceto self = true))).
  { exists CodeTrace.STOP_CONDITION_FALSE. by split. }
  unfold CodeTrace.fn_check_stop_condition.
  eapply ensures_bind; [apply ensures_eq|].
  intros check_value Hcheck. cbn beta.
  case_bool_decide as Hin.
  { exists CodeTrace.STOP_CONDITION_TRUE. split; [done|]. split; [|done].
    intros _ _. exists check_value. split; [|done].
    destruct (String.eqb (CodeTrace.to_class_method self) "<class>").
    - unfold py_nth in Hcheck.
      destruct (PyStr.split "->" name !! 0); by inversion Hcheck.
    - by inversion Hcheck. }
  destruct (CodeTrace.hardcoded_traceto self) eqn:Hhard; [|done].
  cbn [negb].
  destruct (1 <? length (CodeTrace.trace_to_list self)); [done|].
  eapply ensures_bind; [apply ensures_eq|]. intros trace_to_item _. cbn beta.
  destruct (String.eqb (CodeTrace.to_class_method self) "<class>"
            && PyStr.contains "*" trace_to_item).
  { destruct (PyStr.contains _ check_value).
    - exists CodeTrace.STOP_CONDITION_TRUE. by repeat split.
    - exists CodeTrace.STOP_CONDITION_FALSE. by repeat split. }
  destruct (negb (PyStr.contains "->" trace_to_item)); [done|].
  destruct (negb (PyStr.contains "->" check_value)); [done|].
  destruct (negb (PyStr.contains "(" trace_to_item)); [done|].
  destruct (negb (PyStr.contains "(" check_value)); [done|].
  eapply ensures_bind; [apply ensures_eq|]. intros to_tail _. cbn beta.
  eapply ensures_bind; [apply ensures_eq|]. intros check_tail _. cbn beta.
  destruct (String.eqb to_tail check_tail); [|done].
  exists CodeTrace.STOP_CONDITION_MAYBE. by repeat split.
Qed.

Section TraceFrame.
Variable rt : Runtime.
Variable depth : nat.

Lemma find_subclasses_step (chain class_name : string) (self : CodeTrace.t) :
  CodeTrace.stop_condition self = CodeTrace.STOP_CONDITION_FALSE ->
  ensures (CodeTrace.find_subclasses rt depth class_name self)
    (fun '(_, self') => trace_step chain self self').
Proof.
  intros Hstop. unfold CodeTrace.find_subclasses.
  eapply ensures_bind; [apply ensures_eq|].
  intros [l u] _. simpl. by apply trace_step_utils.
Qed.

Lemma find_superclasses_step (chain class_name : string)
  (self : CodeTrace.t) :
  CodeTrace.stop_condition self = CodeTrace.STOP_CONDITION_FALSE ->
  ensures (CodeTrace.find_superclasses rt depth class_name self)
    (fun '(_, self') => trace_step chain self self').
Proof.
  intros Hstop. unfold CodeTrace.find_superclasses.
  eapply ensures_bind; [apply ensures_eq|].
  intros [l u] _. simpl. by apply trace_step_utils.
Qed.

Lemma fn_handle_special_case_reverse_step (chain c m d : string)
  (self : CodeTrace.t) :
  CodeTrace.stop_condition self = CodeTrace.STOP_CONDITION_FALSE ->
  ensures (CodeTrace.fn_handle_special_case_reverse rt depth c m d self)
    (fun '(_, self') => trace_step chain self self').
Proof.
  intros Hstop. unfold CodeTrace.fn_handle_special_case_reverse.
  eapply ensures_bind; [apply ensures_eq|]. intros relevant_object _.
  eapply ensures_bind; [by apply (find_superclasses_step chain)|].
  by intros [supers self'] Hstep.
Qed.

Lemma fn_trace_reverse_body_step
  (analyse : string -> string -> string -> string -> CodeTrace.t ->
             res CodeTrace.t)
  (c m d chain : string) (self : CodeTrace.t) :
  (forall c' m' d' self',
      CodeTrace.stop_condition self' = CodeTrace.STOP_CONDITION_FALSE ->
      ensures (analyse c' m' d' chain self') (trace_step chain self')) ->
  CodeTrace.stop_condition self = CodeTrace.STOP_CONDITION_FALSE ->
  ensures (CodeTrace.fn_trace_reverse_body rt depth analyse c m d chain self)
    (trace_step chain self).
Proof.
  intros Hanalyse Hstop. unfold CodeTrace.fn_trace_reverse_body.
  eapply ensures_bind; [by apply (find_subclasses_step chain)|].
  intros [subs self1] Hstep1.
  apply (ensures_for_each (trace_step chain self)); [|done].
  intros e s _ Hs.
  eapply ensures_bind; [apply ensures_eq|]. intros [[c1 m1] d1] _.
  eapply ensures_bind;
    [apply (find_subclasses_step chain), (step_stop _ _ _ Hs)|].
  intros [subs1 s1] Hs1.
  eapply (ensures_bind _ _ (fun '(_, s2) => trace_step chain s1 s2)).
  { destruct (CodeTrace.assoc m1 CodeTrace.special_case_object_list_reverse).
    - apply fn_handle_special_case_reverse_step, (step_stop _ _ _ Hs1).
    - apply trace_step_refl, (step_stop _ _ _ Hs1). }
  intros [mds s2] Hs2.
  assert (Hstep2 : trace_step chain self s2).
  { eapply trace_step_trans; [exact Hs|].
    eapply trace_step_trans; [exact Hs1|exact Hs2]. }
  apply (ensures_for_each (trace_step chain self)); [|done].
  intros cp s3 _ Hs3. destruct mds as [mds|]; [|done].
  apply (ensures_for_each (trace_step chain self)); [|done].
  intros md s4 _ Hs4.
  eapply ensures_bind; [apply ensures_eq|]. intros mp _. cbn beta.
  eapply ensures_bind; [apply ensures_eq|]. intros tail _. cbn beta.
  eapply ensures_weaken; [apply Hanalyse, (step_stop _ _ _ Hs4)|].
  intros s5 Hs5. by eapply trace_step_trans.
Qed.

Lemma fn_trace_forward_body_step
  (analyse : string -> string -> string -> string -> CodeTrace.t ->
             res CodeTrace.t)
  (c m d chain : string) (self : CodeTrace.t) :
  (forall c' m' d' self',
      CodeTrace.stop_condition self' = CodeTrace.STOP_CONDITION_FALSE ->
      ensures (analyse c' m' d' chain self') (trace_step chain self')) ->
  CodeTrace.stop_condition self = CodeTrace.STOP_CONDITION_FALSE ->
  ensures (CodeTrace.fn_trace_forward_body rt analyse c m d chain self)
    (trace_step chain self).
Proof.
  intros Hanalyse Hstop. unfold CodeTrace.fn_trace_forward_body.
  apply (ensures_for_each (trace_step chain self));
    [|by apply trace_step_refl].
  intros e s _ Hs.
  eapply ensures_bind; [apply ensures_eq|]. intros [[c1 m1] d1] _.
  destruct (CodeTrace.assoc (String.append m1 d1)
              CodeTrace.special_case_object_list_forward) as [m'|];
    (apply (ensures_for_each (trace_step chain self)); [|done]);
    intros cp s1 _ Hs1;
    (eapply ensures_weaken; [apply Hanalyse, (step_stop _ _ _ Hs1)|]);
    intros s2 Hs2; by eapply trace_step_trans.
Qed.

Lemma fn_analyse_trace_point_step (fuel : nat) :
  forall c m d chain self,
    CodeTrace.stop_condition self = CodeTrace.STOP_CONDITION_FALSE ->
    ensures (CodeTrace.fn_analyse_trace_point rt depth fuel c m d chain self)
      (trace_step chain self).
Proof.
  induction fuel as [|fuel IH]; intros c m d chain self Hstop; [done|].
  cbn [CodeTrace.fn_analyse_trace_point]. cbv zeta.
  case_bool_decide as Hchecked; [by apply trace_step_refl|].
  set (name := CodeTrace.compound c m d) in *.
  set (self1 := CodeTrace.set_checked_methods _ self).
  assert (Hself1 : trace_step chain self self1).
  { split; [same_rule_setters|done|done|apply union_subseteq_l|done|].
    intros _ reported Hin. by left. }
  eapply ensures_bind; [by apply fn_check_stop_condition_spec|].
  intros self2 (s & -> & Htrue & Hmaybe). cbn beta.
  assert (Hcontinue : forall chain' self',
    trace_step chain self1 self' ->
    (chain' = chain \/ CodeTrace.hardcoded_traceto self1 = true) ->
    ensures
      (if (CodeTrace.trace_length_max self'
           <? Z.of_nat (length (PyStr.split "," chain')))%Z
       then Ok self'
       else
         match CodeTrace.trace_direction self' with
         | CodeTrace.TRACE_FORWARD =>
             CodeTrace.fn_trace_forward_body rt
               (CodeTrace.fn_analyse_trace_point rt depth fuel) c m d chain'
               self'
         | CodeTrace.TRACE_REVERSE =>
             CodeTrace.fn_trace_reverse_body rt depth
               (CodeTrace.fn_analyse_trace_point rt depth fuel) c m d chain'
               self'
         end)
      (trace_step chain self)).
  { intros chain' self' Hstep Hchain.
    assert (Hself : trace_step chain self self')
      by by eapply trace_step_trans.
    destruct (CodeTrace.trace_length_max self' <? _)%Z; [done|].
    assert (Hhard : chain' = chain
                    \/ CodeTrace.hardcoded_traceto self' = true).
    { destruct Hchain as [->|Hh]; [by left|right].
      destruct (step_rule _ _ _ Hstep) as (_&_&_&_&_&_&H&_). by rewrite H. }
    assert (Hweaken : forall s',
      trace_step chain' self' s' -> trace_step chain self s').
    { intros s' Hs'. eapply trace_step_trans; [exact Hself|].
      destruct Hhard as [->|Hh]; [done|]. by eapply trace_step_rechain. }
    destruct (CodeTrace.trace_direction self').
    - eapply ensures_weaken; [|exact Hweaken].
      apply fn_trace_forward_body_step; [|apply (step_stop _ _ _ Hstep)].
      intros. by apply IH.
    - eapply ensures_weaken; [|exact Hweaken].
      apply fn_trace_reverse_body_step; [|apply (step_stop _ _ _ Hstep)].
      intros. by apply IH. }
  assert (Hrecord : forall s' reported,
    reported ∉ CodeTrace.output_chains self1 ->
    (CodeTrace.hardcoded_traceto self1 = false ->
     exists name,
       exact_end_point self1 name
       /\ reported = CodeTrace.extend_chain chain name) ->
    trace_step chain self1
      (CodeTrace.set_output_chains
         (CodeTrace.output_chains
            (CodeTrace.set_stop_condition CodeTrace.STOP_CONDITION_FALSE
               (CodeTrace.set_stop_condition s' self1)) ++ [reported])
         (CodeTrace.set_stop_condition CodeTrace.STOP_CONDITION_FALSE
            (CodeTrace.set_stop_condition s' self1)))).
  { intros s' reported Hnew Hwhat. split.
    - same_rule_setters.
    - by apply prefix_app_r.
    - intros Hnodup. simpl. apply NoDup_app. split; [done|].
      split; [|apply NoDup_singleton].
      intros x Hx Hx'. apply list_elem_of_singleton in Hx'. by subst x.
    - done.
    - done.
    - intros Hhard x. simpl. rewrite elem_of_app, list_elem_of_singleton.
      intros [Hx| ->]; [by left|right]. by apply Hwhat. }
  assert (Hquiet : forall s',
    trace_step chain self1
      (CodeTrace.set_stop_condition CodeTrace.STOP_CONDITION_FALSE
         (CodeTrace.set_stop_condition s' self1))).
  { intros s'. split; [same_rule_setters|done|done|done|done|].
    intros _ reported Hin. by left. }
  destruct s; simpl CodeTrace.stop_condition; cbv iota.
  - case_bool_decide as Hin.
    + simpl. eapply trace_step_trans; [exact Hself1|apply Hquiet].
    + simpl. eapply trace_step_trans; [exact Hself1|].
      apply (Hrecord CodeTrace.STOP_CONDITION_TRUE); [done|].
      intros Hhard. exists name. split; [|done]. by apply Htrue.
  - apply Hcontinue; [|by left].
    split; [same_rule_setters|done|done|done|done|].
    intros _ reported Hin. by left.
  - case_bool_decide as Hin.
    + simpl. eapply trace_step_trans; [exact Hself1|apply Hquiet].
    + apply Hcontinue; [|right; by apply Hmaybe].
      apply (Hrecord CodeTrace.STOP_CONDITION_MAYBE); [done|].
      intros Hhard. rewrite Hmaybe in Hhard; done.
Qed.

End TraceFrame.

Lemma fn_trace_handler_step (rt : Runtime) (depth fuel : nat)
  (froms : list string) (self : CodeTrace.t) :
  ensures (CodeTrace.fn_trace_handler rt depth fuel froms self)
    (fun '(b, self') =>
       handler_step froms self self'
       /\ b = negb (bool_decide (CodeTrace.output_chains self' = []))).
Proof.
  unfold CodeTrace.fn_trace_handler.
  eapply ensures_bind.
  - apply (ensures_for_each (handler_step froms self)).
    + intros trace_from s Hfrom [R P N W].
      set (s0 := CodeTrace.set_stop_condition _ _).
      eapply ensures_bind; [apply ensures_eq|]. intros [[c m] d] _.
      assert (Hs0 : CodeTrace.stop_condition s0
                    = CodeTrace.STOP_CONDITION_FALSE) by done.
      assert (Hrule0 : same_rule s s0) by same_rule_setters.
      assert (Hdone : forall s',
        trace_step trace_from s0 s' -> handler_step froms self s').
      { intros s' [R' P' N' _ _ W']. split.
        - eapply same_rule_trans; [exact R|].
          by eapply same_rule_trans.
        - etrans; [exact P|exact P'].
        - intros Hnodup. apply N', N, Hnodup.
        - intros Hhard reported Hin.
          assert (Hhard0 : CodeTrace.hardcoded_traceto s0 = false).
          { destruct R as (_&_&_&_&_&_&H&_). simpl. by rewrite H. }
          destruct (W' Hhard0 reported Hin) as [Hold|(name & Hexact & ->)].
          + by apply W.
          + right. exists trace_from, name. split; [done|]. split; [|done].
            eapply exact_end_point_same; [exact R|].
            exact (exact_end_point_same s s0 name Hrule0 Hexact). }
      destruct (CodeTrace.trace_direction s0).
      * eapply ensures_weaken; [|exact Hdone].
        apply fn_trace_forward_body_step; [|done].
        intros. by apply fn_analyse_trace_point_step.
      * eapply ensures_weaken; [|exact Hdone].
        apply fn_trace_reverse_body_step; [|done].
        intros. by apply fn_analyse_trace_point_step.
    + split; [apply same_rule_refl|done|done|].
      intros _ reported Hin. by left.
  - intros s Hs. simpl. by split.
Qed.

(** X11: [fn_trace_handler] leaves the rule, the link table and the
    returns of the object as they are; the chains reported before stay
    at the head of [output_chains], in their order; and it adds no chain
    a second time. *)
Theorem trace_handler_keeps_chains (rt : Runtime) (depth fuel : nat)
  (froms : list string) (self self' : CodeTrace.t) (b : bool) :
  CodeTrace.fn_trace_handler rt depth fuel froms self = Ok (b, self') ->
  same_rule self self'
  /\ CodeTrace.output_chains self `prefix_of` CodeTrace.output_chains self'
  /\ (NoDup (CodeTrace.output_chains self) ->
      NoDup (CodeTrace.output_chains self')).
Proof.
  intros Hrun. pose proof (fn_trace_handler_step rt depth fuel froms self) as H.
  rewrite Hrun in H. destruct H as [[R P N _] _]. done.
Qed.

(** X12: when a chain was reported before it starts, [fn_trace_handler]
    answers [True], whatever the traversal finds: within one TRACE
    section a rule that is evaluated after a rule that found a chain is
    counted as satisfied. *)
Theorem stale_chain_satisfies_trace (rt : Runtime) (depth fuel : nat)
  (froms : list string) (self self' : CodeTrace.t) (b : bool) :
  CodeTrace.output_chains self <> [] ->
  CodeTrace.fn_trace_handler rt depth fuel froms self = Ok (b, self') ->
  b = true.
Proof.
  intros Hstale Hrun.
  pose proof (fn_trace_handler_step rt depth fuel froms self) as H.
  rewrite Hrun in H. destruct H as [[_ [k Hk] _ _] ->].
  rewrite Hk. apply negb_true_iff, bool_decide_eq_false.
  intros Hnil. apply app_eq_nil in Hnil as [Hnil _]. done.
Qed.

(** X13: when the end points of a rule come from a link, every chain
    [fn_trace_handler] reports is a start candidate followed by one
    signature, which is an end point: the signatures passed on the way
    are not in the chain. *)
Theorem linked_end_point_chains (rt : Runtime) (depth fuel : nat)
  (froms : list string) (self self' : CodeTrace.t) (b : bool)
  (reported : string) :
  CodeTrace.hardcoded_traceto self = false ->
  CodeTrace.fn_trace_handler rt depth fuel froms self = Ok (b, self') ->
  reported ∈ CodeTrace.output_chains self' ->
  reported ∈ CodeTrace.output_chains self
  \/ exists trace_from name,
       trace_from ∈ froms
       /\ exact_end_point self name
       /\ reported = CodeTrace.extend_chain trace_from name.
Proof.
  intros Hhard Hrun Hin.
  pose proof (fn_trace_handler_step rt depth fuel froms self) as H.
  rewrite Hrun in H. destruct H as [[_ _ _ W] _]. by apply W.
Qed.

Lemma trace_handler_keeps_chains_witness :
  exists self',
    same_rule cycle_trace_state self'
    /\ CodeTrace.output_chains cycle_trace_state
       `prefix_of` CodeTrace.output_chains self'
    /\ (NoDup (CodeTrace.output_chains cycle_trace_state) ->
        NoDup (CodeTrace.output_chains self')).
Proof.
  eexists.
  apply (trace_handler_keeps_chains insertion_order 1 10 ["LA;->a()V"]
           cycle_trace_state _ true).
  vm_compute. reflexivity.
Defined.

Lemma stale_chain_satisfies_trace_witness :
  CodeTrace.output_chains stale_trace_state <> []
  /\ exists b self',
       CodeTrace.fn_trace_handler insertion_order 1 10 ["LA;->a()V"]
         stale_trace_state = Ok (b, self')
       /\ CodeTrace.output_chains self'
          = CodeTrace.output_chains stale_trace_state
       /\ b = true.
Proof.
  split; [done|]. eexists _, _.
  split; [vm_compute; reflexivity|]. split; [reflexivity|].
  eapply (stale_chain_satisfies_trace insertion_order 1 10 ["LA;->a()V"]
            stale_trace_state); [done|].
  vm_compute. reflexivity.
Defined.

Lemma linked_end_point_chains_witness :
  "LA;->a()V,LC;->c()V" ∈ CodeTrace.output_chains linked_trace_state
  \/ exists trace_from name,
       trace_from ∈ ["LA;->a()V"]
       /\ exact_end_point linked_trace_state name
       /\ "LA;->a()V,LC;->c()V" = CodeTrace.extend_chain trace_from name.
Proof.
  eapply (linked_end_point_chains insertion_order 1 10 ["LA;->a()V"]
            linked_trace_state _ true).
  - reflexivity.
  - vm_compute. reflexivity.
  - apply list_elem_of_singleton. reflexivity.
Defined.

(** The state of [stale_trace_state] arises in a run: on [chain_app] the
    rule [trace_to_nowhere] alone is unsatisfied, and after a rule that
    found a chain it is satisfied and binds that chain under its own
    identifier. *)
Lemma second_rule_inherits_chains :
  CodeTrace.fn_perform_code_trace insertion_order 1 no_adv_trace 10
    no_config chain_app trace_to_nowhere ∅
  = Ok (false, ∅)
  /\ CodeTrace.fn_perform_code_trace insertion_order 1 no_adv_trace 10
       no_config chain_app two_trace_rules ∅
     = Ok (true,
           <[ "@tracepath_1" := ["LC;->c()V,LA;->a()V"] ]>
             {[ "@tracepath_2" := ["LC;->c()V,LA;->a()V"] ]}).
Proof. split; vm_compute; reflexivity. Qed.

(** ** Search engine: the link table *)

Section SearchLinks.
Variable rt : Runtime.
Variable depth : nat.

Lemma keeps_links_refl (s : CodeSearch.t) : keeps_links s s.
Proof. by split. Qed.

Lemma keeps_links_trans (a b c : CodeSearch.t) :
  keeps_links a b -> keeps_links b c -> keeps_links a c.
Proof. intros [? ?] [? ?]. split; congruence. Qed.

Lemma search_find_subclasses_keeps (class_name : string) (s : CodeSearch.t) :
  ensures (CodeSearch.find_subclasses rt depth class_name s)
    (fun '(_, s') => keeps_links s s').
Proof.
  unfold CodeSearch.find_subclasses.
  eapply ensures_bind; [apply ensures_eq|]. by intros [l u] _.
Qed.

Lemma fn_process_returnable_item_keeps (s : CodeSearch.t)
  (candidate : EncodedMethod) (return_type element_name : string) :
  ensures (CodeSearch.fn_process_returnable_item s candidate return_type
             element_name)
    (keeps_links s).
Proof.
  unfold CodeSearch.fn_process_returnable_item.
  eapply ensures_bind; [apply ensures_eq|]. by intros [[c m] d] _.
Qed.

Lemma search_fn_analyse_returns_keeps (s : CodeSearch.t) (return_object : json)
  (candidates : list EncodedMethod) :
  ensures (CodeSearch.fn_analyse_returns s return_object candidates)
    (keeps_links s).
Proof.
  unfold CodeSearch.fn_analyse_returns.
  eapply ensures_bind; [apply ensures_eq|]. intros returnables _.
  eapply ensures_bind; [apply ensures_eq|]. intros elements _.
  apply (ensures_for_each (keeps_links s)); [|apply keeps_links_refl].
  intros element s1 _ Hs1.
  eapply ensures_bind; [apply ensures_eq|]. intros return_element _.
  eapply ensures_bind; [apply ensures_eq|]. intros name _.
  eapply ensures_bind; [apply ensures_eq|]. intros return_type _.
  apply (ensures_for_each (keeps_links s)); [|done].
  intros candidate s2 _ Hs2.
  eapply ensures_weaken; [apply fn_process_returnable_item_keeps|].
  intros s3 Hs3. by eapply keeps_links_trans.
Qed.

Lemma fn_process_search_location_and_returns_keeps (s : CodeSearch.t)
  (search_object : json) (calling_methods : list EncodedMethod) :
  ensures (CodeSearch.fn_process_search_location_and_returns s search_object
             calling_methods)
    (fun '(_, s') => keeps_links s s').
Proof.
  unfold CodeSearch.fn_process_search_location_and_returns.
  eapply ensures_bind; [apply ensures_eq|]. intros has_location _.
  eapply ensures_bind; [apply ensures_eq|]. intros [satisfied methods] _.
  eapply ensures_bind; [apply ensures_eq|]. intros has_return _.
  destruct (negb has_return); [apply keeps_links_refl|].
  eapply ensures_bind; [apply search_fn_analyse_returns_keeps|].
  by intros s' Hs'.
Qed.

Lemma fn_search_for_calls_to_string_keeps (s : CodeSearch.t)
  (search_object : json) (items : list string) :
  ensures (CodeSearch.fn_search_for_calls_to_string rt s search_object items)
    (fun '(_, s') => keeps_links s s').
Proof.
  unfold CodeSearch.fn_search_for_calls_to_string.
  apply (ensures_for_each (fun '(_, s') => keeps_links s s'));
    [|apply keeps_links_refl].
  intros item [b s1] _ Hs1.
  eapply ensures_bind; [apply ensures_eq|]. intros calling_methods _.
  destruct (length calling_methods =? 0); [done|].
  eapply ensures_bind;
    [apply fn_process_search_location_and_returns_keeps|].
  intros [b' s2] Hs2. simpl. by eapply keeps_links_trans.
Qed.

Lemma fn_search_for_calls_to_method_keeps (s : CodeSearch.t)
  (search_object : json) (items : list string) :
  ensures (CodeSearch.fn_search_for_calls_to_method rt depth s search_object
             items)
    (fun '(_, s') => keeps_links s s').
Proof.
  unfold CodeSearch.fn_search_for_calls_to_method.
  apply (ensures_for_each (fun '(_, s') => keeps_links s s'));
    [|apply keeps_links_refl].
  intros item [b s1] _ Hs1.
  eapply ensures_bind; [apply ensures_eq|]. intros [[c m] d] _.
  eapply ensures_bind; [apply search_find_subclasses_keeps|].
  intros [subs s2] Hs2. cbv zeta.
  destruct (length _ <=? 0); [by eapply keeps_links_trans|].
  eapply ensures_bind;
    [apply fn_process_search_location_and_returns_keeps|].
  intros [b' s3] Hs3. simpl.
  eapply keeps_links_trans; [exact Hs1|]. by eapply keeps_links_trans.
Qed.

Lemma fn_search_for_calls_to_class_keeps (s : CodeSearch.t)
  (search_object : json) (items : list string) :
  ensures (CodeSearch.fn_search_for_calls_to_class rt depth s search_object
             items)
    (fun '(_, s') => keeps_links s s').
Proof.
  unfold CodeSearch.fn_search_for_calls_to_class.
  apply (ensures_for_each (fun '(_, s') => keeps_links s s'));
    [|apply keeps_links_refl].
  intros item [b s1] _ Hs1.
  eapply ensures_bind; [apply search_find_subclasses_keeps|].
  intros [subs s2] Hs2. cbv zeta.
  destruct (length _ =? 0); [by eapply keeps_links_trans|].
  eapply ensures_bind;
    [apply fn_process_search_location_and_returns_keeps|].
  intros [b' s3] Hs3. simpl.
  eapply keeps_links_trans; [exact Hs1|]. by eapply keeps_links_trans.
Qed.

Lemma fn_search_for_presence_of_string_keeps (s : CodeSearch.t)
  (search_object : json) (items : list string) :
  ensures (CodeSearch.fn_search_for_presence_of_string s search_object items)
    (fun '(_, s') => keeps_links s s').
Proof.
  unfold CodeSearch.fn_search_for_presence_of_string.
  eapply ensures_bind; [apply ensures_eq|]. intros all_strings _.
  destruct (length all_strings =? 0); apply keeps_links_refl.
Qed.

Lemma fn_search_for_presence_of_method_keeps (s : CodeSearch.t)
  (search_object : json) (items : list string) :
  ensures (CodeSearch.fn_search_for_presence_of_method rt depth s
             search_object items)
    (fun '(_, s') => keeps_links s s').
Proof.
  unfold CodeSearch.fn_search_for_presence_of_method.
  eapply (ensures_bind _ _ (fun '(_, s') => keeps_links s s')).
  - apply (ensures_for_each (fun '(_, s') => keeps_links s s'));
      [|apply keeps_links_refl].
    intros item [all s1] _ Hs1.
    eapply ensures_bind; [apply ensures_eq|]. intros [[c m] d] _.
    eapply ensures_bind; [apply search_find_subclasses_keeps|].
    intros [subs s2] Hs2. cbv zeta.
    eapply ensures_bind; [apply ensures_eq|]. intros all' _. simpl.
    by eapply keeps_links_trans.
  - intros [all s1] Hs1.
    eapply ensures_bind; [apply ensures_eq|]. intros l _.
    by destruct (length l =? 0).
Qed.

Lemma fn_search_for_presence_of_class_keeps (s : CodeSearch.t)
  (search_object : json) (items : list string) :
  ensures (CodeSearch.fn_search_for_presence_of_class rt depth s
             search_object items)
    (fun '(_, s') => keeps_links s s').
Proof.
  unfold CodeSearch.fn_search_for_presence_of_class.
  eapply (ensures_bind _ _ (fun '(_, s') => keeps_links s s')).
  - apply (ensures_for_each (fun '(_, s') => keeps_links s s'));
      [|apply keeps_links_refl].
    intros item [all s1] _ Hs1.
    eapply ensures_bind; [apply search_find_subclasses_keeps|].
    intros [subs s2] Hs2. cbv zeta.
    eapply ensures_bind; [apply ensures_eq|]. intros all' _. simpl.
    by eapply keeps_links_trans.
  - intros [all s1] Hs1.
    eapply ensures_bind; [apply ensures_eq|]. intros l _.
    by destruct (length l =? 0).
Qed.

Lemma fn_determine_search_type_keeps (s : CodeSearch.t)
  (search_type search_object : json) :
  ensures (CodeSearch.fn_determine_search_type rt depth s search_type
             search_object)
    (fun '(_, s') => keeps_links s s').
Proof.
  unfold CodeSearch.fn_determine_search_type. cbv zeta.
  repeat match goal with
         | |- ensures (if ?b then _ else _) _ => destruct b
         | |- ensures (res_bind _ _) _ =>
             eapply ensures_bind; [apply ensures_eq|]; intros ? _; cbn beta
         end;
    first [ apply fn_search_for_presence_of_string_keeps
          | apply fn_search_for_calls_to_string_keeps
          | apply fn_search_for_presence_of_method_keeps
          | apply fn_search_for_calls_to_method_keeps
          | apply fn_search_for_presence_of_class_keeps
          | apply fn_search_for_calls_to_class_keeps
          | done ].
Qed.

Lemma fn_process_individual_search_item_keeps (s : CodeSearch.t)
  (search_dictionary : json) :
  ensures (CodeSearch.fn_process_individual_search_item rt depth s
             search_dictionary)
    (fun '(_, s') => keeps_links s s').
Proof.
  unfold CodeSearch.fn_process_individual_search_item.
  eapply ensures_bind; [apply ensures_eq|]. intros search_items _.
  eapply (ensures_bind _ _ (fun '(_, _, s') => keeps_links s s')).
  - apply (ensures_for_each (fun '(_, _, s') => keeps_links s s'));
      [|apply keeps_links_refl].
    intros item [[total satisfied] s1] _ Hs1.
    eapply ensures_bind; [apply ensures_eq|]. intros search_object _.
    eapply ensures_bind; [apply fn_determine_search_type_keeps|].
    intros [b s2] Hs2. simpl. by eapply keeps_links_trans.
  - by intros [[total satisfied] s1] Hs1.
Qed.

Lemma fn_perform_code_search_links (config : Config) (dx : Analysis)
  (template : json) (links : gmap string (list string)) :
  ensures (CodeSearch.fn_perform_code_search rt depth config dx template links)
    (fun '(b, links') =>
       extends links links' /\ (b = false -> links' = links)).
Proof.
  unfold CodeSearch.fn_perform_code_search. cbv zeta.
  set (s := {| CodeSearch.inst_analysis_utils := _;
               CodeSearch.search_template := template;
               CodeSearch.current_links := links;
               CodeSearch.current_returns := [] |}).
  eapply (ensures_bind _ _ (fun '(_, s') => keeps_links s s')).
  - simpl CodeSearch.search_template. destruct template; try done.
    + eapply (ensures_bind _ _ (fun '(_, _, s') => keeps_links s s')).
      * apply (ensures_for_each (fun '(_, _, s') => keeps_links s s'));
          [|apply keeps_links_refl].
        intros item [[total satisfied] s1] _ Hs1.
        eapply ensures_bind;
          [apply fn_process_individual_search_item_keeps|].
        intros [b s2] Hs2. simpl. by eapply keeps_links_trans.
      * by intros [[total satisfied] s1] Hs1.
    + apply fn_process_individual_search_item_keeps.
  - intros [b s'] [Hlinks _]. simpl in Hlinks. destruct b.
    + eapply ensures_bind; [apply ensures_eq|]. intros links' Hconvert.
      simpl. split; [|done]. rewrite Hlinks in Hconvert.
      by eapply convert_returns_extends.
    + simpl. rewrite Hlinks. split; [apply extends_refl|done].
Qed.

End SearchLinks.

(** X14: a code search only adds to the link table, and a search that is
    not satisfied returns the table as it was given. *)
Theorem search_only_adds_links (rt : Runtime) (depth : nat) (config : Config)
  (dx : Analysis) (template : json) (links links' : gmap string (list string))
  (b : bool) :
  CodeSearch.fn_perform_code_search rt depth config dx template links
  = Ok (b, links') ->
  extends links links' /\ (b = false -> links' = links).
Proof.
  intros Hrun.
  pose proof (fn_perform_code_search_links rt depth config dx template links)
    as H.
  by rewrite Hrun in H.
Qed.

Lemma search_only_adds_links_witness :
  extends {[ "@x" := ["a"] ]} {[ "@x" := ["a"] ]}
  /\ (false = false ->
      ({[ "@x" := ["a"] ]} : gmap string (list string)) = {[ "@x" := ["a"] ]}).
Proof.
  apply (search_only_adds_links insertion_order 5 no_config filter_app
           (JDict [ ("SEARCHFORCALLTOMETHOD",
                     JDict [ ("METHOD", JStr "LBad;->f()V");
                             ("RETURN", JStr "<method> AS @x") ]) ])).
  vm_compute. reflexivity.
Defined.

(** ** Trace engine: the link table *)

Section TraceLinks.
Variable rt : Runtime.
Variable depth : nat.
Variable fn_start_adv_trace :
  Analysis -> json -> gmap string (list string) -> CodeTrace.Direction ->
  Z -> res (bool * list string * gmap string (list string)).

Lemma fn_get_trace_parameters_links (trace_template : json)
  (self : CodeTrace.t) :
  ensures (CodeTrace.fn_get_trace_parameters trace_template self)
    (fun self' =>
       CodeTrace.current_links self' = CodeTrace.current_links self
       /\ CodeTrace.output_chains self' = CodeTrace.output_chains self).
Proof.
  unfold CodeTrace.fn_get_trace_parameters.
  eapply ensures_bind; [apply ensures_eq|]. intros has_max _.
  eapply (ensures_bind _ _
            (fun self' =>
               CodeTrace.current_links self' = CodeTrace.current_links self
               /\ CodeTrace.output_chains self'
                  = CodeTrace.output_chains self)).
  { destruct has_max; [|done].
    eapply ensures_bind; [apply ensures_eq|]. intros v _.
    eapply ensures_bind; [apply ensures_eq|]. by intros n _. }
  intros self1 [Hl1 Ho1].
  eapply ensures_bind; [apply ensures_eq|]. intros has_direction _.
  eapply (ensures_bind _ _
            (fun self' =>
               CodeTrace.current_links self' = CodeTrace.current_links self
               /\ CodeTrace.output_chains self'
                  = CodeTrace.output_chains self)).
  { destruct has_direction; [|done].
    eapply ensures_bind; [apply ensures_eq|]. intros v _.
    by destruct (Py.eq_str v "FORWARD"). }
  intros self2 [Hl2 Ho2].
  eapply ensures_bind; [apply ensures_eq|]. intros has_type _.
  destruct has_type; [|done].
  eapply ensures_bind; [apply ensures_eq|]. by intros v _.
Qed.

Lemma fn_get_trace_parameters_basic (trace_template : json)
  (self : CodeTrace.t) :
  basic_rule trace_template = true ->
  ensures (CodeTrace.fn_get_trace_parameters trace_template self)
    (fun self' => Py.eq_str (CodeTrace.trace_type self') "ADVANCED" = false).
Proof.
  intros Hbasic. unfold CodeTrace.fn_get_trace_parameters.
  eapply ensures_bind; [apply ensures_eq|]. intros has_max _.
  eapply ensures_bind; [apply ensures_eq|]. intros self1 _.
  eapply ensures_bind; [apply ensures_eq|]. intros has_direction _.
  eapply ensures_bind; [apply ensures_eq|]. intros self2 _.
  eapply ensures_bind; [apply ensures_eq|]. intros has_type _.
  destruct has_type; [|done].
  destruct trace_template as [s|z|b|l|d]; try done.
  simpl in *. destruct (Py.lookup "TRACETYPE" d) as [v|]; [|done].
  simpl. by apply negb_true_iff.
Qed.

Lemma fn_get_trace_items_links (str trace_type : string)
  (self : CodeTrace.t) :
  ensures (CodeTrace.fn_get_trace_items str trace_type self)
    (fun '(_, self') =>
       CodeTrace.current_links self' = CodeTrace.current_links self
       /\ CodeTrace.output_chains self' = CodeTrace.output_chains self).
Proof.
  unfold CodeTrace.fn_get_trace_items.
  eapply ensures_bind; [apply ensures_eq|]. intros c _. cbv zeta.
  destruct (is_at c).
  - eapply ensures_bind; [apply ensures_eq|]. intros [[name sub] rest] _.
    eapply ensures_bind; [apply ensures_eq|]. by intros items _.
  - eapply ensures_bind; [apply ensures_eq|]. by intros items _.
Qed.

Lemma fn_trace_through_code_links (fuel : nat) (from to : string)
  (self : CodeTrace.t) :
  ensures (CodeTrace.fn_trace_through_code rt depth fuel from to self)
    (fun '(_, self') =>
       CodeTrace.current_links self' = CodeTrace.current_links self
       /\ CodeTrace.current_returns self' = CodeTrace.current_returns self).
Proof.
  unfold CodeTrace.fn_trace_through_code.
  eapply ensures_bind; [apply ensures_eq|]. intros [from_type from'] _.
  eapply ensures_bind; [apply ensures_eq|]. intros [to_type to'] _.
  eapply (ensures_bind _ _
            (fun '(_, self') =>
               CodeTrace.current_links self' = CodeTrace.current_links self
               /\ CodeTrace.current_returns self'
                  = CodeTrace.current_returns self)).
  { unfold CodeTrace.fn_get_trace_items.
    eapply ensures_bind; [apply ensures_eq|]. intros c _. cbv zeta.
    destruct (is_at c).
    - eapply ensures_bind; [apply ensures_eq|]. intros [[name sub] rest] _.
      eapply ensures_bind; [apply ensures_eq|]. by intros items _.
    - eapply ensures_bind; [apply ensures_eq|]. by intros items _. }
  intros [from_list self1] [Hl1 Hr1].
  eapply (ensures_bind _ _
            (fun '(_, self') =>
               CodeTrace.current_links self' = CodeTrace.current_links self
               /\ CodeTrace.current_returns self'
                  = CodeTrace.current_returns self)).
  { unfold CodeTrace.fn_get_trace_items.
    eapply ensures_bind; [apply ensures_eq|]. intros c _. cbv zeta.
    destruct (is_at c).
    - eapply ensures_bind; [apply ensures_eq|]. intros [[name sub] rest] _.
      eapply ensures_bind; [apply ensures_eq|]. by intros items _.
    - eapply ensures_bind; [apply ensures_eq|]. by intros items _. }
  intros [to_list self2] [Hl2 Hr2].
  destruct (bool_decide (from_list = []) || bool_decide (to_list = []));
    [done|].
  eapply ensures_weaken; [apply fn_trace_handler_step|].
  intros [b self3] [[R _ _ _] _].
  destruct R as (_&_&_&_&Hl&Hr&_). simpl in Hl, Hr.
  split; congruence.
Qed.

Lemma trace_fn_analyse_returns_links (trace_template : json)
  (self : CodeTrace.t) :
  ensures (CodeTrace.fn_analyse_returns trace_template self)
    (fun self' =>
       CodeTrace.current_links self' = CodeTrace.current_links self).
Proof.
  unfold CodeTrace.fn_analyse_returns.
  eapply ensures_bind; [apply ensures_eq|]. intros returnables _.
  eapply ensures_bind; [apply ensures_eq|]. intros returnables' _.
  eapply ensures_bind; [apply ensures_eq|]. intros name _.
  eapply ensures_bind; [apply ensures_eq|]. intros return_type _.
  apply (ensures_for_each
           (fun self' =>
              CodeTrace.current_links self' = CodeTrace.current_links self));
    [|done].
  by intros chain s _ Hs.
Qed.

Lemma fn_process_individual_trace_list_item_links (fuel : nat)
  (trace_dictionary : json) (self : CodeTrace.t) :
  basic_rule trace_dictionary = true ->
  ensures (CodeTrace.fn_process_individual_trace_list_item rt depth
             fn_start_adv_trace fuel trace_dictionary self)
    (fun '(_, self') =>
       CodeTrace.current_links self' = CodeTrace.current_links self).
Proof.
  intros Hbasic. unfold CodeTrace.fn_process_individual_trace_list_item.
  eapply (ensures_bind _ _
            (fun self' =>
               CodeTrace.current_links self' = CodeTrace.current_links self
               /\ Py.eq_str (CodeTrace.trace_type self') "ADVANCED" = false)).
  { pose proof (fn_get_trace_parameters_links trace_dictionary self) as H1.
    pose proof (fn_get_trace_parameters_basic trace_dictionary self Hbasic)
      as H2.
    destruct (CodeTrace.fn_get_trace_parameters trace_dictionary self);
      [|done..].
    simpl in *. by destruct H1. }
  intros self1 [Hl1 Hmode]. rewrite Hmode.
  eapply ensures_bind; [apply ensures_eq|]. intros [froms tos] _.
  eapply (ensures_bind _ _
            (fun '(_, self') =>
               CodeTrace.current_links self' = CodeTrace.current_links self)).
  { apply (ensures_for_each
             (fun '(_, self') =>
                CodeTrace.current_links self' = CodeTrace.current_links self));
      [|done].
    intros from [b s] _ Hs.
    apply (ensures_for_each
             (fun '(_, self') =>
                CodeTrace.current_links self' = CodeTrace.current_links self));
      [|done].
    intros to [b' s'] _ Hs'.
    eapply ensures_bind; [apply fn_trace_through_code_links|].
    intros [b'' s''] [Hl _]. simpl. congruence. }
  intros [b s] Hs. destruct b; [|done].
  eapply ensures_bind; [apply ensures_eq|]. intros has_return _.
  destruct has_return; [|done].
  eapply ensures_bind; [apply trace_fn_analyse_returns_links|].
  intros s' Hs'. simpl. congruence.
Qed.

Lemma fn_perform_code_trace_links (fuel : nat) (config : Config)
  (dx : Analysis) (template : json) (links : gmap string (list string)) :
  forallb basic_rule (rule_objects template) = true ->
  ensures (CodeTrace.fn_perform_code_trace rt depth fn_start_adv_trace fuel
             config dx template links)
    (fun '(b, links') =>
       extends links links' /\ (b = false -> links' = links)).
Proof.
  intros Hbasic. unfold CodeTrace.fn_perform_code_trace. cbv zeta.
  set (s := CodeTrace.init config dx links).
  assert (Hinit : CodeTrace.current_links s = links) by done.
  eapply (ensures_bind _ _
            (fun '(_, self') => CodeTrace.current_links self' = links)).
  - destruct template; try done.
    + eapply (ensures_bind _ _
                (fun '(_, _, self') => CodeTrace.current_links self' = links)).
      * apply (ensures_for_each
                 (fun '(_, _, self') =>
                    CodeTrace.current_links self' = links)); [|done].
        intros item [[total satisfied] s1] Hitem Hs1.
        eapply ensures_bind;
          [apply fn_process_individual_trace_list_item_links|].
        { simpl in Hbasic. rewrite forallb_forall in Hbasic.
          by apply Hbasic, list_elem_of_In. }
        intros [b s2] Hs2. simpl. congruence.
      * by intros [[total satisfied] s1] Hs1.
    + eapply ensures_weaken;
        [apply fn_process_individual_trace_list_item_links|].
      * simpl in Hbasic. by apply andb_prop in Hbasic as [H _].
      * intros [b s1] Hs1. congruence.
  - intros [b s'] Hlinks. destruct b.
    + eapply ensures_bind; [apply ensures_eq|]. intros links' Hconvert.
      simpl. split; [|done]. rewrite Hlinks in Hconvert.
      by eapply convert_returns_extends.
    + simpl. rewrite Hlinks. split; [apply extends_refl|done].
Qed.

End TraceLinks.

(** X15: a code trace in Basic mode only adds to the link table, and a
    trace that is not satisfied returns the table as it was given. *)
Theorem trace_only_adds_links (rt : Runtime) (depth fuel : nat)
  (fn_start_adv_trace :
     Analysis -> json -> gmap string (list string) -> CodeTrace.Direction ->
     Z -> res (bool * list string * gmap string (list string)))
  (config : Config) (dx : Analysis) (template : json)
  (links links' : gmap string (list string)) (b : bool) :
  forallb basic_rule (rule_objects template) = true ->
  CodeTrace.fn_perform_code_trace rt depth fn_start_adv_trace fuel config dx
    template links
  = Ok (b, links') ->
  extends links links' /\ (b = false -> links' = links).
Proof.
  intros Hbasic Hrun.
  pose proof (fn_perform_code_trace_links rt depth fn_start_adv_trace fuel
                config dx template links Hbasic) as H.
  by rewrite Hrun in H.
Qed.

Lemma trace_only_adds_links_witness :
  extends {[ "@x" := ["a"] ]}
    {[ "@x" := ["a"]; "@tracepath_ac" := ["LC;->c()V,LA;->a()V"] ]}
  /\ (true = false ->
      ({[ "@x" := ["a"]; "@tracepath_ac" := ["LC;->c()V,LA;->a()V"] ]}
         : gmap string (list string))
      = {[ "@x" := ["a"] ]}).
Proof.
  apply (trace_only_adds_links insertion_order 1 10 no_adv_trace no_config
           chain_app reverse_trace_A_to_C).
  - reflexivity.
  - vm_compute. reflexivity.
Defined.

(** ** code_analyser.py *)

Section CodeParams.
Variable rt : Runtime.
Variable depth : nat.
Variable fuel : nat.
Variable config : Config.
Variable fn_start_adv_trace :
  Analysis -> json -> gmap string (list string) -> CodeTrace.Direction ->
  Z -> res (bool * list string * gmap string (list string)).

Lemma fn_determine_action_unknown (bug_template : json) (dx : Analysis)
  (key : string) (links : gmap string (list string)) :
  key <> "SEARCH" -> key <> "TRACE" ->
  ensures (CodeAnalyser.fn_determine_action rt depth fuel config
             fn_start_adv_trace bug_template dx (JStr key) links)
    (fun '(b, _) => b = false).
Proof.
  intros Hsearch Htrace. unfold CodeAnalyser.fn_determine_action.
  eapply ensures_bind; [apply ensures_eq|]. intros codeparams _.
  eapply ensures_bind; [apply ensures_eq|]. intros object_template _.
  simpl. destruct (String.eqb_spec key "SEARCH"); [done|].
  by destruct (String.eqb_spec key "TRACE").
Qed.

(** X16: a CODEPARAMS section that holds a key other than [SEARCH] and
    [TRACE] is never satisfied: the key is counted as an element to
    check, and nothing is evaluated for it. *)
Theorem unknown_codeparams_key_unsatisfied (apk_pkg : string)
  (bug_template : json) (dx : Analysis)
  (links links' : gmap string (list string)) (d : list (string * json))
  (key : string) (b : bool) :
  Py.getitem bug_template (JStr "CODEPARAMS") = Ok (JDict d) ->
  key ∈ d.*1 ->
  key <> "SEARCH" ->
  key <> "TRACE" ->
  CodeAnalyser.fn_perform_code_analysis rt depth fuel config
    fn_start_adv_trace apk_pkg bug_template dx links
  = Ok (Some (b, links')) ->
  b = false.
Proof.
  intros Hget Hkey Hsearch Htrace.
  unfold CodeAnalyser.fn_perform_code_analysis. rewrite Hget.
  cbn [res_bind Py.iter].
  set (elements := map (fun kv : string * json => JStr kv.1) d).
  assert (Helement : JStr key ∈ elements).
  { apply list_elem_of_fmap in Hkey as [[k v] [-> Hkv]].
    apply list_elem_of_fmap. by exists (k, v). }
  destruct (length elements =? 0); [done|].
  intros Hrun. apply res_bind_ok in Hrun as ([count links1] & Hloop & Hrun).
  injection Hrun as <- <-.
  pose proof (ensures_for_each_passed
                (fun passed '(count, _) =>
                   count <= length passed
                   /\ (JStr key ∈ passed -> count < length passed))
                (fun element '(total_elements_satisfied, current_links) =>
                   let* (bool_satisfied, current_links) :=
                     CodeAnalyser.fn_determine_action rt depth fuel config
                       fn_start_adv_trace bug_template dx element
                       current_links in
                   Ok (if bool_satisfied then total_elements_satisfied + 1
                       else total_elements_satisfied, current_links))
                elements [] (0, links)) as Hinv.
  rewrite Hloop in Hinv. simpl in Hinv.
  destruct Hinv as [Hle Hlt].
  - intros pre x [n l0] [post Hpost] [Hn Hin].
    assert (Hx : x ∈ elements).
    { simpl in Hpost. rewrite Hpost. apply elem_of_app. right. by left. }
    apply list_elem_of_fmap in Hx as [[k v] [-> _]]. simpl.
    destruct (decide (k = key)) as [->|Hx].
    + eapply ensures_bind; [by apply fn_determine_action_unknown|].
      intros [b' l1] ->. simpl. rewrite length_app. simpl. split; [lia|].
      intros _. lia.
    + eapply ensures_bind; [apply ensures_eq|]. intros [b' l1] _. simpl.
      rewrite length_app. simpl. split; [destruct b'; lia|].
      intros Hin'. apply elem_of_app in Hin' as [Hin'|Hin'].
      * specialize (Hin Hin'). destruct b'; lia.
      * apply list_elem_of_singleton in Hin'. congruence.
  - split; [done|]. intros H. by apply elem_of_nil in H.
  - apply Nat.eqb_neq. specialize (Hlt Helement). lia.
Qed.

End CodeParams.

Lemma unknown_codeparams_key_unsatisfied_witness :
  exists b links',
    CodeAnalyser.fn_perform_code_analysis insertion_order 5 10 no_config
      no_adv_trace "app" commented_bug_template filter_app ∅
    = Ok (Some (b, links'))
    /\ b = false.
Proof.
  eexists _, _. split; [vm_compute; reflexivity|].
  eapply (unknown_codeparams_key_unsatisfied insertion_order 5 10 no_config
            no_adv_trace "app" commented_bug_template filter_app ∅ _ _
            "NOTE").
  - reflexivity.
  - simpl. right. left.
  - done.
  - done.
  - vm_compute. reflexivity.
Defined.

(** ** template_parser.py: the master template object *)

Lemma lookup_none_not_in (k : string) (d : list (string * json)) :
  Py.lookup k d = None -> k ∉ d.*1.
Proof.
  induction d as [|[k' v] d IH]; simpl; intros Hlookup Hin.
  - by apply elem_of_nil in Hin.
  - destruct (String.eqb_spec k k') as [->|Hne]; [done|].
    apply elem_of_cons in Hin as [Hin|Hin]; [done|]. by apply IH.
Qed.

Lemma fn_check_metadata_section_ok (o : list (string * json))
  (metadata : json) (u : unit) :
  TemplateParser.fn_check_metadata_section o metadata = Ok u ->
  exists m template_name,
    metadata = JDict m
    /\ Py.lookup "NAME" m = Some (JStr template_name)
    /\ Py.lookup template_name o = None.
Proof.
  unfold TemplateParser.fn_check_metadata_section.
  destruct metadata as [| | | |m]; try done.
  destruct (Py.lookup "NAME" m) as [[template_name| | | |]|] eqn:Hname;
    try done.
  case_bool_decide as Htaken; [done|]. intros _.
  exists m, template_name. split; [done|]. split; [done|].
  destruct (Py.lookup template_name o) eqn:Hlookup; [|done].
  exfalso. apply Htaken. by eexists.
Qed.

(** One template file leaves the master object as it is, or adds one
    template under a name that was free. *)
Lemma fn_parse_template_file_grows (o : list (string * json))
  (loaded : option json) :
  (TemplateParser.fn_parse_template_file o loaded).1 = o
  \/ exists template_name template,
       (TemplateParser.fn_parse_template_file o loaded).1
       = o ++ [(template_name, template)]
       /\ Py.lookup template_name o = None.
Proof.
  unfold TemplateParser.fn_parse_template_file.
  destruct loaded as [[| | | |[|kv d]]|]; try (by left).
  set (d0 := kv :: d).
  match goal with
  | |- context [match ?c with Ok _ => _ | Raise _ => _ | OutOfFuel => _ end] =>
      destruct c as [[template_name metadata]| |] eqn:Hchecks
  end; try (by left).
  right.
  assert (Hfree : Py.lookup template_name o = None).
  { destruct (Py.lookup "METADATA" d0) as [md|]; [|done].
    apply res_bind_ok in Hchecks as (u & Hmeta & Hrest).
    apply fn_check_metadata_section_ok in Hmeta
      as (m & name & -> & Hname & Hfree).
    destruct (negb _ && negb _); [done|].
    apply res_bind_ok in Hrest as (? & _ & Hrest).
    apply res_bind_ok in Hrest as (? & _ & Hrest).
    apply res_bind_ok in Hrest as (? & _ & Hrest).
    apply res_bind_ok in Hrest as (name' & Hname' & Hrest).
    injection Hrest as <- _.
    cbn [Py.getitem] in Hname'. rewrite Hname in Hname'.
    simpl in Hname'. by injection Hname' as <-. }
  match goal with
  | |- context [let '(_, _) := ?sums in _] => destruct sums as [d1 outcome]
  end.
  simpl. eauto.
Qed.

Lemma fn_parse_templates_from (files : list (option json)) :
  forall o,
    NoDup o.*1 ->
    NoDup (fold_left
             (fun o f => (TemplateParser.fn_parse_template_file o f).1)
             files o).*1
    /\ o `prefix_of`
         fold_left
           (fun o f => (TemplateParser.fn_parse_template_file o f).1)
           files o.
Proof.
  induction files as [|f files IH]; intros o Hnodup; simpl; [done|].
  destruct (fn_parse_template_file_grows o f)
    as [->|(name & template & -> & Hfree)].
  - by apply IH.
  - destruct (IH (o ++ [(name, template)])) as [Hnd Hpre].
    + rewrite fmap_app. apply NoDup_app. split; [done|]. split.
      * intros x Hx Hx'. simpl in Hx'. apply list_elem_of_singleton in Hx'.
        subst x. by apply (lookup_none_not_in name o).
      * apply NoDup_singleton.
    + split; [done|]. etrans; [|exact Hpre]. by apply prefix_app_r.
Qed.

(** X17: no two templates of the master template object have the same
    name, and a template that was admitted stays as it is, at its place,
    whatever files are parsed after it: a file whose name is taken is
    skipped. *)
Theorem template_names_unique (template_file_list later : list (option json)) :
  NoDup (TemplateParser.fn_parse_templates template_file_list).*1
  /\ TemplateParser.fn_parse_templates template_file_list
     `prefix_of`
     TemplateParser.fn_parse_templates (template_file_list ++ later).
Proof.
  unfold TemplateParser.fn_parse_templates. split.
  - apply fn_parse_templates_from. apply NoDup_nil_2.
  - rewrite fold_left_app. apply fn_parse_templates_from.
    apply fn_parse_templates_from. apply NoDup_nil_2.
Qed.

(** ** app_analyser.py: the report of an application *)

Lemma initialised_keys (bugs : list (string * json)) :
  forall (obj : gmap string bool) (bug : string),
    is_Some (fold_left (fun obj b => <[b.1 := false]> obj) bugs obj !! bug)
    <-> bug ∈ bugs.*1 \/ is_Some (obj !! bug).
Proof.
  induction bugs as [|[b t] bugs IH]; intros obj bug; simpl.
  - split; [by right|]. intros [H|H]; [|done]. by apply elem_of_nil in H.
  - rewrite IH, elem_of_cons. simpl.
    destruct (decide (b = bug)) as [->|Hne].
    + rewrite lookup_insert_eq. split; [by left; left|]. intros _. by right.
    + rewrite lookup_insert_ne by done. split; [tauto|].
      intros [[H|H]|H]; [congruence|tauto|tauto].
Qed.

Section Report.
Variable rt : Runtime.
Variable depth : nat.
Variable fuel : nat.
Variable config : Config.
Variable fn_start_adv_trace :
  Analysis -> json -> gmap string (list string) -> CodeTrace.Direction ->
  Z -> res (bool * list string * gmap string (list string)).
Variable fn_perform_manifest_analysis :
  string -> json -> string -> gmap string (list string) ->
  res (bool * gmap string (list string)).
Variable Graphables : Type.
Variable fn_analyse_graph_elements :
  json -> gmap string (list string) -> string -> string -> res Graphables.

(** The templates and the verdicts are those of [s]. *)
Let same_report (s s' : AppAnalyser.t Graphables) : Prop :=
  AppAnalyser.master_bug_object s' = AppAnalyser.master_bug_object s
  /\ AppAnalyser.current_app_bug_obj s' = AppAnalyser.current_app_bug_obj s.

Lemma fn_handle_manifest_analysis_report (bug : string)
  (s : AppAnalyser.t Graphables) :
  ensures (AppAnalyser.fn_handle_manifest_analysis
             fn_perform_manifest_analysis Graphables bug s)
    (same_report s).
Proof.
  unfold AppAnalyser.fn_handle_manifest_analysis.
  eapply ensures_bind; [apply ensures_eq|]. intros template _.
  eapply ensures_bind; [apply ensures_eq|]. intros manifest_obj _.
  assert (Hcall :
    ensures
      (let self :=
         AppAnalyser.set_current_bug_search_types
           (AppAnalyser.current_bug_search_types s + 1) s in
       match AppAnalyser.androguard_apk_obj self with
       | None => Ok self
       | Some apk =>
           let manifest_string := AppAnalyser.get_android_manifest_xml apk in
           let* (manifest_output, links) :=
             fn_perform_manifest_analysis
               (AppAnalyser.current_app_package_name self) template
               manifest_string (AppAnalyser.current_links self) in
           let self := AppAnalyser.set_current_links links self in
           if manifest_output
           then Ok (AppAnalyser.set_current_bug_search_outcomes
                      (AppAnalyser.current_bug_search_outcomes self + 1) self)
           else Ok self
       end)
      (same_report s)).
  { cbv zeta. simpl AppAnalyser.androguard_apk_obj.
    destruct (AppAnalyser.androguard_apk_obj s); [|by split].
    eapply ensures_bind; [apply ensures_eq|]. intros [[] links] _; by split. }
  destruct manifest_obj as [| | | |[|]]; try exact Hcall. by split.
Qed.

Lemma fn_handle_code_analysis_report (bug : string)
  (s : AppAnalyser.t Graphables) :
  ensures (AppAnalyser.fn_handle_code_analysis rt depth fuel config
             fn_start_adv_trace Graphables bug s)
    (same_report s).
Proof.
  unfold AppAnalyser.fn_handle_code_analysis.
  eapply ensures_bind; [apply ensures_eq|]. intros template _.
  eapply ensures_bind; [apply ensures_eq|]. intros code_obj _.
  assert (Hcall :
    ensures
      (let self :=
         AppAnalyser.set_current_bug_search_types
           (AppAnalyser.current_bug_search_types s + 1) s in
       let* result :=
         CodeAnalyser.fn_perform_code_analysis rt depth fuel config
           fn_start_adv_trace (AppAnalyser.current_app_package_name self)
           template (AppAnalyser.androguard_dx self)
           (AppAnalyser.current_links self) in
       match result with
       | None => Raise TypeError
       | Some (code_output, links) =>
           let self := AppAnalyser.set_current_links links self in
           if code_output
           then Ok (AppAnalyser.set_current_bug_search_outcomes
                      (AppAnalyser.current_bug_search_outcomes self + 1) self)
           else Ok self
       end)
      (same_report s)).
  { cbv zeta. eapply ensures_bind; [apply ensures_eq|].
    intros [[[] links]|] _; by split. }
  destruct code_obj as [| | | |[|]]; try exact Hcall. by split.
Qed.

Lemma fn_process_graphables_report (bug : string)
  (s : AppAnalyser.t Graphables) :
  ensures (AppAnalyser.fn_process_graphables Graphables
             fn_analyse_graph_elements bug s)
    (same_report s).
Proof.
  unfold AppAnalyser.fn_process_graphables.
  eapply ensures_bind; [apply ensures_eq|]. intros template _.
  eapply ensures_bind; [apply ensures_eq|]. intros graph_obj _.
  assert (Hcall :
    ensures
      (let* graphables :=
         fn_analyse_graph_elements graph_obj (AppAnalyser.current_links s)
           (AppAnalyser.current_app_package_name s) bug in
       Ok (AppAnalyser.set_current_graph_elements
             (AppAnalyser.current_graph_elements s ++ [graphables]) s))
      (same_report s)).
  { eapply ensures_bind; [apply ensures_eq|]. intros g _. by split. }
  destruct graph_obj as [| | |[|]|]; try exact Hcall. by split.
Qed.

Lemma fn_per_bug_analysis_report (s : AppAnalyser.t Graphables) :
  (forall bug,
      bug ∈ (AppAnalyser.master_bug_object s).*1 ->
      is_Some (AppAnalyser.current_app_bug_obj s !! bug)) ->
  ensures (AppAnalyser.fn_per_bug_analysis rt depth fuel config
             fn_start_adv_trace fn_perform_manifest_analysis Graphables
             fn_analyse_graph_elements s)
    (fun s' =>
       AppAnalyser.master_bug_object s' = AppAnalyser.master_bug_object s
       /\ forall bug,
            is_Some (AppAnalyser.current_app_bug_obj s' !! bug)
            <-> is_Some (AppAnalyser.current_app_bug_obj s !! bug)).
Proof.
  intros Hcover. unfold AppAnalyser.fn_per_bug_analysis.
  apply (ensures_for_each
           (fun s' =>
              AppAnalyser.master_bug_object s'
              = AppAnalyser.master_bug_object s
              /\ forall bug,
                   is_Some (AppAnalyser.current_app_bug_obj s' !! bug)
                   <-> is_Some (AppAnalyser.current_app_bug_obj s !! bug)));
    [|by split].
  intros [b t] x Hb [HM Hkeys].
  eapply ensures_bind; [apply ensures_eq|]. intros keys _.
  eapply (ensures_bind _ _
            (same_report
               (AppAnalyser.set_current_links ∅
                  (AppAnalyser.set_current_bug_search_outcomes 0
                     (AppAnalyser.set_current_bug_search_types 0 x))))).
  { apply (ensures_for_each
             (same_report
                (AppAnalyser.set_current_links ∅
                   (AppAnalyser.set_current_bug_search_outcomes 0
                      (AppAnalyser.set_current_bug_search_types 0 x)))));
      [|by split].
    intros key s1 _ [M1 B1].
    eapply (ensures_bind _ _ (same_report s1)).
    - destruct (Py.eq_str key "MANIFESTPARAMS"); [|by split].
      apply fn_handle_manifest_analysis_report.
    - intros s2 [M2 B2].
      destruct (Py.eq_str key "CODEPARAMS").
      + eapply ensures_weaken; [apply fn_handle_code_analysis_report|].
        intros s3 [M3 B3]. split; congruence.
      + split; congruence. }
  intros x1 [M1 B1]. simpl in M1, B1.
  destruct (_ =? _).
  - assert (Hset :
      forall bug,
        is_Some (<[b := true]> (AppAnalyser.current_app_bug_obj x1) !! bug)
        <-> is_Some (AppAnalyser.current_app_bug_obj s !! bug)).
    { intros bug. rewrite <- Hkeys, B1.
      destruct (decide (b = bug)) as [->|Hne].
      - rewrite lookup_insert_eq. split; [|done]. intros _.
        apply Hkeys, Hcover. apply list_elem_of_fmap. by exists (bug, t).
      - by rewrite lookup_insert_ne. }
    eapply ensures_bind; [apply ensures_eq|]. intros has_graph _.
    destruct has_graph.
    + eapply ensures_weaken; [apply fn_process_graphables_report|].
      intros x2 [M2 B2]. simpl in M2, B2. split; [congruence|].
      intros bug. rewrite B2. apply Hset.
    + simpl. split; [congruence|done].
  - simpl. split; [congruence|]. intros bug. rewrite B1. apply Hkeys.
Qed.

End Report.

(** X18: when the analysis of an application returns, its report holds a
    verdict for every template of the master object and for nothing
    else, whatever the report held before. *)
Theorem report_covers_templates (rt : Runtime) (depth fuel : nat)
  (config : Config)
  (fn_start_adv_trace :
     Analysis -> json -> gmap string (list string) -> CodeTrace.Direction ->
     Z -> res (bool * list string * gmap string (list string)))
  (fn_perform_manifest_analysis :
     string -> json -> string -> gmap string (list string) ->
     res (bool * gmap string (list string)))
  (Graphables : Type)
  (fn_analyse_graph_elements :
     json -> gmap string (list string) -> string -> string -> res Graphables)
  (s s' : AppAnalyser.t Graphables) (bug : string) :
  AppAnalyser.analyse_app rt depth fuel config fn_start_adv_trace
    fn_perform_manifest_analysis Graphables fn_analyse_graph_elements s
  = Ok s' ->
  is_Some (AppAnalyser.current_app_bug_obj s' !! bug)
  <-> bug ∈ (AppAnalyser.master_bug_object s).*1.
Proof.
  intros Hrun. unfold AppAnalyser.analyse_app in Hrun.
  assert (Hcover :
    forall b,
      b ∈ (AppAnalyser.master_bug_object
             (AppAnalyser.fn_initialise_bug_obj s)).*1 ->
      is_Some (AppAnalyser.current_app_bug_obj
                 (AppAnalyser.fn_initialise_bug_obj s) !! b)).
  { intros b Hb. simpl in *. rewrite initialised_keys. by left. }
  pose proof (fn_per_bug_analysis_report rt depth fuel config
                fn_start_adv_trace fn_perform_manifest_analysis Graphables
                fn_analyse_graph_elements
                (AppAnalyser.fn_initialise_bug_obj s) Hcover) as H.
  rewrite Hrun in H. destruct H as [_ H].
  rewrite H. simpl. rewrite initialised_keys, lookup_empty.
  split; [|tauto]. intros [H1|H1]; [done|]. by destruct H1.
Qed.

Lemma report_covers_templates_witness :
  exists s',
    AppAnalyser.analyse_app insertion_order 5 10 no_config no_adv_trace
      manifest_always_satisfied unit no_graph dex_worker = Ok s'
    /\ (is_Some (AppAnalyser.current_app_bug_obj s' !! "bug")
        <-> "bug" ∈ (AppAnalyser.master_bug_object dex_worker).*1).
Proof.
  eexists. split; [vm_compute; reflexivity|].
  apply (report_covers_templates insertion_order 5 10 no_config no_adv_trace
           manifest_always_satisfied unit no_graph dex_worker).
  vm_compute. reflexivity.
Defined.

(** ** analysis_utils.py: superclasses *)

Lemma ancestor_inv (dx : Analysis) (c x : string) :
  ancestor dx c x <->
  exists co,
    co ∈ find_classes dx c /\ is_external co = false
    /\ (x = get_superclassname co \/ ancestor dx (get_superclassname co) x).
Proof.
  split.
  - intros H. destruct H as [c co Hco Hint|c co x Hco Hint Hx]; exists co; auto.
  - intros (co & Hco & Hint & [->|Hx]).
    + by apply ancestor_direct.
    + by eapply ancestor_step.
Qed.

Section Superclasses.
Variable rt : Runtime.
Hypothesis rt_ok : runtime_ok rt.
Variable dx : Analysis.

Lemma fn_find_superclasses_exact (fuel : nat) :
  forall class_name u,
    androguard_dx u = dx -> super_memo_exact dx (superclasses u) ->
    ensures (fn_find_superclasses rt fuel class_name true u)
      (fun '(l, u') =>
         (NoDup l /\ forall x, x ∈ l <-> ancestor dx class_name x)
         /\ androguard_dx u' = dx
         /\ super_memo_exact dx (superclasses u')
         /\ subclasses u' = subclasses u).
Proof.
  induction fuel as [|fuel IH]; intros class_name u Hdx Hmemo; [done|].
  cbn [fn_find_superclasses].
  destruct (superclasses u !! class_name) as [l|] eqn:Hlookup.
  { simpl. split; [by apply Hmemo|done]. }
  rewrite Hdx.
  eapply ensures_bind.
  - apply (ensures_for_each_passed
             (fun passed '(found, u') =>
                (forall x,
                    x ∈ found <->
                    exists co,
                      co ∈ passed /\ is_external co = false
                      /\ (x = get_superclassname co
                          \/ ancestor dx (get_superclassname co) x))
                /\ androguard_dx u' = dx
                /\ super_memo_exact dx (superclasses u')
                /\ subclasses u' = subclasses u)
             _ _ []).
    + intros pre co [found u1] _ (Hfound & Hdx1 & Hmemo1 & Hsub1).
      destruct (is_external co) eqn:Hext.
      * simpl. split; [|done].
        intros x. rewrite Hfound. split.
        -- intros (co' & Hco' & Hs & Hx). exists co'.
           rewrite elem_of_app. auto.
        -- intros (co' & Hco' & Hs & Hx).
           apply elem_of_app in Hco' as [Hco'|Hco']; [by exists co'|].
           apply list_elem_of_singleton in Hco'. subst co'. congruence.
      * eapply ensures_bind; [by apply IH|].
        intros [next u2] ([_ Hnext] & Hdx2 & Hmemo2 & Hsub2). simpl.
        split; [|by rewrite Hsub2].
        intros x. rewrite !elem_of_app, list_elem_of_singleton, Hfound, Hnext.
        split.
        -- intros [[(co' & Hco' & Hs & Hx)| ->]|Hx].
           ++ exists co'. rewrite elem_of_app. auto.
           ++ exists co. rewrite elem_of_app, list_elem_of_singleton. auto.
           ++ exists co. rewrite elem_of_app, list_elem_of_singleton. auto.
        -- intros (co' & Hco' & Hs & Hx).
           apply elem_of_app in Hco' as [Hco'|Hco'].
           ++ left. left. by exists co'.
           ++ apply list_elem_of_singleton in Hco'. subst co'.
              destruct Hx as [->|Hx]; auto.
    + split; [|done]. intros x. split.
      * intros Hx. by apply elem_of_nil in Hx.
      * intros (co & Hco & _). by apply elem_of_nil in Hco.
  - intros [found u1] (Hfound & Hdx1 & Hmemo1 & Hsub1). simpl.
    rewrite app_nil_l in Hfound.
    assert (Hexact :
      NoDup (list_of_str_set rt found)
      /\ forall x, x ∈ list_of_str_set rt found <-> ancestor dx class_name x).
    { split; [apply (str_set_NoDup rt rt_ok)|].
      intros x. rewrite (str_set_elem rt rt_ok), Hfound.
      symmetry. apply ancestor_inv. }
    split; [done|]. split; [done|]. split; [|done].
    intros k l. rewrite lookup_insert. case_decide as Hk.
    + intros [= <-]. by subst k.
    + apply Hmemo1.
Qed.

End Superclasses.

(** X19: [fn_find_superclasses] returns, each once, the classes above the
    class it is asked about: the superclass of every class object
    [find_classes] returns for the name that is not external, and the
    classes above that superclass.  An external class is listed as a
    superclass, and nothing above it is. *)
Theorem superclasses_are_ancestors (rt : Runtime) (fuel : nat)
  (class_name : string) (u u' : AnalysisUtils.t) (l : list string) :
  runtime_ok rt ->
  super_memo_exact (androguard_dx u) (superclasses u) ->
  fn_find_superclasses rt fuel class_name true u = Ok (l, u') ->
  NoDup l
  /\ (forall x, x ∈ l <-> ancestor (androguard_dx u) class_name x)
  /\ super_memo_exact (androguard_dx u) (superclasses u').
Proof.
  intros Hrt Hmemo Hrun.
  pose proof (fn_find_superclasses_exact rt Hrt (androguard_dx u) fuel
                class_name u eq_refl Hmemo) as H.
  rewrite Hrun in H. simpl in H. destruct H as ([Hnodup Hl] & _ & Hmemo' & _).
  done.
Qed.

Lemma superclasses_are_ancestors_witness :
  NoDup ["LBase;"; "Ljava/lang/Object;"]
  /\ (forall x,
         x ∈ ["LBase;"; "Ljava/lang/Object;"]
         <-> ancestor hierarchy_app "LS1;" x).
Proof.
  assert (Hrun : exists u',
    fn_find_superclasses insertion_order 5 "LS1;" true
      (AnalysisUtils.init no_config hierarchy_app)
    = Ok (["LBase;"; "Ljava/lang/Object;"], u')).
  { eexists. vm_compute. reflexivity. }
  destruct Hrun as [u' Hrun].
  destruct (superclasses_are_ancestors insertion_order 5 "LS1;"
              (AnalysisUtils.init no_config hierarchy_app) u'
              ["LBase;"; "Ljava/lang/Object;"] insertion_order_ok)
    as (Hnodup & Hl & _).
  - intros k l Hk. simpl in Hk. by rewrite lookup_empty in Hk.
  - exact Hrun.
  - by split.
Defined.

(** ** code_analyser_search.py: the location filter *)

Lemma split_go_head (sep : string) (s : string) :
  forall skip cur, exists head tail,
    PyStr.split_go sep skip cur s = head :: tail.
Proof.
  induction s as [|c s IH]; intros skip cur; cbn [PyStr.split_go]; [eauto|].
  destruct skip as [|k]; [|apply IH].
  destruct (String.prefix sep (String c s)); [eauto|apply IH].
Qed.

Lemma fn_get_class_method_desc_from_method_returns (m : EncodedMethod) :
  exists desc_part,
    fn_get_class_method_desc_from_method m
    = Ok (get_class_name m, get_name m, desc_part).
Proof.
  unfold fn_get_class_method_desc_from_method, PyStr.split.
  destruct (split_go_head "[access" (PyStr.replace " " "" (get_descriptor m))
              0 "") as (head & tail & ->).
  by exists head.
Qed.

Lemma replace_go_absent (old new s : string) :
  PyStr.contains old s = false -> PyStr.replace_go old new 0 s = s.
Proof.
  induction s as [|c s IH]; [done|].
  rewrite contains_cons. intros H. apply orb_false_elim in H as [Hp Hs].
  cbn [PyStr.replace_go]. by rewrite Hp, IH.
Qed.

(** The test on one call site, for a class that is written out. *)
Lemma fn_check_callers_against_expectation_class (m : EncodedMethod)
  (cls : string) (exclude_match : bool) :
  PyStr.contains "->" cls = false ->
  PyStr.endswith cls "*" = false ->
  CodeSearch.fn_check_callers_against_expectation m cls "<class>"
    exclude_match
  = Ok (if exclude_match then negb (String.eqb (get_class_name m) cls)
        else String.eqb (get_class_name m) cls).
Proof.
  intros Harrow Hstar. unfold CodeSearch.fn_check_callers_against_expectation.
  destruct (fn_get_class_method_desc_from_method_returns m) as [d ->].
  unfold fn_get_class_method_desc_from_string. rewrite Harrow.
  cbn [res_bind]. by rewrite Hstar.
Qed.

Lemma location_loop (cls : string) (exclude_match : bool)
  (methods : list EncodedMethod) :
  PyStr.contains "->" cls = false ->
  PyStr.endswith cls "*" = false ->
  forall output_methods,
    for_each methods
      (fun input_method output_methods =>
         for_each [cls]
           (fun location_value output_methods =>
              let* is_satisfied :=
                CodeSearch.fn_check_callers_against_expectation input_method
                  location_value "<class>" exclude_match in
              if is_satisfied then Ok (output_methods ++ [input_method])
              else Ok output_methods)
           output_methods)
      output_methods
    = Ok (output_methods
          ++ filter (fun m => negb (String.eqb (get_class_name m) cls)
                              = exclude_match) methods).
Proof.
  intros Harrow Hstar.
  induction methods as [|m methods IH]; intros output_methods.
  - by rewrite app_nil_r.
  - cbn [for_each]. rewrite fn_check_callers_against_expectation_class by done.
    cbn [res_bind]. rewrite filter_cons.
    destruct exclude_match;
      destruct (String.eqb (get_class_name m) cls);
      cbn [negb res_bind]; rewrite IH.
    + by rewrite decide_False by done.
    + rewrite decide_True by done. by rewrite <- app_assoc.
    + rewrite decide_True by done. by rewrite <- app_assoc.
    + by rewrite decide_False by done.
Qed.

Lemma fn_get_methods_satisfying_location_reqs_class (self : CodeSearch.t)
  (methods : list EncodedMethod) (c : ascii) (cls : string)
  (exclude_match : bool) :
  is_at c = false ->
  PyStr.contains "NOT " (String c cls) = false ->
  PyStr.contains ":" (String c cls) = false ->
  PyStr.contains "->" (String c cls) = false ->
  PyStr.endswith (String c cls) "*" = false ->
  CodeSearch.fn_get_methods_satisfying_location_reqs self methods
    (String.append (if exclude_match then "NOT " else "")
       (String.append "<class>:" (String c cls)))
  = Ok (filter (fun m => negb (String.eqb (get_class_name m) (String c cls))
                         = exclude_match) methods).
Proof.
  intros Hat Hnot Hcolon Harrow Hstar.
  assert (Hplain :
    PyStr.contains "NOT " (String.append "<class>:" (String c cls)) = false).
  { rewrite !append_cons. rewrite !contains_cons.
    change (String.append "" (String c cls)) with (String c cls).
    rewrite Hnot. reflexivity. }
  assert (Hsplit :
    PyStr.split ":" (String.append "<class>" (String.append ":" (String c cls)))
    = ["<class>"; String c cls]).
  { apply (split_once ":" ""); [by apply clean_char|exact Hcolon]. }
  change (String.append "<class>"
            (String.append ":" (String c cls)))
    with (String.append "<class>:" (String c cls)) in Hsplit.
  assert (Hhas :
    PyStr.contains ":" (String.append "<class>:" (String c cls)) = true).
  { apply (contains_here ":" "<class>"). }
  unfold CodeSearch.fn_get_methods_satisfying_location_reqs.
  destruct exclude_match.
  - assert (Hin :
      PyStr.contains "NOT "
        (String.append "NOT " (String.append "<class>:" (String c cls)))
      = true) by apply (contains_here "NOT " "").
    rewrite Hin.
    assert (Hreplace :
      PyStr.replace "NOT " ""
        (String.append "NOT " (String.append "<class>:" (String c cls)))
      = String.append "<class>:" (String c cls)).
    { unfold PyStr.replace. rewrite !append_cons.
      cbn [PyStr.replace_go String.prefix String.length Nat.sub].
      repeat (destruct (Ascii.ascii_dec _ _); [|done]).
      change (String.append "" ?t) with t.
      rewrite <- !append_cons. by apply replace_go_absent. }
    rewrite Hreplace, Hhas, Hsplit. cbn [py_nth lookup list_lookup res_bind
      py_first_char]. rewrite Hat.
    by rewrite (location_loop (String c cls) true methods Harrow Hstar []).
  - change (String.append "" ?t) with t. rewrite Hplain, Hhas, Hsplit.
    cbn [py_nth lookup list_lookup res_bind py_first_char]. rewrite Hat.
    by rewrite (location_loop (String c cls) false methods Harrow Hstar []).
Qed.

(** X20: for a class that is written out in the template,
    [<class>:name], the location filter keeps the call sites in that
    class, in their order; with [NOT ] before it, it keeps the others. *)
Theorem class_location_filters (self : CodeSearch.t)
  (methods : list EncodedMethod) (c : ascii) (cls : string) :
  is_at c = false ->
  PyStr.contains "NOT " (String c cls) = false ->
  PyStr.contains ":" (String c cls) = false ->
  PyStr.contains "->" (String c cls) = false ->
  PyStr.endswith (String c cls) "*" = false ->
  CodeSearch.fn_get_methods_satisfying_location_reqs self methods
    (String.append "<class>:" (String c cls))
  = Ok (filter (fun m => get_class_name m = String c cls) methods)
  /\ CodeSearch.fn_get_methods_satisfying_location_reqs self methods
       (String.append "NOT <class>:" (String c cls))
     = Ok (filter (fun m => get_class_name m <> String c cls) methods).
Proof.
  intros Hat Hnot Hcolon Harrow Hstar. split.
  - pose proof (fn_get_methods_satisfying_location_reqs_class self methods c
                  cls false Hat Hnot Hcolon Harrow Hstar) as H.
    etrans; [exact H|]. f_equal. apply list_filter_iff. intros m.
    destruct (String.eqb_spec (get_class_name m) (String c cls)); by split.
  - pose proof (fn_get_methods_satisfying_location_reqs_class self methods c
                  cls true Hat Hnot Hcolon Harrow Hstar) as H.
    etrans; [exact H|]. f_equal. apply list_filter_iff. intros m.
    destruct (String.eqb_spec (get_class_name m) (String c cls)); by split.
Qed.

Lemma class_location_filters_witness :
  CodeSearch.fn_get_methods_satisfying_location_reqs
    {| CodeSearch.inst_analysis_utils := AnalysisUtils.init no_config filter_app;
       CodeSearch.search_template := JDict [];
       CodeSearch.current_links := ∅;
       CodeSearch.current_returns := [] |}
    [mBad; mGood] (String.append "<class>:" "LGood;")
  = Ok (filter (fun m => get_class_name m = "LGood;") [mBad; mGood])
  /\ CodeSearch.fn_get_methods_satisfying_location_reqs
       {| CodeSearch.inst_analysis_utils :=
            AnalysisUtils.init no_config filter_app;
          CodeSearch.search_template := JDict [];
          CodeSearch.current_links := ∅;
          CodeSearch.current_returns := [] |}
       [mBad; mGood] (String.append "NOT <class>:" "LGood;")
     = Ok (filter (fun m => get_class_name m <> "LGood;") [mBad; mGood]).
Proof.
  apply (class_location_filters _ [mBad; mGood] "L" "Good;");
    vm_compute; reflexivity.
Defined.

(** ** manifest_analyser.py: the verdict *)

Lemma json_nested_ind (P : json -> Prop) :
  (forall s, P (JStr s)) ->
  (forall z, P (JInt z)) ->
  (forall b, P (JBool b)) ->
  (forall l, Forall P l -> P (JList l)) ->
  (forall d, Forall (fun kv => P kv.2) d -> P (JDict d)) ->
  forall j, P j.
Proof.
  intros Hs Hz Hb Hl Hd. fix IH 1.
  intros [s|z|b|l|d]; [apply Hs|apply Hz|apply Hb|apply Hl|apply Hd].
  - revert l. fix IHl 1. intros [|x l]; constructor.
    + apply IH.
    + apply IHl.
  - revert d. fix IHd 1. intros [|[k v] d]; constructor.
    + apply IH.
    + apply IHd.
Qed.

Lemma flagged_dec (lvl : list (string * json)) : flagged lvl \/ ~ flagged lvl.
Proof.
  unfold flagged. destruct (Py.lookup "_SATISFIED_LOOKFOR" lvl) as [v|].
  - destruct (ManifestAnalyser.eq_true v) eqn:Hv.
    + left. by exists v.
    + right. intros (v' & [= <-] & Hv'). congruence.
  - right. by intros (v & Hv & _).
Qed.

(** What a call adds to the two counters. *)
Lemma fn_recursively_check_lookfor_counts (j : json) :
  match j with
  | JDict d =>
      forall e s,
        ensures (ManifestAnalyser.fn_recursively_check_lookfor j (e, s))
          (fun '(e', s') =>
             exists n k,
               e' = e + n /\ s' = s + k /\ k <= n
               /\ (k = n <-> forall lvl, level j lvl -> level_satisfied lvl))
  | _ => True
  end.
Proof.
  induction j as [| | | |d IH] using json_nested_ind; try done.
  intros e s. cbn [ManifestAnalyser.fn_recursively_check_lookfor].
  match goal with
  | |- ensures (?loop d _) _ => set (L := loop)
  end.
  assert (Hloop :
    forall items,
      Forall (fun kv : string * json =>
                match kv.2 with
                | JDict d0 =>
                    forall e s,
                      ensures
                        (ManifestAnalyser.fn_recursively_check_lookfor kv.2
                           (e, s))
                        (fun '(e', s') =>
                           exists n k,
                             e' = e + n /\ s' = s + k /\ k <= n
                             /\ (k = n <->
                                 forall lvl,
                                   level kv.2 lvl -> level_satisfied lvl))
                | _ => True
                end) items ->
      forall e s,
        ensures (L items (e, s))
          (fun '(e', s') =>
             exists n k,
               e' = e + n /\ s' = s + k /\ k <= n
               /\ (k = n <->
                   ("LOOKFOR" ∈ items.*1 -> flagged d)
                   /\ forall key below lvl,
                        (key, JDict below) ∈ items ->
                        level (JDict below) lvl -> level_satisfied lvl))).
  { clear IH. induction items as [|[key value] items IHitems];
      intros Hall e0 s0.
    - simpl. exists 0, 0. split; [lia|]. split; [lia|]. split; [lia|].
      split; [|done]. intros _. split.
      + intros Hnil. by apply elem_of_nil in Hnil.
      + intros key below lvl Hnil. by apply elem_of_nil in Hnil.
    - apply Forall_cons in Hall as [Hvalue Hall]. simpl in Hvalue.
      specialize (IHitems Hall).
      assert (Hdescend :
        forall e1 s1,
          ensures
            (let* counts :=
               match value with
               | JDict _ =>
                   ManifestAnalyser.fn_recursively_check_lookfor value
                     (e1, s1)
               | _ => Ok (e1, s1)
               end in
             L items counts)
            (fun '(e', s') =>
               exists n k,
                 e' = e1 + n /\ s' = s1 + k /\ k <= n
                 /\ (k = n <->
                     ("LOOKFOR" ∈ items.*1 -> flagged d)
                     /\ forall key0 below lvl,
                          (key0, JDict below) ∈ (key, value) :: items ->
                          level (JDict below) lvl -> level_satisfied lvl))).
      { intros e1 s1.
        assert (Hplain :
          (forall below, value <> JDict below) ->
          ensures (L items (e1, s1))
            (fun '(e', s') =>
               exists n k,
                 e' = e1 + n /\ s' = s1 + k /\ k <= n
                 /\ (k = n <->
                     ("LOOKFOR" ∈ items.*1 -> flagged d)
                     /\ forall key0 below lvl,
                          (key0, JDict below) ∈ (key, value) :: items ->
                          level (JDict below) lvl -> level_satisfied lvl))).
        { intros Hplain. eapply ensures_weaken; [apply IHitems|].
          intros [e' s'] (n & k & -> & -> & Hle & Hiff).
          exists n, k. split; [done|]. split; [done|]. split; [done|].
          rewrite Hiff.
          split; intros [H1 H2]; (split; [done|]); intros key0 below lvl Hin.
          - apply elem_of_cons in Hin as [Heq|Hin]; [|by eapply H2].
            injection Heq as _ Heq. by destruct (Hplain below).
          - eapply H2. by right. }
        destruct value as [| | | |below];
          try (cbn [res_bind]; by apply Hplain).
        eapply ensures_bind; [apply Hvalue|].
        intros [e2 s2] (n1 & k1 & -> & -> & Hle1 & Hiff1).
        eapply ensures_weaken; [apply IHitems|].
        intros [e' s'] (n2 & k2 & -> & -> & Hle2 & Hiff2).
        exists (n1 + n2), (k1 + k2). split; [lia|]. split; [lia|].
        split; [lia|]. split.
        - intros Hk. assert (k1 = n1 /\ k2 = n2) as [Hk1 Hk2] by lia.
          pose proof (proj1 Hiff1 Hk1) as Hlevels.
          destruct (proj1 Hiff2 Hk2) as [Hflag Hrest].
          split; [done|]. intros key0 below0 lvl Hin Hlvl.
          apply elem_of_cons in Hin as [[= -> <-]|Hin].
          + by apply Hlevels.
          + by eapply Hrest.
        - intros [Hflag Hrest].
          assert (k1 = n1).
          { apply Hiff1. intros lvl Hlvl. eapply Hrest; [by left|done]. }
          assert (k2 = n2).
          { apply Hiff2. split; [done|]. intros key0 below0 lvl Hin.
            eapply Hrest. by right. }
          lia. }
      unfold L at 1. cbn beta iota. fold L.
      destruct (String.eqb_spec key "LOOKFOR") as [->|Hkey].
      + cbn [Py.getitem].
        destruct (Py.lookup "_SATISFIED_LOOKFOR" d) as [v|] eqn:Hflag;
          [|done].
        cbn [res_bind].
        destruct (ManifestAnalyser.eq_true v) eqn:Hv.
        * eapply ensures_weaken; [apply Hdescend|].
          intros [e' s'] (n & k & -> & -> & Hle & Hiff).
          exists (1 + n), (1 + k). split; [lia|]. split; [lia|].
          split; [lia|]. split.
          -- intros Hk. assert (k = n) as Hk' by lia.
             destruct (proj1 Hiff Hk') as [_ Hrest]. split; [|done].
             intros _. by exists v.
          -- intros [_ Hrest]. assert (k = n); [|lia].
             apply Hiff. split; [|done]. intros _. by exists v.
        * simpl. exists 1, 0. split; [lia|]. split; [lia|]. split; [lia|].
          split; [lia|]. intros [Hflagged _]. exfalso.
          destruct Hflagged as (v' & Hv' & Htrue); [by left|].
          congruence.
      + eapply ensures_weaken; [apply Hdescend|].
        intros [e' s'] (n & k & -> & -> & Hle & Hiff).
        exists n, k. split; [done|]. split; [done|]. split; [done|]. split.
        * intros Hk. destruct (proj1 Hiff Hk) as [Hflagged Hrest].
          split; [|done]. intros Hin. apply Hflagged.
          simpl in Hin. apply elem_of_cons in Hin as [Hin|Hin]; [|done].
          congruence.
        * intros [Hflagged Hrest]. apply Hiff. split; [|done].
          intros Hin. apply Hflagged. simpl. by right. }
  eapply ensures_weaken; [apply Hloop; exact IH|].
  intros [e' s'] (n & k & -> & -> & Hle & Hiff).
  exists n, k. split; [done|]. split; [done|]. split; [done|]. split.
  - intros Hk. destruct (proj1 Hiff Hk) as [Hflag Hrest].
    intros lvl Hlvl. inversion Hlvl as [d0|d0 key below lvl0 Hin Hbelow]; subst.
    + exact Hflag.
    + by eapply Hrest.
  - intros Hall. apply Hiff. split.
    + apply (Hall d). constructor.
    + intros key below lvl Hin Hlvl. apply Hall. by eapply level_below.
Qed.

(** X21: when [fn_check_whether_all_reqs_are_satisfied] returns for a
    MANIFESTPARAMS section that is a dictionary, it answers [True]
    exactly when every level of the section that has a [LOOKFOR] is
    flagged [_SATISFIED_LOOKFOR]; a section without [LOOKFOR] is
    satisfied. *)
Theorem manifest_verdict (bug_template : json) (d : list (string * json))
  (b : bool) :
  Py.getitem bug_template (JStr "MANIFESTPARAMS") = Ok (JDict d) ->
  ManifestAnalyser.fn_check_whether_all_reqs_are_satisfied bug_template
  = Ok b ->
  b = true <-> forall lvl, level (JDict d) lvl -> level_satisfied lvl.
Proof.
  intros Hget Hrun.
  unfold ManifestAnalyser.fn_check_whether_all_reqs_are_satisfied in Hrun.
  rewrite Hget in Hrun. cbn [res_bind] in Hrun.
  pose proof (fn_recursively_check_lookfor_counts (JDict d) 0 0) as H.
  destruct (ManifestAnalyser.fn_recursively_check_lookfor (JDict d) (0, 0))
    as [[e' s']| |]; try discriminate.
  injection Hrun as <-. destruct H as (n & k & -> & -> & Hle & Hiff).
  rewrite <- Hiff, Nat.eqb_eq. simpl. lia.
Qed.

Lemma manifest_verdict_witness :
  true = true
  <-> forall lvl,
        level (JDict [ ("BASEPATH", JStr "manifest->application");
                       ("application",
                        JDict [ ("LOOKFOR",
                                 JDict [ ("TAGEXISTS",
                                          JStr "android:debuggable") ]);
                                ("_EXPECTED_LOOKFOR", JInt 1);
                                ("_IDENTIFIED_LOOKFOR", JInt 1);
                                ("_SATISFIED_LOOKFOR", JBool true) ]) ]) lvl ->
        level_satisfied lvl.
Proof.
  apply (manifest_verdict flagged_bug_template); vm_compute; reflexivity.
Defined.

(** ** manifest_analyser.py: namespaces *)

Lemma namespace_passes (variant : string) (namespaces : list (string * string)) :
  PyStr.contains "<NAMESPACE>:" variant = false ->
  forall tags,
    fold_left
      (fun '(tag, tags) (namespace : string * string) =>
         let tag :=
           PyStr.replace "<NAMESPACE>:"
             (String.append "{" (String.append (snd namespace) "}")) tag in
         (tag, tags ++ [tag]))
      namespaces (variant, tags)
    = (variant, tags ++ replicate (length namespaces) variant).
Proof.
  intros Hdone. induction namespaces as [|ns namespaces IH]; intros tags.
  - by rewrite app_nil_r.
  - cbn [fold_left]. unfold PyStr.replace.
    rewrite replace_go_absent by done. rewrite IH.
    by rewrite <- app_assoc.
Qed.

(** X22: for a tag with the placeholder [<NAMESPACE>],
    [fn_generate_namespace_variants] returns one entry for each
    namespace of the manifest, and every entry is the tag with the
    first namespace filled in: the later namespaces get no variant, and
    without a namespace there is no variant at all. *)
Theorem namespace_variants_repeat_first (prefix uri : string)
  (rest : list (string * string)) (tag : string) :
  PyStr.contains "<NAMESPACE>" tag = true ->
  PyStr.contains "<NAMESPACE>:"
    (PyStr.replace "<NAMESPACE>:"
       (String.append "{" (String.append uri "}")) tag)
  = false ->
  ManifestAnalyser.fn_generate_namespace_variants [] tag = []
  /\ ManifestAnalyser.fn_generate_namespace_variants ((prefix, uri) :: rest)
       tag
     = replicate (S (length rest))
         (PyStr.replace "<NAMESPACE>:"
            (String.append "{" (String.append uri "}")) tag).
Proof.
  intros Hplaceholder Hdone.
  unfold ManifestAnalyser.fn_generate_namespace_variants.
  rewrite Hplaceholder. split; [done|].
  cbn [fold_left snd]. by rewrite namespace_passes.
Qed.

Lemma namespace_variants_repeat_first_witness :
  ManifestAnalyser.fn_generate_namespace_variants [] "<NAMESPACE>:exported"
  = []
  /\ ManifestAnalyser.fn_generate_namespace_variants
       [ ("android", "http://schemas.android.com/apk/res/android");
         ("tools", "http://schemas.android.com/tools") ]
       "<NAMESPACE>:exported"
     = replicate 2
         (PyStr.replace "<NAMESPACE>:"
            (String.append "{"
               (String.append "http://schemas.android.com/apk/res/android"
                  "}"))
            "<NAMESPACE>:exported").
Proof.
  apply (namespace_variants_repeat_first "android"
           "http://schemas.android.com/apk/res/android"
           [("tools", "http://schemas.android.com/tools")]);
    vm_compute; reflexivity.
Defined.

(** ** Trace engine: links without values *)

(** [fn_get_trace_items] assigns [hardcoded_traceto] and nothing else. *)
Lemma fn_get_trace_items_flag (str trace_type : string) (self : CodeTrace.t) :
  ensures (CodeTrace.fn_get_trace_items str trace_type self)
    (fun '(_, self') =>
       exists flag, self' = CodeTrace.set_hardcoded_traceto flag self).
Proof.
  unfold CodeTrace.fn_get_trace_items.
  eapply ensures_bind; [apply ensures_eq|]. intros c _.
  destruct (is_at c).
  - eapply ensures_bind; [apply ensures_eq|]. intros [[link_name sub] rest] _.
    eapply ensures_bind; [apply ensures_eq|]. intros items _. simpl. eauto.
  - eapply ensures_bind; [apply ensures_eq|]. intros s _. simpl. eauto.
Qed.

Lemma fn_get_trace_type_plain (str : string) :
  PyStr.contains ":" str = false ->
  exists trace_type, CodeTrace.fn_get_trace_type str = Ok (trace_type, str).
Proof.
  intros Hcolon. unfold CodeTrace.fn_get_trace_type. rewrite Hcolon.
  destruct (PyStr.contains "->" str); eauto.
Qed.

(** A link that has no value gives no item. *)
Lemma fn_get_trace_items_unbound (name trace_type : string)
  (self : CodeTrace.t) :
  PyStr.contains "]" (String "@" name) = false ->
  fn_get_linked_items (CodeTrace.current_links self) (String "@" name) = [] ->
  CodeTrace.fn_get_trace_items (String "@" name) trace_type self
  = Ok ([], CodeTrace.set_hardcoded_traceto false self).
Proof.
  intros Hbracket Hnone. unfold CodeTrace.fn_get_trace_items.
  cbn [py_first_char res_bind]. change (is_at "@") with true. cbv iota.
  rewrite Hbracket. cbn [negb res_bind].
  change (CodeTrace.current_links
            (CodeTrace.set_hardcoded_traceto false self))
    with (CodeTrace.current_links self).
  rewrite Hnone. reflexivity.
Qed.

(** X23: a trace that starts or ends at a link that has no value is not
    satisfied, and reports no chain: nothing is traversed. *)
Theorem unbound_link_trace_unsatisfied (rt : Runtime) (depth fuel : nat)
  (name other : string) (self self' : CodeTrace.t) (b : bool) :
  PyStr.contains ":" (String "@" name) = false ->
  PyStr.contains "]" (String "@" name) = false ->
  fn_get_linked_items (CodeTrace.current_links self) (String "@" name) = [] ->
  CodeTrace.fn_trace_through_code rt depth fuel (String "@" name) other self
  = Ok (b, self')
  \/ CodeTrace.fn_trace_through_code rt depth fuel other (String "@" name)
       self
     = Ok (b, self') ->
  b = false /\ CodeTrace.output_chains self' = CodeTrace.output_chains self.
Proof.
  intros Hcolon Hbracket Hnone Hrun.
  destruct (fn_get_trace_type_plain _ Hcolon) as [link_type Hlink].
  unfold CodeTrace.fn_trace_through_code in Hrun.
  destruct Hrun as [Hrun|Hrun].
  - rewrite Hlink in Hrun. cbn [res_bind] in Hrun.
    apply res_bind_ok in Hrun as ([to_type to] & _ & Hrun).
    rewrite fn_get_trace_items_unbound in Hrun by done.
    cbn [res_bind] in Hrun.
    apply res_bind_ok in Hrun as ([to_list s2] & Hto & Hrun).
    pose proof (fn_get_trace_items_flag to
                  (CodeTrace.to_class_method
                     (CodeTrace.set_hardcoded_traceto false
                        (CodeTrace.set_to_class_method to_type
                           (CodeTrace.set_from_class_method link_type self))))
                  (CodeTrace.set_hardcoded_traceto false
                     (CodeTrace.set_to_class_method to_type
                        (CodeTrace.set_from_class_method link_type self))))
      as Hflag.
    rewrite Hto in Hflag. destruct Hflag as [flag ->].
    injection Hrun as <- <-. done.
  - apply res_bind_ok in Hrun as ([from_type from] & _ & Hrun).
    rewrite Hlink in Hrun. cbn [res_bind] in Hrun.
    apply res_bind_ok in Hrun as ([from_list s1] & Hfrom & Hrun).
    pose proof (fn_get_trace_items_flag from
                  (CodeTrace.from_class_method
                     (CodeTrace.set_to_class_method link_type
                        (CodeTrace.set_from_class_method from_type self)))
                  (CodeTrace.set_to_class_method link_type
                     (CodeTrace.set_from_class_method from_type self)))
      as Hflag.
    rewrite Hfrom in Hflag. destruct Hflag as [flag ->].
    rewrite fn_get_trace_items_unbound in Hrun by done.
    cbn [res_bind] in Hrun. rewrite orb_true_r in Hrun.
    injection Hrun as <- <-. done.
Qed.

Lemma unbound_link_trace_unsatisfied_witness :
  exists b self',
    CodeTrace.fn_trace_through_code insertion_order 1 10 "@callers"
      "LC;->c()V" stale_trace_state
    = Ok (b, self')
    /\ b = false
    /\ CodeTrace.output_chains self'
       = CodeTrace.output_chains stale_trace_state.
Proof.
  eexists _, _. split; [vm_compute; reflexivity|].
  apply (unbound_link_trace_unsatisfied insertion_order 1 10 "callers"
           "LC;->c()V" stale_trace_state).
  - reflexivity.
  - reflexivity.
  - reflexivity.
  - left. vm_compute. reflexivity.
Defined.

(** ** template_parser.py: the templates of the master object *)

Lemma lookup_dict_set (k k' : string) (v : json) (d : list (string * json)) :
  Py.lookup k (TemplateParser.dict_set k' v d)
  = if String.eqb k k' then Some v else Py.lookup k d.
Proof.
  induction d as [|[k0 v0] d IH]; simpl.
  - by destruct (String.eqb k k').
  - destruct (String.eqb_spec k' k0) as [->|Hne]; simpl.
    + by destruct (String.eqb k k0).
    + rewrite IH. destruct (String.eqb_spec k k') as [->|Hne'].
      * by destruct (String.eqb_spec k' k0).
      * done.
Qed.

Lemma lookup_dict_del (k : string) (d : list (string * json)) :
  Py.lookup k (TemplateParser.dict_del k d) = None.
Proof.
  unfold TemplateParser.dict_del.
  induction d as [|[k0 v0] d IH]; [done|].
  rewrite filter_cons. simpl. case_decide as Hk; [|done].
  simpl. by destruct (String.eqb_spec k k0).
Qed.

Lemma dict_set_cons (k : string) (v : json) (d : list (string * json)) :
  TemplateParser.dict_set k v d <> [].
Proof. destruct d as [|[k0 v0] d]; simpl; [done|]. by destruct (String.eqb k k0). Qed.

(** The LOOKFOR sums leave no section empty that was not. *)
Lemma lookfor_sums_keep (j : json) :
  (TemplateParser.fn_recursively_create_lookfor_sums j).1 = JDict [] ->
  j = JDict [].
Proof.
  destruct j as [s|z|b|l|[|[k v] d]]; try done.
  - simpl. destruct (PyStr.contains "LOOKFOR" s); [done|]. by destruct s.
  - cbn [TemplateParser.fn_recursively_create_lookfor_sums].
    destruct (existsb _ l); [done|].
    match goal with |- context [let '(_, _) := ?x in _] => destruct x end.
    done.
  - cbn [TemplateParser.fn_recursively_create_lookfor_sums].
    match goal with
    | |- context [let '(_, _) := ?x in _] => destruct x as [d' outcome] eqn:Hloop
    end.
    assert (Hd' : d' <> []).
    { cbn beta iota in Hloop.
      repeat match type of Hloop with
             | context [let '(_, _) := ?x in _] => destruct x
             | context [match ?x with Ok _ => _ | Raise _ => _ | OutOfFuel => _ end] =>
                 destruct x
             end; by injection Hloop as <- _. }
    cbn [fst]. intros [= Hd]. destruct (bool_decide _).
    + cbn [fold_left TemplateParser.lookfor_sums] in Hd.
      by apply dict_set_cons in Hd.
    + done.
Qed.

(** One template file leaves the master object as it is, or adds a
    template of that shape. *)
Lemma fn_parse_template_file_adds (o : list (string * json))
  (loaded : option json) :
  (TemplateParser.fn_parse_template_file o loaded).1 = o
  \/ exists template_name template,
       (TemplateParser.fn_parse_template_file o loaded).1
       = o ++ [(template_name, template)]
       /\ template_shape template.
Proof.
  unfold TemplateParser.fn_parse_template_file.
  destruct loaded as [[| | | |[|kv d]]|]; try (by left).
  set (d0 := kv :: d).
  match goal with
  | |- context [match ?c with Ok _ => _ | Raise _ => _ | OutOfFuel => _ end] =>
      destruct c as [[template_name metadata]| |] eqn:Hchecks
  end; try (by left).
  right.
  assert (Hshape :
    exists m,
      metadata = JDict m
      /\ section_present "MANIFESTPARAMS" d0
         || section_present "CODEPARAMS" d0 = true).
  { destruct (Py.lookup "METADATA" d0) as [md|]; [|done].
    apply res_bind_ok in Hchecks as (u & Hmeta & Hrest).
    apply fn_check_metadata_section_ok in Hmeta
      as (m & name & -> & Hname & Hfree).
    fold (section_present "MANIFESTPARAMS" d0) in Hrest.
    fold (section_present "CODEPARAMS" d0) in Hrest.
    destruct (section_present "MANIFESTPARAMS" d0);
      destruct (section_present "CODEPARAMS" d0); try done;
      cbn [negb andb] in Hrest;
      apply res_bind_ok in Hrest as (? & _ & Hrest);
      apply res_bind_ok in Hrest as (? & _ & Hrest);
      apply res_bind_ok in Hrest as (? & _ & Hrest);
      apply res_bind_ok in Hrest as (name' & Hname' & Hrest);
      injection Hrest as _ <-; exists m; split; reflexivity. }
  destruct Hshape as (m & -> & Hsections).
  set (d1 := TemplateParser.dict_set "METADATA"
               (JDict (TemplateParser.dict_del "NAME" m)) d0).
  assert (Hsame : forall key,
             key <> "METADATA" ->
             section_present key d1 = section_present key d0).
  { intros key Hkey. unfold section_present, d1. rewrite lookup_dict_set.
    by destruct (String.eqb_spec key "METADATA"). }
  assert (Hmeta1 : Py.lookup "METADATA" d1
                   = Some (JDict (TemplateParser.dict_del "NAME" m))).
  { unfold d1. by rewrite lookup_dict_set. }
  apply orb_true_iff in Hsections.
  destruct (Py.lookup "MANIFESTPARAMS" d1) as [manifest|] eqn:Hmanifest.
  - destruct (TemplateParser.fn_recursively_create_lookfor_sums manifest)
      as [manifest' outcome] eqn:Hsums.
    cbn [fst]. eexists _, _. split; [reflexivity|].
    eexists _, _. split; [reflexivity|]. split; [|split].
    + apply orb_true_iff. destruct Hsections as [Hpresent|Hpresent].
      * left. rewrite <- Hsame in Hpresent by done.
        unfold section_present in *. rewrite lookup_dict_set. simpl.
        rewrite Hmanifest in Hpresent.
        destruct manifest' as [| | | |[|]]; try done.
        pose proof (lookfor_sums_keep manifest) as Hkeep.
        rewrite Hsums in Hkeep. rewrite (Hkeep eq_refl) in Hpresent. done.
      * right. rewrite <- Hsame in Hpresent by done.
        unfold section_present in *. by rewrite lookup_dict_set.
    + rewrite lookup_dict_set. simpl. exact Hmeta1.
    + apply lookup_dict_del.
  - cbn [fst]. eexists _, _. split; [reflexivity|].
    eexists _, _. split; [reflexivity|]. split; [|split].
    + apply orb_true_iff. rewrite !Hsame by done. exact Hsections.
    + exact Hmeta1.
    + apply lookup_dict_del.
Qed.

Lemma fn_parse_templates_shape (files : list (option json)) :
  forall o,
    Forall (fun entry => template_shape entry.2) o ->
    Forall (fun entry => template_shape entry.2)
      (fold_left
         (fun o f => (TemplateParser.fn_parse_template_file o f).1)
         files o).
Proof.
  induction files as [|f files IH]; intros o Ho; simpl; [done|].
  apply IH.
  destruct (fn_parse_template_file_adds o f)
    as [->|(name & template & -> & Hshape)]; [done|].
  apply Forall_app. split; [done|]. by apply Forall_singleton.
Qed.

(** X24: every template of the master template object has a
    MANIFESTPARAMS or a CODEPARAMS section that is not the empty
    dictionary, and its METADATA section holds no NAME: the name is the
    key of the template. *)
Theorem admitted_templates_have_rules
  (template_file_list : list (option json)) (template_name : string)
  (template : json) :
  (template_name, template)
  ∈ TemplateParser.fn_parse_templates template_file_list ->
  template_shape template.
Proof.
  intros Hin.
  pose proof (fn_parse_templates_shape template_file_list []
                (Forall_nil_2 _)) as Hall.
  rewrite Forall_forall in Hall. by apply (Hall (template_name, template)).
Qed.

Lemma admitted_templates_have_rules_witness :
  exists template,
    ("dup", template)
    ∈ TemplateParser.fn_parse_templates [Some (JDict duplicate_id_template)]
    /\ template_shape template.
Proof.
  eexists. split.
  - vm_compute. apply list_elem_of_singleton. reflexivity.
  - eapply (admitted_templates_have_rules
              [Some (JDict duplicate_id_template)] "dup").
    vm_compute. apply list_elem_of_singleton. reflexivity.
Defined.

(** ** app_analyser.py: what a verdict rests on *)

Section Verdicts.
Variable rt : Runtime.
Variable depth : nat.
Variable fuel : nat.
Variable config : Config.
Variable fn_start_adv_trace :
  Analysis -> json -> gmap string (list string) -> CodeTrace.Direction ->
  Z -> res (bool * list string * gmap string (list string)).
Variable fn_perform_manifest_analysis :
  string -> json -> string -> gmap string (list string) ->
  res (bool * gmap string (list string)).
Variable Graphables : Type.
Variable fn_analyse_graph_elements :
  json -> gmap string (list string) -> string -> string -> res Graphables.

(** The application and the report are those of [s]. *)
Let same_worker (s s' : AppAnalyser.t Graphables) : Prop :=
  AppAnalyser.master_bug_object s' = AppAnalyser.master_bug_object s
  /\ AppAnalyser.androguard_apk_obj s' = AppAnalyser.androguard_apk_obj s
  /\ AppAnalyser.androguard_dx s' = AppAnalyser.androguard_dx s
  /\ AppAnalyser.current_app_package_name s'
     = AppAnalyser.current_app_package_name s
  /\ AppAnalyser.current_app_bug_obj s' = AppAnalyser.current_app_bug_obj s.

(** The categories counted and not satisfied. *)
Let open (s : AppAnalyser.t Graphables) : nat :=
  AppAnalyser.current_bug_search_types s
  - AppAnalyser.current_bug_search_outcomes s.

Let counted (s : AppAnalyser.t Graphables) : Prop :=
  AppAnalyser.current_bug_search_outcomes s
  <= AppAnalyser.current_bug_search_types s.

(** The manifest analysis of the application answered [True] for the
    template. *)
Let manifest_ok (s : AppAnalyser.t Graphables) (template : json) : Prop :=
  exists apk links links',
    AppAnalyser.androguard_apk_obj s = Some apk
    /\ fn_perform_manifest_analysis (AppAnalyser.current_app_package_name s)
         template (AppAnalyser.get_android_manifest_xml apk) links
       = Ok (true, links').

(** The code analysis of the application answered [True] for the
    template. *)
Let code_ok (s : AppAnalyser.t Graphables) (template : json) : Prop :=
  exists links links',
    CodeAnalyser.fn_perform_code_analysis rt depth fuel config
      fn_start_adv_trace (AppAnalyser.current_app_package_name s) template
      (AppAnalyser.androguard_dx s) links
    = Ok (Some (true, links')).

Lemma same_worker_refl (s : AppAnalyser.t Graphables) : same_worker s s.
Proof. by repeat split. Qed.

Lemma same_worker_trans (a b c : AppAnalyser.t Graphables) :
  same_worker a b -> same_worker b c -> same_worker a c.
Proof.
  intros (?&?&?&?&?) (?&?&?&?&?). repeat split; congruence.
Qed.

Lemma fn_handle_manifest_analysis_verdict (bug : string) (template : json)
  (x : AppAnalyser.t Graphables) :
  AppAnalyser.bug_template x bug = Ok template ->
  counted x ->
  ensures (AppAnalyser.fn_handle_manifest_analysis
             fn_perform_manifest_analysis Graphables bug x)
    (fun x' =>
       same_worker x x' /\ counted x' /\ open x <= open x'
       /\ forall m,
            Py.getitem template (JStr "MANIFESTPARAMS") = Ok m ->
            is_empty_dict m = false ->
            open x' = open x -> manifest_ok x template).
Proof.
  intros Htemplate Hcounted.
  unfold AppAnalyser.fn_handle_manifest_analysis.
  rewrite Htemplate. cbn [res_bind].
  destruct (Py.getitem template (JStr "MANIFESTPARAMS"))
    as [manifest_obj| |] eqn:Hget; try done.
  cbn [res_bind].
  assert (Hcall :
    ensures
      (let self :=
         AppAnalyser.set_current_bug_search_types
           (AppAnalyser.current_bug_search_types x + 1) x in
       match AppAnalyser.androguard_apk_obj self with
       | None => Ok self
       | Some apk =>
           let manifest_string := AppAnalyser.get_android_manifest_xml apk in
           let* (manifest_output, links) :=
             fn_perform_manifest_analysis
               (AppAnalyser.current_app_package_name self) template
               manifest_string (AppAnalyser.current_links self) in
           let self := AppAnalyser.set_current_links links self in
           if manifest_output
           then Ok (AppAnalyser.set_current_bug_search_outcomes
                      (AppAnalyser.current_bug_search_outcomes self + 1) self)
           else Ok self
       end)
      (fun x' =>
         same_worker x x' /\ counted x' /\ open x <= open x'
         /\ forall m,
              Ok manifest_obj = Ok m ->
              is_empty_dict m = false ->
              open x' = open x -> manifest_ok x template)).
  { cbv zeta. simpl AppAnalyser.androguard_apk_obj.
    unfold counted, open in *.
    destruct (AppAnalyser.androguard_apk_obj x) as [apk|] eqn:Hapk.
    - eapply ensures_bind; [apply ensures_eq|].
      intros [[] links] Hrun; simpl in *.
      + split; [by repeat split|]. split; [lia|]. split; [lia|].
        intros m _ _ _. by exists apk, (AppAnalyser.current_links x), links.
      + split; [by repeat split|]. split; [lia|]. split; [lia|].
        intros m _ _ Heq. lia.
    - simpl. split; [by repeat split|]. split; [lia|]. split; [lia|].
      intros m _ _ Heq. lia. }
  destruct manifest_obj as [| | | |[|]]; try exact Hcall.
  simpl. split; [apply same_worker_refl|]. split; [done|]. split; [done|].
  by intros m [= <-].
Qed.

Lemma fn_handle_code_analysis_verdict (bug : string) (template : json)
  (x : AppAnalyser.t Graphables) :
  AppAnalyser.bug_template x bug = Ok template ->
  counted x ->
  ensures (AppAnalyser.fn_handle_code_analysis rt depth fuel config
             fn_start_adv_trace Graphables bug x)
    (fun x' =>
       same_worker x x' /\ counted x' /\ open x <= open x'
       /\ forall c,
            Py.getitem template (JStr "CODEPARAMS") = Ok c ->
            is_empty_dict c = false ->
            open x' = open x -> code_ok x template).
Proof.
  intros Htemplate Hcounted.
  unfold AppAnalyser.fn_handle_code_analysis.
  rewrite Htemplate. cbn [res_bind].
  destruct (Py.getitem template (JStr "CODEPARAMS"))
    as [code_obj| |] eqn:Hget; try done.
  cbn [res_bind].
  assert (Hcall :
    ensures
      (let self :=
         AppAnalyser.set_current_bug_search_types
           (AppAnalyser.current_bug_search_types x + 1) x in
       let* result :=
         CodeAnalyser.fn_perform_code_analysis rt depth fuel config
           fn_start_adv_trace (AppAnalyser.current_app_package_name self)
           template (AppAnalyser.androguard_dx self)
           (AppAnalyser.current_links self) in
       match result with
       | None => Raise TypeError
       | Some (code_output, links) =>
           let self := AppAnalyser.set_current_links links self in
           if code_output
           then Ok (AppAnalyser.set_current_bug_search_outcomes
                      (AppAnalyser.current_bug_search_outcomes self + 1) self)
           else Ok self
       end)
      (fun x' =>
         same_worker x x' /\ counted x' /\ open x <= open x'
         /\ forall c,
              Ok code_obj = Ok c ->
              is_empty_dict c = false ->
              open x' = open x -> code_ok x template)).
  { cbv zeta. unfold counted, open in *.
    eapply ensures_bind; [apply ensures_eq|].
    intros [[[] links]|] Hrun; simpl in *; [| |done].
    - split; [by repeat split|]. split; [lia|]. split; [lia|].
      intros c _ _ _. by exists (AppAnalyser.current_links x), links.
    - split; [by repeat split|]. split; [lia|]. split; [lia|].
      intros c _ _ Heq. lia. }
  destruct code_obj as [| | | |[|]]; try exact Hcall.
  simpl. split; [apply same_worker_refl|]. split; [done|]. split; [done|].
  by intros c [= <-].
Qed.

(** The loop over the keys of one template. *)
Lemma handle_keys_verdict (bug : string) (template : json)
  (keys : list json) (x : AppAnalyser.t Graphables) :
  AppAnalyser.bug_template x bug = Ok template ->
  counted x -> open x = 0 ->
  ensures
    (for_each keys
       (fun searchparams_key self =>
          let* self :=
            (if Py.eq_str searchparams_key "MANIFESTPARAMS"
             then AppAnalyser.fn_handle_manifest_analysis
                    fn_perform_manifest_analysis Graphables bug self
             else Ok self) in
          if Py.eq_str searchparams_key "CODEPARAMS"
          then AppAnalyser.fn_handle_code_analysis rt depth fuel config
                 fn_start_adv_trace Graphables bug self
          else Ok self)
       x)
    (fun x' =>
       same_worker x x'
       /\ (open x' = 0 ->
           (forall m,
               JStr "MANIFESTPARAMS" ∈ keys ->
               Py.getitem template (JStr "MANIFESTPARAMS") = Ok m ->
               is_empty_dict m = false -> manifest_ok x template)
           /\ (forall c,
                  JStr "CODEPARAMS" ∈ keys ->
                  Py.getitem template (JStr "CODEPARAMS") = Ok c ->
                  is_empty_dict c = false -> code_ok x template))).
Proof.
  intros Htemplate Hcounted Hopen.
  eapply ensures_weaken.
  - apply (ensures_for_each_passed
             (fun passed x' =>
                same_worker x x' /\ counted x'
                /\ (open x' = 0 ->
                    (forall m,
                        JStr "MANIFESTPARAMS" ∈ passed ->
                        Py.getitem template (JStr "MANIFESTPARAMS") = Ok m ->
                        is_empty_dict m = false -> manifest_ok x template)
                    /\ (forall c,
                           JStr "CODEPARAMS" ∈ passed ->
                           Py.getitem template (JStr "CODEPARAMS") = Ok c ->
                           is_empty_dict c = false -> code_ok x template)))
             _ keys []).
    + intros pre key x1 _ (Hsame1 & Hcounted1 & Hverdict1).
      assert (Htemplate1 : AppAnalyser.bug_template x1 bug = Ok template).
      { unfold AppAnalyser.bug_template in *.
        destruct Hsame1 as (-> & _). done. }
      eapply (ensures_bind _ _
                (fun x2 =>
                   same_worker x1 x2 /\ counted x2 /\ open x1 <= open x2
                   /\ (Py.eq_str key "MANIFESTPARAMS" = true ->
                       forall m,
                         Py.getitem template (JStr "MANIFESTPARAMS") = Ok m ->
                         is_empty_dict m = false ->
                         open x2 = open x1 -> manifest_ok x1 template))).
      { destruct (Py.eq_str key "MANIFESTPARAMS").
        - eapply ensures_weaken;
            [by apply fn_handle_manifest_analysis_verdict|].
          intros x2 (? & ? & ? & ?). auto.
        - simpl. split; [apply same_worker_refl|]. by repeat split. }
      intros x2 (Hsame2 & Hcounted2 & Hopen2 & Hmanifest).
      assert (Htemplate2 : AppAnalyser.bug_template x2 bug = Ok template).
      { unfold AppAnalyser.bug_template in *.
        destruct Hsame2 as (-> & _). done. }
      eapply (ensures_weaken _
                (fun x3 =>
                   same_worker x2 x3 /\ counted x3 /\ open x2 <= open x3
                   /\ (Py.eq_str key "CODEPARAMS" = true ->
                       forall c,
                         Py.getitem template (JStr "CODEPARAMS") = Ok c ->
                         is_empty_dict c = false ->
                         open x3 = open x2 -> code_ok x2 template))).
      { destruct (Py.eq_str key "CODEPARAMS").
        - eapply ensures_weaken;
            [by apply fn_handle_code_analysis_verdict|].
          intros x3 (? & ? & ? & ?). auto.
        - simpl. split; [apply same_worker_refl|]. by repeat split. }
      intros x3 (Hsame3 & Hcounted3 & Hopen3 & Hcode).
      split; [eauto using same_worker_trans|]. split; [done|].
      intros Hzero.
      assert (Hzero2 : open x2 = 0) by lia.
      assert (Hzero1 : open x1 = 0) by lia.
      destruct (Hverdict1 Hzero1) as [Hm Hc].
      assert (Hmanifest_x : manifest_ok x1 template -> manifest_ok x template).
      { intros (apk & links & links' & Hapk & Hrun).
        destruct Hsame1 as (_ & Ha & _ & Hp & _).
        exists apk, links, links'. split; congruence. }
      assert (Hcode_x : code_ok x2 template -> code_ok x template).
      { intros (links & links' & Hrun).
        destruct Hsame1 as (_ & _ & Hd1 & Hp1 & _).
        destruct Hsame2 as (_ & _ & Hd2 & Hp2 & _).
        exists links, links'. congruence. }
      split.
      * intros m Hin Hget Hne.
        apply elem_of_app in Hin as [Hin|Hin]; [by eapply Hm|].
        apply list_elem_of_singleton in Hin. subst key.
        apply Hmanifest_x. eapply Hmanifest; [done|done|done|lia].
      * intros c Hin Hget Hne.
        apply elem_of_app in Hin as [Hin|Hin]; [by eapply Hc|].
        apply list_elem_of_singleton in Hin. subst key.
        apply Hcode_x. eapply Hcode; [done|done|done|lia].
    + split; [apply same_worker_refl|]. split; [done|]. intros _.
      split; intros ? Hin; by apply elem_of_nil in Hin.
  - intros x' (Hsame & _ & Hverdict). by split.
Qed.

Lemma fn_process_graphables_worker (bug : string)
  (s : AppAnalyser.t Graphables) :
  ensures (AppAnalyser.fn_process_graphables Graphables
             fn_analyse_graph_elements bug s)
    (same_worker s).
Proof.
  unfold AppAnalyser.fn_process_graphables.
  eapply ensures_bind; [apply ensures_eq|]. intros template _.
  eapply ensures_bind; [apply ensures_eq|]. intros graph_obj _.
  assert (Hcall :
    ensures
      (let* graphables :=
         fn_analyse_graph_elements graph_obj (AppAnalyser.current_links s)
           (AppAnalyser.current_app_package_name s) bug in
       Ok (AppAnalyser.set_current_graph_elements
             (AppAnalyser.current_graph_elements s ++ [graphables]) s))
      (same_worker s)).
  { eapply ensures_bind; [apply ensures_eq|]. intros g _.
    by repeat split. }
  destruct graph_obj as [| | |[|]|]; try exact Hcall.
  apply same_worker_refl.
Qed.

(** The application is that of [s]. *)
Let same_app (s s' : AppAnalyser.t Graphables) : Prop :=
  AppAnalyser.master_bug_object s' = AppAnalyser.master_bug_object s
  /\ AppAnalyser.androguard_apk_obj s' = AppAnalyser.androguard_apk_obj s
  /\ AppAnalyser.androguard_dx s' = AppAnalyser.androguard_dx s
  /\ AppAnalyser.current_app_package_name s'
     = AppAnalyser.current_app_package_name s.

Lemma same_worker_app (a b c : AppAnalyser.t Graphables) :
  same_app a b -> same_worker b c -> same_app a c.
Proof. intros (?&?&?&?) (?&?&?&?&?). repeat split; congruence. Qed.

Lemma manifest_ok_same (s s' : AppAnalyser.t Graphables) (template : json) :
  same_app s s' -> manifest_ok s' template -> manifest_ok s template.
Proof.
  intros (_ & Ha & _ & Hp) (apk & links & links' & Hapk & Hrun).
  exists apk, links, links'. split; congruence.
Qed.

Lemma code_ok_same (s s' : AppAnalyser.t Graphables) (template : json) :
  same_app s s' -> code_ok s' template -> code_ok s template.
Proof.
  intros (_ & _ & Hd & Hp) (links & links' & Hrun).
  exists links, links'. congruence.
Qed.

Lemma fn_per_bug_analysis_verdict (s : AppAnalyser.t Graphables)
  (bug : string) (template : list (string * json)) :
  NoDup (AppAnalyser.master_bug_object s).*1 ->
  (bug, JDict template) ∈ AppAnalyser.master_bug_object s ->
  AppAnalyser.current_app_bug_obj s !! bug = Some false ->
  ensures (AppAnalyser.fn_per_bug_analysis rt depth fuel config
             fn_start_adv_trace fn_perform_manifest_analysis Graphables
             fn_analyse_graph_elements s)
    (fun s' =>
       AppAnalyser.current_app_bug_obj s' !! bug = Some true ->
       (forall m,
           Py.lookup "MANIFESTPARAMS" template = Some m ->
           is_empty_dict m = false -> manifest_ok s (JDict template))
       /\ (forall c,
              Py.lookup "CODEPARAMS" template = Some c ->
              is_empty_dict c = false -> code_ok s (JDict template))).
Proof.
  intros Hnd Hin Hfalse. unfold AppAnalyser.fn_per_bug_analysis.
  set (rests := (forall m,
             Py.lookup "MANIFESTPARAMS" template = Some m ->
             is_empty_dict m = false -> manifest_ok s (JDict template))
         /\ (forall c,
                Py.lookup "CODEPARAMS" template = Some c ->
                is_empty_dict c = false -> code_ok s (JDict template))).
  eapply ensures_weaken.
  - apply (ensures_for_each
             (fun s' =>
                same_app s s'
                /\ (AppAnalyser.current_app_bug_obj s' !! bug = Some true ->
                    rests))).
    2:{ split; [by repeat split|]. intros Htrue. congruence. }
    intros [b t] x Hb (Hsame & Hverdict).
    eapply ensures_bind; [apply ensures_eq|]. intros keys Hkeys.
    set (x0 := AppAnalyser.set_current_links ∅
                 (AppAnalyser.set_current_bug_search_outcomes 0
                    (AppAnalyser.set_current_bug_search_types 0 x))).
    assert (Hsame0 : same_app s x0).
    { destruct Hsame as (?&?&?&?). by repeat split. }
    assert (Htemplate0 : AppAnalyser.bug_template x0 b = Ok t).
    { unfold AppAnalyser.bug_template. simpl.
      destruct Hsame as (-> & _). by rewrite (lookup_unique _ _ _ Hnd Hb). }
    eapply ensures_bind;
      [apply (handle_keys_verdict b t keys x0 Htemplate0);
       [unfold counted; simpl; lia|reflexivity]|].
    intros x1 (Hsame1 & Hverdict1).
    assert (Hsame_s1 : same_app s x1) by by eapply same_worker_app.
    assert (Hobj1 : AppAnalyser.current_app_bug_obj x1
                    = AppAnalyser.current_app_bug_obj x).
    { destruct Hsame1 as (_ & _ & _ & _ & ->). done. }
    destruct (Nat.eqb_spec (AppAnalyser.current_bug_search_types x1)
                (AppAnalyser.current_bug_search_outcomes x1)) as [Heq|Hne].
    + assert (Hset :
        <[b := true]> (AppAnalyser.current_app_bug_obj x1) !! bug
        = Some true -> rests).
      { destruct (decide (b = bug)) as [->|Hbug].
        - intros _.
          assert (t = JDict template) as ->.
          { pose proof (lookup_unique _ _ _ Hnd Hb) as E1.
            pose proof (lookup_unique _ _ _ Hnd Hin) as E2. congruence. }
          injection Hkeys as <-.
          assert (Hzero : open x1 = 0) by (unfold open; lia).
          destruct (Hverdict1 Hzero) as [Hm Hc]. split.
          + intros m Hlookup Hm_ne.
            apply (manifest_ok_same s x0); [done|].
            apply (Hm m); [by eapply lookup_key_in_iter| |done].
            simpl. by rewrite Hlookup.
          + intros c Hlookup Hc_ne.
            apply (code_ok_same s x0); [done|].
            apply (Hc c); [by eapply lookup_key_in_iter| |done].
            simpl. by rewrite Hlookup.
        - rewrite lookup_insert_ne by done. rewrite Hobj1. exact Hverdict. }
      eapply ensures_bind; [apply ensures_eq|]. intros has_graph _.
      destruct has_graph.
      * eapply ensures_weaken; [apply fn_process_graphables_worker|].
        intros x2 Hsame2. split.
        -- eapply same_worker_app; [|exact Hsame2].
           destruct Hsame_s1 as (?&?&?&?). by repeat split.
        -- destruct Hsame2 as (_ & _ & _ & _ & ->). exact Hset.
      * simpl. split; [|exact Hset].
        destruct Hsame_s1 as (?&?&?&?). by repeat split.
    + simpl. split; [done|]. rewrite Hobj1. exact Hverdict.
  - intros s' (_ & Hverdict). exact Hverdict.
Qed.

End Verdicts.

(** X25: a bug is reported for an application only on a verdict of the
    analyses its template asks for.  When the report of a run says
    [True] for a template of the master object, then for a MANIFESTPARAMS
    section that is not empty the application has a manifest and the
    manifest analysis of the template answered [True], and for a
    CODEPARAMS section that is not empty the code analysis of the
    template answered [True]. *)
Theorem reported_bug_was_satisfied (rt : Runtime) (depth fuel : nat)
  (config : Config)
  (fn_start_adv_trace :
     Analysis -> json -> gmap string (list string) -> CodeTrace.Direction ->
     Z -> res (bool * list string * gmap string (list string)))
  (fn_perform_manifest_analysis :
     string -> json -> string -> gmap string (list string) ->
     res (bool * gmap string (list string)))
  (Graphables : Type)
  (fn_analyse_graph_elements :
     json -> gmap string (list string) -> string -> string -> res Graphables)
  (s s' : AppAnalyser.t Graphables) (bug : string)
  (template : list (string * json)) :
  NoDup (AppAnalyser.master_bug_object s).*1 ->
  (bug, JDict template) ∈ AppAnalyser.master_bug_object s ->
  AppAnalyser.analyse_app rt depth fuel config fn_start_adv_trace
    fn_perform_manifest_analysis Graphables fn_analyse_graph_elements s
  = Ok s' ->
  AppAnalyser.current_app_bug_obj s' !! bug = Some true ->
  (forall m,
      Py.lookup "MANIFESTPARAMS" template = Some m ->
      is_empty_dict m = false ->
      exists apk links links',
        AppAnalyser.androguard_apk_obj s = Some apk
        /\ fn_perform_manifest_analysis
             (AppAnalyser.current_app_package_name s) (JDict template)
             (AppAnalyser.get_android_manifest_xml apk) links
           = Ok (true, links'))
  /\ (forall c,
         Py.lookup "CODEPARAMS" template = Some c ->
         is_empty_dict c = false ->
         exists links links',
           CodeAnalyser.fn_perform_code_analysis rt depth fuel config
             fn_start_adv_trace (AppAnalyser.current_app_package_name s)
             (JDict template) (AppAnalyser.androguard_dx s) links
           = Ok (Some (true, links'))).
Proof.
  intros Hnd Hin Hrun Htrue. unfold AppAnalyser.analyse_app in Hrun.
  pose proof (fn_per_bug_analysis_verdict rt depth fuel config
                fn_start_adv_trace fn_perform_manifest_analysis Graphables
                fn_analyse_graph_elements
                (AppAnalyser.fn_initialise_bug_obj s) bug template) as H.
  rewrite Hrun in H. apply H; [done|done| |done].
  simpl. apply initialised_false. left.
  apply list_elem_of_fmap. by exists (bug, JDict template).
Qed.

Lemma reported_bug_was_satisfied_witness :
  exists s',
    AppAnalyser.analyse_app insertion_order 5 10 no_config no_adv_trace
      manifest_always_satisfied unit no_graph found_worker = Ok s'
    /\ AppAnalyser.current_app_bug_obj s' !! "bug" = Some true
    /\ ((forall m,
            Py.lookup "MANIFESTPARAMS" found_template = Some m ->
            is_empty_dict m = false ->
            exists apk links links',
              AppAnalyser.androguard_apk_obj found_worker = Some apk
              /\ manifest_always_satisfied
                   (AppAnalyser.current_app_package_name found_worker)
                   (JDict found_template)
                   (AppAnalyser.get_android_manifest_xml apk) links
                 = Ok (true, links'))
        /\ (forall c,
               Py.lookup "CODEPARAMS" found_template = Some c ->
               is_empty_dict c = false ->
               exists links links',
                 CodeAnalyser.fn_perform_code_analysis insertion_order 5 10
                   no_config no_adv_trace
                   (AppAnalyser.current_app_package_name found_worker)
                   (JDict found_template)
                   (AppAnalyser.androguard_dx found_worker) links
                 = Ok (Some (true, links')))).
Proof.
  eexists. split; [vm_compute; reflexivity|].
  split; [vm_compute; reflexivity|].
  eapply (reported_bug_was_satisfied insertion_order 5 10 no_config
            no_adv_trace manifest_always_satisfied unit no_graph found_worker
            _ "bug" found_template).
  - apply NoDup_singleton.
  - apply list_elem_of_singleton. reflexivity.
  - vm_compute. reflexivity.
  - vm_compute. reflexivity.
Defined.
